(** * Solana Agent Protocol registry, skill manager and crawler

    A shallow embedding of the agent registry ([SAPRegistry], with its
    export and import), the skill manager ([SkillManager]), the two score
    functions of the monitor ([computeGitHubScore], [computeDexScore]) and
    one crawl cycle ([AgentCrawler.runCycle]), followed by the properties
    established about them.

    Conventions of the embedding

    - A JavaScript [number] is a rational or one of NaN, +Infinity and
      -Infinity ([JsNum.number]).  Arithmetic is exact: the rounding of
      IEEE doubles, overflow and the sign of zero are not represented.
    - A [Date] is its time value in milliseconds since the epoch.  The
      clock ([new Date()], [Date.now()]) and the random identifier source
      ([crypto.randomBytes]) are inputs of the operations that read them;
      one registry operation reads the clock once.
    - A [Map] is an insertion-ordered association list ([JsMap]); writing
      through a reference obtained from [Map.get] is a [JsMap.set] at the
      same key, which keeps the position of the entry.
    - An object is the list of its properties in insertion order; the
      reordering of integer-like property names and object identity are
      not represented.
    - Network calls and skill handlers are oracles threaded through an
      explicit world state; they cannot reach the registry.  Each
      operation runs alone: what other code does while an operation awaits
      is not represented.
    - An untyped value ([any]) is a finite tree of undefined, null,
      booleans, numbers, BigInts, strings, Dates, arrays and plain
      objects; functions, symbols, objects with methods of their own and
      values that contain themselves are not represented.
    - JSON texts are real strings, written by [Json.stringify] and read by
      [Json.parse]; the text of a number is that of [Number::toString],
      which is an input of [Json.stringify].
    - [console.log] output is not represented, except where an operation
      reports an outcome that a property speaks about. *)

From Stdlib Require Import ZArith QArith Lqa Lia List String Ascii Bool.
From Stdlib Require Import Sorted Permutation.
From stdpp Require Import gmap strings.
Import ListNotations.

Set Default Proof Using "Type".
Set Warnings "-register-all".
Open Scope string_scope.
Open Scope list_scope.
Open Scope Z_scope.

(* ================================================================== *)
(** * Part I: the embedding *)
(* ================================================================== *)

(** ** JavaScript numbers *)

Module JsNum.

Inductive number : Type :=
| Fin (q : Q)
| NaN
| PosInf
| NegInf.

Definition of_Z (z : Z) : number := Fin (inject_Z z).

Definition Qlt_bool (a b : Q) : bool := negb (Qle_bool b a).

Definition neg (a : number) : number :=
  match a with
  | Fin x => Fin (Qred (- x))
  | NaN => NaN
  | PosInf => NegInf
  | NegInf => PosInf
  end.

(** [a + b] *)
Definition add (a b : number) : number :=
  match a, b with
  | NaN, _ | _, NaN => NaN
  | Fin x, Fin y => Fin (Qred (x + y))
  | PosInf, NegInf | NegInf, PosInf => NaN
  | PosInf, _ | _, PosInf => PosInf
  | NegInf, _ | _, NegInf => NegInf
  end.

(** [a - b] *)
Definition sub (a b : number) : number := add a (neg b).

(** Multiplication of an infinity of sign [pos] by a finite [x]. *)
Definition scale_inf (pos : bool) (x : Q) : number :=
  if Qeq_bool x 0 then NaN
  else if Bool.eqb pos (Qlt_bool 0 x) then PosInf else NegInf.

(** [a * b] *)
Definition mul (a b : number) : number :=
  match a, b with
  | NaN, _ | _, NaN => NaN
  | Fin x, Fin y => Fin (Qred (x * y))
  | PosInf, Fin y | Fin y, PosInf => scale_inf true y
  | NegInf, Fin y | Fin y, NegInf => scale_inf false y
  | PosInf, PosInf | NegInf, NegInf => PosInf
  | PosInf, NegInf | NegInf, PosInf => NegInf
  end.

(** [a / b]; a zero divisor is a positive zero. *)
Definition div (a b : number) : number :=
  match a, b with
  | NaN, _ | _, NaN => NaN
  | Fin x, Fin y =>
      if Qeq_bool y 0 then
        if Qeq_bool x 0 then NaN
        else if Qlt_bool 0 x then PosInf else NegInf
      else Fin (Qred (x / y))
  | Fin _, PosInf | Fin _, NegInf => Fin 0
  | PosInf, Fin y => if Qlt_bool y 0 then NegInf else PosInf
  | NegInf, Fin y => if Qlt_bool y 0 then PosInf else NegInf
  | _, _ => NaN
  end.

(** [a <= b], [a < b], [a >= b], [a > b]: false as soon as one side is NaN. *)
Definition leb (a b : number) : bool :=
  match a, b with
  | NaN, _ | _, NaN => false
  | Fin x, Fin y => Qle_bool x y
  | NegInf, _ | _, PosInf => true
  | _, _ => false
  end.

Definition ltb (a b : number) : bool :=
  match a, b with
  | NaN, _ | _, NaN => false
  | Fin x, Fin y => Qlt_bool x y
  | PosInf, _ | _, NegInf => false
  | _, _ => true
  end.

Definition geb (a b : number) : bool := leb b a.
Definition gtb (a b : number) : bool := ltb b a.

(** [Math.min(a, b)] and [Math.max(a, b)] *)
Definition min (a b : number) : number :=
  match a, b with
  | NaN, _ | _, NaN => NaN
  | _, _ => if leb a b then a else b
  end.

Definition max (a b : number) : number :=
  match a, b with
  | NaN, _ | _, NaN => NaN
  | _, _ => if leb a b then b else a
  end.

(** [x++] stores [x + 1]. *)
Definition incr (a : number) : number := add a (of_Z 1).

(** [Number.isFinite] *)
Definition is_finite (a : number) : bool :=
  match a with Fin _ => true | _ => false end.

(** The value lies in the closed interval [[lo, hi]]. *)
Definition within (lo hi : Q) (a : number) : Prop :=
  match a with
  | Fin q => (lo <= q /\ q <= hi)%Q
  | _ => False
  end.

(** Two numbers denote the same value. *)
Definition same (a b : number) : Prop :=
  match a, b with
  | Fin x, Fin y => (x == y)%Q
  | NaN, NaN | PosInf, PosInf | NegInf, NegInf => True
  | _, _ => False
  end.

End JsNum.

Export JsNum(number, Fin, NaN, PosInf, NegInf).

(** ** Dates: time values and the ISO 8601 text of [toISOString] *)

Module JsDate.

Definition msPerDay : Z := 86400000.

(** Days since 1970-01-01 of a proleptic Gregorian date. *)
Definition days_from_civil (y m d : Z) : Z :=
  let y' := if m <=? 2 then y - 1 else y in
  let era := y' / 400 in
  let yoe := y' - era * 400 in
  let mp := (m + 9) mod 12 in
  let doy := (153 * mp + 2) / 5 + d - 1 in
  let doe := yoe * 365 + yoe / 4 - yoe / 100 + doy in
  era * 146097 + doe - 719468.

(** The date (year, month, day) of a day number. *)
Definition civil_from_days (z : Z) : Z * Z * Z :=
  let z' := z + 719468 in
  let era := z' / 146097 in
  let doe := z' - era * 146097 in
  let yoe := (doe - doe / 1460 + doe / 36524 - doe / 146096) / 365 in
  let doy := doe - (365 * yoe + yoe / 4 - yoe / 100) in
  let mp := (5 * doy + 2) / 153 in
  let d := doy - (153 * mp + 2) / 5 + 1 in
  let m := if mp <? 10 then mp + 3 else mp - 9 in
  let y := yoe + era * 400 in
  (if m <=? 2 then y + 1 else y, m, d).

Definition digit (d : Z) : ascii := ascii_of_nat (48 + Z.to_nat (d mod 10)).

(** The last [width] decimal digits of a non-negative [n]. *)
Fixpoint digits (width : nat) (n : Z) (acc : string) : string :=
  match width with
  | O => acc
  | S w => digits w (n / 10) (String (digit n) acc)
  end.

Definition year_text (y : Z) : string :=
  if (0 <=? y) && (y <=? 9999) then digits 4 y ""
  else if y <? 0 then "-" +:+ digits 6 (- y) ""
  else "+" +:+ digits 6 y "".

(** [new Date(t).toISOString()] for a time value in range. *)
Definition toISOString (t : Z) : string :=
  let day := t / msPerDay in
  let ms := t mod msPerDay in
  let '(y, m, d) := civil_from_days day in
  year_text y +:+ "-" +:+ digits 2 m "" +:+ "-" +:+ digits 2 d "" +:+ "T"
    +:+ digits 2 (ms / 3600000) "" +:+ ":"
    +:+ digits 2 (ms / 60000 mod 60) "" +:+ ":"
    +:+ digits 2 (ms / 1000 mod 60) "" +:+ "."
    +:+ digits 3 (ms mod 1000) "" +:+ "Z".

Definition digit_val (c : ascii) : option Z :=
  let n := Z.of_nat (nat_of_ascii c) in
  if (48 <=? n) && (n <=? 57) then Some (n - 48) else None.

(** Reads exactly [width] decimal digits. *)
Fixpoint read_digits (width : nat) (s : string) (acc : Z) : option (Z * string) :=
  match width with
  | O => Some (acc, s)
  | S w =>
      match s with
      | String c r =>
          match digit_val c with
          | Some d => read_digits w r (acc * 10 + d)
          | None => None
          end
      | EmptyString => None
      end
  end.

Definition expect (c : ascii) (s : string) : option string :=
  match s with
  | String c' r => if Ascii.eqb c c' then Some r else None
  | EmptyString => None
  end.

Definition days_in_month (y m : Z) : Z :=
  days_from_civil (if m =? 12 then y + 1 else y) (if m =? 12 then 1 else m + 1) 1
  - days_from_civil y m 1.

(** The milliseconds part [.sss] is optional, the zone is [Z]. *)
Definition read_fraction (s : string) : option (Z * string) :=
  match s with
  | String "."%char r => read_digits 3 r 0
  | _ => Some (0, s)
  end.

(** [new Date(s).getTime()] on the UTC date-time form
    [YYYY-MM-DDTHH:mm:ss(.sss)Z], the form of [toISOString] and of the
    timestamps of the source-control API; any other text is NaN here. *)
Definition parse (s : string) : number :=
  let r :=
    '(y, s) ← read_digits 4 s 0;
    s ← expect "-" s;
    '(mo, s) ← read_digits 2 s 0;
    s ← expect "-" s;
    '(d, s) ← read_digits 2 s 0;
    s ← expect "T" s;
    '(h, s) ← read_digits 2 s 0;
    s ← expect ":" s;
    '(mi, s) ← read_digits 2 s 0;
    s ← expect ":" s;
    '(sec, s) ← read_digits 2 s 0;
    '(ms, s) ← read_fraction s;
    s ← expect "Z" s;
    if (s =? "")%string && (1 <=? mo) && (mo <=? 12) && (1 <=? d)
       && (d <=? days_in_month y mo) && (h <=? 23) && (mi <=? 59) && (sec <=? 59)
    then Some (days_from_civil y mo d * msPerDay
               + h * 3600000 + mi * 60000 + sec * 1000 + ms)
    else None
  in
  match r with
  | Some t => JsNum.of_Z t
  | None => NaN
  end.

End JsDate.

(** ** Untyped JavaScript values ([any]) *)

Inductive jsval : Type :=
| VUndef
| VNull
| VBool (b : bool)
| VNum (n : number)
| VStr (s : string)
| VDate (t : option Z)                    (* a Date object; [None] is Invalid Date *)
| VArr (items : list jsval)
| VObj (props : list (string * jsval))    (* a plain object, properties in order *)
| VBigInt (z : Z).                        (* a BigInt primitive *)

(** Induction over values, through arrays and objects. *)
Section JsvalInduction.
Variable P : jsval -> Prop.
Hypothesis HUndef : P VUndef.
Hypothesis HNull : P VNull.
Hypothesis HBool : forall b, P (VBool b).
Hypothesis HNum : forall n, P (VNum n).
Hypothesis HStr : forall s, P (VStr s).
Hypothesis HDate : forall t, P (VDate t).
Hypothesis HArr : forall items, Forall P items -> P (VArr items).
Hypothesis HObj : forall props, Forall (fun kv => P (snd kv)) props -> P (VObj props).
Hypothesis HBigInt : forall z, P (VBigInt z).

Fixpoint jsval_induction (v : jsval) : P v :=
  match v with
  | VUndef => HUndef
  | VNull => HNull
  | VBool b => HBool b
  | VNum n => HNum n
  | VStr s => HStr s
  | VDate t => HDate t
  | VArr items =>
      HArr items
        ((fix all (l : list jsval) : Forall P l :=
            match l with
            | [] => @List.Forall_nil _ P
            | x :: r => @List.Forall_cons _ P x r (jsval_induction x) (all r)
            end) items)
  | VObj props =>
      HObj props
        ((fix all (l : list (string * jsval)) : Forall (fun kv => P (snd kv)) l :=
            match l with
            | [] => @List.Forall_nil _ (fun kv => P (snd kv))
            | kv :: r =>
                @List.Forall_cons _ (fun kv => P (snd kv)) kv r
                  (jsval_induction (snd kv)) (all r)
            end) props)
  | VBigInt z => HBigInt z
  end.
End JsvalInduction.

(** A plain object used as [Record<string, any>]. *)
Abbreviation Bag := (list (string * jsval)).

Module JsObject.

(** The property names every plain object inherits from [Object.prototype]. *)
Definition prototype_names : list string :=
  [ "constructor"; "__defineGetter__"; "__defineSetter__"; "hasOwnProperty";
    "__lookupGetter__"; "__lookupSetter__"; "isPrototypeOf";
    "propertyIsEnumerable"; "toString"; "valueOf"; "__proto__";
    "toLocaleString" ].

Definition has_own (k : string) (o : Bag) : bool :=
  existsb (fun p => String.eqb k (fst p)) o.

(** [k in o] *)
Definition has (k : string) (o : Bag) : bool :=
  has_own k o || existsb (String.eqb k) prototype_names.

(** The own property [k] of [o]; the last definition wins. *)
Fixpoint get_own (k : string) (o : Bag) : option jsval :=
  match o with
  | [] => None
  | (k', v) :: r =>
      match get_own k r with
      | Some v' => Some v'
      | None => if String.eqb k k' then Some v else None
      end
  end.

(** [o[k] = v]: replaces the value in place or appends the property. *)
Fixpoint put (k : string) (v : jsval) (o : Bag) : Bag :=
  match o with
  | [] => [(k, v)]
  | (k', v') :: r =>
      if String.eqb k k' then (k, v) :: r else (k', v') :: put k v r
  end.

End JsObject.

(** ** Insertion-ordered maps with string keys ([Map<string, V>]) *)

Module JsMap.
Section Ops.
Context {V : Type}.

(** [m.get(k)] *)
Fixpoint get (k : string) (m : list (string * V)) : option V :=
  match m with
  | [] => None
  | (k', v) :: r => if String.eqb k k' then Some v else get k r
  end.

(** [m.set(k, v)]: an existing key keeps its position. *)
Fixpoint set (k : string) (v : V) (m : list (string * V)) : list (string * V) :=
  match m with
  | [] => [(k, v)]
  | (k', v') :: r =>
      if String.eqb k k' then (k, v) :: r else (k', v') :: set k v r
  end.

(** [Array.from(m.values())], [Array.from(m.entries())], [m.size] *)
Definition values (m : list (string * V)) : list V := map snd m.
Definition entries (m : list (string * V)) : list (string * V) := m.
Definition keys (m : list (string * V)) : list string := map fst m.
Definition size (m : list (string * V)) : nat := length m.

(** No key occurs twice: every map built by [set] from the empty map. *)
Definition wf (m : list (string * V)) : Prop := NoDup (keys m).
End Ops.
End JsMap.

Abbreviation JsMap V := (list (string * V)).

(** ** The protocol's types (types.ts) *)

Module AgentCapability.
Record t : Type := mk {
  name : string;
  description : string;
  version : string;
  enabled : bool
}.
End AgentCapability.

Module AgentCategory.
Inductive t : Type := framework | trading | defi | nft | analytics | utility | other.
End AgentCategory.

Module Currency.
Inductive t : Type := SOL | USDC.
End Currency.

Module Pricing.
Record t : Type := mk {
  pricePerTask : option number;
  currency : Currency.t
}.
End Pricing.

Module AgentLiveData.
Record t : Type := mk {
  githubStars : option number;
  githubForks : option number;
  githubCommits30d : option number;
  githubLastPush : option string;
  githubRelease : option string;
  tokenPrice : option number;
  tokenChange24h : option number;
  tokenVolume24h : option number;
  tokenSymbol : option string;
  lastCrawledAt : string;
  crawlSource : list string;
  liveScore : option Z
}.
End AgentLiveData.

Module AgentProfile.
Record t : Type := mk {
  id : string;
  name : string;
  description : string;
  version : string;
  publicKey : option string;
  website : option string;
  github : option string;
  twitter : option string;
  category : option AgentCategory.t;
  tags : option (list string);
  isExternal : option bool;
  capabilities : list AgentCapability.t;
  reputation : number;
  tasksCompleted : number;
  successRate : number;
  createdAt : Z;
  lastActive : Z;
  pricing : option Pricing.t;
  liveData : option AgentLiveData.t
}.

(** The object after the assignments of [updateReputation]. *)
Definition with_stats (a : t) (tc rep sr : number) (active : Z) : t :=
  mk (id a) (name a) (description a) (version a) (publicKey a) (website a)
     (github a) (twitter a) (category a) (tags a) (isExternal a)
     (capabilities a) rep tc sr (createdAt a) active (pricing a) (liveData a).

(** [a.liveData = d] *)
Definition with_liveData (a : t) (d : AgentLiveData.t) : t :=
  mk (id a) (name a) (description a) (version a) (publicKey a) (website a)
     (github a) (twitter a) (category a) (tags a) (isExternal a)
     (capabilities a) (reputation a) (tasksCompleted a) (successRate a)
     (createdAt a) (lastActive a) (pricing a) (Some d).
End AgentProfile.

Module SkillCategory.
Inductive t : Type := defi | nft | analytics | trading | utility.
End SkillCategory.

Module ParamType.
Inductive t : Type := string | number | boolean | address.
End ParamType.

Module SkillParameter.
Record t : Type := mk {
  name : string;
  type : ParamType.t;
  description : string;
  required : bool;
  default : jsval                 (* [VUndef] when absent *)
}.
End SkillParameter.

Module AgentSkill.
Record t : Type := mk {
  id : string;
  name : string;
  description : string;
  category : SkillCategory.t;
  nftMint : option string;
  owner : option string;
  handler : string;
  parameters : list SkillParameter.t;
  price : option number;
  royalty : option number;
  usageCount : number;
  rating : number
}.

(** [s.usageCount++] *)
Definition used (s : t) : t :=
  mk (id s) (name s) (description s) (category s) (nftMint s) (owner s)
     (handler s) (parameters s) (price s) (royalty s)
     (JsNum.incr (usageCount s)) (rating s).
End AgentSkill.

Module Payment.
Record t : Type := mk {
  amount : number;
  currency : Currency.t;
  payer : string;
  signature : option string
}.
End Payment.

Module TaskStatus.
Inductive t : Type := pending | running | completed | failed.

Definition eqb (a b : t) : bool :=
  match a, b with
  | pending, pending | running, running
  | completed, completed | failed, failed => true
  | _, _ => false
  end.

(** [completed] and [failed] are the terminal statuses. *)
Definition terminal (s : t) : bool := eqb s completed || eqb s failed.
End TaskStatus.

Module AgentTask.
Record t : Type := mk {
  id : string;
  agentId : string;
  skillId : string;
  description : string;
  parameters : Bag;
  status : TaskStatus.t;
  result : jsval;                 (* [VUndef] when absent *)
  error : option string;
  payment : option Payment.t;
  createdAt : Z;
  startedAt : option Z;
  completedAt : option Z
}.
End AgentTask.

Module AgentRegistry.
Record t : Type := mk {
  agents : JsMap AgentProfile.t;
  skills : JsMap AgentSkill.t;
  tasks : JsMap AgentTask.t
}.
End AgentRegistry.

(** ** The registry (registry.ts, class [SAPRegistry])

    The identifier drawn by [generateAgentId] and the clock reading of
    [new Date()] are arguments: [agentId], [skillId], [taskId] and [now]. *)

Module SAPRegistry.

(** The maps of a freshly constructed registry. *)
Definition empty : AgentRegistry.t := AgentRegistry.mk [] [] [].

(** [{ ...profile, id, createdAt, lastActive, reputation: 0,
      tasksCompleted: 0, successRate: 100 }]: the properties written after
    the spread replace those of [profile], so the [id], the timestamps and
    the three statistics that the argument carries are not read. *)
Definition registerAgent (agentId : string) (now : Z) (profile : AgentProfile.t)
    (r : AgentRegistry.t) : string * AgentRegistry.t :=
  let fullProfile :=
    AgentProfile.mk agentId
      (AgentProfile.name profile) (AgentProfile.description profile)
      (AgentProfile.version profile) (AgentProfile.publicKey profile)
      (AgentProfile.website profile) (AgentProfile.github profile)
      (AgentProfile.twitter profile) (AgentProfile.category profile)
      (AgentProfile.tags profile) (AgentProfile.isExternal profile)
      (AgentProfile.capabilities profile)
      (JsNum.of_Z 0) (JsNum.of_Z 0) (JsNum.of_Z 100)
      now now
      (AgentProfile.pricing profile) (AgentProfile.liveData profile) in
  (agentId,
   AgentRegistry.mk (JsMap.set agentId fullProfile (AgentRegistry.agents r))
     (AgentRegistry.skills r) (AgentRegistry.tasks r)).

Definition getAgent (agentId : string) (r : AgentRegistry.t) : option AgentProfile.t :=
  JsMap.get agentId (AgentRegistry.agents r).

Definition listAgents (r : AgentRegistry.t) : list AgentProfile.t :=
  JsMap.values (AgentRegistry.agents r).

(** [{ ...profile, id, createdAt, lastActive }] *)
Definition registerExternalAgent (agentId : string) (now : Z) (profile : AgentProfile.t)
    (r : AgentRegistry.t) : string * AgentRegistry.t :=
  let fullProfile :=
    AgentProfile.mk agentId
      (AgentProfile.name profile) (AgentProfile.description profile)
      (AgentProfile.version profile) (AgentProfile.publicKey profile)
      (AgentProfile.website profile) (AgentProfile.github profile)
      (AgentProfile.twitter profile) (AgentProfile.category profile)
      (AgentProfile.tags profile) (AgentProfile.isExternal profile)
      (AgentProfile.capabilities profile)
      (AgentProfile.reputation profile) (AgentProfile.tasksCompleted profile)
      (AgentProfile.successRate profile)
      now now
      (AgentProfile.pricing profile) (AgentProfile.liveData profile) in
  (agentId,
   AgentRegistry.mk (JsMap.set agentId fullProfile (AgentRegistry.agents r))
     (AgentRegistry.skills r) (AgentRegistry.tasks r)).

(** The reputation after one outcome. *)
Definition nextReputation (taskSuccess : bool) (reputation : number) : number :=
  if taskSuccess
  then JsNum.min (JsNum.of_Z 100) (JsNum.add reputation (JsNum.of_Z 1))
  else JsNum.max (JsNum.of_Z 0) (JsNum.sub reputation (JsNum.of_Z 2)).

Definition updateReputation (now : Z) (agentId : string) (taskSuccess : bool)
    (r : AgentRegistry.t) : AgentRegistry.t :=
  match JsMap.get agentId (AgentRegistry.agents r) with
  | None => r
  | Some agent =>
      let tasksCompleted := JsNum.incr (AgentProfile.tasksCompleted agent) in
      let reputation := nextReputation taskSuccess (AgentProfile.reputation agent) in
      let successRate :=
        JsNum.mul (JsNum.div reputation tasksCompleted) (JsNum.of_Z 100) in
      AgentRegistry.mk
        (JsMap.set agentId
           (AgentProfile.with_stats agent tasksCompleted reputation successRate now)
           (AgentRegistry.agents r))
        (AgentRegistry.skills r) (AgentRegistry.tasks r)
  end.

(** [{ ...skill, id, usageCount: 0, rating: 0 }] *)
Definition registerSkill (skillId : string) (skill : AgentSkill.t)
    (r : AgentRegistry.t) : string * AgentRegistry.t :=
  let fullSkill :=
    AgentSkill.mk skillId
      (AgentSkill.name skill) (AgentSkill.description skill)
      (AgentSkill.category skill) (AgentSkill.nftMint skill)
      (AgentSkill.owner skill) (AgentSkill.handler skill)
      (AgentSkill.parameters skill) (AgentSkill.price skill)
      (AgentSkill.royalty skill) (JsNum.of_Z 0) (JsNum.of_Z 0) in
  (skillId,
   AgentRegistry.mk (AgentRegistry.agents r)
     (JsMap.set skillId fullSkill (AgentRegistry.skills r)) (AgentRegistry.tasks r)).

Definition getSkill (skillId : string) (r : AgentRegistry.t) : option AgentSkill.t :=
  JsMap.get skillId (AgentRegistry.skills r).

Definition listSkills (r : AgentRegistry.t) : list AgentSkill.t :=
  JsMap.values (AgentRegistry.skills r).

Definition createTask (taskId : string) (now : Z) (agentId skillId description : string)
    (parameters : Bag) (r : AgentRegistry.t) : string * AgentRegistry.t :=
  let task :=
    AgentTask.mk taskId agentId skillId description parameters
      TaskStatus.pending VUndef None None now None None in
  (taskId,
   AgentRegistry.mk (AgentRegistry.agents r) (AgentRegistry.skills r)
     (JsMap.set taskId task (AgentRegistry.tasks r))).

(** The task object after the assignments of [updateTaskStatus]. *)
Definition updatedTask (now : Z) (status : TaskStatus.t) (result : jsval)
    (error : option string) (task : AgentTask.t) : AgentTask.t :=
  let startedAt :=
    match AgentTask.startedAt task with
    | None => if TaskStatus.eqb status TaskStatus.running then Some now else None
    | Some t => Some t
    end in
  if TaskStatus.terminal status
  then AgentTask.mk (AgentTask.id task) (AgentTask.agentId task)
         (AgentTask.skillId task) (AgentTask.description task)
         (AgentTask.parameters task) status result error
         (AgentTask.payment task) (AgentTask.createdAt task) startedAt (Some now)
  else AgentTask.mk (AgentTask.id task) (AgentTask.agentId task)
         (AgentTask.skillId task) (AgentTask.description task)
         (AgentTask.parameters task) status (AgentTask.result task)
         (AgentTask.error task) (AgentTask.payment task)
         (AgentTask.createdAt task) startedAt (AgentTask.completedAt task).

(** [skill.usageCount++] on the skill stored under [skillId], if any. *)
Definition countUsage (skillId : string) (r : AgentRegistry.t) : AgentRegistry.t :=
  match JsMap.get skillId (AgentRegistry.skills r) with
  | Some skill =>
      AgentRegistry.mk (AgentRegistry.agents r)
        (JsMap.set skillId (AgentSkill.used skill) (AgentRegistry.skills r))
        (AgentRegistry.tasks r)
  | None => r
  end.

Definition updateTaskStatus (now : Z) (taskId : string) (status : TaskStatus.t)
    (result : jsval) (error : option string) (r : AgentRegistry.t) : AgentRegistry.t :=
  match JsMap.get taskId (AgentRegistry.tasks r) with
  | None => r
  | Some task =>
      let r1 :=
        AgentRegistry.mk (AgentRegistry.agents r) (AgentRegistry.skills r)
          (JsMap.set taskId (updatedTask now status result error task)
             (AgentRegistry.tasks r)) in
      if TaskStatus.terminal status
      then countUsage (AgentTask.skillId task)
             (updateReputation now (AgentTask.agentId task)
                (TaskStatus.eqb status TaskStatus.completed) r1)
      else r1
  end.

Definition getTask (taskId : string) (r : AgentRegistry.t) : option AgentTask.t :=
  JsMap.get taskId (AgentRegistry.tasks r).

Definition listTasksByAgent (agentId : string) (r : AgentRegistry.t) : list AgentTask.t :=
  List.filter (fun task => String.eqb (AgentTask.agentId task) agentId)
         (JsMap.values (AgentRegistry.tasks r)).

(** Every agent is stored under its own identifier and no key occurs
    twice: the shape of every agents map that the registrations build. *)
Definition agentsKeyed (r : AgentRegistry.t) : Prop :=
  JsMap.wf (AgentRegistry.agents r)
  /\ Forall (fun kv => AgentProfile.id (snd kv) = fst kv) (AgentRegistry.agents r).

End SAPRegistry.

(** ** Outcomes of calls that can throw or reject *)

Inductive Completion (A : Type) : Type :=
| Return (a : A)
| Throw (message : string).

Arguments Return {A} a.
Arguments Throw {A} message.

(** ** The skill manager (skills.ts, class [SkillManager])

    A handler is an opaque asynchronous function of the parameter bag: it
    reads and changes the outside world ([World]) and either resolves with a
    payload or rejects with an error.  It cannot reach the registry: the
    built-in handlers call the blockchain collaborator only. *)

Module SkillManager.
Section WithWorld.
Context {World : Type}.

Definition Handler : Type := Bag -> World -> Completion jsval * World.

Record t : Type := mk {
  registry : AgentRegistry.t;
  skillHandlers : gmap string Handler
}.

(** [registerBuiltInSkill]: the metadata goes to the registry, the
    handler to the local map, under the same identifier. *)
Definition registerBuiltInSkill (skillId : string) (skillData : AgentSkill.t)
    (handler : Handler) (m : t) : string * t :=
  let '(id, r) := SAPRegistry.registerSkill skillId skillData (registry m) in
  (id, mk r (<[id := handler]> (skillHandlers m))).

(** [registerSkill]: a custom skill, handler name ['custom']; the object
    handed to the registry carries no identifier, the registry supplies
    it. *)
Definition registerSkill (skillId : string) (name description : string)
    (category : SkillCategory.t) (parameters : list SkillParameter.t)
    (handler : Handler) (price : option number) (m : t) : string * t :=
  let '(id, r) :=
    SAPRegistry.registerSkill skillId
      (AgentSkill.mk "" name description category None None "custom"
         parameters price None (JsNum.of_Z 0) (JsNum.of_Z 0))
      (registry m) in
  (id, mk r (<[id := handler]> (skillHandlers m))).

(** The first required parameter that is not [in] the bag, in
    declaration order. *)
Fixpoint missingParameter (params : list SkillParameter.t) (parameters : Bag)
    : option string :=
  match params with
  | [] => None
  | param :: rest =>
      if SkillParameter.required param
         && negb (JsObject.has (SkillParameter.name param) parameters)
      then Some (SkillParameter.name param)
      else missingParameter rest parameters
  end.

Definition executeSkill (skillId : string) (parameters : Bag) (m : t) (w : World)
    : Completion jsval * t * World :=
  match SAPRegistry.getSkill skillId (registry m) with
  | None => (Throw ("Skill not found: " +:+ skillId), m, w)
  | Some skill =>
      match skillHandlers m !! skillId with
      | None =>
          (Throw ("Handler not found for skill: " +:+ AgentSkill.name skill), m, w)
      | Some handler =>
          match missingParameter (AgentSkill.parameters skill) parameters with
          | Some name => (Throw ("Missing required parameter: " +:+ name), m, w)
          | None =>
              match handler parameters w with
              | (Throw e, w') => (Throw e, m, w')
              | (Return result, w') =>
                  (Return result,
                   mk (SAPRegistry.countUsage skillId (registry m)) (skillHandlers m),
                   w')
              end
          end
      end
  end.

Definition listSkills (m : t) : list AgentSkill.t :=
  SAPRegistry.listSkills (registry m).

Definition getSkill (skillId : string) (m : t) : option AgentSkill.t :=
  SAPRegistry.getSkill skillId (registry m).

End WithWorld.
Arguments t : clear implicits.
Arguments Handler : clear implicits.
End SkillManager.

(** ** Source-control statistics (monitor/github.ts) *)

Module GitHubStats.
Record t : Type := mk {
  repo : string;
  stars : number;
  forks : number;
  openIssues : number;
  lastPush : string;                (* ISO date *)
  latestRelease : option string;
  commits30d : number
}.
End GitHubStats.

Module GitHub.
Section Score.
(** [new Date(s).getTime()] *)
Variable Date_getTime : string -> number.

Definition starsScore (stars : number) : Z :=
  if JsNum.geb stars (JsNum.of_Z 10000) then 6
  else if JsNum.geb stars (JsNum.of_Z 5000) then 5
  else if JsNum.geb stars (JsNum.of_Z 2000) then 4
  else if JsNum.geb stars (JsNum.of_Z 500) then 2
  else if JsNum.geb stars (JsNum.of_Z 100) then 1
  else 0.

Definition commitsScore (commits30d : number) : Z :=
  if JsNum.geb commits30d (JsNum.of_Z 20) then 2
  else if JsNum.geb commits30d (JsNum.of_Z 5) then 1
  else 0.

Definition daysSincePush (now : Z) (lastPush : string) : number :=
  JsNum.div (JsNum.sub (JsNum.of_Z now) (Date_getTime lastPush))
            (JsNum.of_Z (1000 * 60 * 60 * 24)).

Definition pushScore (now : Z) (lastPush : string) : Z :=
  if JsNum.leb (daysSincePush now lastPush) (JsNum.of_Z 7) then 2
  else if JsNum.leb (daysSincePush now lastPush) (JsNum.of_Z 30) then 1
  else 0.

(** [let score = 0], then the three tiered additions; [now] is the
    reading of [Date.now()]. *)
Definition computeGitHubScore (now : Z) (stats : GitHubStats.t) : Z :=
  0 + starsScore (GitHubStats.stars stats)
    + commitsScore (GitHubStats.commits30d stats)
    + pushScore now (GitHubStats.lastPush stats).
End Score.
End GitHub.

(** ** Market data (monitor/dexscreener.ts) *)

Module DexTokenData.
Record t : Type := mk {
  symbol : string;
  priceUsd : number;
  change24h : number;               (* % *)
  volume24h : number;               (* USD *)
  liquidity : option number;
  pairAddress : option string;
  dex : option string
}.
End DexTokenData.

Module DexScreener.

Definition AGENT_TOKEN_MAP : gmap string string :=
  list_to_map
    [ ("BonkBot", "DezXAZ8z7PnrnRJjz3wXBoRgixCa6xjnB7YaB1pPB263");
      ("Drift Keeper Bot", "DriFtupJYLTosbwoN8koMbEYSx54aFAVLddWsbksjwg7");
      ("Jito MEV Bot", "jtojtomepa8beP8AuQc6eXt5FriJwfFMwjx2ZEPnxR9");
      ("Eliza (ai16z)", "HeLp6NuQkmYB4pYWo2zYs22mESHXPQYzXbB8n4V98jwC");
      ("Solana Agent Kit", "JUPyiwrYJFskUPiHa7hkeR8VUtAeFoSYbKedZNsDvCN") ].

(** What [AGENT_TOKEN_MAP[agentName]] evaluates to when it is truthy: a
    mint of the table, or the member of [Object.prototype] of that name. *)
Inductive Mint : Type :=
| TableMint (address : string)
| PrototypeMember (name : string).

Definition lookupMint (agentName : string) : option Mint :=
  match AGENT_TOKEN_MAP !! agentName with
  | Some address => if String.eqb address "" then None else Some (TableMint address)
  | None =>
      if existsb (String.eqb agentName) JsObject.prototype_names
      then Some (PrototypeMember agentName)
      else None
  end.

Section Fetch.
Context {World : Type}.

(** [fetchTokenData]: one request to the market-data API, reshaped; a
    failed request and an empty answer are both [null]. *)
Variable fetchTokenData : Mint -> World -> option DexTokenData.t * World.

Definition fetchAgentTokenData (agentName : string) (w : World)
    : option DexTokenData.t * World :=
  match lookupMint agentName with
  | None => (None, w)
  | Some mint => fetchTokenData mint w
  end.
End Fetch.

Definition volumeScore (volume24h : number) : Z :=
  if JsNum.geb volume24h (JsNum.of_Z 10000000) then 2
  else if JsNum.geb volume24h (JsNum.of_Z 1000000) then 1
  else if JsNum.ltb volume24h (JsNum.of_Z 10000) then -1
  else 0.

Definition changeScore (change24h : number) : Z :=
  if JsNum.leb change24h (JsNum.of_Z (-30)) then -2
  else if JsNum.leb change24h (JsNum.of_Z (-15)) then -1
  else if JsNum.geb change24h (JsNum.of_Z 20) then 1
  else 0.

Definition computeDexScore (token : DexTokenData.t) : Z :=
  0 + volumeScore (DexTokenData.volume24h token)
    + changeScore (DexTokenData.change24h token).

End DexScreener.

(** ** The crawler (monitor/crawler.ts, class [AgentCrawler]) *)

Module CrawlResult.
Record t : Type := mk {
  agentId : string;
  agentName : string;
  sources : list string;
  liveScore : Z;
  updatedAt : string;
  error : option string
}.
End CrawlResult.

Module CrawlerStatus.
Record t : Type := mk {
  running : bool;
  lastRun : option string;
  nextRun : option string;
  totalCrawled : Z;
  lastResults : list CrawlResult.t
}.
End CrawlerStatus.

Module AgentCrawler.

Definition CRAWL_INTERVAL_MS : Z := 30 * 60 * 1000.

(** The status of a freshly constructed crawler. *)
Definition initialStatus : CrawlerStatus.t :=
  CrawlerStatus.mk false None None 0 [].

(** [if (s)] on an optional string: [undefined] and [''] are falsy. *)
Definition truthy (s : option string) : option string :=
  match s with
  | Some url => if String.eqb url "" then None else Some url
  | None => None
  end.

Section Cycle.
Context {World : Type}.

(** The environment of one cycle: date parsing, the clock, the two
    fetchers and the timer.  A fetcher answers [None] when the request
    fails or yields nothing. *)
Variable Date_getTime : string -> number.
Variable Date_now : World -> Z.
Variable fetchGitHubStats : string -> World -> option GitHubStats.t * World.
Variable fetchTokenData : DexScreener.Mint -> World -> option DexTokenData.t * World.
Variable sleep : Z -> World -> World.

(** The two objects built for one agent: [result] and [liveData]. *)
Definition Draft : Type := CrawlResult.t * AgentLiveData.t.

Definition newDraft (now : string) (agent : AgentProfile.t) : Draft :=
  (CrawlResult.mk (AgentProfile.id agent) (AgentProfile.name agent) [] 0 now None,
   AgentLiveData.mk None None None None None None None None None now [] None).

Definition addGitHub (score : Z) (ghStats : GitHubStats.t) (d : Draft) : Draft :=
  let '(result, liveData) := d in
  (CrawlResult.mk (CrawlResult.agentId result) (CrawlResult.agentName result)
     (CrawlResult.sources result ++ ["github"])
     (CrawlResult.liveScore result + score)
     (CrawlResult.updatedAt result) (CrawlResult.error result),
   AgentLiveData.mk
     (Some (GitHubStats.stars ghStats)) (Some (GitHubStats.forks ghStats))
     (Some (GitHubStats.commits30d ghStats)) (Some (GitHubStats.lastPush ghStats))
     (GitHubStats.latestRelease ghStats)
     (AgentLiveData.tokenPrice liveData) (AgentLiveData.tokenChange24h liveData)
     (AgentLiveData.tokenVolume24h liveData) (AgentLiveData.tokenSymbol liveData)
     (AgentLiveData.lastCrawledAt liveData)
     (AgentLiveData.crawlSource liveData ++ ["github"])
     (AgentLiveData.liveScore liveData)).

Definition addDex (tokenData : DexTokenData.t) (d : Draft) : Draft :=
  let '(result, liveData) := d in
  (CrawlResult.mk (CrawlResult.agentId result) (CrawlResult.agentName result)
     (CrawlResult.sources result ++ ["dexscreener"])
     (CrawlResult.liveScore result + DexScreener.computeDexScore tokenData)
     (CrawlResult.updatedAt result) (CrawlResult.error result),
   AgentLiveData.mk
     (AgentLiveData.githubStars liveData) (AgentLiveData.githubForks liveData)
     (AgentLiveData.githubCommits30d liveData) (AgentLiveData.githubLastPush liveData)
     (AgentLiveData.githubRelease liveData)
     (Some (DexTokenData.priceUsd tokenData)) (Some (DexTokenData.change24h tokenData))
     (Some (DexTokenData.volume24h tokenData)) (Some (DexTokenData.symbol tokenData))
     (AgentLiveData.lastCrawledAt liveData)
     (AgentLiveData.crawlSource liveData ++ ["dexscreener"])
     (AgentLiveData.liveScore liveData)).

(** [Math.max(-10, Math.min(10, score))], stored in both objects. *)
Definition clampScore (d : Draft) : Draft :=
  let '(result, liveData) := d in
  let score := Z.max (-10) (Z.min 10 (CrawlResult.liveScore result)) in
  (CrawlResult.mk (CrawlResult.agentId result) (CrawlResult.agentName result)
     (CrawlResult.sources result) score
     (CrawlResult.updatedAt result) (CrawlResult.error result),
   AgentLiveData.mk
     (AgentLiveData.githubStars liveData) (AgentLiveData.githubForks liveData)
     (AgentLiveData.githubCommits30d liveData) (AgentLiveData.githubLastPush liveData)
     (AgentLiveData.githubRelease liveData)
     (AgentLiveData.tokenPrice liveData) (AgentLiveData.tokenChange24h liveData)
     (AgentLiveData.tokenVolume24h liveData) (AgentLiveData.tokenSymbol liveData)
     (AgentLiveData.lastCrawledAt liveData) (AgentLiveData.crawlSource liveData)
     (Some score)).

(** The live data of an iteration to which no source contributed. *)
Definition emptySnapshot (now : string) : AgentLiveData.t :=
  AgentLiveData.mk None None None None None None None None None now [] (Some 0).

(** The source-control block: skipped without a link; after an
    attempt, successful or not, the loop sleeps 300 ms. *)
Definition crawlGitHub (agent : AgentProfile.t) (d : Draft) (w : World) : Draft * World :=
  match truthy (AgentProfile.github agent) with
  | None => (d, w)
  | Some url =>
      let '(answer, w1) := fetchGitHubStats url w in
      let d1 :=
        match answer with
        | Some ghStats =>
            addGitHub (GitHub.computeGitHubScore Date_getTime (Date_now w1) ghStats)
                      ghStats d
        | None => d
        end in
      (d1, sleep 300 w1)
  end.

(** The market-data block: always attempted, keyed by the agent's name. *)
Definition crawlDex (agent : AgentProfile.t) (d : Draft) (w : World) : Draft * World :=
  let '(answer, w1) :=
    DexScreener.fetchAgentTokenData fetchTokenData (AgentProfile.name agent) w in
  match answer with
  | Some tokenData => (addDex tokenData d, w1)
  | None => (d, w1)
  end.

(** [profile = registry.getAgent(agent.id); if (profile) profile.liveData = liveData] *)
Definition writeLiveData (agentId : string) (liveData : AgentLiveData.t)
    (r : AgentRegistry.t) : AgentRegistry.t :=
  match SAPRegistry.getAgent agentId r with
  | Some profile =>
      AgentRegistry.mk
        (JsMap.set agentId (AgentProfile.with_liveData profile liveData)
           (AgentRegistry.agents r))
        (AgentRegistry.skills r) (AgentRegistry.tasks r)
  | None => r
  end.

(** The state carried around the loop: registry, [results], world. *)
Definition LoopState : Type := AgentRegistry.t * list CrawlResult.t * World.

(** The two objects of one iteration after both blocks and the clamp. *)
Definition crawlOne (now : string) (agent : AgentProfile.t) (w : World) : Draft * World :=
  let '(d1, w1) := crawlGitHub agent (newDraft now agent) w in
  let '(d2, w2) := crawlDex agent d1 w1 in
  (clampScore d2, w2).

(** One iteration of [for (const agent of agents)]: the live data is
    written back whatever the sources, the result is kept only when a
    source contributed. *)
Definition crawlAgent (now : string) (st : LoopState) (agent : AgentProfile.t)
    : LoopState :=
  let '(r, results, w) := st in
  let '(d, w') := crawlOne now agent w in
  let r' := writeLiveData (AgentProfile.id agent) (snd d) r in
  let results' :=
    if (0 <? Z.of_nat (length (CrawlResult.sources (fst d))))
    then results ++ [fst d] else results in
  (r', results', w').

Definition runCycle (status : CrawlerStatus.t) (r : AgentRegistry.t) (w : World)
    : CrawlerStatus.t * AgentRegistry.t * World :=
  let agents := SAPRegistry.listAgents r in
  let now := JsDate.toISOString (Date_now w) in
  let '(r', results, w') := fold_left (crawlAgent now) agents (r, [], w) in
  (CrawlerStatus.mk (CrawlerStatus.running status) (Some now)
     (CrawlerStatus.nextRun status)
     (CrawlerStatus.totalCrawled status + Z.of_nat (length results))
     results,
   r', w').

End Cycle.
End AgentCrawler.

(** ** JSON: [JSON.stringify] and [JSON.parse]

    [stringify v] is the text that [JSON.stringify(v)] returns, or its
    [TypeError]; [serialize v] is the document that this text denotes,
    [None] when [JSON.stringify] returns [undefined]; [parse] reads a text.
    Numbers are read exactly, strings are byte strings (a four-digit
    unicode escape is stored in UTF-8; a lone surrogate has no
    counterpart).  The text of a number is that of [Number::toString],
    which is an input. *)

Module Json.

(** *** Serialization *)

Definition dateToJSON (t : option Z) : jsval :=
  match t with
  | Some ms => VStr (JsDate.toISOString ms)
  | None => VNull
  end.

(** The document of a value on which [JSON.stringify] does not throw;
    where it throws, on a value with a BigInt ([throws]), there is no
    document. *)
Fixpoint serialize (v : jsval) : option jsval :=
  match v with
  | VUndef => None
  | VNull => Some VNull
  | VBool b => Some (VBool b)
  | VNum n => Some (if JsNum.is_finite n then VNum n else VNull)
  | VStr s => Some (VStr s)
  | VDate t => Some (dateToJSON t)
  | VBigInt _ => None
  | VArr items =>
      Some (VArr (map (fun item =>
                         match serialize item with
                         | Some j => j
                         | None => VNull
                         end) items))
  | VObj props =>
      Some (VObj ((fix members (ps : list (string * jsval)) : list (string * jsval) :=
                     match ps with
                     | [] => []
                     | (k, x) :: rest =>
                         match serialize x with
                         | Some j => (k, j) :: members rest
                         | None => members rest
                         end
                     end) props))
  end.

(** An element of an array: a value without a text is written [null]. *)
Definition element (item : jsval) : jsval :=
  match serialize item with
  | Some j => j
  | None => VNull
  end.

(** The properties of an object: those without a text are left out. *)
Fixpoint members (ps : list (string * jsval)) : list (string * jsval) :=
  match ps with
  | [] => []
  | (k, x) :: rest =>
      match serialize x with
      | Some j => (k, j) :: members rest
      | None => members rest
      end
  end.

(** A value that a text can denote: no [undefined], no Date, no NaN and
    no infinity anywhere in it. *)
Fixpoint plain (v : jsval) : bool :=
  match v with
  | VUndef | VDate _ | VBigInt _ => false
  | VNull | VBool _ | VStr _ => true
  | VNum n => JsNum.is_finite n
  | VArr items => forallb plain items
  | VObj props => forallb (fun kv => plain (snd kv)) props
  end.

(** *** Reading a text *)

Definition code (c : ascii) : Z := Z.of_nat (nat_of_ascii c).

Definition is_ws (c : ascii) : bool :=
  (code c =? 32) || (code c =? 9) || (code c =? 10) || (code c =? 13).

Fixpoint skip_ws (s : list ascii) : list ascii :=
  match s with
  | c :: r => if is_ws c then skip_ws r else s
  | [] => []
  end.

Definition digit_val (c : ascii) : option Z :=
  if (48 <=? code c) && (code c <=? 57) then Some (code c - 48) else None.

Definition hex_val (c : ascii) : option Z :=
  if (48 <=? code c) && (code c <=? 57) then Some (code c - 48)
  else if (97 <=? code c) && (code c <=? 102) then Some (code c - 87)
  else if (65 <=? code c) && (code c <=? 70) then Some (code c - 55)
  else None.

Definition byte (n : Z) : ascii := ascii_of_nat (Z.to_nat n).

(** The UTF-8 bytes of a code unit below 65536. *)
Definition utf8 (n : Z) : list ascii :=
  if n <? 128 then [byte n]
  else if n <? 2048 then [byte (192 + n / 64); byte (128 + n mod 64)]
  else [byte (224 + n / 4096); byte (128 + n / 64 mod 64); byte (128 + n mod 64)].

(** The escapes of one character after a backslash: quotation mark,
    backslash, solidus, b, f, n, r, t. *)
Definition simple_escape (c : ascii) : option ascii :=
  if code c =? 34 then Some (byte 34)
  else if code c =? 92 then Some (byte 92)
  else if code c =? 47 then Some (byte 47)
  else if code c =? 98 then Some (byte 8)
  else if code c =? 102 then Some (byte 12)
  else if code c =? 110 then Some (byte 10)
  else if code c =? 114 then Some (byte 13)
  else if code c =? 116 then Some (byte 9)
  else None.

(** The characters of a string after its opening quote, up to and
    including the closing quote; [acc] holds the result reversed. *)
Fixpoint string_body (s : list ascii) (acc : list ascii) : option (string * list ascii) :=
  match s with
  | [] => None
  | c :: r =>
      if code c =? 34 then Some (string_of_list_ascii (rev acc), r)
      else if code c =? 92 then
        match r with
        | e :: r' =>
            if code e =? 117 then
              match r' with
              | h1 :: h2 :: h3 :: h4 :: r'' =>
                  match hex_val h1, hex_val h2, hex_val h3, hex_val h4 with
                  | Some a, Some b, Some c', Some d =>
                      string_body r''
                        (rev_append (utf8 (a * 4096 + b * 256 + c' * 16 + d)) acc)
                  | _, _, _, _ => None
                  end
              | _ => None
              end
            else
              match simple_escape e with
              | Some x => string_body r' (x :: acc)
              | None => None
              end
        | [] => None
        end
      else if code c <? 32 then None
      else string_body r (c :: acc)
  end.

(** A maximal run of decimal digits: its value, its length, the rest. *)
Fixpoint digits (s : list ascii) (acc : Z) (len : Z) : Z * Z * list ascii :=
  match s with
  | c :: r =>
      match digit_val c with
      | Some d => digits r (acc * 10 + d) (len + 1)
      | None => (acc, len, s)
      end
  | [] => (acc, len, [])
  end.

(** [m * 10 ^ e] *)
Definition decimal (m e : Z) : number :=
  if 0 <=? e then Fin (inject_Z (m * 10 ^ e))
  else Fin (Qred (Qmake m (Z.to_pos (10 ^ (- e))))).

(** The integer part: [0] alone, or a run of digits without leading zero. *)
Definition int_part (s : list ascii) : option (Z * list ascii) :=
  match s with
  | c :: r =>
      if code c =? 48 then Some (0, r)
      else
        match digits s 0 0 with
        | (_, 0, _) => None
        | (m, _, r') => Some (m, r')
        end
  | [] => None
  end.

Definition frac_part (m : Z) (s : list ascii) : option (Z * Z * list ascii) :=
  match s with
  | c :: r =>
      if code c =? 46 then
        match digits r m 0 with
        | (_, 0, _) => None
        | (m', len, r') => Some (m', - len, r')
        end
      else Some (m, 0, s)
  | [] => Some (m, 0, [])
  end.

Definition exp_part (s : list ascii) : option (Z * list ascii) :=
  match s with
  | c :: r =>
      if (code c =? 101) || (code c =? 69) then
        let '(negative, r1) :=
          match r with
          | sg :: r' =>
              if code sg =? 45 then (true, r')
              else if code sg =? 43 then (false, r')
              else (false, r)
          | [] => (false, r)
          end in
        match digits r1 0 0 with
        | (_, 0, _) => None
        | (e, _, r2) => Some (if negative then - e else e, r2)
        end
      else Some (0, s)
  | [] => Some (0, [])
  end.

Definition number_token (s : list ascii) : option (number * list ascii) :=
  let '(negative, s1) :=
    match s with
    | c :: r => if code c =? 45 then (true, r) else (false, s)
    | [] => (false, s)
    end in
  '(m, s2) ← int_part s1;
  '(m', scale, s3) ← frac_part m s2;
  '(e, s4) ← exp_part s3;
  Some (decimal (if negative then - m' else m') (scale + e), s4).

Definition literal (word : string) (s : list ascii) : option (list ascii) :=
  let w := list_ascii_of_string word in
  if decide (firstn (length w) s = w) then Some (skipn (length w) s) else None.

(** One value, then the elements of an array after its first element,
    then the members of an object. *)
Fixpoint value (fuel : nat) (s : list ascii) : option (jsval * list ascii) :=
  match fuel with
  | O => None
  | S fuel' =>
      match skip_ws s with
      | [] => None
      | c :: r =>
          if code c =? 34 then
            '(str, r') ← string_body r [];
            Some (VStr str, r')
          else if code c =? 91 then
            match skip_ws r with
            | c' :: r' =>
                if code c' =? 93 then Some (VArr [], r')
                else elements fuel' r []
            | [] => None
            end
          else if code c =? 123 then
            match skip_ws r with
            | c' :: r' =>
                if code c' =? 125 then Some (VObj [], r')
                else members_text fuel' r []
            | [] => None
            end
          else if code c =? 110 then
            r' ← literal "null" (c :: r); Some (VNull, r')
          else if code c =? 116 then
            r' ← literal "true" (c :: r); Some (VBool true, r')
          else if code c =? 102 then
            r' ← literal "false" (c :: r); Some (VBool false, r')
          else
            '(n, r') ← number_token (c :: r);
            Some (VNum n, r')
      end
  end
with elements (fuel : nat) (s : list ascii) (acc : list jsval)
    : option (jsval * list ascii) :=
  match fuel with
  | O => None
  | S fuel' =>
      '(v, r) ← value fuel' s;
      match skip_ws r with
      | c :: r' =>
          if code c =? 44 then elements fuel' r' (v :: acc)
          else if code c =? 93 then Some (VArr (rev (v :: acc)), r')
          else None
      | [] => None
      end
  end
with members_text (fuel : nat) (s : list ascii) (acc : Bag)
    : option (jsval * list ascii) :=
  match fuel with
  | O => None
  | S fuel' =>
      match skip_ws s with
      | q :: r0 =>
          if code q =? 34 then
            '(k, r1) ← string_body r0 [];
            match skip_ws r1 with
            | colon :: r2 =>
                if code colon =? 58 then
                  '(v, r3) ← value fuel' r2;
                  match skip_ws r3 with
                  | c :: r4 =>
                      if code c =? 44 then members_text fuel' r4 (JsObject.put k v acc)
                      else if code c =? 125 then Some (VObj (JsObject.put k v acc), r4)
                      else None
                  | [] => None
                  end
                else None
            | [] => None
            end
          else None
      | [] => None
      end
  end.

(** A text written with apostrophes where JSON has quotation marks. *)
Definition text (s : string) : string :=
  string_of_list_ascii
    (map (fun c => if code c =? 39 then byte 34 else c) (list_ascii_of_string s)).

(** [JSON.parse(text)]; [None] is the [SyntaxError]. *)
Definition parse (text : string) : option jsval :=
  let s := list_ascii_of_string text in
  match value (2 * length s + 2) s with
  | Some (v, r) =>
      match skip_ws r with
      | [] => Some v
      | _ :: _ => None
      end
  | None => None
  end.

(** *** Writing a text *)

(** [JSON.stringify] throws a [TypeError] on a BigInt, wherever it stands
    in the value. *)
Fixpoint throws (v : jsval) : bool :=
  match v with
  | VBigInt _ => true
  | VArr items => existsb throws items
  | VObj props => existsb (fun kv => throws (snd kv)) props
  | VUndef | VNull | VBool _ | VNum _ | VStr _ | VDate _ => false
  end.

Definition chars (s : string) : list ascii := list_ascii_of_string s.

Definition hex_digit (n : Z) : ascii :=
  if n <? 10 then byte (48 + n) else byte (87 + n).

(** One character of a quoted string: the quotation mark, the backslash
    and the control characters are escaped, the latter by b, f, n, r, t or
    by four hexadecimal digits in lower case. *)
Definition escape (c : ascii) : list ascii :=
  if code c =? 34 then [byte 92; byte 34]
  else if code c =? 92 then [byte 92; byte 92]
  else if code c =? 8 then [byte 92; byte 98]
  else if code c =? 12 then [byte 92; byte 102]
  else if code c =? 10 then [byte 92; byte 110]
  else if code c =? 13 then [byte 92; byte 114]
  else if code c =? 9 then [byte 92; byte 116]
  else if code c <? 32 then
    [byte 92; byte 117; byte 48; byte 48;
     hex_digit (code c / 16); hex_digit (code c mod 16)]
  else [c].

Definition quote (s : string) : list ascii :=
  byte 34 :: flat_map escape (chars s) ++ [byte 34].

(** The texts, separated by commas. *)
Fixpoint commas (texts : list (list ascii)) : list ascii :=
  match texts with
  | [] => []
  | [t] => t
  | t :: rest => t ++ byte 44 :: commas rest
  end.

(** What can follow a value inside a text: nothing, a comma, or the
    bracket that closes an array or an object. *)
Definition delimited (rest : list ascii) : bool :=
  match rest with
  | [] => true
  | c :: _ => (code c =? 44) || (code c =? 93) || (code c =? 125)
  end.

Definition bigint_message : string := "Do not know how to serialize a BigInt".

(** Two numbers are the same term. *)
Definition identical (m n : number) : bool :=
  match m, n with
  | Fin p, Fin q => (Qnum p =? Qnum q) && Pos.eqb (Qden p) (Qden q)
  | NaN, NaN | PosInf, PosInf | NegInf, NegInf => true
  | _, _ => false
  end.

Section Text.

(** [Number::toString] on a finite number *)
Variable Number_toString : number -> string.

(** The text of a value without indentation; [Return None] is
    [undefined]: the property is left out, the element written [null]. *)
Fixpoint property (v : jsval) : Completion (option (list ascii)) :=
  match v with
  | VUndef => Return None
  | VNull => Return (Some (chars "null"))
  | VBool b => Return (Some (chars (if b then "true" else "false")))
  | VNum n =>
      Return (Some (chars (if JsNum.is_finite n then Number_toString n else "null")))
  | VStr s => Return (Some (quote s))
  | VDate t =>
      Return (Some match t with
                   | Some ms => quote (JsDate.toISOString ms)
                   | None => chars "null"
                   end)
  | VBigInt _ => Throw bigint_message
  | VArr items =>
      match (fix elements (l : list jsval) : Completion (list (list ascii)) :=
               match l with
               | [] => Return []
               | x :: rest =>
                   match property x with
                   | Throw e => Throw e
                   | Return text =>
                       match elements rest with
                       | Throw e => Throw e
                       | Return texts => Return (default (chars "null") text :: texts)
                       end
                   end
               end) items with
      | Throw e => Throw e
      | Return texts => Return (Some (byte 91 :: commas texts ++ [byte 93]))
      end
  | VObj props =>
      match (fix members (ps : list (string * jsval)) : Completion (list (list ascii)) :=
               match ps with
               | [] => Return []
               | (k, x) :: rest =>
                   match property x with
                   | Throw e => Throw e
                   | Return text =>
                       match members rest with
                       | Throw e => Throw e
                       | Return texts =>
                           Return match text with
                                  | Some t => (quote k ++ byte 58 :: t) :: texts
                                  | None => texts
                                  end
                       end
                   end
               end) props with
      | Throw e => Throw e
      | Return texts => Return (Some (byte 123 :: commas texts ++ [byte 125]))
      end
  end.

(** The texts of the elements of an array and of the members of an
    object. *)
Fixpoint element_texts (l : list jsval) : Completion (list (list ascii)) :=
  match l with
  | [] => Return []
  | x :: rest =>
      match property x with
      | Throw e => Throw e
      | Return text =>
          match element_texts rest with
          | Throw e => Throw e
          | Return texts => Return (default (chars "null") text :: texts)
          end
      end
  end.

Fixpoint member_texts (ps : list (string * jsval)) : Completion (list (list ascii)) :=
  match ps with
  | [] => Return []
  | (k, x) :: rest =>
      match property x with
      | Throw e => Throw e
      | Return text =>
          match member_texts rest with
          | Throw e => Throw e
          | Return texts =>
              Return match text with
                     | Some t => (quote k ++ byte 58 :: t) :: texts
                     | None => texts
                     end
          end
      end
  end.

(** [JSON.stringify(v)] *)
Definition stringify (v : jsval) : Completion (option string) :=
  match property v with
  | Return text => Return (string_of_list_ascii <$> text)
  | Throw e => Throw e
  end.

(** [JSON.parse] reads the text of [n] as [n]. *)
Definition readsBack (n : number) : bool :=
  match number_token (chars (Number_toString n)) with
  | Some (m, []) => identical m n
  | _ => false
  end.

(** A value as the language has it: the property names of an object are
    pairwise different, and a finite number is written as a text that is
    read back as that number. *)
Fixpoint sound (v : jsval) : bool :=
  match v with
  | VNum n => if JsNum.is_finite n then readsBack n else true
  | VArr items => forallb sound items
  | VObj props =>
      bool_decide (NoDup (map fst props)) && forallb (fun kv => sound (snd kv)) props
  | VUndef | VNull | VBool _ | VStr _ | VDate _ | VBigInt _ => true
  end.

End Text.

End Json.


(** ** Maps with arbitrary keys and values ([Map<any, any>])

    After [importData] the three maps hold whatever the document holds, so
    the persistence operations work on maps of untyped values. *)

Module DynMap.

Definition sameNumber (x y : number) : bool :=
  match x, y with
  | Fin p, Fin q => Qeq_bool p q
  | NaN, NaN | PosInf, PosInf | NegInf, NegInf => true
  | _, _ => false
  end.

(** Key equality of [Map].  Objects are keys by identity; two objects of a
    parsed document are never the same object. *)
Definition sameValueZero (a b : jsval) : bool :=
  match a, b with
  | VUndef, VUndef | VNull, VNull => true
  | VBool x, VBool y => Bool.eqb x y
  | VNum x, VNum y => sameNumber x y
  | VStr x, VStr y => String.eqb x y
  | VBigInt x, VBigInt y => Z.eqb x y
  | _, _ => false
  end.

Fixpoint get (k : jsval) (m : list (jsval * jsval)) : option jsval :=
  match m with
  | [] => None
  | (k', v) :: r => if sameValueZero k k' then Some v else get k r
  end.

Fixpoint set (k v : jsval) (m : list (jsval * jsval)) : list (jsval * jsval) :=
  match m with
  | [] => [(k, v)]
  | (k', v') :: r =>
      if sameValueZero k k' then (k', v) :: r else (k', v') :: set k v r
  end.

(** What the constructor reads off one item of the iterable: [item[0]] and
    [item[1]]; an item that is not an object is a [TypeError]. *)
Definition entryOf (item : jsval) : option (jsval * jsval) :=
  match item with
  | VArr l => Some (nth 0 l VUndef, nth 1 l VUndef)
  | VObj ps =>
      Some (default VUndef (JsObject.get_own "0" ps),
            default VUndef (JsObject.get_own "1" ps))
  | VDate _ => Some (VUndef, VUndef)
  | _ => None
  end.

Fixpoint addEntries (items : list jsval) (m : list (jsval * jsval))
    : option (list (jsval * jsval)) :=
  match items with
  | [] => Some m
  | item :: rest =>
      match entryOf item with
      | Some (k, v) => addEntries rest (set k v m)
      | None => None
      end
  end.

(** [new Map(x)]; [None] is the [TypeError] of a value that is not
    iterable or of an item that is not an entry object.  A string iterates
    over its characters, which are not objects. *)
Definition fromIterable (x : jsval) : option (list (jsval * jsval)) :=
  match x with
  | VUndef | VNull => Some []
  | VArr items => addEntries items []
  | VStr s => if String.eqb s "" then Some [] else None
  | VBool _ | VNum _ | VBigInt _ | VDate _ | VObj _ => None
  end.

End DynMap.

(** ** Persistence ([SAPRegistry.exportData] and [SAPRegistry.importData]) *)

Module Persistence.

Record DynRegistry : Type := mkDyn {
  agents : list (jsval * jsval);
  skills : list (jsval * jsval);
  tasks : list (jsval * jsval)
}.

(** *** The typed registry as untyped values

    An absent optional property is [undefined].  The properties of an
    entity stand in the order in which the registrations of the facade and
    of the skill manager, and later assignments, create them; no property
    of the registry depends on that order, only the text of an export
    does. *)

Definition opt {A : Type} (f : A -> jsval) (o : option A) : jsval :=
  match o with
  | Some a => f a
  | None => VUndef
  end.

Definition ofDate (t : Z) : jsval := VDate (Some t).

Definition ofCapability (c : AgentCapability.t) : jsval :=
  VObj [ ("name", VStr (AgentCapability.name c));
         ("description", VStr (AgentCapability.description c));
         ("version", VStr (AgentCapability.version c));
         ("enabled", VBool (AgentCapability.enabled c)) ].

Definition ofAgentCategory (c : AgentCategory.t) : jsval :=
  VStr match c with
       | AgentCategory.framework => "framework"
       | AgentCategory.trading => "trading"
       | AgentCategory.defi => "defi"
       | AgentCategory.nft => "nft"
       | AgentCategory.analytics => "analytics"
       | AgentCategory.utility => "utility"
       | AgentCategory.other => "other"
       end.

Definition ofCurrency (c : Currency.t) : jsval :=
  VStr match c with Currency.SOL => "SOL" | Currency.USDC => "USDC" end.

Definition ofPricing (p : Pricing.t) : jsval :=
  VObj [ ("pricePerTask", opt VNum (Pricing.pricePerTask p));
         ("currency", ofCurrency (Pricing.currency p)) ].

Definition ofLiveData (d : AgentLiveData.t) : jsval :=
  VObj [ ("lastCrawledAt", VStr (AgentLiveData.lastCrawledAt d));
         ("crawlSource", VArr (map VStr (AgentLiveData.crawlSource d)));
         ("githubStars", opt VNum (AgentLiveData.githubStars d));
         ("githubForks", opt VNum (AgentLiveData.githubForks d));
         ("githubCommits30d", opt VNum (AgentLiveData.githubCommits30d d));
         ("githubLastPush", opt VStr (AgentLiveData.githubLastPush d));
         ("githubRelease", opt VStr (AgentLiveData.githubRelease d));
         ("tokenSymbol", opt VStr (AgentLiveData.tokenSymbol d));
         ("tokenPrice", opt VNum (AgentLiveData.tokenPrice d));
         ("tokenChange24h", opt VNum (AgentLiveData.tokenChange24h d));
         ("tokenVolume24h", opt VNum (AgentLiveData.tokenVolume24h d));
         ("liveScore", opt (fun z => VNum (JsNum.of_Z z)) (AgentLiveData.liveScore d)) ].

Definition ofAgent (a : AgentProfile.t) : jsval :=
  VObj [ ("name", VStr (AgentProfile.name a));
         ("description", VStr (AgentProfile.description a));
         ("version", VStr (AgentProfile.version a));
         ("category", opt ofAgentCategory (AgentProfile.category a));
         ("website", opt VStr (AgentProfile.website a));
         ("github", opt VStr (AgentProfile.github a));
         ("twitter", opt VStr (AgentProfile.twitter a));
         ("tags", opt (fun l => VArr (map VStr l)) (AgentProfile.tags a));
         ("isExternal", opt VBool (AgentProfile.isExternal a));
         ("capabilities", VArr (map ofCapability (AgentProfile.capabilities a)));
         ("reputation", VNum (AgentProfile.reputation a));
         ("tasksCompleted", VNum (AgentProfile.tasksCompleted a));
         ("successRate", VNum (AgentProfile.successRate a));
         ("publicKey", opt VStr (AgentProfile.publicKey a));
         ("pricing", opt ofPricing (AgentProfile.pricing a));
         ("id", VStr (AgentProfile.id a));
         ("createdAt", ofDate (AgentProfile.createdAt a));
         ("lastActive", ofDate (AgentProfile.lastActive a));
         ("liveData", opt ofLiveData (AgentProfile.liveData a)) ].

Definition ofSkillCategory (c : SkillCategory.t) : jsval :=
  VStr match c with
       | SkillCategory.defi => "defi"
       | SkillCategory.nft => "nft"
       | SkillCategory.analytics => "analytics"
       | SkillCategory.trading => "trading"
       | SkillCategory.utility => "utility"
       end.

Definition ofParamType (t : ParamType.t) : jsval :=
  VStr match t with
       | ParamType.string => "string"
       | ParamType.number => "number"
       | ParamType.boolean => "boolean"
       | ParamType.address => "address"
       end.

Definition ofSkillParameter (p : SkillParameter.t) : jsval :=
  VObj [ ("name", VStr (SkillParameter.name p));
         ("type", ofParamType (SkillParameter.type p));
         ("description", VStr (SkillParameter.description p));
         ("required", VBool (SkillParameter.required p));
         ("default", SkillParameter.default p) ].

Definition ofSkill (s : AgentSkill.t) : jsval :=
  VObj [ ("name", VStr (AgentSkill.name s));
         ("description", VStr (AgentSkill.description s));
         ("category", ofSkillCategory (AgentSkill.category s));
         ("nftMint", opt VStr (AgentSkill.nftMint s));
         ("owner", opt VStr (AgentSkill.owner s));
         ("handler", VStr (AgentSkill.handler s));
         ("parameters", VArr (map ofSkillParameter (AgentSkill.parameters s)));
         ("price", opt VNum (AgentSkill.price s));
         ("royalty", opt VNum (AgentSkill.royalty s));
         ("id", VStr (AgentSkill.id s));
         ("usageCount", VNum (AgentSkill.usageCount s));
         ("rating", VNum (AgentSkill.rating s)) ].

Definition ofPayment (p : Payment.t) : jsval :=
  VObj [ ("amount", VNum (Payment.amount p));
         ("currency", ofCurrency (Payment.currency p));
         ("payer", VStr (Payment.payer p));
         ("signature", opt VStr (Payment.signature p)) ].

Definition ofStatus (s : TaskStatus.t) : jsval :=
  VStr match s with
       | TaskStatus.pending => "pending"
       | TaskStatus.running => "running"
       | TaskStatus.completed => "completed"
       | TaskStatus.failed => "failed"
       end.

Definition ofTask (t : AgentTask.t) : jsval :=
  VObj [ ("id", VStr (AgentTask.id t));
         ("agentId", VStr (AgentTask.agentId t));
         ("skillId", VStr (AgentTask.skillId t));
         ("description", VStr (AgentTask.description t));
         ("parameters", VObj (AgentTask.parameters t));
         ("status", ofStatus (AgentTask.status t));
         ("createdAt", ofDate (AgentTask.createdAt t));
         ("payment", opt ofPayment (AgentTask.payment t));
         ("startedAt", opt ofDate (AgentTask.startedAt t));
         ("completedAt", opt ofDate (AgentTask.completedAt t));
         ("result", AgentTask.result t);
         ("error", opt VStr (AgentTask.error t)) ].

Definition ofMap {V : Type} (f : V -> jsval) (m : JsMap V) : list (jsval * jsval) :=
  map (fun kv => (VStr (fst kv), f (snd kv))) m.

(** The maps of a typed registry, entity by entity. *)
Definition reify (r : AgentRegistry.t) : DynRegistry :=
  mkDyn (ofMap ofAgent (AgentRegistry.agents r)) (ofMap ofSkill (AgentRegistry.skills r))
        (ofMap ofTask (AgentRegistry.tasks r)).

(** *** exportData *)

(** [Array.from(m.entries())]: one two-element array per entry. *)
Definition entriesArray (m : list (jsval * jsval)) : jsval :=
  VArr (map (fun kv => VArr [fst kv; snd kv]) m).

(** The argument of [JSON.stringify] in [exportData]. *)
Definition exportValue (r : DynRegistry) : jsval :=
  VObj [ ("agents", entriesArray (agents r));
         ("skills", entriesArray (skills r));
         ("tasks", entriesArray (tasks r)) ].

(** The document that the text returned by [exportData] denotes. *)
Definition exportDocument (r : DynRegistry) : jsval :=
  Json.element (exportValue r).

(** [exportData()]: the text, or the [TypeError] of [JSON.stringify].
    The argument is an object, which always has a text. *)
Definition exportData (Number_toString : number -> string) (r : DynRegistry)
    : Completion string :=
  match Json.stringify Number_toString (exportValue r) with
  | Return data => Return (default "" data)
  | Throw e => Throw e
  end.

(** The maps after [exportData] and [importData]: every entry is stored
    again, in order, under the document of its key. *)
Definition reload (m : list (jsval * jsval)) : list (jsval * jsval) :=
  fold_left (fun acc kv => DynMap.set (Json.element (fst kv)) (Json.element (snd kv)) acc)
            m [].

Definition reloaded (r : DynRegistry) : DynRegistry :=
  mkDyn (reload (agents r)) (reload (skills r)) (reload (tasks r)).

(** The entries of a map with the document of each value. *)
Definition imageOfEntries (m : list (jsval * jsval)) : list (jsval * jsval) :=
  map (fun kv => (fst kv, Json.element (snd kv))) m.

(** The keys of the map are strings, pairwise different. *)
Definition stringKeyed (m : list (jsval * jsval)) : Prop :=
  exists l : list (string * jsval),
    NoDup (map fst l) /\ m = map (fun kv => (VStr (fst kv), snd kv)) l.

(** The image of a map of the typed registry under [exportData] followed
    by [importData]: the same keys in the same order, each entity replaced
    by the document of its text. *)
Definition imageOfMap {V : Type} (f : V -> jsval) (m : JsMap V) : list (jsval * jsval) :=
  map (fun kv => (VStr (fst kv), Json.element (f (snd kv)))) m.

Definition imageOf (r : AgentRegistry.t) : DynRegistry :=
  mkDyn (imageOfMap ofAgent (AgentRegistry.agents r))
        (imageOfMap ofSkill (AgentRegistry.skills r))
        (imageOfMap ofTask (AgentRegistry.tasks r)).

(** The property [field] of an object value. *)
Definition fieldOf (field : string) (v : jsval) : option jsval :=
  match v with
  | VObj props => JsObject.get_own field props
  | _ => None
  end.

(** *** importData *)

(** [parsed.name] for a name that no prototype defines; [None] is the
    [TypeError] of reading a property of [null] or [undefined]. *)
Definition getProperty (name : string) (parsed : jsval) : option jsval :=
  match parsed with
  | VUndef | VNull => None
  | VObj ps => Some (default VUndef (JsObject.get_own name ps))
  | VBool _ | VNum _ | VBigInt _ | VStr _ | VDate _ | VArr _ => Some VUndef
  end.

(** What the call wrote to the console: the success line of the [try]
    block or the error line of the [catch] block. *)
Inductive ImportLog : Type := Imported | ImportFailed.

(** The body of the [try] block after [JSON.parse]: three assignments in
    order, each of which can throw after the previous ones took effect. *)
Definition importDocument (parsed : jsval) (r : DynRegistry) : ImportLog * DynRegistry :=
  match getProperty "agents" parsed ≫= DynMap.fromIterable with
  | None => (ImportFailed, r)
  | Some agents' =>
      let r1 := mkDyn agents' (skills r) (tasks r) in
      match getProperty "skills" parsed ≫= DynMap.fromIterable with
      | None => (ImportFailed, r1)
      | Some skills' =>
          let r2 := mkDyn agents' skills' (tasks r) in
          match getProperty "tasks" parsed ≫= DynMap.fromIterable with
          | None => (ImportFailed, r2)
          | Some tasks' => (Imported, mkDyn agents' skills' tasks')
          end
      end
  end.

(** What [new Map(parsed.name)] yields for the text [data], if anything. *)
Definition loaded (name : string) (data : string) : option (list (jsval * jsval)) :=
  (Json.parse data ≫= getProperty name) ≫= DynMap.fromIterable.

(** The function never throws: every exception ends in the [catch] block. *)
Definition importData (data : string) (r : DynRegistry) : ImportLog * DynRegistry :=
  match Json.parse data with
  | None => (ImportFailed, r)
  | Some parsed => importDocument parsed r
  end.

End Persistence.


(** ** Sequences of reputation updates *)

Module Calls.

(** One call of [updateReputation]: the clock reading, the agent and the
    outcome. *)
Definition Call : Type := Z * string * bool.

Definition runCall (r : AgentRegistry.t) (c : Call) : AgentRegistry.t :=
  let '(now, agentId, taskSuccess) := c in
  SAPRegistry.updateReputation now agentId taskSuccess r.

Definition runCalls (calls : list Call) (r : AgentRegistry.t) : AgentRegistry.t :=
  fold_left runCall calls r.

(** The agent is in the store and its reputation lies in [0, 100]. *)
Definition reputationInRange (agentId : string) (r : AgentRegistry.t) : Prop :=
  exists agent,
    SAPRegistry.getAgent agentId r = Some agent
    /\ JsNum.within 0 100 (AgentProfile.reputation agent).

End Calls.

(** ** Reachable registries

    The states of the typed registry that the operations of this
    development produce from the empty registry: the registry's own
    mutators, the usage count of a successful skill execution and the
    write of the crawler. *)

Module Reachable.

Inductive reachable : AgentRegistry.t -> Prop :=
| reach_empty :
    reachable SAPRegistry.empty
| reach_registerAgent agentId now profile r :
    reachable r ->
    reachable (snd (SAPRegistry.registerAgent agentId now profile r))
| reach_registerExternalAgent agentId now profile r :
    reachable r ->
    reachable (snd (SAPRegistry.registerExternalAgent agentId now profile r))
| reach_updateReputation now agentId taskSuccess r :
    reachable r ->
    reachable (SAPRegistry.updateReputation now agentId taskSuccess r)
| reach_registerSkill skillId skill r :
    reachable r ->
    reachable (snd (SAPRegistry.registerSkill skillId skill r))
| reach_createTask taskId now agentId skillId description parameters r :
    reachable r ->
    reachable (snd (SAPRegistry.createTask taskId now agentId skillId description
                      parameters r))
| reach_updateTaskStatus now taskId status result error r :
    reachable r ->
    reachable (SAPRegistry.updateTaskStatus now taskId status result error r)
| reach_countUsage skillId r :
    reachable r ->
    reachable (SAPRegistry.countUsage skillId r)
| reach_writeLiveData agentId liveData r :
    reachable r ->
    reachable (AgentCrawler.writeLiveData agentId liveData r).

End Reachable.


(** ** Sample data

    Three of the seeded agents of seed.ts (descriptions shortened), as the
    facade hands them to [registerExternalAgent], a local agent, the first
    built-in skill, and identifiers as [generateAgentId] draws them. *)

Module Samples.

Definition capabilitiesOf (version : string) (names : list string)
    : list AgentCapability.t :=
  map (fun name => AgentCapability.mk name name version true) names.

Definition solanaAgentKit : AgentProfile.t :=
  AgentProfile.mk "" "Solana Agent Kit"
    "Open-source toolkit by Sendai for building AI agents on Solana."
    "1.0.0" None
    (Some "https://www.solanaagentkit.xyz")
    (Some "https://github.com/sendaifun/solana-agent-kit")
    (Some "https://twitter.com/sendaifun")
    (Some AgentCategory.framework)
    (Some ["framework"; "open-source"; "sendai"; "jupiter"; "metaplex"; "defi"])
    (Some true)
    (capabilitiesOf "1.0.0"
       ["Token Swaps"; "NFT Minting"; "Wallet Management"; "DeFi"; "Staking"])
    (JsNum.of_Z 91) (JsNum.of_Z 48200) (Fin 97.4)
    0 0 None None.

Definition bonkBot : AgentProfile.t :=
  AgentProfile.mk "" "BonkBot"
    "Telegram trading bot for Solana with 300k+ active users."
    "3.1.0" None
    (Some "https://t.me/bonkbot_bot") None
    (Some "https://twitter.com/bonkbot_io")
    (Some AgentCategory.trading)
    (Some ["trading"; "telegram"; "swap"; "popular"; "copy-trade"])
    (Some true)
    (capabilitiesOf "3.1.0"
       ["Token Swaps"; "Limit Orders"; "Copy Trading"; "Portfolio Tracking"])
    (JsNum.of_Z 89) (JsNum.of_Z 5800000) (Fin 96.8)
    0 0 None None.

Definition photonSol : AgentProfile.t :=
  AgentProfile.mk "" "Photon Sol"
    "High-performance Solana trading terminal with built-in bot automation."
    "4.0.0" None
    (Some "https://photon-sol.tinyastro.io") None
    (Some "https://twitter.com/PhotonSol")
    (Some AgentCategory.trading)
    (Some ["trading"; "sniper"; "terminal"; "analytics"; "pump.fun"])
    (Some true)
    (capabilitiesOf "4.0.0"
       ["Sniping"; "Limit Orders"; "Auto-Sell"; "Wallet Tracking"; "Analytics"])
    (JsNum.of_Z 83) (JsNum.of_Z 3400000) (Fin 93.7)
    0 0 None None.

(** A local agent without history. *)
Definition agentX : AgentProfile.t :=
  AgentProfile.mk "" "X" "A local agent" "1.0.0" None None None None None None None
    [] (JsNum.of_Z 0) (JsNum.of_Z 0) (JsNum.of_Z 100) 0 0 None None.

Definition balanceChecker : AgentSkill.t :=
  AgentSkill.mk "" "Balance Checker"
    "Check SOL and SPL token balances for any wallet"
    SkillCategory.analytics None None "checkBalance"
    [SkillParameter.mk "address" ParamType.address "Solana wallet address" true VUndef]
    None None (JsNum.of_Z 0) (JsNum.of_Z 0).

Definition idX : string := "5f1c0a2e9b7d4c3fa6e8d1b2c3d4e5f6".
Definition idSkill : string := "0b9e8d7c6b5a49382716f5e4d3c2b1a0".
Definition idTask : string := "c4a1e0f2b3d5476989a0b1c2d3e4f506".
Definition idKit : string := "11aa22bb33cc44dd55ee66ff77889900".
Definition idBonk : string := "2b4d6f8a0c1e3a5c7e9b1d3f5a7c9e0b".
Definition idPhoton : string := "9e8d7c6b5a4f3e2d1c0b9a8f7e6d5c4b".

(** 2026-10-31T12:00:00.000Z and one minute later. *)
Definition t0 : Z := 1793448000000.
Definition t1 : Z := t0 + 60000.
Definition t2 : Z := t1 + 60000.

(** Agent X and the skill registered, one task created for them. *)
Definition withTask : AgentRegistry.t :=
  let r := snd (SAPRegistry.registerAgent idX t0 agentX SAPRegistry.empty) in
  let r := snd (SAPRegistry.registerSkill idSkill balanceChecker r) in
  snd (SAPRegistry.createTask idTask t0 idX idSkill "check balance" [] r).

(** The task of [withTask] marked completed. *)
Definition completedOnce : AgentRegistry.t :=
  SAPRegistry.updateTaskStatus t1 idTask TaskStatus.completed
    (VObj [("description", VStr "check balance")]) None withTask.

(** The three seeded agents registered as external agents. *)
Definition seeded : AgentRegistry.t :=
  let r := snd (SAPRegistry.registerExternalAgent idKit t0 solanaAgentKit SAPRegistry.empty) in
  let r := snd (SAPRegistry.registerExternalAgent idBonk t0 bonkBot r) in
  snd (SAPRegistry.registerExternalAgent idPhoton t0 photonSol r).

(** A world for one crawl cycle: the state is the clock; the
    source-control API knows the repository of Solana Agent Kit, the
    market-data API the BONK mint. *)
Definition World : Type := Z.

Definition Date_now (w : World) : Z := w.

Definition sleep (ms : Z) (w : World) : World := w + ms.

Definition kitStats : GitHubStats.t :=
  GitHubStats.mk "sendaifun/solana-agent-kit" (JsNum.of_Z 1450) (JsNum.of_Z 720)
    (JsNum.of_Z 95) "2026-10-30T08:15:00Z" (Some "v2.0.1") (JsNum.of_Z 37).

Definition fetchGitHubStats (url : string) (w : World) : option GitHubStats.t * World :=
  (if String.eqb url "https://github.com/sendaifun/solana-agent-kit"
   then Some kitStats else None,
   w + 850).

Definition bonkToken : DexTokenData.t :=
  DexTokenData.mk "Bonk" (Fin 0.00002) (Fin (-3.2)) (JsNum.of_Z 45000000)
    (Some (JsNum.of_Z 9000000)) (Some "6oFWm7KPLfxnwMb3z5xwBoXNSPP3JJyirAPqPSiVcnsp")
    (Some "raydium").

Definition fetchTokenData (mint : DexScreener.Mint) (w : World)
    : option DexTokenData.t * World :=
  (match mint with
   | DexScreener.TableMint address =>
       if String.eqb address "DezXAZ8z7PnrnRJjz3wXBoRgixCa6xjnB7YaB1pPB263"
       then Some bonkToken else None
   | DexScreener.PrototypeMember _ => None
   end,
   w + 400).

(** One cycle over the three seeded agents, started at [t1]. *)
Definition firstCycle : CrawlerStatus.t * AgentRegistry.t * World :=
  AgentCrawler.runCycle JsDate.parse Date_now fetchGitHubStats fetchTokenData sleep
    AgentCrawler.initialStatus seeded t1.

(** A second cycle half an hour after the first. *)
Definition secondCycle : CrawlerStatus.t * AgentRegistry.t * World :=
  AgentCrawler.runCycle JsDate.parse Date_now fetchGitHubStats fetchTokenData sleep
    (fst (fst firstCycle)) (snd (fst firstCycle)) (t1 + AgentCrawler.CRAWL_INTERVAL_MS).

(** Photon Sol as stored by the registration. *)
Definition storedPhoton : AgentProfile.t :=
  AgentProfile.mk idPhoton (AgentProfile.name photonSol)
    (AgentProfile.description photonSol) (AgentProfile.version photonSol)
    (AgentProfile.publicKey photonSol) (AgentProfile.website photonSol)
    (AgentProfile.github photonSol) (AgentProfile.twitter photonSol)
    (AgentProfile.category photonSol) (AgentProfile.tags photonSol)
    (AgentProfile.isExternal photonSol) (AgentProfile.capabilities photonSol)
    (AgentProfile.reputation photonSol) (AgentProfile.tasksCompleted photonSol)
    (AgentProfile.successRate photonSol) t0 t0 None None.

(** The most active repository the score distinguishes: ten thousand
    stars, twenty commits in thirty days, pushed one day before [t0]. *)
Definition busyRepository : GitHubStats.t :=
  GitHubStats.mk "ai16z/eliza" (JsNum.of_Z 10000) (JsNum.of_Z 2400) (JsNum.of_Z 310)
    "2026-10-30T12:00:00Z" (Some "v0.1.9") (JsNum.of_Z 20).

(** A token without volume that lost thirty percent in a day. *)
Definition crashedToken : DexTokenData.t :=
  DexTokenData.mk "UNKNOWN" (JsNum.of_Z 0) (JsNum.of_Z (-30)) (JsNum.of_Z 0)
    None None None.

(** A token with high volume and a rising price. *)
Definition risingToken : DexTokenData.t :=
  DexTokenData.mk "JUP" (Fin 1.25) (JsNum.of_Z 20) (JsNum.of_Z 10000000)
    None None None.

(** A skill manager with the balance checker; its handler answers for
    one known address and rejects any other request. *)
Definition checkBalance : SkillManager.Handler World :=
  fun parameters w =>
    match JsObject.get_own "address" parameters with
    | Some (VStr "7xKXtg2CW87d97TXJSDpbD5jBkheTqA83TZRuJosgAsU") =>
        (Return (VStr "Balance: 1.5 SOL"), w + 300)
    | _ => (Throw "Invalid wallet address", w + 20)
    end.

Definition manager : SkillManager.t World :=
  snd (SkillManager.registerBuiltInSkill idSkill balanceChecker checkBalance
         (SkillManager.mk SAPRegistry.empty ∅)).

(** The text that [exportData] returns for [completedOnce], written with
    apostrophes for quotation marks. *)
Definition exportText : string :=
  Json.text
    ("{'agents':[['5f1c0a2e9b7d4c3fa6e8d1b2c3d4e5f6',{'name':'X',"
     +:+ "'description':'A local agent','version':'1.0.0','capabilities':[],"
     +:+ "'reputation':1,'tasksCompleted':1,'successRate':100,"
     +:+ "'id':'5f1c0a2e9b7d4c3fa6e8d1b2c3d4e5f6',"
     +:+ "'createdAt':'2026-10-31T12:00:00.000Z',"
     +:+ "'lastActive':'2026-10-31T12:01:00.000Z'}]],"
     +:+ "'skills':[['0b9e8d7c6b5a49382716f5e4d3c2b1a0',{'name':'Balance Checker',"
     +:+ "'description':'Check SOL and SPL token balances for any wallet',"
     +:+ "'category':'analytics','handler':'checkBalance',"
     +:+ "'parameters':[{'name':'address','type':'address',"
     +:+ "'description':'Solana wallet address','required':true}],"
     +:+ "'id':'0b9e8d7c6b5a49382716f5e4d3c2b1a0','usageCount':1,'rating':0}]],"
     +:+ "'tasks':[['c4a1e0f2b3d5476989a0b1c2d3e4f506',"
     +:+ "{'id':'c4a1e0f2b3d5476989a0b1c2d3e4f506',"
     +:+ "'agentId':'5f1c0a2e9b7d4c3fa6e8d1b2c3d4e5f6',"
     +:+ "'skillId':'0b9e8d7c6b5a49382716f5e4d3c2b1a0',"
     +:+ "'description':'check balance','parameters':{},'status':'completed',"
     +:+ "'createdAt':'2026-10-31T12:00:00.000Z',"
     +:+ "'completedAt':'2026-10-31T12:01:00.000Z',"
     +:+ "'result':{'description':'check balance'}}]]}").

(** A snapshot whose skills field is a number. *)
Definition brokenSkillsText : string :=
  Json.text "{'agents':[],'skills':5,'tasks':[]}".

(** A text that is not JSON: the closing brace is missing. *)
Definition truncatedText : string :=
  Json.text "{'agents':[],'skills':[],'tasks':[]".

End Samples.

(** ** Strings: the methods of [String.prototype] that the queries use

    A string is the sequence of the bytes of its UTF-8 text.  For
    well-formed texts a text occurs in another one exactly when its bytes
    occur in the bytes of the other, so [includes] and [replace] with a
    string pattern are read off the bytes; the separator of [split] and the
    character of the patterns below are ASCII. *)

Module JsString.

(** [s.startsWith(p)] *)
Fixpoint startsWith (p s : string) : bool :=
  match p, s with
  | EmptyString, _ => true
  | String a p', String b s' => Ascii.eqb a b && startsWith p' s'
  | String _ _, EmptyString => false
  end.

(** [s.includes(p)] *)
Fixpoint includes (p s : string) : bool :=
  startsWith p s
  || match s with
     | EmptyString => false
     | String _ s' => includes p s'
     end.

(** [s.substring(n)] *)
Fixpoint drop (n : nat) (s : string) : string :=
  match n, s with
  | O, _ => s
  | S n', String _ s' => drop n' s'
  | S _, EmptyString => EmptyString
  end.

(** [s.replace(p, '')] for a string pattern [p]: the first occurrence of
    [p] is removed, a text without occurrence is returned as it is. *)
Fixpoint removeFirst (p s : string) : string :=
  if startsWith p s then drop (String.length p) s
  else match s with
       | EmptyString => EmptyString
       | String c s' => String c (removeFirst p s')
       end.

(** [s.replace(/\/$/, '')]: one slash at the very end is removed. *)
Fixpoint removeFinalSlash (s : string) : string :=
  match s with
  | EmptyString => EmptyString
  | String c EmptyString => if Ascii.eqb c "/" then EmptyString else s
  | String c s' => String c (removeFinalSlash s')
  end.

(** [s.split(sep)] for a separator of one character; the empty text has
    one part. *)
Fixpoint split (sep : ascii) (s : string) : list string :=
  match s with
  | EmptyString => [EmptyString]
  | String c s' =>
      if Ascii.eqb c sep then EmptyString :: split sep s'
      else match split sep s' with
           | part :: parts => String c part :: parts
           | [] => [String c EmptyString]
           end
  end.

(** [toLowerCase] on the letters A to Z; every other byte is kept.  This
    is [String.prototype.toLowerCase] on ASCII texts. *)
Definition lowerAscii (c : ascii) : ascii :=
  let n := nat_of_ascii c in
  if (Nat.leb 65 n && Nat.leb n 90)%bool then ascii_of_nat (n + 32) else c.

Fixpoint toLowerCaseAscii (s : string) : string :=
  match s with
  | EmptyString => EmptyString
  | String c s' => String (lowerAscii c) (toLowerCaseAscii s')
  end.

End JsString.

(** ** Arrays: [Array.prototype.sort] with a comparison function

    The sort is stable.  [compare a b] is the number that the comparison
    function returns; a positive number puts [b] before [a], NaN counts as
    zero.  For a comparison function that is not consistent (it is
    consistent on numbers without NaN) the order is left to the
    implementation, and this is one of the orders allowed. *)

Module JsArray.
Section Sort.
Context {A : Type}.
Variable compare : A -> A -> number.

(** [x], which stood before the elements of [sorted], goes before the
    first element that need not precede it. *)
Fixpoint insert (x : A) (sorted : list A) : list A :=
  match sorted with
  | [] => [x]
  | y :: rest =>
      if JsNum.gtb (compare x y) (JsNum.of_Z 0) then y :: insert x rest
      else x :: y :: rest
  end.

Definition sort (l : list A) : list A := fold_right insert [] l.

End Sort.

(** The same with a comparator that can throw, [None]; the exception
    ends the sort.  In an array of two or more elements every element is
    compared at least once, here as in any sort by comparisons. *)
Section SortThrowing.
Context {A : Type}.
Variable compare : A -> A -> option number.

Fixpoint insertThrowing (x : A) (sorted : list A) : option (list A) :=
  match sorted with
  | [] => Some [x]
  | y :: rest =>
      c ← compare x y;
      if JsNum.gtb c (JsNum.of_Z 0)
      then rest' ← insertThrowing x rest; Some (y :: rest')
      else Some (x :: y :: rest)
  end.

Definition sortThrowing (l : list A) : option (list A) :=
  fold_right (fun x sorted => sorted ≫= insertThrowing x) (Some []) l.

End SortThrowing.
End JsArray.

(** ** The registry's queries (registry.ts, class [SAPRegistry]) *)

Module RegistryStats.

Record TopAgent : Type := mkTop {
  id : string;
  name : string;
  reputation : number
}.

Record t : Type := mk {
  totalAgents : Z;
  totalSkills : Z;
  totalTasks : Z;
  activeTasks : Z;
  completedTasks : Z;
  averageReputation : number;
  topAgents : list TopAgent
}.

End RegistryStats.

Module RegistryQueries.

(** The text of a skill category, the value that [===] compares. *)
Definition categoryText (c : SkillCategory.t) : string :=
  match c with
  | SkillCategory.defi => "defi"
  | SkillCategory.nft => "nft"
  | SkillCategory.analytics => "analytics"
  | SkillCategory.trading => "trading"
  | SkillCategory.utility => "utility"
  end.

Definition findSkillsByCategory (category : string) (r : AgentRegistry.t)
    : list AgentSkill.t :=
  List.filter (fun skill => String.eqb (categoryText (AgentSkill.category skill)) category)
    (SAPRegistry.listSkills r).

Section Search.
(** [String.prototype.toLowerCase] *)
Variable toLowerCase : string -> string.

(** [cap.name.toLowerCase().includes(capabilityName.toLowerCase()) && cap.enabled] *)
Definition capabilityMatches (capabilityName : string) (cap : AgentCapability.t) : bool :=
  JsString.includes (toLowerCase capabilityName) (toLowerCase (AgentCapability.name cap))
  && AgentCapability.enabled cap.

Definition findAgentsByCapability (capabilityName : string) (r : AgentRegistry.t)
    : list AgentProfile.t :=
  List.filter
    (fun agent => existsb (capabilityMatches capabilityName) (AgentProfile.capabilities agent))
    (SAPRegistry.listAgents r).
End Search.

(** [a] may stand before [b] in the order of [getStats]: its reputation
    is not lower. *)
Definition notLower (a b : AgentProfile.t) : Prop :=
  JsNum.leb (AgentProfile.reputation b) (AgentProfile.reputation a) = true.

Definition finite (a : AgentProfile.t) : Prop :=
  JsNum.is_finite (AgentProfile.reputation a) = true.

(** [(a, b) => b.reputation - a.reputation] *)
Definition byReputation (a b : AgentProfile.t) : number :=
  JsNum.sub (AgentProfile.reputation b) (AgentProfile.reputation a).

(** [agents.reduce((sum, a) => sum + a.reputation, 0)] *)
Definition totalReputation (agents : list AgentProfile.t) : number :=
  fold_left (fun sum a => JsNum.add sum (AgentProfile.reputation a)) agents (JsNum.of_Z 0).

(** [n || 1] on a length *)
Definition orOne (n : Z) : Z := if n =? 0 then 1 else n.

Definition summaryOf (a : AgentProfile.t) : RegistryStats.TopAgent :=
  RegistryStats.mkTop (AgentProfile.id a) (AgentProfile.name a) (AgentProfile.reputation a).

Definition countStatus (status : TaskStatus.t) (tasks : list AgentTask.t) : Z :=
  Z.of_nat (length (List.filter (fun t => TaskStatus.eqb (AgentTask.status t) status) tasks)).

(** The array [agents] is a fresh one, so sorting it in place changes
    nothing in the store. *)
Definition getStats (r : AgentRegistry.t) : RegistryStats.t :=
  let agents := SAPRegistry.listAgents r in
  let skills := SAPRegistry.listSkills r in
  let tasks := JsMap.values (AgentRegistry.tasks r) in
  RegistryStats.mk
    (Z.of_nat (length agents))
    (Z.of_nat (length skills))
    (Z.of_nat (length tasks))
    (countStatus TaskStatus.running tasks)
    (countStatus TaskStatus.completed tasks)
    (JsNum.div (totalReputation agents) (JsNum.of_Z (orOne (Z.of_nat (length agents)))))
    (map summaryOf (firstn 5 (JsArray.sort byReputation agents))).

End RegistryQueries.

(** ** Sequences of registry operations *)

Module RegistryOps.

(** One call of a mutator of the registry, with the identifier drawn and
    the clock reading where the operation uses them. *)
Inductive Op : Type :=
| RegisterAgent (agentId : string) (now : Z) (profile : AgentProfile.t)
| RegisterExternalAgent (agentId : string) (now : Z) (profile : AgentProfile.t)
| UpdateReputation (now : Z) (agentId : string) (taskSuccess : bool)
| RegisterSkill (skillId : string) (skill : AgentSkill.t)
| CreateTask (taskId : string) (now : Z) (agentId skillId description : string)
    (parameters : Bag)
| UpdateTaskStatus (now : Z) (taskId : string) (status : TaskStatus.t) (result : jsval)
    (error : option string).

Definition run (r : AgentRegistry.t) (op : Op) : AgentRegistry.t :=
  match op with
  | RegisterAgent agentId now profile =>
      snd (SAPRegistry.registerAgent agentId now profile r)
  | RegisterExternalAgent agentId now profile =>
      snd (SAPRegistry.registerExternalAgent agentId now profile r)
  | UpdateReputation now agentId taskSuccess =>
      SAPRegistry.updateReputation now agentId taskSuccess r
  | RegisterSkill skillId skill =>
      snd (SAPRegistry.registerSkill skillId skill r)
  | CreateTask taskId now agentId skillId description parameters =>
      snd (SAPRegistry.createTask taskId now agentId skillId description parameters r)
  | UpdateTaskStatus now taskId status result error =>
      SAPRegistry.updateTaskStatus now taskId status result error r
  end.

Definition runAll (ops : list Op) (r : AgentRegistry.t) : AgentRegistry.t :=
  fold_left run ops r.

(** The operation creates a task under the identifier [taskId]. *)
Definition creates (taskId : string) (op : Op) : bool :=
  match op with
  | CreateTask taskId' _ _ _ _ _ => String.eqb taskId' taskId
  | _ => false
  end.

(** What every operation keeps of a task: its identity, its assignment
    and its creation time; a start time and a completion time, once set,
    stay set, and the start time keeps its value. *)
Definition continues (task task' : AgentTask.t) : Prop :=
  AgentTask.id task' = AgentTask.id task
  /\ AgentTask.agentId task' = AgentTask.agentId task
  /\ AgentTask.skillId task' = AgentTask.skillId task
  /\ AgentTask.description task' = AgentTask.description task
  /\ AgentTask.parameters task' = AgentTask.parameters task
  /\ AgentTask.payment task' = AgentTask.payment task
  /\ AgentTask.createdAt task' = AgentTask.createdAt task
  /\ (forall t, AgentTask.startedAt task = Some t -> AgentTask.startedAt task' = Some t)
  /\ (forall t, AgentTask.completedAt task = Some t ->
        exists t', AgentTask.completedAt task' = Some t').

(** The keys of the three maps of [r'] are those of [r], in the same
    order, followed by further keys. *)
Definition extends (r r' : AgentRegistry.t) : Prop :=
  (exists added,
      JsMap.keys (AgentRegistry.agents r') = JsMap.keys (AgentRegistry.agents r) ++ added)
  /\ (exists added,
        JsMap.keys (AgentRegistry.skills r') = JsMap.keys (AgentRegistry.skills r) ++ added)
  /\ (exists added,
        JsMap.keys (AgentRegistry.tasks r') = JsMap.keys (AgentRegistry.tasks r) ++ added).

(** The operation stores an agent under [agentId] with the statistics
    that its caller supplies. *)
Definition suppliesStats (agentId : string) (op : Op) : bool :=
  match op with
  | RegisterExternalAgent agentId' _ _ => String.eqb agentId' agentId
  | _ => false
  end.

(** The calls of [updateReputation] for one success at each of [times]. *)
Definition successes (agentId : string) (times : list Z) : list Calls.Call :=
  map (fun t => (t, agentId, true)) times.

(** After [k] successes: the count and the reputation of the agent. *)
Definition succeeded (agentId : string) (k : Q) (r : AgentRegistry.t) : Prop :=
  exists agent p c,
    SAPRegistry.getAgent agentId r = Some agent
    /\ AgentProfile.reputation agent = Fin p
    /\ AgentProfile.tasksCompleted agent = Fin c
    /\ (c == k)%Q
    /\ ((k <= 100)%Q -> (p == k)%Q)
    /\ ((100 <= k)%Q -> (p == 100)%Q).

(** The agent is in the store, its reputation lies in [0, 100] and does
    not exceed the number of its completed tasks, and its success rate
    lies in [0, 100]. *)
Definition statsConsistent (agentId : string) (r : AgentRegistry.t) : Prop :=
  exists agent p c,
    SAPRegistry.getAgent agentId r = Some agent
    /\ AgentProfile.reputation agent = Fin p
    /\ AgentProfile.tasksCompleted agent = Fin c
    /\ (0 <= p)%Q /\ (p <= 100)%Q /\ (p <= c)%Q
    /\ JsNum.within 0 100 (AgentProfile.successRate agent).

End RegistryOps.

(** ** The skill manager: searches and sequences of executions (skills.ts) *)

Module SkillRuns.
Section WithWorld.
Context {World : Type}.

(** One call of [executeSkill]: the skill and the parameter bag. *)
Definition Exec : Type := string * Bag.

(** The calls one after the other, each awaited before the next; the
    outcomes are listed in the order of the calls. *)
Fixpoint runExecs (execs : list Exec) (m : SkillManager.t World) (w : World)
    : list (Completion jsval) * SkillManager.t World * World :=
  match execs with
  | [] => ([], m, w)
  | (skillId, parameters) :: rest =>
      let '(outcome, m1, w1) := SkillManager.executeSkill skillId parameters m w in
      let '(outcomes, m2, w2) := runExecs rest m1 w1 in
      (outcome :: outcomes, m2, w2)
  end.

Definition returned {A : Type} (c : Completion A) : bool :=
  match c with
  | Return _ => true
  | Throw _ => false
  end.

(** The number of calls for [skillId] that returned. *)
Fixpoint countReturned (skillId : string) (execs : list Exec)
    (outcomes : list (Completion jsval)) : nat :=
  match execs, outcomes with
  | (skillId', _) :: execs', outcome :: outcomes' =>
      (if String.eqb skillId' skillId && returned outcome then 1 else 0)%nat
      + countReturned skillId execs' outcomes'
  | _, _ => 0%nat
  end.

(** One call of an operation of the manager. *)
Inductive Op : Type :=
| RegisterBuiltInSkill (skillId : string) (skillData : AgentSkill.t)
    (handler : SkillManager.Handler World)
| RegisterSkill (skillId : string) (name description : string)
    (category : SkillCategory.t) (parameters : list SkillParameter.t)
    (handler : SkillManager.Handler World) (price : option number)
| ExecuteSkill (skillId : string) (parameters : Bag).

Definition run (st : SkillManager.t World * World) (op : Op)
    : SkillManager.t World * World :=
  let '(m, w) := st in
  match op with
  | RegisterBuiltInSkill skillId skillData handler =>
      (snd (SkillManager.registerBuiltInSkill skillId skillData handler m), w)
  | RegisterSkill skillId name description category parameters handler price =>
      (snd (SkillManager.registerSkill skillId name description category parameters
              handler price m), w)
  | ExecuteSkill skillId parameters =>
      let '(_, m', w') := SkillManager.executeSkill skillId parameters m w in
      (m', w')
  end.

Definition runAll (ops : list Op) (st : SkillManager.t World * World)
    : SkillManager.t World * World :=
  fold_left run ops st.

(** The manager of a registry without skills. *)
Definition fresh : SkillManager.t World := SkillManager.mk SAPRegistry.empty ∅.

(** Metadata and handler are present together. *)
Definition paired (m : SkillManager.t World) : Prop :=
  forall skillId,
    SkillManager.skillHandlers m !! skillId = None
    <-> SkillManager.getSkill skillId m = None.

Section Search.
(** [String.prototype.toLowerCase] *)
Variable toLowerCase : string -> string.

Definition matches (lowerQuery : string) (skill : AgentSkill.t) : bool :=
  JsString.includes lowerQuery (toLowerCase (AgentSkill.name skill))
  || JsString.includes lowerQuery (toLowerCase (AgentSkill.description skill))
  || JsString.includes lowerQuery
       (toLowerCase (RegistryQueries.categoryText (AgentSkill.category skill))).

Definition searchSkills (query : string) (m : SkillManager.t World) : list AgentSkill.t :=
  let skills := SkillManager.listSkills m in
  let lowerQuery := toLowerCase query in
  List.filter (matches lowerQuery) skills.
End Search.

End WithWorld.
Arguments Op : clear implicits.
End SkillRuns.

(** ** The facade (index.ts, class [SAPProtocol]) and the seeded agents
       (seed.ts) *)

Module SeedAgent.
Record t : Type := mk {
  name : string;
  description : string;
  version : string;
  category : AgentCategory.t;
  website : option string;
  github : option string;
  twitter : option string;
  tags : list string;
  capabilities : list string;
  reputation : number;
  tasksCompleted : number;
  successRate : number
}.
End SeedAgent.

(** The argument of the facade's [registerExternalAgent]. *)
Module ExternalAgentData.
Record t : Type := mk {
  name : string;
  description : string;
  version : option string;
  category : option AgentCategory.t;
  website : option string;
  github : option string;
  twitter : option string;
  tags : option (list string);
  capabilities : option (list string)
}.
End ExternalAgentData.

Module Seed.

Definition REAL_SOLANA_AGENTS : list SeedAgent.t :=
  [
    SeedAgent.mk "Solana Agent Kit"
      ("Open-source toolkit by Sendai for building AI agents on Solana. "
       +:+ "Supports 60+ on-chain actions: token swaps via Jupiter, NFT "
       +:+ "minting via Metaplex, DeFi interactions, wallet management, and "
       +:+ "more. The most widely adopted Solana agent framework.")
      "1.0.0" AgentCategory.framework
      (Some "https://www.solanaagentkit.xyz")
      (Some "https://github.com/sendaifun/solana-agent-kit")
      (Some "https://twitter.com/sendaifun")
      ["framework"; "open-source"; "sendai"; "jupiter"; "metaplex"; "defi"]
      ["Token Swaps"; "NFT Minting"; "Wallet Management"; "DeFi"; "Staking"]
      (JsNum.of_Z 91) (JsNum.of_Z 48200) (Fin 97.4);
    SeedAgent.mk "GOAT SDK"
      ("Great Onchain Agent Toolkit by Crossmint. Framework for "
       +:+ "connecting AI agents to any blockchain. Supports Solana natively"
       +:+ " with plugins for token transfers, DeFi protocols, and smart "
       +:+ "contract interactions. Used by Coinbase, OpenAI integrations.")
      "0.4.0" AgentCategory.framework
      (Some "https://ohmygoat.dev")
      (Some "https://github.com/goat-sdk/goat")
      (Some "https://twitter.com/crossmint")
      ["framework"; "crossmint"; "multi-chain"; "open-source"; "plugins"]
      ["Token Transfers"; "On-chain Actions"; "DeFi Plugins"; "Multi-chain"]
      (JsNum.of_Z 87) (JsNum.of_Z 31500) (Fin 95.1);
    SeedAgent.mk "Eliza (ai16z)"
      ("Most popular open-source AI agent framework. Used by thousands "
       +:+ "of projects to deploy Twitter/Discord/Telegram agents with "
       +:+ "Solana wallet capabilities. Supports GPT-4, Claude, Llama. Has "
       +:+ "native Solana plugin for on-chain interactions.")
      "0.1.9" AgentCategory.framework
      (Some "https://elizaos.ai")
      (Some "https://github.com/ai16z/eliza")
      (Some "https://twitter.com/ai16zdao")
      ["framework"; "ai16z"; "open-source"; "twitter-bot"; "multi-model"]
      ["Social Media"; "On-chain Actions"; "Multi-Agent"; "NLP"; "Memory"]
      (JsNum.of_Z 94) (JsNum.of_Z 210000) (Fin 93.2);
    SeedAgent.mk "BonkBot"
      ("Telegram trading bot for Solana with 300k+ active users. "
       +:+ "Executes token swaps, limit orders, and copy trading directly "
       +:+ "from Telegram. Real-time price tracking and portfolio "
       +:+ "management. One of the highest-volume bots on Solana.")
      "3.1.0" AgentCategory.trading
      (Some "https://t.me/bonkbot_bot")
      None
      (Some "https://twitter.com/bonkbot_io")
      ["trading"; "telegram"; "swap"; "popular"; "copy-trade"]
      ["Token Swaps"; "Limit Orders"; "Copy Trading"; "Portfolio Tracking"]
      (JsNum.of_Z 89) (JsNum.of_Z 5800000) (Fin 96.8);
    SeedAgent.mk "Trojan Bot"
      ("Advanced trading bot on Solana with sniper, copy trade, and DCA "
       +:+ "features. Supports Raydium, Jupiter, Pump.fun. Known for "
       +:+ "ultra-fast execution (<200ms) and MEV protection. Popular for "
       +:+ "meme coin trading and token launches.")
      "2.0.0" AgentCategory.trading
      (Some "https://t.me/paris_trojanbot")
      None
      (Some "https://twitter.com/TrojanOnSolana")
      ["trading"; "sniper"; "mev"; "pump.fun"; "raydium"; "dca"]
      ["Sniping"; "Copy Trade"; "DCA"; "MEV Protection"; "Multi-DEX"]
      (JsNum.of_Z 85) (JsNum.of_Z 2100000) (Fin 94.5);
    SeedAgent.mk "Drift Keeper Bot"
      ("Open-source keeper bot for Drift Protocol — the leading Solana "
       +:+ "perpetuals DEX. Handles liquidations, order fulfillment, and "
       +:+ "funding rate settlements. Runs 24/7 on-chain keeping the "
       +:+ "protocol healthy. Source available on GitHub.")
      "2.3.1" AgentCategory.defi
      (Some "https://drift.trade")
      (Some "https://github.com/drift-labs/keeper-bots-v2")
      (Some "https://twitter.com/DriftProtocol")
      ["defi"; "perps"; "keeper"; "liquidation"; "open-source"; "drift"]
      ["Liquidation"; "Order Filling"; "Funding Rate"; "On-chain Keeper"]
      (JsNum.of_Z 88) (JsNum.of_Z 940000) (Fin 99.1);
    SeedAgent.mk "AgentiPy"
      ("Python SDK for building AI agents on Solana. Wraps Solana Agent "
       +:+ "Kit functionality for Python developers. Supports LangChain, "
       +:+ "AutoGen integration. Active development with growing community "
       +:+ "of Python ML engineers building Solana agents.")
      "0.2.1" AgentCategory.framework
      (Some "https://pypi.org/project/agentipy")
      (Some "https://github.com/niceberginc/agentipy")
      None
      ["framework"; "python"; "langchain"; "autogen"; "open-source"; "ml"]
      ["Token Swaps";
       "NFT Operations";
       "Wallet Management";
       "LangChain";
       "AutoGen"]
      (JsNum.of_Z 72) (JsNum.of_Z 12400) (Fin 91.3);
    SeedAgent.mk "Photon Sol"
      ("High-performance Solana trading terminal with built-in bot "
       +:+ "automation. Supports new token sniping, limit orders, auto-sell "
       +:+ "on pump.fun and Raydium. 100k+ traders. Advanced analytics with "
       +:+ "wallet tracking and alpha detection.")
      "4.0.0" AgentCategory.trading
      (Some "https://photon-sol.tinyastro.io")
      None
      (Some "https://twitter.com/PhotonSol")
      ["trading"; "sniper"; "terminal"; "analytics"; "pump.fun"]
      ["Sniping";
       "Limit Orders";
       "Auto-Sell";
       "Wallet Tracking";
       "Analytics"]
      (JsNum.of_Z 83) (JsNum.of_Z 3400000) (Fin 93.7);
    SeedAgent.mk "Jito MEV Bot"
      ("Reference MEV bot implementation for Jito-Solana. Executes "
       +:+ "arbitrage between Serum, Raydium, Orca, Lifinity using Jito "
       +:+ "bundles for atomic execution. Open-source template used by most "
       +:+ "Solana MEV operators. Processes millions in daily volume.")
      "1.2.0" AgentCategory.defi
      (Some "https://jito.network")
      (Some "https://github.com/jito-labs/mev-bot")
      (Some "https://twitter.com/jito_labs")
      ["mev"; "arbitrage"; "jito"; "open-source"; "atomic"; "bundles"]
      ["Arbitrage"; "MEV Extraction"; "Bundle Execution"; "Multi-DEX"]
      (JsNum.of_Z 86) (JsNum.of_Z 1800000) (Fin 78.2);
    SeedAgent.mk "Axiom Trading Bot"
      ("Solana trading bot with advanced copy-trading and sniper "
       +:+ "features. Integrates with most Solana DEXs. Features smart "
       +:+ "wallet tracking to follow top traders automatically. Growing "
       +:+ "user base of 80k+ traders on Telegram.")
      "2.1.0" AgentCategory.trading
      (Some "https://axiom.trade")
      None
      (Some "https://twitter.com/AxiomTrade")
      ["trading"; "copy-trade"; "telegram"; "sniper"; "dex"]
      ["Copy Trading"; "Sniping"; "Smart Money Tracking"; "Multi-DEX"]
      (JsNum.of_Z 81) (JsNum.of_Z 1200000) (Fin 92.4) ].

End Seed.

Module SAPProtocol.

(** [s || d] on an optional string: [undefined] and [''] give [d]. *)
Definition orElse (s : option string) (d : string) : string :=
  match s with
  | Some v => if String.eqb v "" then d else v
  | None => d
  end.

(** One capability per name: [{ name, description: name, version, enabled: true }] *)
Definition capabilitiesNamed (version : string) (names : list string)
    : list AgentCapability.t :=
  map (fun name => AgentCapability.mk name name version true) names.

(** The object that [seedRealAgents] hands to the registry for one seed;
    the registry supplies the identifier and the two timestamps. *)
Definition seedProfile (seed : SeedAgent.t) : AgentProfile.t :=
  AgentProfile.mk "" (SeedAgent.name seed) (SeedAgent.description seed)
    (SeedAgent.version seed) None
    (SeedAgent.website seed) (SeedAgent.github seed) (SeedAgent.twitter seed)
    (Some (SeedAgent.category seed)) (Some (SeedAgent.tags seed)) (Some true)
    (capabilitiesNamed (SeedAgent.version seed) (SeedAgent.capabilities seed))
    (SeedAgent.reputation seed) (SeedAgent.tasksCompleted seed)
    (SeedAgent.successRate seed)
    0 0 None None.

(** The object that the facade's [registerExternalAgent] hands to the
    registry. *)
Definition externalProfile (data : ExternalAgentData.t) : AgentProfile.t :=
  AgentProfile.mk "" (ExternalAgentData.name data) (ExternalAgentData.description data)
    (orElse (ExternalAgentData.version data) "1.0.0") None
    (ExternalAgentData.website data) (ExternalAgentData.github data)
    (ExternalAgentData.twitter data)
    (Some (default AgentCategory.other (ExternalAgentData.category data)))
    (Some (default [] (ExternalAgentData.tags data))) (Some true)
    (capabilitiesNamed (orElse (ExternalAgentData.version data) "1.0.0")
       (default [] (ExternalAgentData.capabilities data)))
    (JsNum.of_Z 0) (JsNum.of_Z 0) (JsNum.of_Z 100)
    0 0 None None.

(** The profile that [SAPRegistry.registerExternalAgent] stores for
    [profile] under the identifier and at the clock reading of [drawn]. *)
Definition stamped (drawn : string * Z) (profile : AgentProfile.t) : AgentProfile.t :=
  AgentProfile.mk (fst drawn)
    (AgentProfile.name profile) (AgentProfile.description profile)
    (AgentProfile.version profile) (AgentProfile.publicKey profile)
    (AgentProfile.website profile) (AgentProfile.github profile)
    (AgentProfile.twitter profile) (AgentProfile.category profile)
    (AgentProfile.tags profile) (AgentProfile.isExternal profile)
    (AgentProfile.capabilities profile)
    (AgentProfile.reputation profile) (AgentProfile.tasksCompleted profile)
    (AgentProfile.successRate profile)
    (snd drawn) (snd drawn)
    (AgentProfile.pricing profile) (AgentProfile.liveData profile).

(** The statistics of a seed are consistent: the reputation lies in
    [0, 100] and does not exceed the number of completed tasks, the success
    rate lies in [0, 100]. *)
Definition seedConsistent (seed : SeedAgent.t) : Prop :=
  exists p c,
    SeedAgent.reputation seed = Fin p
    /\ SeedAgent.tasksCompleted seed = Fin c
    /\ (0 <= p)%Q /\ (p <= 100)%Q /\ (p <= c)%Q
    /\ JsNum.within 0 100 (SeedAgent.successRate seed).

(** The task that [recordTask] leaves in the store. *)
Definition recorded (taskId agentId skillId description : string) (created updated : Z)
    (success : bool) : AgentTask.t :=
  AgentTask.mk taskId agentId skillId description [("query", VStr description)]
    (if success then TaskStatus.completed else TaskStatus.failed)
    (if success then VObj [("description", VStr description)] else VUndef)
    (if success then None else Some "Command failed")
    None created None (Some updated).

(** The loop of [seedRealAgents] over [seeds]; [draw i] is the identifier
    drawn and the clock reading of the registration number [i]. *)
Fixpoint seedAgents (draw : nat -> string * Z) (seeds : list SeedAgent.t) (i : nat)
    (r : AgentRegistry.t) : AgentRegistry.t :=
  match seeds with
  | [] => r
  | seed :: rest =>
      seedAgents draw rest (S i)
        (snd (SAPRegistry.registerExternalAgent (fst (draw i)) (snd (draw i))
                (seedProfile seed) r))
  end.

Section WithWorld.
Context {World : Type}.

(** The registry is one object, shared by the facade and its skill
    manager; the profile manager (profile.ts) is not part of this
    development. *)
Record t : Type := mk {
  skillManager : SkillManager.t World;
  initialized : bool
}.

Definition registry (p : t) : AgentRegistry.t := SkillManager.registry (skillManager p).

(** The facade after a change of the registry. *)
Definition withRegistry (r : AgentRegistry.t) (p : t) : t :=
  mk (SkillManager.mk r (SkillManager.skillHandlers (skillManager p))) (initialized p).

Definition seedRealAgents (draw : nat -> string * Z) (p : t) : t :=
  withRegistry (seedAgents draw Seed.REAL_SOLANA_AGENTS 0 (registry p)) p.

Definition registerExternalAgent (agentId : string) (now : Z) (data : ExternalAgentData.t)
    (p : t) : string * t :=
  let '(id, r) :=
    SAPRegistry.registerExternalAgent agentId now (externalProfile data) (registry p) in
  (id, withRegistry r p).

Section Record.
(** [String.prototype.toLowerCase] *)
Variable toLowerCase : string -> string.

(** [skills.find(s => s.name.toLowerCase() === skillName.toLowerCase())] *)
Definition findSkill (skillName : string) (skills : list AgentSkill.t)
    : option AgentSkill.t :=
  List.find
    (fun s => String.eqb (toLowerCase (AgentSkill.name s)) (toLowerCase skillName))
    skills.

(** [recordTask]; [profile] is what [profileManager.getProfile()]
    returns, [taskId] the identifier drawn by [createTask], [created] and
    [updated] the clock readings of [createTask] and of
    [updateTaskStatus]. *)
Definition recordTask (profile : option AgentProfile.t) (taskId : string)
    (created updated : Z) (description skillName : string) (success : bool) (p : t) : t :=
  if negb (initialized p) then p
  else
    match profile with
    | None => p
    | Some profile =>
        match findSkill skillName (SkillManager.listSkills (skillManager p)) with
        | None => p
        | Some skill =>
            let '(taskId, r1) :=
              SAPRegistry.createTask taskId created (AgentProfile.id profile)
                (AgentSkill.id skill) description [("query", VStr description)]
                (registry p) in
            withRegistry
              (SAPRegistry.updateTaskStatus updated taskId
                 (if success then TaskStatus.completed else TaskStatus.failed)
                 (if success then VObj [("description", VStr description)] else VUndef)
                 (if success then None else Some "Command failed")
                 r1)
              p
        end
    end.
End Record.

Definition isInitialized (p : t) : bool := initialized p.

Definition getStats (p : t) : RegistryStats.t := RegistryQueries.getStats (registry p).

End WithWorld.
Arguments t : clear implicits.
End SAPProtocol.

(** ** What a crawl cycle leaves behind *)

Module CrawlerOutcome.

(** [a'] is [a] except, possibly, for its live data. *)
Definition keepsProfile (a a' : AgentProfile.t) : Prop :=
  a' = a \/ exists d, a' = AgentProfile.with_liveData a d.

(** The same keys in the same order, each profile kept except, possibly,
    for its live data. *)
Definition keepsProfiles (m m' : JsMap AgentProfile.t) : Prop :=
  Forall2 (fun kv kv' => fst kv' = fst kv /\ keepsProfile (snd kv) (snd kv')) m m'.

(** The source lists of an iteration to which a source contributed. *)
Definition allowedSources (sources : list string) : Prop :=
  sources = ["github"] \/ sources = ["dexscreener"] \/ sources = ["github"; "dexscreener"].

End CrawlerOutcome.

(** ** Dates made from numbers, and a check of the calendar *)

Module JsDateValue.

(** [new Date(x)] for a number [x]: the time value, [None] for an Invalid
    Date (a number that is not finite or lies beyond 8.64e15 ms); a
    fraction is cut off. *)
Definition timeClip (x : number) : option Z :=
  match x with
  | Fin q =>
      if Qle_bool (inject_Z (-8640000000000000)) q && Qle_bool q (inject_Z 8640000000000000)
      then Some (Z.quot (Qnum q) (Zpos (Qden q)))
      else None
  | _ => None
  end.

(** What one day of a 400-year era must satisfy for the date of the day
    to be read back: the date is a date of the calendar, it is the date of
    that day, and its year is the year of the era. *)
Definition civil_check (doe : Z) : bool :=
  let '(y, m, d) := JsDate.civil_from_days (doe - 719468) in
  (1 <=? m) && (m <=? 12) && (1 <=? d) && (d <=? JsDate.days_in_month y m)
  && (JsDate.days_from_civil y m d =? doe - 719468)
  && (0 <=? y) && (y <=? 400)
  && (if 146037 <=? doe then y =? 400 else y <=? 399).

(** [f] holds on the [2 ^ depth] integers from [lo] on. *)
Fixpoint all_in (depth : nat) (lo : Z) (f : Z -> bool) : bool :=
  match depth with
  | O => f lo
  | S k => all_in k lo f && all_in k (lo + 2 ^ Z.of_nat k) f
  end.

End JsDateValue.

(** ** The source-control fetcher (monitor/github.ts) *)

Module RepoInfo.
Record t : Type := mk {
  stars : number;
  forks : number;
  openIssues : number;
  lastPush : string
}.
End RepoInfo.

Module GitHubFetch.

(** No character of the text is a slash. *)
Fixpoint noSlash (s : string) : bool :=
  match s with
  | EmptyString => true
  | String c s' => negb (Ascii.eqb c "/") && noSlash s'
  end.

(** Two slashes stand side by side somewhere in the text. *)
Fixpoint adjacentSlashes (s : string) : bool :=
  match s with
  | String a ((String b _) as s') =>
      (Ascii.eqb a "/" && Ascii.eqb b "/") || adjacentSlashes s'
  | _ => false
  end.

(** The three replacements of [parseGitHubRepo]. *)
Definition cleaned (githubUrl : string) : string :=
  JsString.removeFinalSlash
    (JsString.removeFirst "http://github.com/"
       (JsString.removeFirst "https://github.com/" githubUrl)).

(** The methods used do not throw on a string, so the [catch] block is
    not reached. *)
Definition parseGitHubRepo (githubUrl : string) : option string :=
  match JsString.split "/" (cleaned githubUrl) with
  | owner :: name :: _ => Some (owner +:+ "/" +:+ name)
  | _ => None
  end.

Section Fetch.
Context {World : Type}.

(** The three requests of [fetchGitHubStats]: [fetchRepoInfo] can reject,
    [fetchLatestRelease] and [fetchCommits30d] catch every failure and
    answer [undefined] and [0].  The requests are issued in this order;
    the world after the three of them is the world after [Promise.all]. *)
Variable fetchRepoInfo : string -> World -> Completion RepoInfo.t * World.
Variable fetchLatestRelease : string -> World -> option string * World.
Variable fetchCommits30d : string -> World -> number * World.

Definition fetchGitHubStats (githubUrl : string) (w : World)
    : option GitHubStats.t * World :=
  match AgentCrawler.truthy (parseGitHubRepo githubUrl) with
  | None => (None, w)
  | Some repo =>
      let '(info, w1) := fetchRepoInfo repo w in
      let '(release, w2) := fetchLatestRelease repo w1 in
      let '(commits30d, w3) := fetchCommits30d repo w2 in
      match info with
      | Return info =>
          (Some (GitHubStats.mk repo (RepoInfo.stars info) (RepoInfo.forks info)
                   (RepoInfo.openIssues info) (RepoInfo.lastPush info) release commits30d),
           w3)
      | Throw _ => (None, w3)
      end
  end.
End Fetch.

End GitHubFetch.

(** ** The crawler's status report (monitor/crawler.ts, [getStatus]) *)

Module CrawlerControl.
Section Status.
(** [new Date(s).getTime()] *)
Variable Date_getTime : string -> number.

(** [{ ...this.status, nextRun: ... }]; [toISOString] throws a
    [RangeError] on an Invalid Date. *)
Definition getStatus (status : CrawlerStatus.t) : Completion CrawlerStatus.t :=
  match AgentCrawler.truthy (CrawlerStatus.lastRun status) with
  | None =>
      Return (CrawlerStatus.mk (CrawlerStatus.running status)
                (CrawlerStatus.lastRun status) None
                (CrawlerStatus.totalCrawled status) (CrawlerStatus.lastResults status))
  | Some lastRun =>
      match JsDateValue.timeClip
              (JsNum.add (Date_getTime lastRun)
                 (JsNum.of_Z AgentCrawler.CRAWL_INTERVAL_MS)) with
      | Some t =>
          Return (CrawlerStatus.mk (CrawlerStatus.running status)
                    (CrawlerStatus.lastRun status) (Some (JsDate.toISOString t))
                    (CrawlerStatus.totalCrawled status)
                    (CrawlerStatus.lastResults status))
      | None => Throw "Invalid time value"
      end
  end.
End Status.
End CrawlerControl.

(** ** The market-data request (monitor/dexscreener.ts, [fetchTokenData]) *)

Module TokenAnswer.
(** The object that [fetchTokenData] returns, as it is at run time: the
    answer of the API is of type [any] and is not checked, so a property
    holds whatever value the answer holds there. *)
Record t : Type := mk {
  symbol : jsval;
  priceUsd : number;
  change24h : jsval;
  volume24h : jsval;
  liquidity : jsval;
  pairAddress : jsval;
  dex : jsval
}.
End TokenAnswer.

Module DexFetch.

(** [v?.name], for a name that no prototype defines *)
Definition optional (name : string) (v : jsval) : jsval :=
  default VUndef (Persistence.getProperty name v).

(** [v ?? d] *)
Definition orElse (v d : jsval) : jsval :=
  match v with
  | VUndef | VNull => d
  | _ => v
  end.

(** [p.name] on a plain object *)
Definition member (name : string) (p : Bag) : jsval :=
  default VUndef (JsObject.get_own name p).

(** [p.chainId === 'solana'] on a plain object *)
Definition isSolana (p : Bag) : bool :=
  match member "chainId" p with
  | VStr chainId => String.eqb chainId "solana"
  | _ => false
  end.

(** [pairs.filter((p) => p.chainId === 'solana')]; [None] is the
    [TypeError] of reading [chainId] of [null].  Only a plain object has
    the property, so the pairs kept are plain objects. *)
Fixpoint solanaPairs (pairs : list jsval) : option (list Bag) :=
  match pairs with
  | [] => Some []
  | VUndef :: _ | VNull :: _ => None
  | VObj p :: rest =>
      kept ← solanaPairs rest;
      Some (if isSolana p then p :: kept else kept)
  | _ :: rest => solanaPairs rest
  end.

(** [p.liquidity?.usd] *)
Definition liquidityUsd (p : Bag) : jsval := optional "usd" (member "liquidity" p).

Section Fetch.
Context {World : Type}.

(** The conversion of an operand of [-] to a number, and [parseFloat],
    which converts its argument to a string first.  [None] is the
    [TypeError] of an object whose own [valueOf] and [toString] are not
    functions. *)
Variable ToNumber : jsval -> option number.
Variable parseFloat : jsval -> option number.

(** [fetchJSON] of the address of the mint: the body of the answer, or the
    rejection of the request. *)
Variable fetchJSON : DexScreener.Mint -> World -> Completion jsval * World.

(** [p.liquidity?.usd ?? 0] as the subtraction reads it *)
Definition usd (p : Bag) : option number :=
  ToNumber (orElse (liquidityUsd p) (VNum (JsNum.of_Z 0))).

(** [(a, b) => (b.liquidity?.usd ?? 0) - (a.liquidity?.usd ?? 0)] *)
Definition byLiquidity (a b : Bag) : option number :=
  y ← usd b; x ← usd a; Some (JsNum.sub y x).

(** [p] has less liquidity than [best], or not more. *)
Definition lessLiquid (p best : Bag) : Prop :=
  exists x y, usd p = Some x /\ usd best = Some y /\ JsNum.ltb x y = true.

Definition notMoreLiquid (p best : Bag) : Prop :=
  exists x y, usd p = Some x /\ usd best = Some y /\ JsNum.leb x y = true.

(** The liquidity of a pair for which the conversion returns, and the
    comparator on such pairs. *)
Definition keyOf (p : Bag) : number := default NaN (usd p).
Definition byKey (a b : Bag) : number := JsNum.sub (keyOf b) (keyOf a).

(** [best.priceUsd ?? '0'] *)
Definition priceText (best : Bag) : jsval := orElse (member "priceUsd" best) (VStr "0").

(** The object literal of the [return] statement, with its price. *)
Definition answerWith (priceUsd : number) (best : Bag) : TokenAnswer.t :=
  TokenAnswer.mk
    (orElse (optional "symbol" (member "baseToken" best)) (VStr "UNKNOWN"))
    priceUsd
    (orElse (optional "h24" (member "priceChange" best)) (VNum (JsNum.of_Z 0)))
    (orElse (optional "h24" (member "volume" best)) (VNum (JsNum.of_Z 0)))
    (liquidityUsd best)
    (member "pairAddress" best)
    (member "dexId" best).

Definition answerOf (best : Bag) : option TokenAnswer.t :=
  priceUsd ← parseFloat (priceText best); Some (answerWith priceUsd best).

(** The body of the [try] block after the request; [None] is [null],
    returned or after an exception.  Of the values of [data.pairs] only a
    non-empty array passes the first test and has a [filter] method. *)
Definition readPairs (data : jsval) : option TokenAnswer.t :=
  match Persistence.getProperty "pairs" data with
  | Some (VArr ((_ :: _) as pairs)) =>
      match solanaPairs pairs with
      | Some ((_ :: _) as kept) =>
          match JsArray.sortThrowing byLiquidity kept with
          | Some (best :: _) => answerOf best
          | _ => None
          end
      | _ => None
      end
  | _ => None
  end.

Definition fetchTokenData (mint : DexScreener.Mint) (w : World)
    : option TokenAnswer.t * World :=
  match fetchJSON mint w with
  | (Return data, w') => (readPairs data, w')
  | (Throw _, w') => (None, w')
  end.

End Fetch.
End DexFetch.

(** ** Further sample data *)

Module Scenarios.

(** The task of [Samples.withTask] as [createTask] stored it. *)
Definition pendingTask : AgentTask.t :=
  AgentTask.mk Samples.idTask Samples.idX Samples.idSkill "check balance" []
    TaskStatus.pending VUndef None None Samples.t0 None None.

(** The task is started, completed, and asked to run again. *)
Definition restarted : list RegistryOps.Op :=
  [ RegistryOps.UpdateTaskStatus Samples.t1 Samples.idTask TaskStatus.running VUndef None;
    RegistryOps.UpdateTaskStatus Samples.t2 Samples.idTask TaskStatus.completed
      (VStr "Balance: 1.5 SOL") None;
    RegistryOps.UpdateTaskStatus (Samples.t2 + 5000) Samples.idTask TaskStatus.running
      VUndef None ].

Definition idTask2 : string := "77e1d2c3b4a5968778695a4b3c2d1e0f".

(** Three requests for the balance checker of [Samples.manager]: a known
    address, no address, an unknown address. *)
Definition requests : list SkillRuns.Exec :=
  [ (Samples.idSkill, [("address", VStr "7xKXtg2CW87d97TXJSDpbD5jBkheTqA83TZRuJosgAsU")]);
    (Samples.idSkill, []);
    (Samples.idSkill, [("address", VStr "unknown")]) ].

(** The balance checker as the registry stores it. *)
Definition storedChecker : AgentSkill.t :=
  AgentSkill.mk Samples.idSkill "Balance Checker"
    "Check SOL and SPL token balances for any wallet"
    SkillCategory.analytics None None "checkBalance"
    [SkillParameter.mk "address" ParamType.address "Solana wallet address" true VUndef]
    None None (JsNum.of_Z 0) (JsNum.of_Z 0).

(** An initialized facade: agent X is registered and the skill manager
    holds the balance checker. *)
Definition protocol : SAPProtocol.t Samples.World :=
  SAPProtocol.mk
    (SkillManager.mk
       (snd (SAPRegistry.registerAgent Samples.idX Samples.t0 Samples.agentX
               (SkillManager.registry Samples.manager)))
       (SkillManager.skillHandlers Samples.manager))
    true.

(** Agent X as the registry stores it. *)
Definition storedX : AgentProfile.t :=
  AgentProfile.mk Samples.idX "X" "A local agent" "1.0.0" None None None None None None
    None [] (JsNum.of_Z 0) (JsNum.of_Z 0) (JsNum.of_Z 100) Samples.t0 Samples.t0 None None.

(** Ten identifiers as [generateAgentId] draws them, one registration a
    millisecond. *)
Definition seedIds : list string :=
  [ "a0f1e2d3c4b5a69788796a5b4c3d2e1f"; "b1a2f3e4d5c6b7a8998a7b6c5d4e3f20";
    "c2b3a4f5e6d7c8b9a09b8c7d6e5f4031"; "d3c4b5a6f7e8d9c0b1ac9d8e7f605142";
    "e4d5c6b7a8f9e0d1c2bdae9f80716253"; "f5e6d7c8b9a0f1e2d3cebfa091827364";
    "06f7e8d9c0b1a2f3e4dfc0b1a2938475"; "1708f9e0d1c2b3a4f5e0d1c2b3a49586";
    "281900f1e2d3c4b5a6f1e2d3c4b5a697"; "392a1102f3e4d5c6b7a2f3e4d5c6b7a8" ].

Definition drawSeed (i : nat) : string * Z :=
  (nth i seedIds "", Samples.t0 + Z.of_nat i).

(** BonkBot as stored, with a link to a repository that the sample
    source-control API does not know. *)
Definition linkedBonk : AgentProfile.t :=
  AgentProfile.mk Samples.idBonk "BonkBot"
    "Telegram trading bot for Solana with 300k+ active users."
    "3.1.0" None (Some "https://t.me/bonkbot_bot")
    (Some "https://github.com/bonkbot/telegram-bot")
    (Some "https://twitter.com/bonkbot_io") (Some AgentCategory.trading)
    (Some ["trading"; "telegram"]) (Some true)
    (Samples.capabilitiesOf "3.1.0" ["Token Swaps"; "Limit Orders"])
    (JsNum.of_Z 89) (JsNum.of_Z 5800000) (Fin 96.8) Samples.t0 Samples.t0 None None.

(** BonkBot with its handle in place of a link, and a source-control API
    that refuses every request after 200 ms. *)
Definition handleBonk : AgentProfile.t :=
  AgentProfile.mk Samples.idBonk "BonkBot"
    "Telegram trading bot for Solana with 300k+ active users."
    "3.1.0" None (Some "https://t.me/bonkbot_bot")
    (Some "bonkbot")
    (Some "https://twitter.com/bonkbot_io") (Some AgentCategory.trading)
    (Some ["trading"; "telegram"]) (Some true)
    (Samples.capabilitiesOf "3.1.0" ["Token Swaps"; "Limit Orders"])
    (JsNum.of_Z 89) (JsNum.of_Z 5800000) (Fin 96.8) Samples.t0 Samples.t0 None None.

Definition refusedRepoInfo (repo : string) (w : Z) : Completion RepoInfo.t * Z :=
  (Throw "GitHub API 403", w + 200).

Definition refusedRelease (repo : string) (w : Z) : option string * Z :=
  (None, w + 200).

Definition refusedCommits (repo : string) (w : Z) : number * Z :=
  (JsNum.of_Z 0, w + 200).

(** The text of a document that holds a version number and nothing
    else. *)
Definition versionOnlyText : string := Json.text "{'version':2}".

(** An answer of the market-data API for the BONK mint: one pair on
    another chain and three pairs on Solana, the last without liquidity. *)
Definition ethereumPair : Bag :=
  [ ("chainId", VStr "ethereum"); ("dexId", VStr "uniswap");
    ("pairAddress", VStr "0x4d5f47fa6a74757f35c14fd3a6ef8e3c9bc514e8");
    ("baseToken", VObj [("symbol", VStr "BONK")]);
    ("priceUsd", VStr "0.00002133");
    ("liquidity", VObj [("usd", VNum (JsNum.of_Z 9000000))]) ].

Definition raydiumPair : Bag :=
  [ ("chainId", VStr "solana"); ("dexId", VStr "raydium");
    ("pairAddress", VStr "HVNwzt7Pxfu76KHCMQPTLuTCLTm6WnQ1esLv4eizseSv");
    ("baseToken", VObj [("symbol", VStr "Bonk")]);
    ("priceUsd", VStr "0.00002134");
    ("priceChange", VObj [("h24", VNum (Fin (-3.2)))]);
    ("volume", VObj [("h24", VNum (JsNum.of_Z 12500000))]);
    ("liquidity", VObj [("usd", VNum (JsNum.of_Z 4100000))]) ].

Definition orcaPair : Bag :=
  [ ("chainId", VStr "solana"); ("dexId", VStr "orca");
    ("pairAddress", VStr "3ne4mWqdYuNiYrYZC9TrA3FcfuFdErghH97vNPbjicr1");
    ("baseToken", VObj [("symbol", VStr "Bonk")]);
    ("priceUsd", VStr "0.00002135");
    ("priceChange", VObj [("h24", VNum (Fin (-3.1)))]);
    ("liquidity", VObj [("usd", VNum (JsNum.of_Z 6200000))]) ].

Definition newPair : Bag :=
  [ ("chainId", VStr "solana"); ("dexId", VStr "meteora");
    ("pairAddress", VStr "6oFWm7KPLfxnwMb3z5xwBoXNSPP3JJyirAPqPSiVcnsp") ].

Definition bonkPairs : list jsval :=
  [VObj ethereumPair; VObj raydiumPair; VObj orcaPair; VObj newPair].

Definition bonkAnswer : jsval :=
  VObj [("schemaVersion", VStr "1.0.0"); ("pairs", VArr bonkPairs)].

(** An answer without a pair on Solana. *)
Definition ethereumAnswer : jsval :=
  VObj [("schemaVersion", VStr "1.0.0"); ("pairs", VArr [VObj ethereumPair])].

(** A request that is answered with [data] after 400 ms. *)
Definition answering (data : jsval) (mint : DexScreener.Mint) (w : Z)
    : Completion jsval * Z :=
  (Return data, w + 400).

(** The two conversions on the values of [bonkAnswer]: a number is read
    as it is, the price of the Orca pair as its decimal value. *)
Definition numberOf (v : jsval) : option number :=
  match v with
  | VNum n => Some n
  | _ => Some NaN
  end.

Definition priceOf (v : jsval) : option number :=
  match v with
  | VNum n => Some n
  | VStr s => Some (if String.eqb s "0.00002135" then Fin 0.00002135 else NaN)
  | _ => Some NaN
  end.

(** An external agent announced with a reputation of 150. *)
Definition overrated : AgentProfile.t :=
  AgentProfile.mk "" "Overrated Bot" "An agent that rates itself." "0.1.0" None
    None None None (Some AgentCategory.other) None (Some true) []
    (JsNum.of_Z 150) (JsNum.of_Z 10) (JsNum.of_Z 100) 0 0 None None.

(** [Number::toString] on the whole numbers below 10^40, which are the
    numbers of the sample registries; no other number is given a text. *)
Fixpoint wholeDigits (fuel : nat) (n : Z) (acc : string) : string :=
  match fuel with
  | O => acc
  | S fuel' =>
      let acc' := String (JsDate.digit n) acc in
      if n <? 10 then acc' else wholeDigits fuel' (n / 10) acc'
  end.

Definition wholeText (n : number) : string :=
  match n with
  | Fin q =>
      if negb (Zpos (Qden q) =? 1) then ""
      else if Qnum q <? 0 then "-" +:+ wholeDigits 40 (- Qnum q) ""
      else wholeDigits 40 (Qnum q) ""
  | _ => ""
  end.

(** The task of [Samples.withTask] completed with a BigInt as result. *)
Definition countedInBigInt : AgentRegistry.t :=
  SAPRegistry.updateTaskStatus Samples.t1 Samples.idTask TaskStatus.completed
    (VBigInt 1) None Samples.withTask.

(** A document with two agent entries, the first without a key and the
    second under the key null. *)
Definition mixedKeysText : string :=
  Json.text "{'agents':[[],[null,1]],'skills':[],'tasks':[]}".

(** The repository of Solana Agent Kit some days later: more stars, more
    commits, a later push. *)
Definition kitStatsLater : GitHubStats.t :=
  GitHubStats.mk "sendaifun/solana-agent-kit" (JsNum.of_Z 2100) (JsNum.of_Z 760)
    (JsNum.of_Z 88) "2026-10-31T09:30:00Z" (Some "v2.0.2") (JsNum.of_Z 44).

(** A failure reported for agent X, the registration of another agent,
    and the completion of the task of agent X. *)
Definition busyDay : list RegistryOps.Op :=
  [ RegistryOps.UpdateReputation Samples.t1 Samples.idX false;
    RegistryOps.RegisterExternalAgent Samples.idBonk Samples.t1 Samples.bonkBot;
    RegistryOps.UpdateTaskStatus Samples.t2 Samples.idTask TaskStatus.completed
      (VStr "Balance: 1.5 SOL") None ].

End Scenarios.

(* ================================================================== *)
(** * Part II: properties *)
(* ================================================================== *)

(** ** Numbers *)

Module JsNumFacts.

Lemma Qle_bool_false (a b : Q) : Qle_bool a b = false -> (b < a)%Q.
Proof.
  intros H. apply Qnot_le_lt. intros Hle.
  apply Qle_bool_iff in Hle. congruence.
Qed.

Lemma within_of_Z (lo hi : Q) (z : Z) :
  (lo <= inject_Z z)%Q -> (inject_Z z <= hi)%Q -> JsNum.within lo hi (JsNum.of_Z z).
Proof. intros; split; assumption. Qed.

(** [Math.min(100, x + 1)] of a value in range is in range. *)
Lemma min_succ_within (x : number) :
  JsNum.within 0 100 x ->
  JsNum.within 0 100 (JsNum.min (JsNum.of_Z 100) (JsNum.add x (JsNum.of_Z 1))).
Proof.
  destruct x as [q| | |]; simpl; try tauto.
  intros [Hlo Hhi].
  pose proof (Qred_correct (q + inject_Z 1)) as Hred.
  destruct (Qle_bool (inject_Z 100) (Qred (q + inject_Z 1))) eqn:E; simpl.
  - split; unfold inject_Z; lra.
  - apply Qle_bool_false in E. unfold inject_Z in *. split; lra.
Qed.

(** [Math.max(0, x - 2)] of a value in range is in range. *)
Lemma max_pred_within (x : number) :
  JsNum.within 0 100 x ->
  JsNum.within 0 100 (JsNum.max (JsNum.of_Z 0) (JsNum.sub x (JsNum.of_Z 2))).
Proof.
  destruct x as [q| | |]; simpl; try tauto.
  intros [Hlo Hhi].
  pose proof (Qred_correct (- inject_Z 2)) as Hneg.
  pose proof (Qred_correct (q + Qred (- inject_Z 2))) as Hred.
  destruct (Qle_bool (inject_Z 0) (Qred (q + Qred (- inject_Z 2)))) eqn:E; simpl.
  - apply Qle_bool_iff in E. unfold inject_Z in *. split; lra.
  - unfold inject_Z. split; lra.
Qed.

(** The upper clamp alone: a success never leaves a value above 100. *)
Lemma min_succ_upper (x : number) :
  match JsNum.min (JsNum.of_Z 100) (JsNum.add x (JsNum.of_Z 1)) with
  | Fin q => (q <= 100)%Q
  | NaN => x = NaN
  | PosInf => False
  | NegInf => x = NegInf
  end.
Proof.
  destruct x as [q| | |]; simpl; try reflexivity; try (unfold inject_Z; lra).
  destruct (Qle_bool (inject_Z 100) (Qred (q + inject_Z 1))) eqn:E; simpl.
  - unfold inject_Z; lra.
  - apply Qle_bool_false in E. unfold inject_Z in *. lra.
Qed.

End JsNumFacts.

(** ** Maps *)

Module JsMapFacts.
Section Facts.
Context {V : Type}.
Implicit Types (m : list (string * V)) (k : string) (v : V).

Lemma get_set_eq m k v : JsMap.get k (JsMap.set k v m) = Some v.
Proof.
  induction m as [|[k' v'] m IH]; simpl.
  - now rewrite String.eqb_refl.
  - destruct (String.eqb k k') eqn:E; simpl.
    + now rewrite String.eqb_refl.
    + now rewrite E.
Qed.

Lemma get_set_ne m k k' v : k <> k' -> JsMap.get k' (JsMap.set k v m) = JsMap.get k' m.
Proof.
  intros Hne. induction m as [|[k0 v0] m IH]; simpl.
  - destruct (String.eqb k' k) eqn:E; [|reflexivity].
    apply String.eqb_eq in E. congruence.
  - destruct (String.eqb k k0) eqn:E; simpl.
    + apply String.eqb_eq in E. subst k0.
      destruct (String.eqb k' k) eqn:E'; [|reflexivity].
      apply String.eqb_eq in E'. congruence.
    + now rewrite IH.
Qed.

(** Writing to a key that is present keeps the keys and their order. *)
Lemma keys_set_present m k v v0 :
  JsMap.get k m = Some v0 -> JsMap.keys (JsMap.set k v m) = JsMap.keys m.
Proof.
  induction m as [|[k' v'] m IH]; simpl; [discriminate|].
  destruct (String.eqb k k') eqn:E; simpl.
  - apply String.eqb_eq in E. now subst.
  - intros H. unfold JsMap.keys in *. simpl. f_equal. now apply IH.
Qed.

Lemma keys_set_absent m k v :
  JsMap.get k m = None -> JsMap.keys (JsMap.set k v m) = JsMap.keys m ++ [k].
Proof.
  induction m as [|[k' v'] m IH]; simpl; [reflexivity|].
  destruct (String.eqb k k') eqn:E; [discriminate|].
  intros H. unfold JsMap.keys in *. simpl. f_equal. now apply IH.
Qed.

Lemma get_None_keys m k : JsMap.get k m = None -> ~ In k (JsMap.keys m).
Proof.
  induction m as [|[k' v'] m IH]; simpl; [tauto|].
  destruct (String.eqb k k') eqn:E; [discriminate|].
  intros H [Heq|Hin].
  - subst. rewrite String.eqb_refl in E. discriminate.
  - now apply IH.
Qed.

Lemma wf_set m k v : JsMap.wf m -> JsMap.wf (JsMap.set k v m).
Proof.
  unfold JsMap.wf. intros Hwf.
  destruct (JsMap.get k m) as [v0|] eqn:E.
  - now rewrite (keys_set_present _ _ _ _ E).
  - rewrite (keys_set_absent _ _ _ E).
    apply NoDup_app; repeat split; auto.
    + intros x Hin Hx. apply list_elem_of_In in Hx. simpl in Hx.
      destruct Hx as [<-|[]]. apply list_elem_of_In in Hin.
      now apply (get_None_keys _ _ E).
    + apply NoDup_singleton.
Qed.

Lemma size_set_present m k v v0 :
  JsMap.get k m = Some v0 -> JsMap.size (JsMap.set k v m) = JsMap.size m.
Proof.
  intros H. unfold JsMap.size.
  rewrite <- (length_map fst (JsMap.set k v m)), <- (length_map fst m).
  change (map fst (JsMap.set k v m)) with (JsMap.keys (JsMap.set k v m)).
  now rewrite (keys_set_present _ _ _ _ H).
Qed.

Lemma get_In m k v : JsMap.get k m = Some v -> In (k, v) m.
Proof.
  induction m as [|[k' v'] m IH]; simpl; [discriminate|].
  destruct (String.eqb_spec k k') as [->|Hne].
  - intros [= ->]. now left.
  - intros H. right. now apply IH.
Qed.

Lemma In_get m k v : JsMap.wf m -> In (k, v) m -> JsMap.get k m = Some v.
Proof.
  unfold JsMap.wf, JsMap.keys.
  induction m as [|[k' v'] m IH]; simpl; [tauto|].
  intros Hwf [Heq|Hin].
  - injection Heq as -> ->. now rewrite String.eqb_refl.
  - apply NoDup_cons in Hwf as [Hnotin Hwf].
    destruct (String.eqb_spec k k') as [->|Hne].
    + exfalso. apply Hnotin. apply list_elem_of_In.
      change k' with (fst (k', v)). now apply in_map.
    + now apply IH.
Qed.

End Facts.
End JsMapFacts.

(** ** The registry *)

Module RegistryFacts.

Import JsMapFacts Calls.

(** *** updateReputation *)

Lemma updateReputation_unknown now agentId taskSuccess r :
  SAPRegistry.getAgent agentId r = None ->
  SAPRegistry.updateReputation now agentId taskSuccess r = r.
Proof.
  unfold SAPRegistry.getAgent, SAPRegistry.updateReputation.
  now intros ->.
Qed.

Lemma updateReputation_known now agentId taskSuccess r agent :
  SAPRegistry.getAgent agentId r = Some agent ->
  SAPRegistry.updateReputation now agentId taskSuccess r =
  AgentRegistry.mk
    (JsMap.set agentId
       (AgentProfile.with_stats agent
          (JsNum.incr (AgentProfile.tasksCompleted agent))
          (SAPRegistry.nextReputation taskSuccess (AgentProfile.reputation agent))
          (JsNum.mul
             (JsNum.div
                (SAPRegistry.nextReputation taskSuccess (AgentProfile.reputation agent))
                (JsNum.incr (AgentProfile.tasksCompleted agent)))
             (JsNum.of_Z 100))
          now)
       (AgentRegistry.agents r))
    (AgentRegistry.skills r) (AgentRegistry.tasks r).
Proof.
  unfold SAPRegistry.getAgent, SAPRegistry.updateReputation.
  now intros ->.
Qed.

Lemma updateReputation_other now agentId taskSuccess r other :
  other <> agentId ->
  SAPRegistry.getAgent other (SAPRegistry.updateReputation now agentId taskSuccess r)
  = SAPRegistry.getAgent other r.
Proof.
  intros Hne. unfold SAPRegistry.getAgent, SAPRegistry.updateReputation.
  destruct (JsMap.get agentId (AgentRegistry.agents r)) eqn:E; [|reflexivity].
  simpl. apply get_set_ne. congruence.
Qed.

Lemma updateReputation_skills_tasks now agentId taskSuccess r :
  AgentRegistry.skills (SAPRegistry.updateReputation now agentId taskSuccess r)
    = AgentRegistry.skills r
  /\ AgentRegistry.tasks (SAPRegistry.updateReputation now agentId taskSuccess r)
    = AgentRegistry.tasks r.
Proof.
  unfold SAPRegistry.updateReputation.
  destruct (JsMap.get agentId (AgentRegistry.agents r)); split; reflexivity.
Qed.

(** C9.  [updateReputation] leaves the store unchanged for an unknown
    identifier.  For a known one the stored agent has its task counter
    increased by one, its reputation set to min(100, reputation + 1) after
    a success and to max(0, reputation - 2) after a failure, its success
    rate set to the new reputation divided by the new task counter, times
    100, and its last-active time set to the clock reading; its other
    fields, the other agents, the skills and the tasks are as before. *)
Theorem updateReputation_postcondition now agentId taskSuccess r :
  let r' := SAPRegistry.updateReputation now agentId taskSuccess r in
  match SAPRegistry.getAgent agentId r with
  | None => r' = r
  | Some agent =>
      exists agent',
        SAPRegistry.getAgent agentId r' = Some agent'
        /\ AgentProfile.tasksCompleted agent'
           = JsNum.add (AgentProfile.tasksCompleted agent) (JsNum.of_Z 1)
        /\ AgentProfile.reputation agent'
           = (if taskSuccess
              then JsNum.min (JsNum.of_Z 100)
                     (JsNum.add (AgentProfile.reputation agent) (JsNum.of_Z 1))
              else JsNum.max (JsNum.of_Z 0)
                     (JsNum.sub (AgentProfile.reputation agent) (JsNum.of_Z 2)))
        /\ AgentProfile.successRate agent'
           = JsNum.mul
               (JsNum.div (AgentProfile.reputation agent')
                          (AgentProfile.tasksCompleted agent'))
               (JsNum.of_Z 100)
        /\ AgentProfile.lastActive agent' = now
        /\ agent' = AgentProfile.with_stats agent
                      (AgentProfile.tasksCompleted agent')
                      (AgentProfile.reputation agent')
                      (AgentProfile.successRate agent') now
        /\ (forall other, other <> agentId ->
              SAPRegistry.getAgent other r' = SAPRegistry.getAgent other r)
        /\ JsMap.keys (AgentRegistry.agents r') = JsMap.keys (AgentRegistry.agents r)
        /\ AgentRegistry.skills r' = AgentRegistry.skills r
        /\ AgentRegistry.tasks r' = AgentRegistry.tasks r
  end.
Proof.
  intros r'. subst r'.
  destruct (SAPRegistry.getAgent agentId r) as [agent|] eqn:E.
  - rewrite (updateReputation_known _ _ _ _ _ E).
    eexists. split.
    + unfold SAPRegistry.getAgent. simpl. apply get_set_eq.
    + simpl. repeat split; try reflexivity.
      * intros other Hne. unfold SAPRegistry.getAgent. simpl.
        apply get_set_ne. congruence.
      * eapply keys_set_present. exact E.
  - now apply updateReputation_unknown.
Qed.

(** The success rate in plain arithmetic, for finite values. *)
Lemma successRate_value now agentId taskSuccess r agent rep done agent' :
  SAPRegistry.getAgent agentId r = Some agent ->
  SAPRegistry.nextReputation taskSuccess (AgentProfile.reputation agent) = Fin rep ->
  AgentProfile.tasksCompleted agent = Fin done ->
  ~ (done + 1 == 0)%Q ->
  SAPRegistry.getAgent agentId (SAPRegistry.updateReputation now agentId taskSuccess r)
    = Some agent' ->
  JsNum.same (AgentProfile.successRate agent') (Fin (rep / (done + 1) * 100)).
Proof.
  intros E Hrep Hdone Hnz.
  rewrite (updateReputation_known _ _ _ _ _ E).
  unfold SAPRegistry.getAgent. simpl. rewrite get_set_eq.
  intros [= <-]. simpl. rewrite Hrep, Hdone. simpl.
  pose proof (Qred_correct (done + inject_Z 1)) as Hd.
  destruct (Qeq_bool (Qred (done + inject_Z 1)) 0) eqn:Ez.
  - apply Qeq_bool_iff in Ez. exfalso. apply Hnz.
    rewrite <- Ez, Hd. unfold inject_Z. reflexivity.
  - simpl. rewrite !Qred_correct. unfold inject_Z. reflexivity.
Qed.

(** *** The reputation stays in range *)

Lemma nextReputation_within taskSuccess rep :
  JsNum.within 0 100 rep ->
  JsNum.within 0 100 (SAPRegistry.nextReputation taskSuccess rep).
Proof.
  destruct taskSuccess; simpl.
  - apply JsNumFacts.min_succ_within.
  - apply JsNumFacts.max_pred_within.
Qed.

Lemma runCall_in_range agentId r c :
  reputationInRange agentId r -> reputationInRange agentId (runCall r c).
Proof.
  destruct c as [[now target] taskSuccess]. intros (agent & Hget & Hin). simpl.
  destruct (String.eqb_spec target agentId) as [->|Hne].
  - rewrite (updateReputation_known _ _ _ _ _ Hget).
    eexists. split.
    + unfold SAPRegistry.getAgent. simpl. apply get_set_eq.
    + simpl. now apply nextReputation_within.
  - exists agent. split; [|assumption].
    rewrite updateReputation_other; [assumption|congruence].
Qed.



(** Outside the range the lower clamp does not bring a value back: a
    failure takes 150 to 148. *)
Example failure_from_150 :
  SAPRegistry.nextReputation false (JsNum.of_Z 150) = JsNum.of_Z 148.
Proof. reflexivity. Qed.


(** *** registerAgent and registerExternalAgent *)

(** C7, counterexample.  [registerAgent] is given the seeded profile of
    Solana Agent Kit (reputation 91, 48200 tasks, success rate 97.4): the
    stored profile has reputation 0, no task and success rate 100. *)
Lemma registerAgent_resets_supplied_stats :
  exists stored,
    SAPRegistry.getAgent Samples.idKit
      (snd (SAPRegistry.registerAgent Samples.idKit Samples.t0
              Samples.solanaAgentKit SAPRegistry.empty)) = Some stored
    /\ AgentProfile.reputation Samples.solanaAgentKit = JsNum.of_Z 91
    /\ AgentProfile.reputation stored = JsNum.of_Z 0
    /\ AgentProfile.reputation stored <> AgentProfile.reputation Samples.solanaAgentKit
    /\ AgentProfile.tasksCompleted stored
       <> AgentProfile.tasksCompleted Samples.solanaAgentKit
    /\ AgentProfile.successRate stored
       <> AgentProfile.successRate Samples.solanaAgentKit.
Proof.
  eexists. split; [reflexivity|].
  repeat split; try reflexivity; cbv; intros [=].
Qed.

(** C7, as the code has it.  Both registrations always succeed: they
    return the drawn identifier and store under it the caller's profile with
    that identifier and both timestamps set to the clock reading, leaving
    every other entry, the skills and the tasks as they were.
    [registerAgent] sets reputation 0, task counter 0 and success rate 100
    whatever the caller supplied; [registerExternalAgent] keeps the three
    supplied values. *)
Theorem registration_defaulting agentId now profile r :
  let plain := SAPRegistry.registerAgent agentId now profile r in
  let external := SAPRegistry.registerExternalAgent agentId now profile r in
  let stamped reputation tasksCompleted successRate :=
    AgentProfile.mk agentId
      (AgentProfile.name profile) (AgentProfile.description profile)
      (AgentProfile.version profile) (AgentProfile.publicKey profile)
      (AgentProfile.website profile) (AgentProfile.github profile)
      (AgentProfile.twitter profile) (AgentProfile.category profile)
      (AgentProfile.tags profile) (AgentProfile.isExternal profile)
      (AgentProfile.capabilities profile)
      reputation tasksCompleted successRate now now
      (AgentProfile.pricing profile) (AgentProfile.liveData profile) in
  fst plain = agentId
  /\ SAPRegistry.getAgent agentId (snd plain)
     = Some (stamped (JsNum.of_Z 0) (JsNum.of_Z 0) (JsNum.of_Z 100))
  /\ fst external = agentId
  /\ SAPRegistry.getAgent agentId (snd external)
     = Some (stamped (AgentProfile.reputation profile)
                     (AgentProfile.tasksCompleted profile)
                     (AgentProfile.successRate profile))
  /\ (forall other, other <> agentId ->
        SAPRegistry.getAgent other (snd plain) = SAPRegistry.getAgent other r
        /\ SAPRegistry.getAgent other (snd external) = SAPRegistry.getAgent other r)
  /\ AgentRegistry.skills (snd plain) = AgentRegistry.skills r
  /\ AgentRegistry.tasks (snd plain) = AgentRegistry.tasks r
  /\ AgentRegistry.skills (snd external) = AgentRegistry.skills r
  /\ AgentRegistry.tasks (snd external) = AgentRegistry.tasks r.
Proof.
  simpl. unfold SAPRegistry.getAgent. simpl.
  rewrite !get_set_eq.
  repeat split; try reflexivity;
    apply get_set_ne; congruence.
Qed.

(** *** updateTaskStatus *)

Lemma countUsage_agents_tasks skillId r :
  AgentRegistry.agents (SAPRegistry.countUsage skillId r) = AgentRegistry.agents r
  /\ AgentRegistry.tasks (SAPRegistry.countUsage skillId r) = AgentRegistry.tasks r.
Proof.
  unfold SAPRegistry.countUsage.
  destruct (JsMap.get skillId (AgentRegistry.skills r)); split; reflexivity.
Qed.

(** The scenarios of the register-then-complete flow. *)
Example complete_once :
  AgentProfile.tasksCompleted <$> SAPRegistry.getAgent Samples.idX Samples.completedOnce
    = Some (JsNum.of_Z 1)
  /\ AgentProfile.reputation <$> SAPRegistry.getAgent Samples.idX Samples.completedOnce
    = Some (JsNum.of_Z 1)
  /\ AgentSkill.usageCount <$> SAPRegistry.getSkill Samples.idSkill Samples.completedOnce
    = Some (JsNum.of_Z 1).
Proof. repeat split; reflexivity. Qed.

Example fail_once :
  let r := SAPRegistry.updateTaskStatus Samples.t1 Samples.idTask TaskStatus.failed
             VUndef (Some "Command failed") Samples.withTask in
  AgentProfile.tasksCompleted <$> SAPRegistry.getAgent Samples.idX r = Some (JsNum.of_Z 1)
  /\ AgentProfile.reputation <$> SAPRegistry.getAgent Samples.idX r = Some (JsNum.of_Z 0)
  /\ AgentSkill.usageCount <$> SAPRegistry.getSkill Samples.idSkill r = Some (JsNum.of_Z 1).
Proof. repeat split; reflexivity. Qed.

(** C1, counterexample.  The task of the sample registry is completed;
    marking it failed afterwards counts a second task for the agent, takes
    its reputation from 1 to 0 and counts a second use of the skill, and
    the task leaves its terminal status for any status asked for. *)
Lemma terminal_task_updated_again :
  let r := Samples.completedOnce in
  let r' := SAPRegistry.updateTaskStatus Samples.t2 Samples.idTask TaskStatus.failed
              VUndef (Some "Command failed") r in
  let back := SAPRegistry.updateTaskStatus Samples.t2 Samples.idTask TaskStatus.pending
                VUndef None r in
  AgentTask.status <$> SAPRegistry.getTask Samples.idTask r = Some TaskStatus.completed
  /\ AgentProfile.tasksCompleted <$> SAPRegistry.getAgent Samples.idX r
     = Some (JsNum.of_Z 1)
  /\ AgentProfile.tasksCompleted <$> SAPRegistry.getAgent Samples.idX r'
     = Some (JsNum.of_Z 2)
  /\ AgentProfile.reputation <$> SAPRegistry.getAgent Samples.idX r = Some (JsNum.of_Z 1)
  /\ AgentProfile.reputation <$> SAPRegistry.getAgent Samples.idX r' = Some (JsNum.of_Z 0)
  /\ AgentSkill.usageCount <$> SAPRegistry.getSkill Samples.idSkill r
     = Some (JsNum.of_Z 1)
  /\ AgentSkill.usageCount <$> SAPRegistry.getSkill Samples.idSkill r'
     = Some (JsNum.of_Z 2)
  /\ AgentTask.status <$> SAPRegistry.getTask Samples.idTask r' = Some TaskStatus.failed
  /\ AgentTask.status <$> SAPRegistry.getTask Samples.idTask back
     = Some TaskStatus.pending.
Proof. repeat split; reflexivity. Qed.

(** C1, as the code has it.  [updateTaskStatus] does not look at the
    status the task has.  On a known task every call stores the status
    asked for; a call with [completed] or [failed] also stores the
    completion time, the result and the error, applies one reputation
    update to the owning agent and counts one use of the target skill,
    each time it is made. *)
Theorem updateTaskStatus_effects now taskId status result error r task :
  SAPRegistry.getTask taskId r = Some task ->
  let r' := SAPRegistry.updateTaskStatus now taskId status result error r in
  let stored :=
    AgentRegistry.mk (AgentRegistry.agents r) (AgentRegistry.skills r)
      (JsMap.set taskId (SAPRegistry.updatedTask now status result error task)
         (AgentRegistry.tasks r)) in
  (AgentTask.status <$> SAPRegistry.getTask taskId r' = Some status)
  /\ (TaskStatus.terminal status = false -> r' = stored)
  /\ (TaskStatus.terminal status = true ->
        r' = SAPRegistry.countUsage (AgentTask.skillId task)
               (SAPRegistry.updateReputation now (AgentTask.agentId task)
                  (TaskStatus.eqb status TaskStatus.completed) stored)
        /\ (forall agent,
              SAPRegistry.getAgent (AgentTask.agentId task) r = Some agent ->
              exists agent',
                SAPRegistry.getAgent (AgentTask.agentId task) r' = Some agent'
                /\ AgentProfile.tasksCompleted agent'
                   = JsNum.incr (AgentProfile.tasksCompleted agent)
                /\ AgentProfile.reputation agent'
                   = SAPRegistry.nextReputation
                       (TaskStatus.eqb status TaskStatus.completed)
                       (AgentProfile.reputation agent))
        /\ (forall skill,
              SAPRegistry.getSkill (AgentTask.skillId task) r = Some skill ->
              exists skill',
                SAPRegistry.getSkill (AgentTask.skillId task) r' = Some skill'
                /\ AgentSkill.usageCount skill'
                   = JsNum.incr (AgentSkill.usageCount skill))
        /\ exists task',
             SAPRegistry.getTask taskId r' = Some task'
             /\ AgentTask.completedAt task' = Some now
             /\ AgentTask.result task' = result
             /\ AgentTask.error task' = error).
Proof.
  intros Hget r' stored.
  assert (Hr' : r' = if TaskStatus.terminal status
                     then SAPRegistry.countUsage (AgentTask.skillId task)
                            (SAPRegistry.updateReputation now (AgentTask.agentId task)
                               (TaskStatus.eqb status TaskStatus.completed) stored)
                     else stored).
  { subst r' stored. unfold SAPRegistry.updateTaskStatus.
    unfold SAPRegistry.getTask in Hget. now rewrite Hget. }
  assert (Htasks : AgentRegistry.tasks r' = AgentRegistry.tasks stored).
  { rewrite Hr'. destruct (TaskStatus.terminal status); [|reflexivity].
    rewrite (proj2 (countUsage_agents_tasks _ _)).
    apply (proj2 (updateReputation_skills_tasks _ _ _ _)). }
  assert (Htask : SAPRegistry.getTask taskId r'
                  = Some (SAPRegistry.updatedTask now status result error task)).
  { unfold SAPRegistry.getTask. rewrite Htasks. subst stored. simpl.
    apply get_set_eq. }
  split; [|split].
  - rewrite Htask. simpl. unfold SAPRegistry.updatedTask.
    destruct (TaskStatus.terminal status); reflexivity.
  - intros Hterm. now rewrite Hr', Hterm.
  - intros Hterm. rewrite Hterm in Hr'. split; [exact Hr'|]. split; [|split].
    + intros agent Hagent.
      set (u := SAPRegistry.updateReputation now (AgentTask.agentId task)
                  (TaskStatus.eqb status TaskStatus.completed) stored) in *.
      assert (Hu : AgentRegistry.agents r' = AgentRegistry.agents u).
      { rewrite Hr'. apply (proj1 (countUsage_agents_tasks _ _)). }
      unfold SAPRegistry.getAgent. rewrite Hu. subst u.
      rewrite (updateReputation_known _ _ _ stored agent Hagent). simpl.
      rewrite get_set_eq. eexists. split; [reflexivity|]. split; reflexivity.
    + intros skill Hskill.
      assert (Hs : SAPRegistry.getSkill (AgentTask.skillId task)
                     (SAPRegistry.updateReputation now (AgentTask.agentId task)
                        (TaskStatus.eqb status TaskStatus.completed) stored)
                   = Some skill).
      { unfold SAPRegistry.getSkill.
        rewrite (proj1 (updateReputation_skills_tasks _ _ _ _)). exact Hskill. }
      rewrite Hr'. unfold SAPRegistry.countUsage.
      unfold SAPRegistry.getSkill in Hs. rewrite Hs.
      unfold SAPRegistry.getSkill. simpl. rewrite get_set_eq.
      eexists. split; [reflexivity|]. reflexivity.
    + eexists. split; [exact Htask|]. unfold SAPRegistry.updatedTask.
      rewrite Hterm. simpl. repeat split; reflexivity.
Qed.

(** The completed task of the sample registry, marked failed: the agent
    and the skill are counted once more. *)
Lemma updateTaskStatus_effects_witness :
  let r' := SAPRegistry.updateTaskStatus Samples.t2 Samples.idTask TaskStatus.failed
              VUndef (Some "Command failed") Samples.completedOnce in
  AgentTask.status <$> SAPRegistry.getTask Samples.idTask Samples.completedOnce
    = Some TaskStatus.completed
  /\ AgentTask.status <$> SAPRegistry.getTask Samples.idTask r' = Some TaskStatus.failed
  /\ (exists agent',
        SAPRegistry.getAgent Samples.idX r' = Some agent'
        /\ AgentProfile.tasksCompleted agent' = JsNum.incr (JsNum.of_Z 1))
  /\ (exists skill',
        SAPRegistry.getSkill Samples.idSkill r' = Some skill'
        /\ AgentSkill.usageCount skill' = JsNum.incr (JsNum.of_Z 1)).
Proof.
  destruct (updateTaskStatus_effects Samples.t2 Samples.idTask TaskStatus.failed
              VUndef (Some "Command failed") Samples.completedOnce _ eq_refl)
    as (Hstatus & _ & Hterminal).
  destruct (Hterminal eq_refl) as (_ & Hagent & Hskill & _).
  split; [reflexivity|]. split; [exact Hstatus|]. split.
  - destruct (Hagent _ eq_refl) as (agent' & Hget & Hdone & _).
    exists agent'. split; [exact Hget|exact Hdone].
  - destruct (Hskill _ eq_refl) as (skill' & Hget & Hcount).
    exists skill'. split; [exact Hget|exact Hcount].
Defined.

End RegistryFacts.

(** ** The monitor *)

Module MonitorFacts.

(** *** The two scores *)

Lemma starsScore_range stars : 0 <= GitHub.starsScore stars <= 6.
Proof.
  unfold GitHub.starsScore.
  repeat match goal with |- context [if ?b then _ else _] => destruct b end; lia.
Qed.

Lemma commitsScore_range commits30d : 0 <= GitHub.commitsScore commits30d <= 2.
Proof.
  unfold GitHub.commitsScore.
  repeat match goal with |- context [if ?b then _ else _] => destruct b end; lia.
Qed.

Lemma pushScore_range Date_getTime now lastPush :
  0 <= GitHub.pushScore Date_getTime now lastPush <= 2.
Proof.
  unfold GitHub.pushScore.
  repeat match goal with |- context [if ?b then _ else _] => destruct b end; lia.
Qed.

(** The range of the source-control score as computed: 0 to 10. *)
Lemma computeGitHubScore_range Date_getTime now stats :
  0 <= GitHub.computeGitHubScore Date_getTime now stats <= 10.
Proof.
  unfold GitHub.computeGitHubScore.
  pose proof (starsScore_range (GitHubStats.stars stats)).
  pose proof (commitsScore_range (GitHubStats.commits30d stats)).
  pose proof (pushScore_range Date_getTime now (GitHubStats.lastPush stats)).
  lia.
Qed.

(** C3.  The source-control score of a repository with 10000 stars, 20
    commits in the last thirty days and a push one day ago is 10: the top
    tiers add 6, 2 and 2, above the documented maximum of 8. *)
Theorem computeGitHubScore_reaches_ten :
  GitHub.computeGitHubScore JsDate.parse Samples.t0 Samples.busyRepository = 10
  /\ ~ (0 <= GitHub.computeGitHubScore JsDate.parse Samples.t0 Samples.busyRepository <= 8).
Proof. split; [reflexivity|]. vm_compute. intros [_ H]. now apply H. Qed.

Lemma volumeScore_range volume24h : -1 <= DexScreener.volumeScore volume24h <= 2.
Proof.
  unfold DexScreener.volumeScore.
  repeat match goal with |- context [if ?b then _ else _] => destruct b end; lia.
Qed.

Lemma changeScore_range change24h : -2 <= DexScreener.changeScore change24h <= 1.
Proof.
  unfold DexScreener.changeScore.
  repeat match goal with |- context [if ?b then _ else _] => destruct b end; lia.
Qed.

(** The range of the market-data score as computed: -3 to 3. *)
Lemma computeDexScore_range token : -3 <= DexScreener.computeDexScore token <= 3.
Proof.
  unfold DexScreener.computeDexScore.
  pose proof (volumeScore_range (DexTokenData.volume24h token)).
  pose proof (changeScore_range (DexTokenData.change24h token)).
  lia.
Qed.

(** C4.  The market-data score of a token with no volume and a drop of
    thirty percent is -3 (the low-volume penalty and the steep-drop
    penalty add up), and that of a token with a volume of ten million and
    a rise of twenty percent is 3: both outside the documented range from
    -2 to 2. *)
Theorem computeDexScore_leaves_documented_range :
  DexScreener.computeDexScore Samples.crashedToken = -3
  /\ DexScreener.computeDexScore Samples.risingToken = 3
  /\ ~ (-2 <= DexScreener.computeDexScore Samples.crashedToken <= 2).
Proof.
  split; [reflexivity|]. split; [reflexivity|].
  vm_compute. intros [H _]. now apply H.
Qed.

(** The stored live score lies in [-10, 10]. *)
Lemma clampScore_range (d : AgentCrawler.Draft) :
  -10 <= CrawlResult.liveScore (fst (AgentCrawler.clampScore d)) <= 10
  /\ AgentLiveData.liveScore (snd (AgentCrawler.clampScore d))
     = Some (CrawlResult.liveScore (fst (AgentCrawler.clampScore d))).
Proof. destruct d as [result liveData]. simpl. split; [lia|reflexivity]. Qed.

(** A name that is neither a key of the token map nor a member of
    [Object.prototype] has no mint. *)
Lemma lookupMint_None agentName :
  DexScreener.AGENT_TOKEN_MAP !! agentName = None ->
  ~ In agentName JsObject.prototype_names ->
  DexScreener.lookupMint agentName = None.
Proof.
  intros Hmap Hproto. unfold DexScreener.lookupMint. rewrite Hmap.
  destruct (existsb (String.eqb agentName) JsObject.prototype_names) eqn:E;
    [|reflexivity].
  apply existsb_exists in E as (x & Hin & Heq).
  apply String.eqb_eq in Heq. now subst.
Qed.

(** *** One crawl cycle *)

Section Cycle.
Context {World : Type}.
Variable Date_getTime : string -> number.
Variable Date_now : World -> Z.
Variable fetchGitHubStats : string -> World -> option GitHubStats.t * World.
Variable fetchTokenData : DexScreener.Mint -> World -> option DexTokenData.t * World.
Variable sleep : Z -> World -> World.

#[local] Abbreviation crawlOne :=
  (AgentCrawler.crawlOne Date_getTime Date_now fetchGitHubStats fetchTokenData sleep).
#[local] Abbreviation crawlAgent :=
  (AgentCrawler.crawlAgent Date_getTime Date_now fetchGitHubStats fetchTokenData sleep).
#[local] Abbreviation runCycle :=
  (AgentCrawler.runCycle Date_getTime Date_now fetchGitHubStats fetchTokenData sleep).

(** Without a link and without a mint no request is made: the world is
    untouched, the result has no source and the live data is empty. *)
Lemma crawlOne_unmapped now agent w :
  AgentCrawler.truthy (AgentProfile.github agent) = None ->
  DexScreener.lookupMint (AgentProfile.name agent) = None ->
  crawlOne now agent w =
  ((CrawlResult.mk (AgentProfile.id agent) (AgentProfile.name agent) [] 0 now None,
    AgentCrawler.emptySnapshot now), w).
Proof.
  intros Hgh Hmint.
  unfold AgentCrawler.crawlOne, AgentCrawler.crawlGitHub, AgentCrawler.crawlDex,
    DexScreener.fetchAgentTokenData.
  now rewrite Hgh, Hmint.
Qed.

(** A mapped agent whose market-data request succeeds gets the token
    fields and the source name, whatever the source-control block did. *)
Lemma crawlOne_mapped now agent w mint :
  DexScreener.lookupMint (AgentProfile.name agent) = Some mint ->
  exists w1,
    forall tokenData w2,
      fetchTokenData mint w1 = (Some tokenData, w2) ->
      let liveData := snd (fst (crawlOne now agent w)) in
      AgentLiveData.tokenSymbol liveData = Some (DexTokenData.symbol tokenData)
      /\ AgentLiveData.tokenPrice liveData = Some (DexTokenData.priceUsd tokenData)
      /\ AgentLiveData.tokenChange24h liveData = Some (DexTokenData.change24h tokenData)
      /\ AgentLiveData.tokenVolume24h liveData = Some (DexTokenData.volume24h tokenData)
      /\ In "dexscreener" (AgentLiveData.crawlSource liveData)
      /\ In "dexscreener" (CrawlResult.sources (fst (fst (crawlOne now agent w)))).
Proof.
  intros Hmint.
  unfold AgentCrawler.crawlOne, AgentCrawler.crawlDex, DexScreener.fetchAgentTokenData.
  rewrite Hmint.
  destruct (AgentCrawler.crawlGitHub Date_getTime Date_now fetchGitHubStats sleep agent
              (AgentCrawler.newDraft now agent) w) as [[result liveData] w1].
  exists w1. intros tokenData w2 ->. simpl.
  repeat split; try reflexivity; apply in_or_app; right; now left.
Qed.

Lemma writeLiveData_known agentId liveData r profile :
  SAPRegistry.getAgent agentId r = Some profile ->
  SAPRegistry.getAgent agentId (AgentCrawler.writeLiveData agentId liveData r)
  = Some (AgentProfile.with_liveData profile liveData).
Proof.
  intros H. unfold AgentCrawler.writeLiveData. rewrite H.
  unfold SAPRegistry.getAgent. simpl. apply JsMapFacts.get_set_eq.
Qed.

Lemma writeLiveData_other agentId liveData r other :
  other <> agentId ->
  SAPRegistry.getAgent other (AgentCrawler.writeLiveData agentId liveData r)
  = SAPRegistry.getAgent other r.
Proof.
  intros Hne. unfold AgentCrawler.writeLiveData.
  destruct (SAPRegistry.getAgent agentId r); [|reflexivity].
  unfold SAPRegistry.getAgent. simpl. apply JsMapFacts.get_set_ne. congruence.
Qed.

Lemma writeLiveData_skills_tasks agentId liveData r :
  AgentRegistry.skills (AgentCrawler.writeLiveData agentId liveData r)
    = AgentRegistry.skills r
  /\ AgentRegistry.tasks (AgentCrawler.writeLiveData agentId liveData r)
    = AgentRegistry.tasks r.
Proof.
  unfold AgentCrawler.writeLiveData.
  destruct (SAPRegistry.getAgent agentId r); split; reflexivity.
Qed.

(** The loop over a list of agents that are stored under pairwise
    different identifiers: each gets the live data of its own iteration,
    every result comes from an iteration with a source, and nothing else
    changes. *)
Lemma loop_spec now (l : list AgentProfile.t) :
  forall rc res w,
    NoDup (map AgentProfile.id l) ->
    (forall b, In b l -> SAPRegistry.getAgent (AgentProfile.id b) rc = Some b) ->
    let st := fold_left (crawlAgent now) l (rc, res, w) in
    (forall b, In b l ->
       exists wb,
         SAPRegistry.getAgent (AgentProfile.id b) (fst (fst st))
         = Some (AgentProfile.with_liveData b (snd (fst (crawlOne now b wb)))))
    /\ (forall k, ~ In k (map AgentProfile.id l) ->
          SAPRegistry.getAgent k (fst (fst st)) = SAPRegistry.getAgent k rc)
    /\ (forall x, In x (snd (fst st)) ->
          In x res
          \/ exists b wb,
               In b l /\ x = fst (fst (crawlOne now b wb))
               /\ CrawlResult.sources x <> [])
    /\ AgentRegistry.skills (fst (fst st)) = AgentRegistry.skills rc
    /\ AgentRegistry.tasks (fst (fst st)) = AgentRegistry.tasks rc.
Proof.
  induction l as [|a l IH]; intros rc res w Hnd Hstored st; subst st.
  - simpl. repeat split; tauto.
  - apply NoDup_cons in Hnd as [Hnotin Hnd].
    rewrite list_elem_of_In in Hnotin.
    destruct (crawlOne now a w) as [d w1] eqn:Eone.
    set (rc1 := AgentCrawler.writeLiveData (AgentProfile.id a) (snd d) rc).
    set (res1 := if 0 <? Z.of_nat (length (CrawlResult.sources (fst d)))
                 then res ++ [fst d] else res).
    assert (Hstep : crawlAgent now (rc, res, w) a = (rc1, res1, w1)).
    { unfold AgentCrawler.crawlAgent. now rewrite Eone. }
    cbn [fold_left]. rewrite Hstep.
    assert (Hstored1 : forall b, In b l ->
              SAPRegistry.getAgent (AgentProfile.id b) rc1 = Some b).
    { intros b Hb. subst rc1. rewrite writeLiveData_other.
      - apply Hstored. now right.
      - intros Heq. apply Hnotin. rewrite <- Heq. now apply in_map. }
    destruct (IH rc1 res1 w1 Hnd Hstored1) as (Hlive & Hframe & Hres & Hskills & Htasks).
    clear IH Hstep.
    split; [|split; [|split; [|split]]].
    + intros b [<-|Hb].
      * exists w. rewrite (Hframe _ Hnotin). subst rc1. rewrite Eone.
        apply writeLiveData_known. apply Hstored. now left.
      * now apply Hlive.
    + intros k Hk.
      assert (Hk1 : k <> AgentProfile.id a) by (intros ->; apply Hk; now left).
      assert (Hk2 : ~ In k (map AgentProfile.id l)) by (intros H; apply Hk; now right).
      rewrite (Hframe _ Hk2). subst rc1. now apply writeLiveData_other.
    + intros x Hx. destruct (Hres x Hx) as [Hin|(b & wb & Hb & Hxb & Hsrc)].
      * subst res1.
        destruct (0 <? Z.of_nat (length (CrawlResult.sources (fst d)))) eqn:Elen;
          [|now left].
        apply in_app_or in Hin as [Hin|[<-|[]]]; [now left|].
        right. exists a, w. split; [now left|]. split; [now rewrite Eone|].
        intros Hnil. rewrite Hnil in Elen. discriminate.
      * right. exists b, wb. split; [now right|]. now split.
    + rewrite Hskills. subst rc1. apply writeLiveData_skills_tasks.
    + rewrite Htasks. subst rc1. apply writeLiveData_skills_tasks.
Qed.

Lemma keyed_ids r :
  SAPRegistry.agentsKeyed r ->
  map AgentProfile.id (SAPRegistry.listAgents r) = JsMap.keys (AgentRegistry.agents r).
Proof.
  intros [_ Hkeyed]. unfold SAPRegistry.listAgents, JsMap.values, JsMap.keys.
  induction Hkeyed as [|[k a] m Hka _ IH]; simpl; [reflexivity|].
  simpl in Hka. now rewrite Hka, IH.
Qed.

Lemma keyed_stored r b :
  SAPRegistry.agentsKeyed r ->
  In b (SAPRegistry.listAgents r) ->
  SAPRegistry.getAgent (AgentProfile.id b) r = Some b.
Proof.
  intros [Hwf Hkeyed] Hb. unfold SAPRegistry.listAgents, JsMap.values in Hb.
  apply in_map_iff in Hb as ([k a] & <- & Hin). simpl.
  rewrite Forall_forall in Hkeyed.
  assert (Hka : AgentProfile.id a = k).
  { apply (Hkeyed (k, a)). now apply list_elem_of_In. }
  rewrite Hka. now apply JsMapFacts.In_get.
Qed.

Lemma stored_listed r b :
  SAPRegistry.getAgent (AgentProfile.id b) r = Some b ->
  In b (SAPRegistry.listAgents r).
Proof.
  intros H. apply JsMapFacts.get_In in H.
  unfold SAPRegistry.listAgents, JsMap.values.
  change b with (snd (AgentProfile.id b, b)). now apply in_map.
Qed.


End Cycle.



End MonitorFacts.

(** ** The skill manager *)

Module SkillFacts.
Section Execute.
Context {World : Type}.
Implicit Types (m : SkillManager.t World) (w : World).

(** No parameter is reported missing exactly when every required
    parameter is a property of the bag. *)
Lemma missingParameter_None (params : list SkillParameter.t) (parameters : Bag) :
  SkillManager.missingParameter params parameters = None
  <-> Forall (fun param =>
                SkillParameter.required param = true ->
                JsObject.has (SkillParameter.name param) parameters = true) params.
Proof.
  induction params as [|param rest IH]; simpl.
  - split; [constructor|reflexivity].
  - rewrite Forall_cons, <- IH.
    destruct (SkillParameter.required param);
      destruct (JsObject.has (SkillParameter.name param) parameters);
      simpl; intuition congruence.
Qed.

(** A reported parameter is required, declared by the skill and absent
    from the bag. *)
Lemma missingParameter_Some (params : list SkillParameter.t) (parameters : Bag) name :
  SkillManager.missingParameter params parameters = Some name ->
  exists param,
    In param params /\ SkillParameter.name param = name
    /\ SkillParameter.required param = true
    /\ JsObject.has name parameters = false.
Proof.
  induction params as [|param rest IH]; simpl; [discriminate|].
  destruct (SkillParameter.required param) eqn:Ereq;
    destruct (JsObject.has (SkillParameter.name param) parameters) eqn:Ehas; simpl.
  2: { intros [= <-]. exists param. repeat split; auto using in_eq. }
  all: intros H; destruct (IH H) as (p & Hin & Hp); exists p; split;
    [now right|exact Hp].
Qed.

(** C10.  When [executeSkill] rejects, the error reaches the caller and the
    skill manager, registry and usage counters included, is as before the
    call; the rejection is one of: skill unknown, handler unknown, a
    required parameter missing (none of which runs the handler), or the
    rejection of the handler itself.  When it resolves, the handler has
    resolved with the payload returned, and only then is the usage counter
    of the skill increased by one. *)
Theorem executeSkill_counts_only_success skillId parameters m w :
  match SkillManager.executeSkill skillId parameters m w with
  | (Throw message, m', w') =>
      m' = m
      /\ ((SkillManager.getSkill skillId m = None
           /\ message = "Skill not found: " +:+ skillId /\ w' = w)
          \/ (exists skill,
                SkillManager.getSkill skillId m = Some skill
                /\ SkillManager.skillHandlers m !! skillId = None
                /\ message = "Handler not found for skill: " +:+ AgentSkill.name skill
                /\ w' = w)
          \/ (exists skill handler name,
                SkillManager.getSkill skillId m = Some skill
                /\ SkillManager.skillHandlers m !! skillId = Some handler
                /\ SkillManager.missingParameter (AgentSkill.parameters skill) parameters
                   = Some name
                /\ message = "Missing required parameter: " +:+ name
                /\ w' = w)
          \/ (exists skill handler,
                SkillManager.getSkill skillId m = Some skill
                /\ SkillManager.skillHandlers m !! skillId = Some handler
                /\ SkillManager.missingParameter (AgentSkill.parameters skill) parameters
                   = None
                /\ handler parameters w = (Throw message, w')))
  | (Return result, m', w') =>
      exists skill handler,
        SkillManager.getSkill skillId m = Some skill
        /\ SkillManager.skillHandlers m !! skillId = Some handler
        /\ SkillManager.missingParameter (AgentSkill.parameters skill) parameters = None
        /\ handler parameters w = (Return result, w')
        /\ SkillManager.skillHandlers m' = SkillManager.skillHandlers m
        /\ SkillManager.getSkill skillId m' = Some (AgentSkill.used skill)
        /\ AgentSkill.usageCount (AgentSkill.used skill)
           = JsNum.add (AgentSkill.usageCount skill) (JsNum.of_Z 1)
        /\ AgentRegistry.agents (SkillManager.registry m')
           = AgentRegistry.agents (SkillManager.registry m)
        /\ AgentRegistry.tasks (SkillManager.registry m')
           = AgentRegistry.tasks (SkillManager.registry m)
  end.
Proof.
  unfold SkillManager.executeSkill, SkillManager.getSkill.
  destruct (SAPRegistry.getSkill skillId (SkillManager.registry m)) as [skill|] eqn:Eskill.
  2: { split; [reflexivity|]. left. auto. }
  destruct (SkillManager.skillHandlers m !! skillId) as [handler|] eqn:Ehandler.
  2: { split; [reflexivity|]. right. left. exists skill. auto. }
  destruct (SkillManager.missingParameter (AgentSkill.parameters skill) parameters)
    as [name|] eqn:Emissing.
  { split; [reflexivity|]. right. right. left. exists skill, handler, name. auto. }
  destruct (handler parameters w) as [[result|message] w'] eqn:Erun.
  - exists skill, handler. simpl.
    unfold SAPRegistry.countUsage.
    unfold SAPRegistry.getSkill in Eskill. rewrite Eskill.
    unfold SAPRegistry.getSkill. simpl. rewrite JsMapFacts.get_set_eq.
    repeat split; auto.
  - split; [reflexivity|]. right. right. right. exists skill, handler. auto.
Qed.

End Execute.

(** The balance checker of the sample manager: without the address the
    call is rejected before the handler runs, with an address the handler
    rejects the call is rejected by the handler, and in both cases the
    usage counter stays 0; a call that resolves takes it to 1. *)
Example executeSkill_samples :
  let usage m := AgentSkill.usageCount <$> SkillManager.getSkill Samples.idSkill m in
  let run parameters :=
    SkillManager.executeSkill Samples.idSkill parameters Samples.manager Samples.t0 in
  usage Samples.manager = Some (JsNum.of_Z 0)
  /\ fst (fst (run [])) = Throw "Missing required parameter: address"
  /\ usage (snd (fst (run []))) = Some (JsNum.of_Z 0)
  /\ fst (fst (run [("address", VStr "nowhere")])) = Throw "Invalid wallet address"
  /\ usage (snd (fst (run [("address", VStr "nowhere")]))) = Some (JsNum.of_Z 0)
  /\ fst (fst (run [("address", VStr "7xKXtg2CW87d97TXJSDpbD5jBkheTqA83TZRuJosgAsU")]))
     = Return (VStr "Balance: 1.5 SOL")
  /\ usage (snd (fst (run [("address",
                            VStr "7xKXtg2CW87d97TXJSDpbD5jBkheTqA83TZRuJosgAsU")])))
     = Some (JsNum.of_Z 1)
  /\ fst (fst (SkillManager.executeSkill Samples.idTask [] Samples.manager Samples.t0))
     = Throw ("Skill not found: " +:+ Samples.idTask).
Proof. vm_compute. repeat split; reflexivity. Qed.

End SkillFacts.

(** ** JSON and persistence *)

Module JsonFacts.

Lemma serialize_VArr items :
  Json.serialize (VArr items) = Some (VArr (map Json.element items)).
Proof. reflexivity. Qed.

Lemma serialize_VObj props :
  Json.serialize (VObj props) = Some (VObj (Json.members props)).
Proof. reflexivity. Qed.

Lemma element_VObj props : Json.element (VObj props) = VObj (Json.members props).
Proof. unfold Json.element. now rewrite serialize_VObj. Qed.

(** A plain value is the document of its own text. *)
Lemma serialize_plain v : Json.plain v = true -> Json.serialize v = Some v.
Proof.
  induction v as [| | b | n | s | t | items IH | props IH | z] using jsval_induction;
    try discriminate; try reflexivity.
  - simpl. now intros ->.
  - intros Hplain. rewrite serialize_VArr. do 2 f_equal.
    simpl in Hplain. induction IH as [|x l Hx _ IHl]; simpl; [reflexivity|].
    simpl in Hplain. apply andb_prop in Hplain as [H1 H2].
    unfold Json.element at 1. rewrite (Hx H1). now rewrite (IHl H2).
  - intros Hplain. rewrite serialize_VObj. do 2 f_equal.
    simpl in Hplain. induction IH as [|[k x] l Hx _ IHl]; simpl; [reflexivity|].
    simpl in Hplain, Hx. apply andb_prop in Hplain as [H1 H2].
    rewrite (Hx H1). now rewrite (IHl H2).
Qed.

(** The two date functions agree on the sample times. *)
Example date_text_sample :
  JsDate.toISOString Samples.t0 = "2026-10-31T12:00:00.000Z"
  /\ JsDate.parse (JsDate.toISOString Samples.t0) = JsNum.of_Z Samples.t0
  /\ JsDate.parse "2024-02-29T23:59:59Z" = JsNum.of_Z 1709251199000
  /\ JsDate.parse "2023-02-29T23:59:59Z" = NaN
  /\ JsDate.toISOString (-1) = "1969-12-31T23:59:59.999Z".
Proof. repeat split; reflexivity. Qed.

(** A date becomes the text of [toISOString], an invalid one [null]. *)
Lemma serialize_date t :
  Json.serialize (VDate (Some t)) = Some (VStr (JsDate.toISOString t)).
Proof. reflexivity. Qed.

(** The properties of the document of an object with distinct keys: each
    is the document of the property it comes from, and a property without
    a text is absent. *)
Lemma get_own_members props field :
  NoDup (map fst props) ->
  JsObject.get_own field (Json.members props)
  = JsObject.get_own field props ≫= Json.serialize.
Proof.
  induction props as [|[k x] rest IH]; simpl; [reflexivity|].
  intros Hnd. apply NoDup_cons in Hnd as [Hnotin Hnd]. specialize (IH Hnd).
  rewrite list_elem_of_In in Hnotin.
  assert (Hrest : String.eqb field k = true -> JsObject.get_own field rest = None).
  { intros Heq. apply String.eqb_eq in Heq. subst k.
    clear -Hnotin. induction rest as [|[k' x'] rest IH]; simpl; [reflexivity|].
    rewrite IH.
    - destruct (String.eqb_spec field k') as [->|]; [|reflexivity].
      exfalso. apply Hnotin. simpl. now left.
    - intros Hin. apply Hnotin. simpl. now right. }
  destruct (Json.serialize x) as [j|] eqn:Ex; simpl.
  - rewrite IH. destruct (JsObject.get_own field rest) as [y|] eqn:Ey; simpl.
    + destruct (Json.serialize y) eqn:Esy; [reflexivity|].
      destruct (String.eqb field k) eqn:Ek; [|reflexivity].
      specialize (Hrest eq_refl). discriminate.
    + destruct (String.eqb field k); simpl; [now rewrite Ex|reflexivity].
  - rewrite IH. destruct (JsObject.get_own field rest) as [y|] eqn:Ey; simpl;
      [reflexivity|].
    destruct (String.eqb field k); simpl; [now rewrite Ex|reflexivity].
Qed.

End JsonFacts.

Module PersistenceFacts.

Import Persistence.

(** *** Reachable registries have well-formed maps *)

Lemma reachable_wf r :
  Reachable.reachable r ->
  JsMap.wf (AgentRegistry.agents r)
  /\ JsMap.wf (AgentRegistry.skills r)
  /\ JsMap.wf (AgentRegistry.tasks r).
Proof.
  induction 1 as [ | agentId now profile r _ (Ha & Hs & Ht)
                   | agentId now profile r _ (Ha & Hs & Ht)
                   | now agentId taskSuccess r _ (Ha & Hs & Ht)
                   | skillId skill r _ (Ha & Hs & Ht)
                   | taskId now agentId skillId description parameters r _ (Ha & Hs & Ht)
                   | now taskId status result error r _ (Ha & Hs & Ht)
                   | skillId r _ (Ha & Hs & Ht)
                   | agentId liveData r _ (Ha & Hs & Ht) ].
  - repeat split; apply NoDup_nil_2.
  - simpl. repeat split; auto using JsMapFacts.wf_set.
  - simpl. repeat split; auto using JsMapFacts.wf_set.
  - unfold SAPRegistry.updateReputation.
    destruct (JsMap.get agentId (AgentRegistry.agents r)); simpl;
      repeat split; auto using JsMapFacts.wf_set.
  - simpl. repeat split; auto using JsMapFacts.wf_set.
  - simpl. repeat split; auto using JsMapFacts.wf_set.
  - unfold SAPRegistry.updateTaskStatus.
    destruct (JsMap.get taskId (AgentRegistry.tasks r)) as [task|];
      [|repeat split; assumption].
    destruct (TaskStatus.terminal status);
      [|simpl; repeat split; auto using JsMapFacts.wf_set].
    unfold SAPRegistry.countUsage, SAPRegistry.updateReputation. simpl.
    destruct (JsMap.get (AgentTask.agentId task) (AgentRegistry.agents r)); simpl;
      destruct (JsMap.get (AgentTask.skillId task) (AgentRegistry.skills r)); simpl;
      repeat split; auto using JsMapFacts.wf_set.
  - unfold SAPRegistry.countUsage.
    destruct (JsMap.get skillId (AgentRegistry.skills r)); simpl;
      repeat split; auto using JsMapFacts.wf_set.
  - unfold AgentCrawler.writeLiveData.
    destruct (SAPRegistry.getAgent agentId r); simpl;
      repeat split; auto using JsMapFacts.wf_set.
Qed.

(** Reachable registries store every agent under its own identifier. *)
Lemma keyed_set m k (a : AgentProfile.t) :
  AgentProfile.id a = k ->
  Forall (fun kv => AgentProfile.id (snd kv) = fst kv) m ->
  Forall (fun kv => AgentProfile.id (snd kv) = fst kv) (JsMap.set k a m).
Proof.
  intros Hid. induction 1 as [|[k' a'] m Hhead Htail IH]; simpl.
  - constructor; [exact Hid|constructor].
  - destruct (String.eqb k k'); constructor; auto.
Qed.

Lemma keyed_get m k (a : AgentProfile.t) :
  Forall (fun kv => AgentProfile.id (snd kv) = fst kv) m ->
  JsMap.get k m = Some a -> AgentProfile.id a = k.
Proof.
  intros Hall Hget. apply JsMapFacts.get_In in Hget.
  rewrite Forall_forall in Hall. apply (Hall (k, a)). now apply list_elem_of_In.
Qed.

Lemma reachable_keyed r : Reachable.reachable r -> SAPRegistry.agentsKeyed r.
Proof.
  intros Hreach. split; [apply (reachable_wf r Hreach)|].
  induction Hreach as [ | agentId now profile r _ IH
                        | agentId now profile r _ IH
                        | now agentId taskSuccess r _ IH
                        | skillId skill r _ IH
                        | taskId now agentId skillId description parameters r _ IH
                        | now taskId status result error r _ IH
                        | skillId r _ IH
                        | agentId liveData r _ IH ].
  - constructor.
  - simpl. now apply keyed_set.
  - simpl. now apply keyed_set.
  - unfold SAPRegistry.updateReputation.
    destruct (JsMap.get agentId (AgentRegistry.agents r)) as [agent|] eqn:E;
      [|exact IH].
    simpl. apply keyed_set; [|exact IH]. simpl. exact (keyed_get _ _ _ IH E).
  - exact IH.
  - exact IH.
  - unfold SAPRegistry.updateTaskStatus.
    destruct (JsMap.get taskId (AgentRegistry.tasks r)) as [task|]; [|exact IH].
    destruct (TaskStatus.terminal status); [|exact IH].
    rewrite (proj1 (RegistryFacts.countUsage_agents_tasks _ _)).
    unfold SAPRegistry.updateReputation. simpl.
    destruct (JsMap.get (AgentTask.agentId task) (AgentRegistry.agents r))
      as [agent|] eqn:E; [|exact IH].
    simpl. apply keyed_set; [|exact IH]. simpl. exact (keyed_get _ _ _ IH E).
  - now rewrite (proj1 (RegistryFacts.countUsage_agents_tasks _ _)).
  - unfold AgentCrawler.writeLiveData, SAPRegistry.getAgent.
    destruct (JsMap.get agentId (AgentRegistry.agents r)) as [agent|] eqn:E;
      [|exact IH].
    simpl. apply keyed_set; [|exact IH]. simpl. exact (keyed_get _ _ _ IH E).
Qed.

(** *** Loading the entries of an exported map *)

#[local] Abbreviation keyed := (fun kv : string * jsval => (VStr (fst kv), snd kv)).
#[local] Abbreviation pair := (fun kv : string * jsval => VArr [VStr (fst kv); snd kv]).

Lemma set_fresh (m : list (string * jsval)) k v :
  ~ In k (map fst m) ->
  DynMap.set (VStr k) v (map keyed m) = map keyed m ++ [(VStr k, v)].
Proof.
  induction m as [|[k' v'] m IH]; simpl; [reflexivity|].
  intros Hnotin.
  destruct (String.eqb_spec k k') as [->|Hne]; [exfalso; apply Hnotin; now left|].
  rewrite IH; [reflexivity|]. intros Hin. apply Hnotin. now right.
Qed.

Lemma addEntries_strings (l acc : list (string * jsval)) :
  NoDup (map fst (acc ++ l)) ->
  DynMap.addEntries (map pair l) (map keyed acc) = Some (map keyed (acc ++ l)).
Proof.
  revert acc. induction l as [|[k v] l IH]; intros acc Hnd; simpl.
  - now rewrite app_nil_r.
  - assert (Hfresh : ~ In k (map fst acc)).
    { rewrite map_app in Hnd. apply NoDup_app in Hnd as (_ & Hdisj & _).
      intros Hin. apply (Hdisj k); [now apply list_elem_of_In|]. simpl. left. }
    rewrite (set_fresh _ _ _ Hfresh).
    change (map keyed acc ++ [(VStr k, v)]) with (map keyed acc ++ map keyed [(k, v)]).
    rewrite <- map_app. rewrite IH.
    + now rewrite <- app_assoc.
    + now rewrite <- app_assoc.
Qed.

Lemma fromIterable_entries (l : list (string * jsval)) :
  NoDup (map fst l) ->
  DynMap.fromIterable (VArr (map pair l)) = Some (map keyed l).
Proof.
  intros Hnd. simpl. exact (addEntries_strings l [] Hnd).
Qed.

(** *** The exported document *)

Lemma element_entries {V : Type} (f : V -> jsval) (m : JsMap V) :
  Json.element (entriesArray (ofMap f m))
  = VArr (map pair (map (fun kv => (fst kv, Json.element (f (snd kv)))) m)).
Proof.
  unfold Json.element, entriesArray, ofMap.
  rewrite JsonFacts.serialize_VArr. f_equal.
  rewrite !map_map. apply map_ext. intros [k v]. reflexivity.
Qed.

Lemma exportDocument_reify r :
  exportDocument (reify r)
  = VObj [ ("agents", Json.element (entriesArray (ofMap ofAgent (AgentRegistry.agents r))));
           ("skills", Json.element (entriesArray (ofMap ofSkill (AgentRegistry.skills r))));
           ("tasks", Json.element (entriesArray (ofMap ofTask (AgentRegistry.tasks r)))) ].
Proof. reflexivity. Qed.

Lemma importDocument_object A S T prior a s t :
  DynMap.fromIterable A = Some a ->
  DynMap.fromIterable S = Some s ->
  DynMap.fromIterable T = Some t ->
  importDocument (VObj [("agents", A); ("skills", S); ("tasks", T)]) prior
  = (Imported, mkDyn a s t).
Proof.
  intros Ha Hs Ht. unfold importDocument. simpl. now rewrite Ha, Hs, Ht.
Qed.

Lemma load_entries {V : Type} (f : V -> jsval) (m : JsMap V) :
  JsMap.wf m ->
  DynMap.fromIterable (Json.element (entriesArray (ofMap f m))) = Some (imageOfMap f m).
Proof.
  intros Hwf. rewrite element_entries. rewrite fromIterable_entries.
  - unfold imageOfMap. now rewrite map_map.
  - rewrite map_map. exact Hwf.
Qed.

Lemma get_imageOfMap {V : Type} (f : V -> jsval) (m : JsMap V) k :
  DynMap.get (VStr k) (imageOfMap f m)
  = (fun v => Json.element (f v)) <$> JsMap.get k m.
Proof.
  induction m as [|[k' v] m IH]; simpl; [reflexivity|].
  destruct (String.eqb k k'); [reflexivity|exact IH].
Qed.

(** The documents of the stored entities: objects whose properties are the
    documents of the entity's properties. *)
Lemma entity_keys_agent a :
  NoDup (map fst match ofAgent a with VObj ps => ps | _ => [] end).
Proof. apply (bool_decide_unpack _). vm_compute. exact I. Qed.

Lemma entity_keys_skill s :
  NoDup (map fst match ofSkill s with VObj ps => ps | _ => [] end).
Proof. apply (bool_decide_unpack _). vm_compute. exact I. Qed.

Lemma entity_keys_task t :
  NoDup (map fst match ofTask t with VObj ps => ps | _ => [] end).
Proof. apply (bool_decide_unpack _). vm_compute. exact I. Qed.

Lemma fieldOf_element props field :
  NoDup (map fst props) ->
  fieldOf field (Json.element (VObj props))
  = fieldOf field (VObj props) ≫= Json.serialize.
Proof.
  intros Hnd. rewrite JsonFacts.element_VObj. simpl.
  now apply JsonFacts.get_own_members.
Qed.

(** *** importData *)

(** The texts that import successfully but hold no entity: an empty object
    and a number empty all three maps. *)
Example import_without_fields :
  let prior := reify Samples.completedOnce in
  importData (Json.text "{}") prior = (Imported, mkDyn [] [] [])
  /\ importData "7" prior = (Imported, mkDyn [] [] []).
Proof. split; reflexivity. Qed.

(** Which values [new Map] refuses. *)
Lemma fromIterable_None x :
  DynMap.fromIterable x = None <->
  match x with
  | VUndef | VNull => False
  | VBool _ | VNum _ | VBigInt _ | VDate _ | VObj _ => True
  | VStr s => s <> ""
  | VArr items => DynMap.addEntries items [] = None
  end.
Proof.
  destruct x as [| | b | n | s | t | items | props | z]; simpl;
    try (split; [discriminate|tauto]); try tauto; try reflexivity.
  destruct (String.eqb_spec s ""); split; try discriminate; try tauto; congruence.
Qed.

(** C5, counterexample.  The text is valid JSON with an empty agents
    array and the number 5 as skills field.  The import fails while
    loading the skills, after the agents map has been replaced: the one
    agent of the prior state is gone, skills and tasks are as before. *)
Lemma failed_import_replaces_agents :
  let prior := reify Samples.completedOnce in
  let after := importData Samples.brokenSkillsText prior in
  fst after = ImportFailed
  /\ length (agents prior) = 1%nat
  /\ agents (snd after) = []
  /\ snd after <> prior
  /\ skills (snd after) = skills prior
  /\ tasks (snd after) = tasks prior.
Proof.
  repeat split; try reflexivity.
  intros H. apply (f_equal agents) in H. vm_compute in H. discriminate.
Qed.

(** C5, as the code has it.  [importData] never throws.  When it fails,
    the tasks map is as before; all three maps are as before when the text
    is not JSON, or is the text of [null], or has an agents field that
    cannot be loaded; otherwise the agents map holds the loaded agents,
    and the skills map is as before when the skills field cannot be loaded
    and holds the loaded skills when only the tasks field cannot. *)
Theorem importData_failure data prior :
  fst (importData data prior) = ImportFailed ->
  let after := snd (importData data prior) in
  tasks after = tasks prior
  /\ (Json.parse data = None -> after = prior)
  /\ (loaded "agents" data = None -> after = prior)
  /\ (forall agents',
        loaded "agents" data = Some agents' ->
        agents after = agents'
        /\ (loaded "skills" data = None -> skills after = skills prior)
        /\ (forall skills',
              loaded "skills" data = Some skills' ->
              skills after = skills' /\ loaded "tasks" data = None)).
Proof.
  unfold importData, loaded.
  destruct (Json.parse data) as [parsed|]; simpl.
  2: { intros _. repeat split; try reflexivity; discriminate. }
  unfold importDocument.
  destruct (getProperty "agents" parsed ≫= DynMap.fromIterable) as [a|]; simpl.
  2: { intros _. repeat split; try reflexivity; discriminate. }
  destruct (getProperty "skills" parsed ≫= DynMap.fromIterable) as [s|]; simpl.
  2: { intros _. split; [reflexivity|]. split; [discriminate|]. split; [discriminate|].
       intros x [= <-]. split; [reflexivity|]. split; [reflexivity|]. discriminate. }
  destruct (getProperty "tasks" parsed ≫= DynMap.fromIterable) as [t|]; simpl.
  1: discriminate.
  intros _. split; [reflexivity|]. split; [discriminate|]. split; [discriminate|].
  intros x [= <-]. split; [reflexivity|]. split; [discriminate|].
  intros y [= <-]. split; reflexivity.
Qed.

(** A text that is not JSON leaves the sample registry as it was. *)
Lemma importData_failure_witness :
  let prior := reify Samples.completedOnce in
  fst (importData Samples.truncatedText prior) = ImportFailed
  /\ Json.parse Samples.truncatedText = None
  /\ snd (importData Samples.truncatedText prior) = prior.
Proof.
  intros prior.
  assert (Hfail : fst (importData Samples.truncatedText prior) = ImportFailed)
    by reflexivity.
  split; [exact Hfail|]. split; [reflexivity|].
  exact (proj1 (proj2 (importData_failure Samples.truncatedText prior Hfail)) eq_refl).
Defined.

End PersistenceFacts.

(** *** The reader never runs out of fuel *)

Module ReaderFacts.

Import Json.

Lemma skip_ws_length s : (length (skip_ws s) <= length s)%nat.
Proof.
  induction s as [|c r IH]; simpl; [lia|].
  destruct (is_ws c); simpl; lia.
Qed.

Lemma skip_ws_cons s c r : skip_ws s = c :: r -> (length r < length s)%nat.
Proof.
  intros H. pose proof (skip_ws_length s) as Hlen. rewrite H in Hlen. simpl in Hlen. lia.
Qed.

Lemma string_body_length s acc k r :
  string_body s acc = Some (k, r) -> (length r < length s)%nat.
Proof.
  revert acc. induction s as [s IH] using (induction_ltof1 _ (@length ascii)).
  unfold ltof in IH. intros acc. destruct s as [|c s]; simpl; [discriminate|].
  destruct (code c =? 34).
  { intros [= _ <-]. lia. }
  destruct (code c =? 92).
  - destruct s as [|e s]; [discriminate|].
    destruct (code e =? 117).
    + destruct s as [|h1 [|h2 [|h3 [|h4 s]]]]; try discriminate.
      destruct (hex_val h1), (hex_val h2), (hex_val h3), (hex_val h4);
        try discriminate.
      intros H. apply IH in H; simpl in *; lia.
    + destruct (simple_escape e); [|discriminate].
      intros H. apply IH in H; simpl in *; lia.
  - destruct (code c <? 32); [discriminate|].
    intros H. apply IH in H; simpl in *; lia.
Qed.

Lemma digits_length s a n a' n' r :
  digits s a n = (a', n', r) ->
  (length r <= length s)%nat /\ Z.of_nat (length s) = Z.of_nat (length r) + (n' - n).
Proof.
  revert a n. induction s as [|c s IH]; simpl; intros a n.
  - intros [= <- <- <-]. simpl. lia.
  - destruct (digit_val c).
    + intros H. apply IH in H. lia.
    + intros [= <- <- <-]. simpl. lia.
Qed.

Lemma int_part_length s m r : int_part s = Some (m, r) -> (length r < length s)%nat.
Proof.
  unfold int_part. destruct s as [|c s]; [discriminate|].
  destruct (code c =? 48).
  { intros [= _ <-]. simpl. lia. }
  destruct (digits (c :: s) 0 0) as [[a n] r'] eqn:E.
  apply digits_length in E as [H1 H2].
  destruct n; try (intros [= _ <-]; lia); discriminate.
Qed.

Lemma frac_part_length m s m' e r :
  frac_part m s = Some (m', e, r) -> (length r <= length s)%nat.
Proof.
  unfold frac_part. destruct s as [|c s]; [intros [= _ _ <-]; lia|].
  destruct (code c =? 46).
  - destruct (digits s m 0) as [[a n] r'] eqn:E.
    apply digits_length in E as [H1 H2].
    destruct n; try discriminate; intros [= _ _ <-]; simpl; lia.
  - intros [= _ _ <-]. lia.
Qed.

Lemma exp_part_length s e r : exp_part s = Some (e, r) -> (length r <= length s)%nat.
Proof.
  unfold exp_part. destruct s as [|c s]; [intros [= _ <-]; lia|].
  destruct ((code c =? 101) || (code c =? 69)).
  - destruct s as [|sg s'].
    + simpl. discriminate.
    + destruct (code sg =? 45); [|destruct (code sg =? 43)].
      * destruct (digits s' 0 0) as [[a n] r'] eqn:E.
        apply digits_length in E as [H1 H2].
        destruct n; try discriminate; intros [= _ <-]; simpl; lia.
      * destruct (digits s' 0 0) as [[a n] r'] eqn:E.
        apply digits_length in E as [H1 H2].
        destruct n; try discriminate; intros [= _ <-]; simpl; lia.
      * destruct (digits (sg :: s') 0 0) as [[a n] r'] eqn:E.
        apply digits_length in E as [H1 H2].
        destruct n; try discriminate; intros [= _ <-]; simpl in *; lia.
  - intros [= _ <-]. lia.
Qed.

Lemma number_token_length s n r :
  number_token s = Some (n, r) -> (length r < length s)%nat.
Proof.
  unfold number_token.
  set (p := match s with
            | [] => (false, s)
            | c :: r0 => if code c =? 45 then (true, r0) else (false, s)
            end).
  assert (Hp : (length (snd p) <= length s)%nat).
  { subst p. destruct s as [|c s]; simpl; [lia|]. destruct (code c =? 45); simpl; lia. }
  destruct p as [negative s1]. simpl in Hp.
  destruct (int_part s1) as [[m s2]|] eqn:E1; simpl; [|discriminate].
  destruct (frac_part m s2) as [[[m' scale] s3]|] eqn:E2; simpl; [|discriminate].
  destruct (exp_part s3) as [[e s4]|] eqn:E3; simpl; [|discriminate].
  intros [= _ <-].
  apply int_part_length in E1. apply frac_part_length in E2. apply exp_part_length in E3.
  lia.
Qed.

Lemma literal_length word s r :
  word <> "" -> literal word s = Some r -> (length r < length s)%nat.
Proof.
  intros Hword. unfold literal.
  destruct (decide (firstn (length (list_ascii_of_string word)) s
                    = list_ascii_of_string word)) as [Heq|]; [|discriminate].
  intros [= <-]. rewrite length_skipn.
  assert (Hlen : (0 < length (list_ascii_of_string word))%nat).
  { destruct word; [congruence|simpl; lia]. }
  apply (f_equal (@length ascii)) in Heq. rewrite length_firstn in Heq. lia.
Qed.

(** Every value, element list and member list takes at least one
    character. *)
Lemma value_consumes n :
  (forall s v r, value n s = Some (v, r) -> (length r < length s)%nat)
  /\ (forall s acc v r, elements n s acc = Some (v, r) -> (length r < length s)%nat)
  /\ (forall s acc v r, members_text n s acc = Some (v, r) -> (length r < length s)%nat).
Proof.
  induction n as [|n (IHv & IHe & IHm)]; [repeat split; discriminate|].
  split; [|split].
  - intros s v r. simpl.
    destruct (skip_ws s) as [|c t] eqn:Es; [discriminate|].
    apply skip_ws_cons in Es.
    destruct (code c =? 34).
    { destruct (string_body t []) as [[str t']|] eqn:E; simpl; [|discriminate].
      intros [= _ <-]. apply string_body_length in E. lia. }
    destruct (code c =? 91).
    { destruct (skip_ws t) as [|c' t'] eqn:Et; [discriminate|].
      apply skip_ws_cons in Et.
      destruct (code c' =? 93); [intros [= _ <-]; lia|].
      intros H. apply IHe in H. lia. }
    destruct (code c =? 123).
    { destruct (skip_ws t) as [|c' t'] eqn:Et; [discriminate|].
      apply skip_ws_cons in Et.
      destruct (code c' =? 125); [intros [= _ <-]; lia|].
      intros H. apply IHm in H. lia. }
    destruct (code c =? 110).
    { destruct (literal "null" (c :: t)) as [t'|] eqn:E; simpl; [|discriminate].
      intros [= _ <-]. apply literal_length in E; [simpl in E; lia|discriminate]. }
    destruct (code c =? 116).
    { destruct (literal "true" (c :: t)) as [t'|] eqn:E; simpl; [|discriminate].
      intros [= _ <-]. apply literal_length in E; [simpl in E; lia|discriminate]. }
    destruct (code c =? 102).
    { destruct (literal "false" (c :: t)) as [t'|] eqn:E; simpl; [|discriminate].
      intros [= _ <-]. apply literal_length in E; [simpl in E; lia|discriminate]. }
    destruct (number_token (c :: t)) as [[x t']|] eqn:E; simpl; [|discriminate].
    intros [= _ <-]. apply number_token_length in E. simpl in E. lia.
  - intros s acc v r. simpl.
    destruct (value n s) as [[x t]|] eqn:E; simpl; [|discriminate].
    apply IHv in E.
    destruct (skip_ws t) as [|c t'] eqn:Et; [discriminate|].
    apply skip_ws_cons in Et.
    destruct (code c =? 44); [intros H; apply IHe in H; lia|].
    destruct (code c =? 93); [intros [= _ <-]; lia|discriminate].
  - intros s acc v r. simpl.
    destruct (skip_ws s) as [|q t0] eqn:Es; [discriminate|].
    apply skip_ws_cons in Es.
    destruct (code q =? 34); [|discriminate].
    destruct (string_body t0 []) as [[k t1]|] eqn:E1; simpl; [|discriminate].
    apply string_body_length in E1.
    destruct (skip_ws t1) as [|colon t2] eqn:Et1; [discriminate|].
    apply skip_ws_cons in Et1.
    destruct (code colon =? 58); [|discriminate].
    destruct (value n t2) as [[x t3]|] eqn:E2; simpl; [|discriminate].
    apply IHv in E2.
    destruct (skip_ws t3) as [|c t4] eqn:Et3; [discriminate|].
    apply skip_ws_cons in Et3.
    destruct (code c =? 44); [intros H; apply IHm in H; lia|].
    destruct (code c =? 125); [intros [= _ <-]; lia|discriminate].
Qed.

(** With fuel above twice the length of the text, more fuel changes
    nothing. *)
Lemma fuel_stable n :
  (forall s m, (2 * length s + 1 <= n)%nat -> (n <= m)%nat -> value m s = value n s)
  /\ (forall s acc m, (2 * length s + 2 <= n)%nat -> (n <= m)%nat ->
        elements m s acc = elements n s acc)
  /\ (forall s acc m, (2 * length s + 2 <= n)%nat -> (n <= m)%nat ->
        members_text m s acc = members_text n s acc).
Proof.
  induction n as [|n (IHv & IHe & IHm)]; [repeat split; intros; lia|].
  split; [|split].
  - intros s [|m] Hn Hm; [lia|]. simpl.
    destruct (skip_ws s) as [|c t] eqn:Es; [reflexivity|].
    apply skip_ws_cons in Es.
    destruct (code c =? 34); [reflexivity|].
    destruct (code c =? 91).
    { destruct (skip_ws t) as [|c' t'] eqn:Et; [reflexivity|].
      destruct (code c' =? 93); [reflexivity|]. apply IHe; lia. }
    destruct (code c =? 123); [|reflexivity].
    destruct (skip_ws t) as [|c' t'] eqn:Et; [reflexivity|].
    destruct (code c' =? 125); [reflexivity|]. apply IHm; lia.
  - intros s acc [|m] Hn Hm; [lia|]. simpl.
    rewrite (IHv s m) by lia.
    destruct (value n s) as [[x t]|] eqn:E; simpl; [|reflexivity].
    apply (proj1 (value_consumes n)) in E.
    destruct (skip_ws t) as [|c t'] eqn:Et; [reflexivity|].
    apply skip_ws_cons in Et.
    destruct (code c =? 44); [|reflexivity]. apply IHe; lia.
  - intros s acc [|m] Hn Hm; [lia|]. simpl.
    destruct (skip_ws s) as [|q t0] eqn:Es; [reflexivity|].
    apply skip_ws_cons in Es.
    destruct (code q =? 34); [|reflexivity].
    destruct (string_body t0 []) as [[k t1]|] eqn:E1; simpl; [|reflexivity].
    apply string_body_length in E1.
    destruct (skip_ws t1) as [|colon t2] eqn:Et1; [reflexivity|].
    apply skip_ws_cons in Et1.
    destruct (code colon =? 58); [|reflexivity].
    rewrite (IHv t2 m) by lia.
    destruct (value n t2) as [[x t3]|] eqn:E2; simpl; [|reflexivity].
    apply (proj1 (value_consumes n)) in E2.
    destruct (skip_ws t3) as [|c t4] eqn:Et3; [reflexivity|].
    apply skip_ws_cons in Et3.
    destruct (code c =? 44); [|reflexivity]. apply IHm; lia.
Qed.

(** The fuel that [parse] gives is enough for every text: with any larger
    amount the reader returns the same result, so [None] is a syntax
    error of the text and never a lack of fuel. *)
Lemma parse_fuel_enough text extra :
  let s := list_ascii_of_string text in
  value (2 * length s + 2 + extra) s = value (2 * length s + 2) s.
Proof.
  intros s. apply (proj1 (fuel_stable (2 * length s + 2))); lia.
Qed.

End ReaderFacts.

(** ** The text of [JSON.stringify] read by [JSON.parse] *)

Module WriterFacts.
Import Json.

(** Characters and their codes. *)
Lemma byte_code c : byte (code c) = c.
Proof.
  unfold byte, code. rewrite Nat2Z.id. apply ascii_nat_embedding.
Qed.

Lemma code_of c n : code c = n -> c = byte n.
Proof. intros <-. symmetry. apply byte_code. Qed.

Lemma code_range c : 0 <= code c < 256.
Proof.
  unfold code. pose proof (nat_ascii_bounded c). lia.
Qed.

Lemma hex_val_digit n : 0 <= n < 16 -> hex_val (hex_digit n) = Some n.
Proof.
  intros H. rewrite <- (Z2Nat.id n) by lia.
  assert (Hk : (Z.to_nat n < 16)%nat) by lia.
  revert Hk. generalize (Z.to_nat n). intros k Hk.
  do 16 (destruct k as [|k]; [reflexivity|]). lia.
Qed.

(** *** Strings *)

(** The reader undoes the escape of one character, then of a string. *)
Lemma string_body_escape1 (c : ascii) (tail acc : list ascii) :
  string_body (escape c ++ tail) acc = string_body tail (c :: acc).
Proof.
  unfold escape.
  destruct (code c =? 34) eqn:E34.
  { apply Z.eqb_eq, code_of in E34. subst c. reflexivity. }
  destruct (code c =? 92) eqn:E92.
  { apply Z.eqb_eq, code_of in E92. subst c. reflexivity. }
  destruct (code c =? 8) eqn:E8.
  { apply Z.eqb_eq, code_of in E8. subst c. reflexivity. }
  destruct (code c =? 12) eqn:E12.
  { apply Z.eqb_eq, code_of in E12. subst c. reflexivity. }
  destruct (code c =? 10) eqn:E10.
  { apply Z.eqb_eq, code_of in E10. subst c. reflexivity. }
  destruct (code c =? 13) eqn:E13.
  { apply Z.eqb_eq, code_of in E13. subst c. reflexivity. }
  destruct (code c =? 9) eqn:E9.
  { apply Z.eqb_eq, code_of in E9. subst c. reflexivity. }
  destruct (code c <? 32) eqn:E32.
  - apply Z.ltb_lt in E32. pose proof (code_range c) as Hc.
    change ([byte 92; byte 117; byte 48; byte 48; hex_digit (code c / 16);
             hex_digit (code c mod 16)] ++ tail)
      with (byte 92 :: byte 117 :: byte 48 :: byte 48 :: hex_digit (code c / 16)
            :: hex_digit (code c mod 16) :: tail).
    cbn [string_body].
    change (code (byte 92) =? 34) with false.
    change (code (byte 92) =? 92) with true.
    change (code (byte 117) =? 117) with true.
    change (hex_val (byte 48)) with (Some 0). cbv iota.
    rewrite (hex_val_digit (code c / 16)) by (Z.to_euclidean_division_equations; lia).
    rewrite (hex_val_digit (code c mod 16)) by (Z.to_euclidean_division_equations; lia).
    replace (0 * 4096 + 0 * 256 + code c / 16 * 16 + code c mod 16) with (code c)
      by (Z.to_euclidean_division_equations; lia).
    unfold utf8. destruct (Z.ltb_spec (code c) 128); [|lia].
    cbn [rev_append]. now rewrite byte_code.
  - cbn [app string_body]. now rewrite E34, E92, E32.
Qed.

Lemma string_body_escape (s : list ascii) : forall acc rest,
  string_body (flat_map escape s ++ byte 34 :: rest) acc
  = Some (string_of_list_ascii (rev acc ++ s), rest).
Proof.
  induction s as [|c s IH]; intros acc rest.
  - simpl. now rewrite app_nil_r.
  - cbn [flat_map]. rewrite <- app_assoc, string_body_escape1, IH.
    simpl. now rewrite <- app_assoc.
Qed.

Lemma string_body_quote (k : string) rest :
  string_body (flat_map escape (chars k) ++ byte 34 :: rest) [] = Some (k, rest).
Proof.
  rewrite string_body_escape. cbn [rev app]. unfold chars.
  now rewrite string_of_list_ascii_of_string.
Qed.

(** *** Numbers *)

(** What follows a value is no part of a number. *)
Lemma delimited_head c r :
  delimited (c :: r) = true ->
  digit_val c = None /\ (code c =? 46) = false /\ (code c =? 101) = false
  /\ (code c =? 69) = false /\ (code c =? 45) = false /\ (code c =? 43) = false
  /\ (code c =? 48) = false.
Proof.
  unfold delimited, digit_val. intros H.
  assert (E : code c = 44 \/ code c = 93 \/ code c = 125).
  { destruct (Z.eqb_spec (code c) 44); [tauto|].
    destruct (Z.eqb_spec (code c) 93); [tauto|].
    destruct (Z.eqb_spec (code c) 125); [tauto|]. discriminate H. }
  destruct E as [-> | [-> | ->]]; repeat split; reflexivity.
Qed.

(** The parts of a number are read alike in front of a delimiter. *)
Lemma token_digits_app r : delimited r = true -> forall t a l,
  digits (t ++ r) a l = let '(a', l', rem) := digits t a l in (a', l', rem ++ r).
Proof.
  intros Hr. induction t as [|c t IH]; intros a l.
  - destruct r as [|c r]; [reflexivity|].
    destruct (delimited_head c r Hr) as (Hd & _). simpl. now rewrite Hd.
  - simpl. destruct (digit_val c); [apply IH|reflexivity].
Qed.

Lemma int_part_app r : delimited r = true -> forall t,
  int_part (t ++ r) = (fun x => (fst x, snd x ++ r)) <$> int_part t.
Proof.
  intros Hr [|c t].
  - destruct r as [|c r]; [reflexivity|].
    destruct (delimited_head c r Hr) as (Hd & _ & _ & _ & _ & _ & H48).
    simpl. rewrite H48, Hd. reflexivity.
  - cbn [app int_part]. destruct (code c =? 48); [reflexivity|].
    change (c :: t ++ r) with ((c :: t) ++ r). rewrite (token_digits_app r Hr).
    destruct (digits (c :: t) 0 0) as [[m len] rem]. now destruct len.
Qed.

Lemma frac_part_app r : delimited r = true -> forall m t,
  frac_part m (t ++ r)
  = (fun x => (fst (fst x), snd (fst x), snd x ++ r)) <$> frac_part m t.
Proof.
  intros Hr m [|c t].
  - destruct r as [|c r]; [reflexivity|].
    destruct (delimited_head c r Hr) as (_ & H46 & _). simpl. now rewrite H46.
  - cbn [app frac_part]. destruct (code c =? 46); [|reflexivity].
    rewrite (token_digits_app r Hr). destruct (digits t m 0) as [[m' len] rem].
    now destruct len.
Qed.

Lemma exp_part_app r : delimited r = true -> forall t,
  exp_part (t ++ r) = (fun x => (fst x, snd x ++ r)) <$> exp_part t.
Proof.
  intros Hr [|c t].
  - destruct r as [|c r]; [reflexivity|].
    destruct (delimited_head c r Hr) as (_ & _ & H101 & H69 & _). simpl.
    now rewrite H101, H69.
  - cbn [app exp_part]. destruct ((code c =? 101) || (code c =? 69)); [|reflexivity].
    destruct t as [|sg t].
    + cbn [app]. destruct r as [|c' r]; [reflexivity|].
      destruct (delimited_head c' r Hr) as (Hd & _ & _ & _ & H45 & H43 & _).
      rewrite H45, H43. simpl. now rewrite Hd.
    + cbn [app].
      destruct (code sg =? 45).
      { rewrite (token_digits_app r Hr). destruct (digits t 0 0) as [[e len] rem].
        now destruct len. }
      destruct (code sg =? 43).
      { rewrite (token_digits_app r Hr). destruct (digits t 0 0) as [[e len] rem].
        now destruct len. }
      change (sg :: t ++ r) with ((sg :: t) ++ r).
      rewrite (token_digits_app r Hr). destruct (digits (sg :: t) 0 0) as [[e len] rem].
      now destruct len.
Qed.

(** A text that is read as a number to its end is read as that number
    before whatever can follow a value. *)
Lemma number_token_app t n r :
  delimited r = true ->
  number_token t = Some (n, []) -> number_token (t ++ r) = Some (n, r).
Proof.
  intros Hr. unfold number_token.
  assert (Hsign :
    match t ++ r with
    | c :: r0 => if code c =? 45 then (true, r0) else (false, t ++ r)
    | [] => (false, t ++ r)
    end
    = let '(negative, s1) :=
        match t with
        | c :: r0 => if code c =? 45 then (true, r0) else (false, t)
        | [] => (false, t)
        end in (negative, s1 ++ r)).
  { destruct t as [|c t].
    - destruct r as [|c r]; [reflexivity|].
      destruct (delimited_head c r Hr) as (_ & _ & _ & _ & H45 & _).
      cbn [app]. now rewrite H45.
    - cbn [app]. now destruct (code c =? 45). }
  rewrite Hsign.
  destruct (match t with
            | c :: r0 => if code c =? 45 then (true, r0) else (false, t)
            | [] => (false, t)
            end) as [negative s1].
  rewrite (int_part_app r Hr).
  destruct (int_part s1) as [[m s2]|]; [|discriminate]. cbn [fmap option_fmap option_map mbind option_bind fst snd].
  rewrite (frac_part_app r Hr).
  destruct (frac_part m s2) as [[[m' scale] s3]|]; [|discriminate].
  cbn [fmap option_fmap option_map mbind option_bind fst snd].
  rewrite (exp_part_app r Hr).
  destruct (exp_part s3) as [[e s4]|]; [|discriminate].
  cbn [fmap option_fmap option_map mbind option_bind fst snd].
  intros [= <- ->]. reflexivity.
Qed.

(** A number begins with a minus sign or a digit. *)
Lemma number_token_head t n r :
  number_token t = Some (n, r) ->
  exists c t', t = c :: t' /\ (code c = 45 \/ 48 <= code c <= 57).
Proof.
  unfold number_token. destruct t as [|c t].
  - discriminate.
  - intros H. exists c, t. split; [reflexivity|].
    destruct (Z.eqb_spec (code c) 45) as [E|E]; [now left|]. right.
    destruct (int_part (c :: t)) as [[m s2]|] eqn:Ei; [|discriminate].
    unfold int_part in Ei.
    destruct (Z.eqb_spec (code c) 48) as [E48|E48]; [lia|].
    cbn [digits] in Ei. unfold digit_val in Ei.
    destruct ((48 <=? code c) && (code c <=? 57)) eqn:Ed.
    + apply andb_prop in Ed as [H1 H2]. apply Z.leb_le in H1, H2. lia.
    + discriminate.
Qed.
(** *** The reader on the first character of a value *)

Lemma value_head (f : nat) c r :
  is_ws c = false -> skip_ws (c :: r) = c :: r.
Proof. intros H. cbn [skip_ws]. now rewrite H. Qed.

Lemma value_string f r :
  value (S f) (byte 34 :: r)
  = string_body r [] ≫= λ '(str, r'), Some (VStr str, r').
Proof. reflexivity. Qed.

Lemma value_word f (word : string) (doc : jsval) rest :
  (word = "null" /\ doc = VNull) \/ (word = "true" /\ doc = VBool true)
  \/ (word = "false" /\ doc = VBool false) ->
  value (S f) (chars word ++ rest) = Some (doc, rest).
Proof.
  intros [[-> ->] | [[-> ->] | [-> ->]]];
    cbn [chars list_ascii_of_string app value];
    rewrite (value_head f) by reflexivity;
    repeat match goal with
           | |- context [code ?c =? ?n] =>
               let b := eval vm_compute in (code c =? n) in
               change (code c =? n) with b; cbv iota
           end;
    unfold literal;
    match goal with
    | |- context [decide ?P] => destruct (decide P) as [_|Hn]; [reflexivity|]
    end; exfalso; apply Hn; reflexivity.
Qed.

Lemma value_number f c t :
  code c = 45 \/ 48 <= code c <= 57 ->
  value (S f) (c :: t)
  = number_token (c :: t) ≫= λ '(n, r'), Some (VNum n, r').
Proof.
  intros Hc.
  assert (Hws : is_ws c = false).
  { unfold is_ws.
    destruct (Z.eqb_spec (code c) 32); [lia|]. destruct (Z.eqb_spec (code c) 9); [lia|].
    destruct (Z.eqb_spec (code c) 10); [lia|]. destruct (Z.eqb_spec (code c) 13); [lia|].
    reflexivity. }
  cbn [value]. rewrite (value_head f c t Hws).
  destruct (Z.eqb_spec (code c) 34); [lia|]. destruct (Z.eqb_spec (code c) 91); [lia|].
  destruct (Z.eqb_spec (code c) 123); [lia|]. destruct (Z.eqb_spec (code c) 110); [lia|].
  destruct (Z.eqb_spec (code c) 116); [lia|]. destruct (Z.eqb_spec (code c) 102); [lia|].
  reflexivity.
Qed.

Lemma value_array f c r :
  is_ws c = false ->
  value (S f) (byte 91 :: c :: r)
  = if code c =? 93 then Some (VArr [], r) else elements f (c :: r) [].
Proof.
  intros Hws. cbn [value]. rewrite (value_head f (byte 91) (c :: r) eq_refl).
  change (code (byte 91) =? 34) with false. change (code (byte 91) =? 91) with true.
  cbv iota. now rewrite (value_head f c r Hws).
Qed.

Lemma value_object f c r :
  is_ws c = false ->
  value (S f) (byte 123 :: c :: r)
  = if code c =? 125 then Some (VObj [], r) else members_text f (c :: r) [].
Proof.
  intros Hws. cbn [value]. rewrite (value_head f (byte 123) (c :: r) eq_refl).
  change (code (byte 123) =? 34) with false. change (code (byte 123) =? 91) with false.
  change (code (byte 123) =? 123) with true.
  cbv iota. now rewrite (value_head f c r Hws).
Qed.

Lemma skip_ws_delimited c r : delimited (c :: r) = true -> skip_ws (c :: r) = c :: r.
Proof.
  intros H. cbn [skip_ws].
  assert (Hws : is_ws c = false); [|now rewrite Hws].
  unfold delimited in H. unfold is_ws.
  destruct (Z.eqb_spec (code c) 44) as [E|_]; [rewrite E; reflexivity|].
  destruct (Z.eqb_spec (code c) 93) as [E|_]; [rewrite E; reflexivity|].
  destruct (Z.eqb_spec (code c) 125) as [E|_]; [rewrite E; reflexivity|].
  discriminate H.
Qed.

Lemma identical_eq m n : identical m n = true -> m = n.
Proof.
  destruct m as [[p1 p2]| | |], n as [[q1 q2]| | |]; try discriminate; try reflexivity.
  simpl. intros H. apply andb_prop in H as [H1 H2].
  apply Z.eqb_eq in H1. apply Pos.eqb_eq in H2. now subst.
Qed.

(** *** Objects built by the reader *)

Lemma put_fresh k v (acc : Bag) :
  ~ In k (map fst acc) -> JsObject.put k v acc = acc ++ [(k, v)].
Proof.
  induction acc as [|[k' v'] acc IH]; simpl; [reflexivity|].
  intros Hnotin. destruct (String.eqb_spec k k') as [->|_]; [tauto|].
  rewrite IH; [reflexivity|tauto].
Qed.

Lemma fold_put (docs : Bag) : forall acc,
  List.NoDup (map fst (acc ++ docs)) ->
  fold_left (fun a kv => JsObject.put (fst kv) (snd kv) a) docs acc = acc ++ docs.
Proof.
  induction docs as [|[k v] docs IH]; intros acc Hnd; simpl.
  - now rewrite app_nil_r.
  - assert (Hfresh : ~ In k (map fst acc)).
    { rewrite map_app in Hnd. simpl in Hnd. apply List.NoDup_remove_2 in Hnd.
      intros Hin. apply Hnd. apply in_or_app. now left. }
    rewrite (put_fresh _ _ _ Hfresh). rewrite IH.
    + now rewrite <- app_assoc.
    + now rewrite <- app_assoc.
Qed.

Lemma members_keys (props : Bag) k :
  In k (map fst (members props)) -> In k (map fst props).
Proof.
  induction props as [|[k' x] props IH]; simpl; [tauto|].
  destruct (serialize x); simpl; tauto.
Qed.

Lemma members_NoDup (props : Bag) :
  List.NoDup (map fst props) -> List.NoDup (map fst (members props)).
Proof.
  induction props as [|[k x] props IH]; simpl; [constructor|].
  intros Hnd. inversion Hnd as [|? ? Hnotin Hnd']; subst.
  destruct (serialize x); simpl; [|now apply IH].
  constructor; [|now apply IH]. intros Hin. apply Hnotin. now apply members_keys.
Qed.
(** *** What is written is read back *)

Section Reading.
(** [Number::toString] *)
Variable Number_toString : number -> string.

(** [Reads t doc]: the text [t] is read as [doc] in front of whatever can
    follow a value, with the fuel that [parse] gives; [Starts t]: [t]
    begins with a character that is neither white space nor a closing
    bracket; [Written v]: the text of [v], if there is one, is read back as
    the document of [v]. *)

#[local] Abbreviation Reads t doc :=
  (forall rest fuel, delimited rest = true ->
     le (Nat.add (Nat.mul 2 (length (t ++ rest))) 1) fuel ->
     value fuel (t ++ rest) = Some (doc, rest)).

#[local] Abbreviation Starts t :=
  (exists c t', t = c :: t' /\ is_ws c = false /\ code c <> 93 /\ code c <> 125).

#[local] Abbreviation Written v :=
  (forall out, property Number_toString v = Return out -> sound Number_toString v = true ->
     match out with
     | None => serialize v = None
     | Some t => exists doc, serialize v = Some doc /\ Starts t /\ Reads t doc
     end).

Lemma reads_word (word : string) (doc : jsval) :
  (word = "null" /\ doc = VNull) \/ (word = "true" /\ doc = VBool true)
  \/ (word = "false" /\ doc = VBool false) ->
  Starts (chars word) /\ Reads (chars word) doc.
Proof.
  intros H. split.
  - destruct H as [[-> _] | [[-> _] | [-> _]]];
      eexists _, _; (split; [reflexivity|]); (split; [reflexivity|]);
      split; discriminate.
  - intros rest [|f] _ Hfuel; [lia|]. now apply value_word.
Qed.

Lemma reads_quote (s : string) : Starts (quote s) /\ Reads (quote s) (VStr s).
Proof.
  split.
  - eexists _, _. split; [reflexivity|]. split; [reflexivity|]. split; discriminate.
  - intros rest [|f] _ Hfuel; [lia|]. unfold quote. cbn [app].
    rewrite <- app_assoc. cbn [app]. rewrite value_string, string_body_quote.
    reflexivity.
Qed.

Lemma reads_number (n : number) :
  readsBack Number_toString n = true -> Starts (chars (Number_toString n)) /\ Reads (chars (Number_toString n)) (VNum n).
Proof.
  unfold readsBack. intros H.
  destruct (number_token (chars (Number_toString n))) as [[m [|c r]]|] eqn:E; try discriminate H.
  apply identical_eq in H. subst m.
  destruct (number_token_head _ _ _ E) as (c & t' & Ht & Hc).
  split.
  - exists c, t'. split; [exact Ht|].
    split; [|split; lia].
    unfold is_ws.
    destruct (Z.eqb_spec (code c) 32); [lia|]. destruct (Z.eqb_spec (code c) 9); [lia|].
    destruct (Z.eqb_spec (code c) 10); [lia|]. destruct (Z.eqb_spec (code c) 13); [lia|].
    reflexivity.
  - intros rest [|f] Hrest Hfuel; [lia|].
    pose proof (number_token_app _ _ rest Hrest E) as Happ.
    rewrite Ht in *. cbn [app] in *. rewrite (value_number f c _ Hc), Happ. reflexivity.
Qed.

(** The element of an array: a value without a text is written [null]. *)
Lemma element_reads (x : jsval) out :
  match out with
  | None => serialize x = None
  | Some t => exists doc, serialize x = Some doc /\ Starts t /\ Reads t doc
  end ->
  Starts (default (chars "null") out) /\ Reads (default (chars "null") out) (element x).
Proof.
  unfold element. destruct out as [t|]; cbn [default].
  - intros (doc & -> & Hs & Hr). split; assumption.
  - intros ->. apply (reads_word "null"). now left.
Qed.

Lemma commas_cons (t : list ascii) (texts : list (list ascii)) (close : ascii) rest :
  commas (t :: texts) ++ close :: rest
  = t ++ match texts with
         | [] => close :: rest
         | _ :: _ => byte 44 :: (commas texts ++ close :: rest)
         end.
Proof.
  destruct texts as [|t2 texts]; [reflexivity|].
  cbn [commas]. now rewrite <- app_assoc.
Qed.

Lemma element_texts_cons (x : jsval) (items : list jsval) :
  element_texts Number_toString (x :: items)
  = match property Number_toString x with
    | Throw e => Throw e
    | Return text =>
        match element_texts Number_toString items with
        | Throw e => Throw e
        | Return texts => Return (default (chars "null") text :: texts)
        end
    end.
Proof. reflexivity. Qed.

Lemma member_texts_cons (k : string) (x : jsval) (props : Bag) :
  member_texts Number_toString ((k, x) :: props)
  = match property Number_toString x with
    | Throw e => Throw e
    | Return text =>
        match member_texts Number_toString props with
        | Throw e => Throw e
        | Return texts =>
            Return match text with
                   | Some t => (quote k ++ byte 58 :: t) :: texts
                   | None => texts
                   end
        end
    end.
Proof. reflexivity. Qed.

(** The texts of the elements of an array, read after the opening
    bracket. *)
Lemma elements_read (items : list jsval) :
  Forall (fun x => Written x) items ->
  forall texts,
    element_texts Number_toString items = Return texts ->
    forallb (sound Number_toString) items = true ->
    length texts = length items
    /\ Forall (fun t => Starts t) texts
    /\ forall acc rest fuel,
         texts <> [] ->
         (2 * length (commas texts ++ byte 93 :: rest) + 2 <= fuel)%nat ->
         elements fuel (commas texts ++ byte 93 :: rest) acc
         = Some (VArr (rev acc ++ map element items), rest).
Proof.
  induction 1 as [|x items Hx _ IH]; intros texts Htexts Hsound.
  - injection Htexts as <-. split; [reflexivity|]. split; [constructor|].
    intros acc rest fuel Hne. congruence.
  - rewrite element_texts_cons in Htexts. cbn [forallb] in Hsound.
    apply andb_prop in Hsound as [Hsx Hsound].
    destruct (property Number_toString x) as [out|e] eqn:Ex; [|discriminate].
    destruct (element_texts Number_toString items) as [texts'|e] eqn:Et; [|discriminate].
    injection Htexts as <-.
    destruct (IH _ eq_refl Hsound) as (Hlen & Hstarts & Hread).
    destruct (element_reads x out (Hx out eq_refl Hsx)) as [Hstart Hreads].
    change (chars "null") with ["n"%char; "u"%char; "l"%char; "l"%char] in *.
    set (tx := default _ out) in *. clearbody tx.
    split; [cbn [length]; now rewrite Hlen|].
    split; [constructor; [exact Hstart|exact Hstarts]|].
    intros acc rest [|f] _ Hfuel; [lia|].
    rewrite commas_cons in *.
    destruct Hstart as (c & t' & Ht & _).
    assert (Hpos : (1 <= length tx)%nat) by (rewrite Ht; cbn [length]; lia).
    rewrite length_app in Hfuel.
    destruct texts' as [|t2 texts']; cbn [elements].
    + destruct items; [|discriminate Hlen].
      rewrite (Hreads (byte 93 :: rest) f eq_refl)
        by (rewrite length_app; lia).
      cbn [mbind option_bind]. rewrite skip_ws_delimited by reflexivity.
      change (code (byte 93) =? 44) with false. change (code (byte 93) =? 93) with true.
      cbv iota. cbn [map rev]. reflexivity.
    + rewrite (Hreads (byte 44 :: (commas (t2 :: texts') ++ byte 93 :: rest)) f eq_refl)
        by (rewrite length_app; lia).
      cbn [mbind option_bind]. rewrite skip_ws_delimited by reflexivity.
      change (code (byte 44) =? 44) with true. cbv iota.
      rewrite Hread; [|discriminate|cbn [length] in Hfuel; lia].
      cbn [map rev]. now rewrite <- app_assoc.
Qed.

Lemma members_text_step f (k : string) (t : list ascii) (doc : jsval) c r4 acc :
  delimited (c :: r4) = true ->
  value f (t ++ c :: r4) = Some (doc, c :: r4) ->
  members_text (S f) ((quote k ++ byte 58 :: t) ++ c :: r4) acc
  = if code c =? 44 then members_text f r4 (JsObject.put k doc acc)
    else if code c =? 125 then Some (VObj (JsObject.put k doc acc), r4)
    else None.
Proof.
  intros Hd Hv. unfold quote. cbn [app]. rewrite <- !app_assoc. cbn [app].
  cbn [members_text]. rewrite (value_head f (byte 34)) by reflexivity.
  change (code (byte 34) =? 34) with true. cbv iota.
  rewrite string_body_quote. cbn [mbind option_bind].
  rewrite (value_head f (byte 58)) by reflexivity.
  change (code (byte 58) =? 58) with true. cbv iota.
  rewrite Hv. cbn [mbind option_bind]. now rewrite (skip_ws_delimited _ _ Hd).
Qed.

(** The texts of the members of an object, read after the opening
    brace. *)
Lemma members_read (props : Bag) :
  Forall (fun kv => Written (snd kv)) props ->
  forall texts,
    member_texts Number_toString props = Return texts ->
    forallb (fun kv => sound Number_toString (snd kv)) props = true ->
    length texts = length (members props)
    /\ Forall (fun t => exists t', t = byte 34 :: t') texts
    /\ forall acc rest fuel,
         texts <> [] ->
         (2 * length (commas texts ++ byte 125 :: rest) + 2 <= fuel)%nat ->
         members_text fuel (commas texts ++ byte 125 :: rest) acc
         = Some (VObj (fold_left (fun a kv => JsObject.put (fst kv) (snd kv) a)
                         (members props) acc), rest).
Proof.
  induction 1 as [|[k x] props Hx _ IH]; intros texts Htexts Hsound.
  - injection Htexts as <-. split; [reflexivity|]. split; [constructor|].
    intros acc rest fuel Hne. congruence.
  - rewrite member_texts_cons in Htexts. cbn [forallb snd] in Hsound.
    apply andb_prop in Hsound as [Hsx Hsound].
    destruct (property Number_toString x) as [out|e] eqn:Ex; [|discriminate].
    destruct (member_texts Number_toString props) as [texts'|e] eqn:Et; [|discriminate].
    injection Htexts as <-.
    destruct (IH _ eq_refl Hsound) as (Hlen & Hstarts & Hread).
    cbn [snd] in Hx. specialize (Hx out Ex Hsx).
    cbn [members]. destruct out as [t|].
    + destruct Hx as (doc & -> & (c0 & t0 & Ht0 & _) & Hreads).
      split; [cbn [length]; now rewrite Hlen|].
      split; [constructor; [eexists; reflexivity|exact Hstarts]|].
      intros acc rest [|f] _ Hfuel; [lia|].
      rewrite commas_cons in *.
      assert (Hpos : (1 <= length t)%nat) by (rewrite Ht0; cbn [length]; lia).
      change (byte 34 :: (flat_map escape (chars k) ++ [byte 34]) ++ byte 58 :: t)
        with (quote k ++ byte 58 :: t) in *.
      destruct texts' as [|t2 texts']; cbv iota in *;
        rewrite !length_app in Hfuel; cbn [length] in Hfuel.
      * rewrite (members_text_step f k t doc (byte 125) rest acc eq_refl)
          by (apply Hreads; [reflexivity|rewrite length_app; cbn [length]; lia]).
        change (code (byte 125) =? 44) with false.
        change (code (byte 125) =? 125) with true. cbv iota.
        destruct (members props); [reflexivity|discriminate Hlen].
      * rewrite (members_text_step f k t doc (byte 44) _ acc eq_refl)
          by (apply Hreads; [reflexivity|rewrite length_app; cbn [length]; lia]).
        change (code (byte 44) =? 44) with true. cbv iota.
        rewrite Hread; [reflexivity|discriminate|lia].
    + rewrite Hx. split; [exact Hlen|]. split; [exact Hstarts|]. exact Hread.
Qed.

Lemma property_VArr (items : list jsval) :
  property Number_toString (VArr items)
  = match element_texts Number_toString items with
    | Throw e => Throw e
    | Return texts => Return (Some (byte 91 :: commas texts ++ [byte 93]))
    end.
Proof. reflexivity. Qed.

Lemma property_VObj (props : Bag) :
  property Number_toString (VObj props)
  = match member_texts Number_toString props with
    | Throw e => Throw e
    | Return texts => Return (Some (byte 123 :: commas texts ++ [byte 125]))
    end.
Proof. reflexivity. Qed.

Lemma sound_VObj (props : Bag) :
  sound Number_toString (VObj props) = true ->
  List.NoDup (map fst props) /\ forallb (fun kv => sound Number_toString (snd kv)) props = true.
Proof.
  cbn [sound]. intros H. apply andb_prop in H as [H1 H2]. split; [|exact H2].
  apply bool_decide_eq_true in H1. now apply NoDup_ListNoDup.
Qed.

(** Every value that has a text is read back from it as its document, in
    front of whatever can follow a value. *)
Lemma written_is_read (v : jsval) : Written v.
Proof.
  induction v as [| | b | n | s | t | items IH | props IH | z] using jsval_induction;
    intros out Hout Hsound.
  - injection Hout as <-. reflexivity.
  - injection Hout as <-. exists VNull. split; [reflexivity|].
    apply (reads_word "null"). now left.
  - injection Hout as <-. exists (VBool b). split; [reflexivity|].
    destruct b; [apply (reads_word "true"); right; left
                |apply (reads_word "false"); right; right]; now split.
  - cbn [property] in Hout. injection Hout as <-. cbn [sound] in Hsound.
    cbn [serialize]. destruct (JsNum.is_finite n).
    + exists (VNum n). split; [reflexivity|]. now apply reads_number.
    + exists VNull. split; [reflexivity|]. apply (reads_word "null"). now left.
  - injection Hout as <-. exists (VStr s). split; [reflexivity|]. apply reads_quote.
  - cbn [property] in Hout. injection Hout as <-. destruct t as [ms|].
    + exists (VStr (JsDate.toISOString ms)). split; [reflexivity|]. apply reads_quote.
    + exists VNull. split; [reflexivity|]. apply (reads_word "null"). now left.
  - rewrite property_VArr in Hout. cbn [sound] in Hsound.
    destruct (element_texts Number_toString items) as [texts|e] eqn:Et; [|discriminate].
    injection Hout as <-.
    destruct (elements_read items IH texts Et Hsound) as (Hlen & Hstarts & Hread).
    exists (VArr (map element items)). split; [reflexivity|]. split.
    + eexists _, _. split; [reflexivity|]. split; [reflexivity|]. split; discriminate.
    + intros rest [|f] _ Hfuel; [cbn [length app] in Hfuel; lia|].
      cbn [app]. rewrite <- app_assoc. cbn [app].
      destruct texts as [|t1 texts].
      * destruct items; [|discriminate Hlen]. cbn [commas app map].
        now rewrite value_array by reflexivity.
      * inversion Hstarts as [|? ? (c & t' & Ht & Hws & H93 & _) _]; subst.
        rewrite commas_cons. cbn [app].
        rewrite value_array by exact Hws.
        destruct (Z.eqb_spec (code c) 93); [contradiction|].
        change (c :: t' ++ match texts with
                           | [] => byte 93 :: rest
                           | _ :: _ => byte 44 :: (commas texts ++ byte 93 :: rest)
                           end)
          with ((c :: t') ++ match texts with
                             | [] => byte 93 :: rest
                             | _ :: _ => byte 44 :: (commas texts ++ byte 93 :: rest)
                             end).
        rewrite <- commas_cons.
        rewrite (Hread [] rest f); [reflexivity|discriminate|].
        cbn [length app] in Hfuel. rewrite !length_app in Hfuel. cbn [length] in Hfuel.
        rewrite length_app. cbn [length]. lia.
  - rewrite property_VObj in Hout.
    destruct (sound_VObj props Hsound) as [Hnd Hsound'].
    destruct (member_texts Number_toString props) as [texts|e] eqn:Et; [|discriminate].
    injection Hout as <-.
    destruct (members_read props IH texts Et Hsound') as (Hlen & Hstarts & Hread).
    exists (VObj (members props)). split; [reflexivity|]. split.
    + eexists _, _. split; [reflexivity|]. split; [reflexivity|]. split; discriminate.
    + intros rest [|f] _ Hfuel; [cbn [length app] in Hfuel; lia|].
      cbn [app]. rewrite <- app_assoc. cbn [app].
      destruct texts as [|t1 texts].
      * destruct (members props); [|discriminate Hlen]. cbn [commas app].
        now rewrite value_object by reflexivity.
      * inversion Hstarts as [|? ? (t' & Ht) _]; subst.
        rewrite commas_cons. cbn [app].
        rewrite value_object by reflexivity.
        change (code (byte 34) =? 125) with false. cbv iota.
        change (byte 34 :: t' ++ match texts with
                                 | [] => byte 125 :: rest
                                 | _ :: _ => byte 44 :: (commas texts ++ byte 125 :: rest)
                                 end)
          with ((byte 34 :: t') ++ match texts with
                                   | [] => byte 125 :: rest
                                   | _ :: _ =>
                                       byte 44 :: (commas texts ++ byte 125 :: rest)
                                   end).
        rewrite <- commas_cons.
        rewrite (Hread [] rest f); [|discriminate|].
        -- rewrite fold_put; [reflexivity|]. cbn [app]. now apply members_NoDup.
        -- cbn [length app] in Hfuel. rewrite !length_app in Hfuel.
           cbn [length] in Hfuel. rewrite length_app. cbn [length]. lia.
  - discriminate Hout.
Qed.

(** [JSON.parse(JSON.stringify(v))] *)
Lemma parse_stringify (v : jsval) (data : string) :
  sound Number_toString v = true ->
  stringify Number_toString v = Return (Some data) ->
  exists doc, serialize v = Some doc /\ parse data = Some doc.
Proof.
  intros Hsound Hdata. unfold stringify in Hdata.
  destruct (property Number_toString v) as [[t|]|e] eqn:Ep; try discriminate.
  injection Hdata as <-.
  destruct (written_is_read v (Some t) Ep Hsound) as (doc & Hdoc & _ & Hreads).
  exists doc. split; [exact Hdoc|].
  unfold parse. rewrite list_ascii_of_string_of_list_ascii.
  specialize (Hreads [] (2 * length t + 2)%nat eq_refl).
  rewrite app_nil_r in Hreads. rewrite Hreads by lia. reflexivity.
Qed.

(** [JSON.stringify] throws exactly on a value with a BigInt. *)
Lemma property_throws (v : jsval) :
  if throws v then property Number_toString v = Throw bigint_message
  else exists out, property Number_toString v = Return out.
Proof.
  induction v as [| | b | n | s | t | items IH | props IH | z] using jsval_induction;
    try (cbn [throws]; eexists; reflexivity); try reflexivity.
  - cbn [throws]. rewrite property_VArr.
    assert (H : if existsb throws items then element_texts Number_toString items = Throw bigint_message
                else exists texts, element_texts Number_toString items = Return texts).
    { induction IH as [|x items Hx _ IHitems]; [eexists; reflexivity|].
      cbn [existsb]. rewrite element_texts_cons. destruct (throws x); cbn [orb].
      - now rewrite Hx.
      - destruct Hx as [out ->]. destruct (existsb throws items).
        + now rewrite IHitems.
        + destruct IHitems as [texts ->]. eexists; reflexivity. }
    destruct (existsb throws items); [now rewrite H|].
    destruct H as [texts ->]. eexists; reflexivity.
  - cbn [throws]. rewrite property_VObj.
    assert (H : if existsb (fun kv => throws (snd kv)) props
                then member_texts Number_toString props = Throw bigint_message
                else exists texts, member_texts Number_toString props = Return texts).
    { induction IH as [|[k x] props Hx _ IHprops]; [eexists; reflexivity|].
      cbn [existsb snd]. rewrite member_texts_cons. cbn [snd] in Hx.
      destruct (throws x); cbn [orb].
      - now rewrite Hx.
      - destruct Hx as [out ->].
        destruct (existsb (fun kv => throws (snd kv)) props).
        + now rewrite IHprops.
        + destruct IHprops as [texts ->]. eexists; reflexivity. }
    destruct (existsb (fun kv => throws (snd kv)) props); [now rewrite H|].
    destruct H as [texts ->]. eexists; reflexivity.
Qed.

End Reading.
End WriterFacts.

(** ** The round trip of [exportData] and [importData] *)

Module RoundTripFacts.
Import Persistence.

Section RoundTrip.
Variable Number_toString : number -> string.

Lemma element_entries_dyn (m : list (jsval * jsval)) :
  Json.element (entriesArray m)
  = VArr (map (fun kv => VArr [Json.element (fst kv); Json.element (snd kv)]) m).
Proof.
  unfold Json.element at 1, entriesArray. rewrite JsonFacts.serialize_VArr.
  rewrite map_map. reflexivity.
Qed.

Lemma addEntries_reload (m : list (jsval * jsval)) : forall acc,
  DynMap.addEntries
    (map (fun kv => VArr [Json.element (fst kv); Json.element (snd kv)]) m) acc
  = Some (fold_left
            (fun acc kv => DynMap.set (Json.element (fst kv)) (Json.element (snd kv)) acc)
            m acc).
Proof.
  induction m as [|[k v] m IH]; intros acc; [reflexivity|]. simpl. apply IH.
Qed.

Lemma load_reload (m : list (jsval * jsval)) :
  DynMap.fromIterable (Json.element (entriesArray m)) = Some (reload m).
Proof. rewrite element_entries_dyn. simpl. apply addEntries_reload. Qed.

Lemma exportDocument_fields (d : DynRegistry) :
  exportDocument d
  = VObj [ ("agents", Json.element (entriesArray (agents d)));
           ("skills", Json.element (entriesArray (skills d)));
           ("tasks", Json.element (entriesArray (tasks d))) ].
Proof. reflexivity. Qed.

(** The import of the exported document. *)
Lemma importDocument_exported (d prior : DynRegistry) :
  importDocument (exportDocument d) prior = (Imported, reloaded d).
Proof.
  rewrite exportDocument_fields.
  apply PersistenceFacts.importDocument_object; apply load_reload.
Qed.

(** With string keys every entry keeps its place. *)
Lemma fold_set_strings (l : list (string * jsval)) : forall acc : list (string * jsval),
  NoDup (map fst (acc ++ l)) ->
  fold_left
    (fun a kv => DynMap.set (Json.element (fst kv)) (Json.element (snd kv)) a)
    (map (fun kv => (VStr (fst kv), snd kv)) l)
    (map (fun kv => (VStr (fst kv), Json.element (snd kv))) acc)
  = map (fun kv => (VStr (fst kv), Json.element (snd kv))) (acc ++ l).
Proof.
  induction l as [|[k v] l IH]; intros acc Hnd.
  - now rewrite app_nil_r.
  - cbn [map fold_left fst snd].
    assert (Hfresh : ~ In k (map fst (map (fun kv => (fst kv, Json.element (snd kv))) acc))).
    { rewrite map_map. cbn [fst]. rewrite map_app in Hnd.
      apply NoDup_app in Hnd as (_ & Hdisj & _).
      intros Hin. apply (Hdisj k); [now apply list_elem_of_In|]. simpl. left. }
    change (Json.element (VStr k)) with (VStr k).
    pose proof (PersistenceFacts.set_fresh
                  (map (fun kv => (fst kv, Json.element (snd kv))) acc) k
                  (Json.element v) Hfresh) as Hset.
    rewrite map_map in Hset. cbn [fst snd] in Hset. rewrite Hset.
    change (map (fun kv => (VStr (fst kv), Json.element (snd kv))) acc
            ++ [(VStr k, Json.element v)])
      with (map (fun kv => (VStr (fst kv), Json.element (snd kv))) acc
            ++ map (fun kv => (VStr (fst kv), Json.element (snd kv))) [(k, v)]).
    rewrite <- map_app. rewrite IH.
    + now rewrite <- app_assoc.
    + now rewrite <- app_assoc.
Qed.

Lemma reload_stringKeyed (m : list (jsval * jsval)) :
  stringKeyed m -> reload m = imageOfEntries m.
Proof.
  intros (l & Hnd & ->). unfold reload, imageOfEntries.
  pose proof (fold_set_strings l [] Hnd) as H. cbn [map app] in H.
  rewrite H, map_map. reflexivity.
Qed.

Lemma ofMap_stringKeyed {V : Type} (f : V -> jsval) (m : JsMap V) :
  JsMap.wf m -> stringKeyed (ofMap f m).
Proof.
  intros Hwf. exists (map (fun kv => (fst kv, f (snd kv))) m). split.
  - rewrite map_map. exact Hwf.
  - unfold ofMap. rewrite map_map. reflexivity.
Qed.

(** The text of an export. *)
Lemma exportData_text (d : DynRegistry) :
  Json.sound Number_toString (exportValue d) = true ->
  Json.throws (exportValue d) = false ->
  exists data,
    exportData Number_toString d = Return data
    /\ Json.parse data = Some (exportDocument d).
Proof.
  intros Hsound Hthrows.
  pose proof (WriterFacts.property_throws Number_toString (exportValue d)) as Hp.
  rewrite Hthrows in Hp. destruct Hp as [out Hout].
  assert (Hsome : exists t, out = Some t).
  { unfold exportValue in Hout. rewrite WriterFacts.property_VObj in Hout.
    destruct (Json.member_texts _ _); [|discriminate]. injection Hout as <-.
    eexists; reflexivity. }
  destruct Hsome as [t ->].
  assert (Hstr : Json.stringify Number_toString (exportValue d)
                 = Return (Some (string_of_list_ascii t))).
  { unfold Json.stringify. now rewrite Hout. }
  exists (string_of_list_ascii t). split.
  - unfold exportData. now rewrite Hstr.
  - destruct (WriterFacts.parse_stringify Number_toString _ _ Hsound Hstr)
      as (doc & Hdoc & Hparse).
    rewrite Hparse. f_equal. unfold exportDocument, Json.element. now rewrite Hdoc.
Qed.

Lemma exportData_throws (d : DynRegistry) :
  Json.throws (exportValue d) = true ->
  exportData Number_toString d = Throw Json.bigint_message.
Proof.
  intros Hthrows.
  pose proof (WriterFacts.property_throws Number_toString (exportValue d)) as Hp.
  rewrite Hthrows in Hp. unfold exportData, Json.stringify. now rewrite Hp.
Qed.


End RoundTrip.


(** A BigInt as the result of a task: the export throws. *)
Example export_throws_on_a_BigInt :
  Json.throws (exportValue (reify Scenarios.countedInBigInt)) = true
  /\ exportData Scenarios.wholeText (reify Scenarios.countedInBigInt)
     = Throw Json.bigint_message.
Proof. split; vm_compute; reflexivity. Qed.

(** After the import of a document with an entry without a key and an
    entry under the key null the agents map has two entries; the round
    trip writes both keys as null and leaves one entry. *)
Example roundtrip_after_import_merges_entries :
  let d := snd (importData Scenarios.mixedKeysText (mkDyn [] [] [])) in
  agents d = [(VUndef, VUndef); (VNull, VNum (JsNum.of_Z 1))]
  /\ exportData Scenarios.wholeText d
     = Return (Json.text "{'agents':[[null,null],[null,1]],'skills':[],'tasks':[]}")
  /\ importData (Json.text "{'agents':[[null,null],[null,1]],'skills':[],'tasks':[]}") d
     = (Imported, reloaded d)
  /\ agents (reloaded d) = [(VNull, VNum (JsNum.of_Z 1))].
Proof. repeat split; vm_compute; reflexivity. Qed.


End RoundTripFacts.

(** ** Sequences of registry operations *)

Module RegistryOpsFacts.

Import JsMapFacts.

Lemma keys_set_extend {V : Type} (m : list (string * V)) k v :
  exists added, JsMap.keys (JsMap.set k v m) = JsMap.keys m ++ added.
Proof.
  destruct (JsMap.get k m) as [v0|] eqn:E.
  - exists []. rewrite app_nil_r. exact (keys_set_present _ _ _ _ E).
  - exists [k]. exact (keys_set_absent _ _ _ E).
Qed.

#[local] Abbreviation extends := RegistryOps.extends.

Lemma extends_refl r : extends r r.
Proof. repeat split; exists []; now rewrite app_nil_r. Qed.

Lemma extends_trans r1 r2 r3 : extends r1 r2 -> extends r2 r3 -> extends r1 r3.
Proof.
  intros ([a1 H1] & [s1 H2] & [t1 H3]) ([a2 H4] & [s2 H5] & [t2 H6]).
  repeat split.
  - exists (a1 ++ a2). now rewrite H4, H1, app_assoc.
  - exists (s1 ++ s2). now rewrite H5, H2, app_assoc.
  - exists (t1 ++ t2). now rewrite H6, H3, app_assoc.
Qed.

Lemma extends_updateReputation now agentId taskSuccess r :
  extends r (SAPRegistry.updateReputation now agentId taskSuccess r).
Proof.
  unfold SAPRegistry.updateReputation.
  destruct (JsMap.get agentId (AgentRegistry.agents r)) eqn:E; [|apply extends_refl].
  repeat split; simpl; try (exists []; now rewrite app_nil_r).
  apply keys_set_extend.
Qed.

Lemma extends_countUsage skillId r : extends r (SAPRegistry.countUsage skillId r).
Proof.
  unfold SAPRegistry.countUsage.
  destruct (JsMap.get skillId (AgentRegistry.skills r)) eqn:E; [|apply extends_refl].
  repeat split; simpl; try (exists []; now rewrite app_nil_r).
  apply keys_set_extend.
Qed.

Lemma extends_run r op : extends r (RegistryOps.run r op).
Proof.
  destruct op; simpl.
  - repeat split; simpl; try (exists []; now rewrite app_nil_r). apply keys_set_extend.
  - repeat split; simpl; try (exists []; now rewrite app_nil_r). apply keys_set_extend.
  - apply extends_updateReputation.
  - repeat split; simpl; try (exists []; now rewrite app_nil_r). apply keys_set_extend.
  - repeat split; simpl; try (exists []; now rewrite app_nil_r). apply keys_set_extend.
  - unfold SAPRegistry.updateTaskStatus.
    destruct (JsMap.get taskId (AgentRegistry.tasks r)) as [task|] eqn:E;
      [|apply extends_refl].
    set (r1 := AgentRegistry.mk _ _ _).
    assert (H1 : extends r r1).
    { repeat split; simpl; try (exists []; now rewrite app_nil_r). apply keys_set_extend. }
    destruct (TaskStatus.terminal status); [|exact H1].
    eapply extends_trans; [exact H1|].
    eapply extends_trans; [apply extends_updateReputation|apply extends_countUsage].
Qed.

(** X1.  No operation of the registry removes or moves an entry: after
    any sequence of registrations, reputation updates, task creations and
    status updates, the keys of the agents map, of the skills map and of
    the tasks map are those of the starting state in the same order,
    followed by the keys added since. *)
Theorem operations_never_remove_entries (ops : list RegistryOps.Op) (r : AgentRegistry.t) :
  RegistryOps.extends r (RegistryOps.runAll ops r).
Proof.
  revert r. induction ops as [|op ops IH]; intros r; simpl.
  - apply extends_refl.
  - eapply extends_trans; [apply extends_run|apply IH].
Qed.


(** *** Tasks *)

Lemma continues_refl task : RegistryOps.continues task task.
Proof. unfold RegistryOps.continues. repeat split; eauto. Qed.

Lemma continues_trans t1 t2 t3 :
  RegistryOps.continues t1 t2 -> RegistryOps.continues t2 t3 -> RegistryOps.continues t1 t3.
Proof.
  unfold RegistryOps.continues.
  intros (A1 & A2 & A3 & A4 & A5 & A6 & A7 & A8 & A9)
         (B1 & B2 & B3 & B4 & B5 & B6 & B7 & B8 & B9).
  repeat split; try congruence.
  - intros t Ht. apply B8, A8, Ht.
  - intros t Ht. destruct (A9 _ Ht) as [t' Ht']. exact (B9 _ Ht').
Qed.

Lemma updatedTask_continues now status result error task :
  RegistryOps.continues task (SAPRegistry.updatedTask now status result error task).
Proof.
  unfold RegistryOps.continues, SAPRegistry.updatedTask.
  destruct (TaskStatus.terminal status); simpl; repeat split; eauto;
    intros t Ht; rewrite Ht; reflexivity.
Qed.

Lemma updateTaskStatus_tasks now taskId status result error r :
  AgentRegistry.tasks (SAPRegistry.updateTaskStatus now taskId status result error r)
  = match JsMap.get taskId (AgentRegistry.tasks r) with
    | Some task =>
        JsMap.set taskId (SAPRegistry.updatedTask now status result error task)
          (AgentRegistry.tasks r)
    | None => AgentRegistry.tasks r
    end.
Proof.
  unfold SAPRegistry.updateTaskStatus.
  destruct (JsMap.get taskId (AgentRegistry.tasks r)) as [task|]; [|reflexivity].
  destruct (TaskStatus.terminal status); [|reflexivity].
  rewrite (proj2 (RegistryFacts.countUsage_agents_tasks _ _)).
  now rewrite (proj2 (RegistryFacts.updateReputation_skills_tasks _ _ _ _)).
Qed.

Lemma run_continues taskId task r op :
  SAPRegistry.getTask taskId r = Some task ->
  RegistryOps.creates taskId op = false ->
  exists task',
    SAPRegistry.getTask taskId (RegistryOps.run r op) = Some task'
    /\ RegistryOps.continues task task'.
Proof.
  unfold SAPRegistry.getTask. intros Hget Hop.
  destruct op; simpl in *;
    try (exists task; split; [exact Hget|apply continues_refl]).
  - exists task. split; [|apply continues_refl].
    now rewrite (proj2 (RegistryFacts.updateReputation_skills_tasks _ _ _ _)).
  - exists task. split; [|apply continues_refl].
    rewrite get_set_ne; [exact Hget|].
    intros ->. rewrite String.eqb_refl in Hop. discriminate.
  - rewrite updateTaskStatus_tasks.
    destruct (String.eqb_spec taskId0 taskId) as [->|Hne].
    + rewrite Hget, get_set_eq. eexists. split; [reflexivity|].
      apply updatedTask_continues.
    + destruct (JsMap.get taskId0 (AgentRegistry.tasks r)).
      * rewrite get_set_ne by exact Hne.
        exists task. split; [exact Hget|apply continues_refl].
      * exists task. split; [exact Hget|apply continues_refl].
Qed.

(** X2.  A task keeps its identity: through any sequence of registry
    operations that does not create a task under the same identifier, a
    stored task stays stored and keeps its id, agent, skill, description,
    parameters, payment and creation time; its start time, once set, is
    never changed and its completion time, once set, is never cleared. *)
Theorem task_assignment_is_kept (ops : list RegistryOps.Op) (r : AgentRegistry.t)
    (taskId : string) (task : AgentTask.t) :
  SAPRegistry.getTask taskId r = Some task ->
  existsb (RegistryOps.creates taskId) ops = false ->
  exists task',
    SAPRegistry.getTask taskId (RegistryOps.runAll ops r) = Some task'
    /\ RegistryOps.continues task task'.
Proof.
  revert r task. induction ops as [|op ops IH]; intros r task Hget Hops; simpl in *.
  - exists task. split; [exact Hget|apply continues_refl].
  - apply orb_false_iff in Hops as [Hop Hops].
    destruct (run_continues _ _ _ _ Hget Hop) as (task1 & Hget1 & Hc1).
    destruct (IH _ _ Hget1 Hops) as (task' & Hget' & Hc').
    exists task'. split; [exact Hget'|].
    eapply continues_trans; eassumption.
Qed.

(** The task of the sample registry is started, completed and asked to
    run again: it was started at [t1] and stays so. *)
Lemma task_assignment_is_kept_witness :
  SAPRegistry.getTask Samples.idTask Samples.withTask = Some Scenarios.pendingTask
  /\ existsb (RegistryOps.creates Samples.idTask) Scenarios.restarted = false
  /\ exists task',
       SAPRegistry.getTask Samples.idTask
         (RegistryOps.runAll Scenarios.restarted Samples.withTask) = Some task'
       /\ RegistryOps.continues Scenarios.pendingTask task'.
Proof.
  split; [reflexivity|]. split; [reflexivity|].
  exact (task_assignment_is_kept Scenarios.restarted Samples.withTask Samples.idTask
           Scenarios.pendingTask eq_refl eq_refl).
Defined.

(** *** createTask and listTasksByAgent *)

Lemma set_absent {V : Type} (m : list (string * V)) k v :
  JsMap.get k m = None -> JsMap.set k v m = m ++ [(k, v)].
Proof.
  induction m as [|[k' v'] m IH]; simpl; [reflexivity|].
  destruct (String.eqb k k'); [discriminate|].
  intros H. now rewrite IH.
Qed.

(** X3.  A task created under an identifier that is not in use is stored
    as a pending task without result, error, payment, start or completion
    time; it is the last task listed for its agent, the lists of the other
    agents are unchanged, and so are the agents and the skills. *)
Theorem createTask_then_listTasksByAgent (taskId : string) (now : Z)
    (agentId skillId description : string) (parameters : Bag) (r : AgentRegistry.t) :
  SAPRegistry.getTask taskId r = None ->
  let r' := snd (SAPRegistry.createTask taskId now agentId skillId description
                   parameters r) in
  let task :=
    AgentTask.mk taskId agentId skillId description parameters TaskStatus.pending
      VUndef None None now None None in
  SAPRegistry.getTask taskId r' = Some task
  /\ SAPRegistry.listTasksByAgent agentId r' = SAPRegistry.listTasksByAgent agentId r ++ [task]
  /\ (forall other, other <> agentId ->
        SAPRegistry.listTasksByAgent other r' = SAPRegistry.listTasksByAgent other r)
  /\ (forall other, other <> taskId ->
        SAPRegistry.getTask other r' = SAPRegistry.getTask other r)
  /\ AgentRegistry.agents r' = AgentRegistry.agents r
  /\ AgentRegistry.skills r' = AgentRegistry.skills r.
Proof.
  unfold SAPRegistry.getTask, SAPRegistry.listTasksByAgent. intros Hfresh. simpl.
  split; [apply get_set_eq|].
  rewrite (set_absent _ _ _ Hfresh). unfold JsMap.values.
  rewrite map_app. simpl. split; [|split; [|split; [|split; reflexivity]]].
  - rewrite List.filter_app. simpl. now rewrite String.eqb_refl.
  - intros other Hne. rewrite List.filter_app. simpl.
    destruct (String.eqb_spec agentId other) as [->|_]; [congruence|].
    now rewrite app_nil_r.
  - intros other Hne. rewrite <- (set_absent _ _ _ Hfresh).
    apply get_set_ne. congruence.
Qed.

(** A second task for agent X in the sample registry. *)
Lemma createTask_then_listTasksByAgent_witness :
  SAPRegistry.getTask Scenarios.idTask2 Samples.withTask = None
  /\ map AgentTask.id
       (SAPRegistry.listTasksByAgent Samples.idX
          (snd (SAPRegistry.createTask Scenarios.idTask2 Samples.t1 Samples.idX
                  Samples.idSkill "check again" [] Samples.withTask)))
     = [Samples.idTask; Scenarios.idTask2].
Proof.
  split; [reflexivity|].
  destruct (createTask_then_listTasksByAgent Scenarios.idTask2 Samples.t1 Samples.idX
              Samples.idSkill "check again" [] Samples.withTask eq_refl)
    as (_ & Hlist & _).
  rewrite Hlist. reflexivity.
Defined.

(** *** Statistics of an agent *)


Lemma nextReputation_bound taskSuccess p c :
  (0 <= p)%Q -> (p <= 100)%Q -> (p <= c)%Q ->
  exists p',
    SAPRegistry.nextReputation taskSuccess (Fin p) = Fin p'
    /\ (0 <= p')%Q /\ (p' <= 100)%Q /\ (p' <= c + 1)%Q.
Proof.
  intros H0 H100 Hc.
  destruct taskSuccess; unfold SAPRegistry.nextReputation.
  - unfold JsNum.min, JsNum.add, JsNum.of_Z, JsNum.leb.
    destruct (Qle_bool _ _) eqn:E; eexists; (split; [reflexivity|]).
    + apply Qle_bool_iff in E. rewrite Qred_correct in *.
      unfold inject_Z in *. repeat split; lra.
    + apply JsNumFacts.Qle_bool_false in E. rewrite Qred_correct in *.
      unfold inject_Z in *. repeat split; lra.
  - unfold JsNum.max, JsNum.sub, JsNum.add, JsNum.neg, JsNum.of_Z, JsNum.leb.
    destruct (Qle_bool _ _) eqn:E; eexists; (split; [reflexivity|]).
    + apply Qle_bool_iff in E. rewrite !Qred_correct in *.
      unfold inject_Z in *. repeat split; lra.
    + unfold inject_Z. repeat split; lra.
Qed.

Lemma rate_within p c :
  (0 <= p)%Q -> (p <= c)%Q -> (0 < c)%Q ->
  JsNum.within 0 100 (JsNum.mul (JsNum.div (Fin p) (Fin c)) (JsNum.of_Z 100)).
Proof.
  intros H0 Hc Hpos. unfold JsNum.div, JsNum.mul, JsNum.of_Z.
  destruct (Qeq_bool c 0) eqn:E.
  - apply Qeq_bool_iff in E. lra.
  - simpl. rewrite !Qred_correct.
    assert (Hlo : (0 <= p / c)%Q) by (apply Qle_shift_div_l; lra).
    assert (Hhi : (p / c <= 1)%Q) by (apply Qle_shift_div_r; lra).
    unfold inject_Z. split; lra.
Qed.

Lemma statsConsistent_agents agentId r r' :
  AgentRegistry.agents r' = AgentRegistry.agents r ->
  RegistryOps.statsConsistent agentId r -> RegistryOps.statsConsistent agentId r'.
Proof.
  unfold RegistryOps.statsConsistent, SAPRegistry.getAgent. intros ->. auto.
Qed.

Lemma updateReputation_consistent now target taskSuccess agentId r :
  RegistryOps.statsConsistent agentId r ->
  RegistryOps.statsConsistent agentId (SAPRegistry.updateReputation now target taskSuccess r).
Proof.
  intros (agent & p & c & Hget & Hp & Hc & H0 & H100 & Hpc & Hrate).
  destruct (String.eqb_spec target agentId) as [->|Hne].
  - rewrite (RegistryFacts.updateReputation_known _ _ _ _ _ Hget).
    destruct (nextReputation_bound taskSuccess p c H0 H100 Hpc) as (p' & Hp' & A & B & C).
    exists (AgentProfile.with_stats agent
              (JsNum.incr (AgentProfile.tasksCompleted agent))
              (SAPRegistry.nextReputation taskSuccess (AgentProfile.reputation agent))
              (JsNum.mul
                 (JsNum.div
                    (SAPRegistry.nextReputation taskSuccess (AgentProfile.reputation agent))
                    (JsNum.incr (AgentProfile.tasksCompleted agent)))
                 (JsNum.of_Z 100))
              now), p', (Qred (c + inject_Z 1)).
    unfold SAPRegistry.getAgent. simpl. rewrite get_set_eq.
    rewrite Hp, Hc, Hp'. unfold JsNum.incr, JsNum.add, JsNum.of_Z.
    repeat split; auto.
    + rewrite Qred_correct. unfold inject_Z. lra.
    + fold (JsNum.of_Z 100). apply rate_within; auto.
      * rewrite Qred_correct. unfold inject_Z. lra.
      * rewrite Qred_correct. unfold inject_Z. lra.
  - exists agent, p, c. repeat split; auto.
    rewrite RegistryFacts.updateReputation_other; auto.
Qed.

Lemma run_consistent agentId r op :
  RegistryOps.statsConsistent agentId r ->
  RegistryOps.suppliesStats agentId op = false ->
  RegistryOps.statsConsistent agentId (RegistryOps.run r op).
Proof.
  intros H Hop. destruct op; simpl in *.
  - (* registerAgent *)
    destruct (String.eqb_spec agentId0 agentId) as [->|Hne].
    + eexists _, (inject_Z 0), (inject_Z 0).
      unfold SAPRegistry.getAgent. simpl. rewrite get_set_eq.
      split; [reflexivity|]. simpl. unfold JsNum.of_Z, inject_Z.
      repeat split; lra.
    + destruct H as (agent & p & c & Hget & Hrest).
      exists agent, p, c. split; [|exact Hrest].
      unfold SAPRegistry.getAgent in *. simpl. now rewrite get_set_ne.
  - (* registerExternalAgent *)
    destruct (String.eqb_spec agentId0 agentId) as [->|Hne]; [discriminate|].
    destruct H as (agent & p & c & Hget & Hrest).
    exists agent, p, c. split; [|exact Hrest].
    unfold SAPRegistry.getAgent in *. simpl. now rewrite get_set_ne.
  - now apply updateReputation_consistent.
  - revert H. now apply statsConsistent_agents.
  - revert H. now apply statsConsistent_agents.
  - unfold SAPRegistry.updateTaskStatus.
    destruct (JsMap.get taskId (AgentRegistry.tasks r)) as [task|]; [|exact H].
    set (r1 := AgentRegistry.mk _ _ _).
    assert (H1 : RegistryOps.statsConsistent agentId r1)
      by (revert H; now apply statsConsistent_agents).
    destruct (TaskStatus.terminal status); [|exact H1].
    eapply statsConsistent_agents;
      [apply (proj1 (RegistryFacts.countUsage_agents_tasks _ _))|].
    now apply updateReputation_consistent.
Qed.

(** X4.  The statistics of an agent stay consistent: if its reputation
    lies in [0, 100] and does not exceed its number of completed tasks,
    and its success rate lies in [0, 100], the same holds after any
    sequence of registry operations in which no external registration
    stores caller-supplied statistics under its identifier. *)
Theorem statistics_stay_consistent (agentId : string) (ops : list RegistryOps.Op)
    (r : AgentRegistry.t) :
  RegistryOps.statsConsistent agentId r ->
  existsb (RegistryOps.suppliesStats agentId) ops = false ->
  RegistryOps.statsConsistent agentId (RegistryOps.runAll ops r).
Proof.
  revert r. induction ops as [|op ops IH]; intros r H Hops; simpl in *.
  - exact H.
  - apply orb_false_iff in Hops as [Hop Hops].
    apply IH; [|exact Hops]. now apply run_consistent.
Qed.
Lemma success_step now agentId k r :
  (0 <= k)%Q ->
  RegistryOps.succeeded agentId k r ->
  RegistryOps.succeeded agentId (k + 1) (SAPRegistry.updateReputation now agentId true r)
  /\ exists agent' p' c',
       SAPRegistry.getAgent agentId (SAPRegistry.updateReputation now agentId true r)
         = Some agent'
       /\ AgentProfile.reputation agent' = Fin p'
       /\ AgentProfile.tasksCompleted agent' = Fin c'
       /\ JsNum.same (AgentProfile.successRate agent') (Fin (p' / c' * 100)).
Proof.
  intros Hk (agent & p & c & Hget & Hp & Hc & Hck & Hlo & Hhi).
  rewrite (RegistryFacts.updateReputation_known _ _ _ _ _ Hget).
  unfold RegistryOps.succeeded, SAPRegistry.getAgent. cbn [AgentRegistry.agents]. rewrite !get_set_eq.
  rewrite Hp, Hc. unfold SAPRegistry.nextReputation, JsNum.incr, JsNum.min, JsNum.add,
    JsNum.of_Z, JsNum.leb.
  destruct (Qle_bool _ _) eqn:E.
  - apply Qle_bool_iff in E. rewrite Qred_correct in E. unfold inject_Z in E.
    split.
    + eexists _, _, _. split; [reflexivity|]. simpl.
      split; [reflexivity|]. split; [reflexivity|].
      rewrite Qred_correct. unfold inject_Z.
      destruct (Qlt_le_dec k 100) as [Hlt|Hge].
      * specialize (Hlo (Qlt_le_weak _ _ Hlt)).
        repeat split; intros; lra.
      * specialize (Hhi Hge). repeat split; intros; lra.
    + eexists _, _, _. split; [reflexivity|]. simpl.
      split; [reflexivity|]. split; [reflexivity|].
      unfold JsNum.div, JsNum.mul.
      destruct (Qeq_bool _ 0) eqn:E0.
      { apply Qeq_bool_iff in E0. rewrite Qred_correct in E0. unfold inject_Z in E0. lra. }
      simpl. rewrite !Qred_correct. reflexivity.
  - apply JsNumFacts.Qle_bool_false in E. rewrite Qred_correct in E. unfold inject_Z in E.
    split.
    + eexists _, _, _. split; [reflexivity|]. simpl.
      split; [reflexivity|]. split; [reflexivity|].
      rewrite !Qred_correct. unfold inject_Z.
      assert (Hlt : (k < 100)%Q).
      { destruct (Qlt_le_dec k 100) as [Hlt|Hge]; [exact Hlt|].
        specialize (Hhi Hge). lra. }
      specialize (Hlo (Qlt_le_weak _ _ Hlt)).
      repeat split; intros; lra.
    + eexists _, _, _. split; [reflexivity|]. simpl.
      split; [reflexivity|]. split; [reflexivity|].
      unfold JsNum.div, JsNum.mul.
      destruct (Qeq_bool _ 0) eqn:E0.
      { apply Qeq_bool_iff in E0. rewrite Qred_correct in E0. unfold inject_Z in E0.
        assert (Hlt : (k < 100)%Q).
        { destruct (Qlt_le_dec k 100) as [Hlt|Hge]; [exact Hlt|].
          specialize (Hhi Hge). lra. }
        lra. }
      simpl. rewrite !Qred_correct. reflexivity.
Qed.
Lemma succeeded_run agentId times :
  forall r k,
    (0 <= k)%Q -> RegistryOps.succeeded agentId k r ->
    RegistryOps.succeeded agentId (k + inject_Z (Z.of_nat (length times)))
      (Calls.runCalls (RegistryOps.successes agentId times) r).
Proof.
  induction times as [|t times IH]; intros r k Hk H.
  - simpl. destruct H as (agent & p & c & Hget & Hp & Hc & Hck & Hlo & Hhi).
    exists agent, p, c.
    assert (E : (k + inject_Z (Z.of_nat (@length Z [])) == k)%Q).
    { change (k + 0 == k)%Q. lra. }
    split; [exact Hget|]. split; [exact Hp|]. split; [exact Hc|].
    split; [now rewrite E|]. split; intros Hb; rewrite E in *; auto.
  - destruct (success_step t agentId k r Hk H) as [H1 _].
    assert (Hk1 : (0 <= k + 1)%Q) by lra.
    specialize (IH _ _ Hk1 H1).
    destruct IH as (agent & p & c & Hget & Hp & Hc & Hck & Hlo & Hhi).
    exists agent, p, c. split; [exact Hget|].
    assert (E : (k + inject_Z (Z.of_nat (length (t :: times)))
                 == k + 1 + inject_Z (Z.of_nat (length times)))%Q).
    { simpl length. rewrite Nat2Z.inj_succ, <- Z.add_1_r, inject_Z_plus.
      change (inject_Z 1) with 1%Q. lra. }
    repeat split; auto.
    + now rewrite E.
    + intros Hle. rewrite E in *. auto.
    + intros Hge. rewrite E in *. auto.
Qed.

(** Agent X of the sample registry through a failure, a registration of
    another agent and a completed task. *)
Lemma statistics_stay_consistent_witness :
  RegistryOps.statsConsistent Samples.idX Samples.withTask
  /\ existsb (RegistryOps.suppliesStats Samples.idX) Scenarios.busyDay = false
  /\ RegistryOps.statsConsistent Samples.idX
       (RegistryOps.runAll Scenarios.busyDay Samples.withTask).
Proof.
  assert (H : RegistryOps.statsConsistent Samples.idX Samples.withTask).
  { eexists _, (inject_Z 0), (inject_Z 0). split; [reflexivity|].
    simpl. unfold JsNum.of_Z, inject_Z. repeat split; lra. }
  split; [exact H|]. split; [reflexivity|].
  exact (statistics_stay_consistent Samples.idX Scenarios.busyDay Samples.withTask
           H eq_refl).
Defined.

(** *** Consecutive successes *)

(** The rate stored by a call is the rate of the stored reputation and
    count, as the call computes it. *)
Lemma rate_as_computed now agentId taskSuccess r agent :
  SAPRegistry.getAgent agentId r = Some agent ->
  exists agent',
    SAPRegistry.getAgent agentId (SAPRegistry.updateReputation now agentId taskSuccess r)
      = Some agent'
    /\ AgentProfile.successRate agent'
       = JsNum.mul (JsNum.div (AgentProfile.reputation agent')
                      (AgentProfile.tasksCompleted agent'))
           (JsNum.of_Z 100).
Proof.
  intros Hget. rewrite (RegistryFacts.updateReputation_known _ _ _ _ _ Hget).
  eexists. split.
  - unfold SAPRegistry.getAgent. cbn [AgentRegistry.agents]. apply get_set_eq.
  - reflexivity.
Qed.

(** X5.  After a registration followed by n >= 1 successful reputation
    updates and nothing else for that agent, n at most 2^53, the agent has
    n completed tasks and its success rate is the quotient of its
    reputation by its completed tasks, times 100, as the code computes it.
    Up to n = 100 the reputation is n and the success rate 100; beyond
    n = 100 the reputation is 100 and the success rate lies strictly
    between 0 and 100: the rate is the reputation per completed task, and
    falls once the reputation has reached its cap, although every task
    succeeded. *)
Theorem successes_after_registration (agentId : string) (now : Z)
    (profile : AgentProfile.t) (r : AgentRegistry.t) (times : list Z) :
  times <> [] ->
  Z.of_nat (length times) <= 9007199254740992 ->
  let n := inject_Z (Z.of_nat (length times)) in
  let r' :=
    Calls.runCalls (RegistryOps.successes agentId times)
      (snd (SAPRegistry.registerAgent agentId now profile r)) in
  exists agent,
    SAPRegistry.getAgent agentId r' = Some agent
    /\ JsNum.same (AgentProfile.tasksCompleted agent) (Fin n)
    /\ AgentProfile.successRate agent
       = JsNum.mul (JsNum.div (AgentProfile.reputation agent)
                      (AgentProfile.tasksCompleted agent))
           (JsNum.of_Z 100)
    /\ ((n <= 100)%Q ->
          JsNum.same (AgentProfile.reputation agent) (Fin n)
          /\ JsNum.same (AgentProfile.successRate agent) (Fin 100))
    /\ ((100 < n)%Q ->
          JsNum.same (AgentProfile.reputation agent) (Fin 100)
          /\ JsNum.ltb (JsNum.of_Z 0) (AgentProfile.successRate agent) = true
          /\ JsNum.ltb (AgentProfile.successRate agent) (JsNum.of_Z 100) = true).
Proof.
  intros Hne _ n r'.
  destruct (exists_last Hne) as (l & t & ->).
  set (r0 := snd (SAPRegistry.registerAgent agentId now profile r)) in *.
  assert (H0 : RegistryOps.succeeded agentId 0 r0).
  { eexists _, (inject_Z 0), (inject_Z 0).
    unfold r0, SAPRegistry.getAgent. simpl. rewrite JsMapFacts.get_set_eq.
    split; [reflexivity|]. simpl. unfold JsNum.of_Z, inject_Z.
    repeat split; intros; lra. }
  pose proof (succeeded_run agentId l r0 0 (Qle_refl 0) H0) as Hl.
  set (k := inject_Z (Z.of_nat (length l))) in *.
  assert (Hk : (0 <= 0 + k)%Q).
  { unfold k. rewrite Qplus_0_l. change 0%Q with (inject_Z 0).
    rewrite <- Zle_Qle. lia. }
  destruct (success_step t agentId (0 + k) _ Hk Hl)
    as [(agent & p & c & Hget & Hp & Hc & Hck & Hlo & Hhi)
        (agent' & p' & c' & Hget' & Hp' & Hc' & Hrate)].
  assert (Hr' : r' = SAPRegistry.updateReputation t agentId true
                       (Calls.runCalls (RegistryOps.successes agentId l) r0)).
  { unfold r', Calls.runCalls, RegistryOps.successes. rewrite map_app, fold_left_app. reflexivity. }
  destruct Hl as (before & _ & _ & Hbefore & _).
  destruct (rate_as_computed t agentId true _ before Hbefore) as (agent'' & Hget'' & Hcode).
  rewrite <- Hr' in *. rewrite Hget in Hget'. injection Hget' as <-.
  rewrite Hget in Hget''. injection Hget'' as <-.
  rewrite Hp in Hp'. injection Hp' as <-. rewrite Hc in Hc'. injection Hc' as <-.
  assert (En : (n == 0 + k + 1)%Q).
  { unfold n, k. rewrite length_app, Nat2Z.inj_add, inject_Z_plus.
    change (inject_Z (Z.of_nat (length [t]))) with 1%Q. lra. }
  assert (Hpos : (0 < n)%Q) by lra.
  exists agent. split; [exact Hget|].
  split; [rewrite Hc; simpl; now rewrite En|].
  split; [exact Hcode|].
  rewrite Hp. clear Hcode.
  destruct (AgentProfile.successRate agent) as [s| | |];
    try exact (False_ind _ Hrate).
  change (s == p / c * 100)%Q in Hrate.
  split.
  - intros Hle. rewrite <- En in *. specialize (Hlo Hle). split; [exact Hlo|].
    change (s == 100)%Q. rewrite Hrate, Hlo, Hck. field. lra.
  - intros Hgt. rewrite <- En in *. specialize (Hhi (Qlt_le_weak _ _ Hgt)).
    split; [exact Hhi|].
    assert (Hs : (s == 10000 / n)%Q).
    { rewrite Hrate, Hhi, Hck. field. lra. }
    assert (H1 : (0 < 10000 / n)%Q).
    { apply Qlt_shift_div_l; [exact Hpos|]. lra. }
    assert (H2 : (10000 / n < 100)%Q).
    { apply Qlt_shift_div_r; [exact Hpos|]. lra. }
    simpl. unfold JsNum.Qlt_bool.
    split; apply negb_true_iff.
    + destruct (Qle_bool s (inject_Z 0)) eqn:E; [|reflexivity].
      apply Qle_bool_iff in E. unfold inject_Z in E. lra.
    + destruct (Qle_bool (inject_Z 100) s) eqn:E; [|reflexivity].
      apply Qle_bool_iff in E. unfold inject_Z in E. lra.
Qed.

(** Two successes of a newly registered agent X. *)
Lemma successes_after_registration_witness :
  [Samples.t1; Samples.t2] <> []
  /\ Z.of_nat (length [Samples.t1; Samples.t2]) <= 9007199254740992
  /\ exists agent,
       SAPRegistry.getAgent Samples.idX
         (Calls.runCalls (RegistryOps.successes Samples.idX [Samples.t1; Samples.t2])
            (snd (SAPRegistry.registerAgent Samples.idX Samples.t0 Samples.agentX
                    SAPRegistry.empty))) = Some agent
       /\ JsNum.same (AgentProfile.tasksCompleted agent) (Fin 2).
Proof.
  assert (H : [Samples.t1; Samples.t2] <> []) by discriminate.
  assert (Hn : Z.of_nat (length [Samples.t1; Samples.t2]) <= 9007199254740992)
    by (simpl; lia).
  split; [exact H|]. split; [exact Hn|].
  destruct (successes_after_registration Samples.idX Samples.t0 Samples.agentX
              SAPRegistry.empty [Samples.t1; Samples.t2] H Hn)
    as (agent & Hget & Hdone & _).
  exists agent. split; [exact Hget|exact Hdone].
Defined.

End RegistryOpsFacts.

(** ** The statistics of the registry *)

Module StatsFacts.


Lemma totalReputation_bound (agents : list AgentProfile.t) :
  Forall (fun a => JsNum.within 0 100 (AgentProfile.reputation a)) agents ->
  forall q, (0 <= q)%Q ->
    exists s,
      fold_left (fun sum a => JsNum.add sum (AgentProfile.reputation a)) agents (Fin q)
        = Fin s
      /\ (q <= s)%Q /\ (s <= q + 100 * inject_Z (Z.of_nat (length agents)))%Q.
Proof.
  induction 1 as [|a agents Ha _ IH]; intros q Hq.
  - exists q. split; [reflexivity|]. change (inject_Z (Z.of_nat (@length AgentProfile.t []))) with 0%Q.
    split; lra.
  - simpl fold_left. destruct (AgentProfile.reputation a) as [x| | |]; try contradiction.
    destruct Ha as [Hx0 Hx1]. simpl JsNum.add.
    assert (Hq' : (0 <= Qred (q + x))%Q) by (rewrite Qred_correct; lra).
    destruct (IH _ Hq') as (s & Hs & Hlo & Hhi).
    exists s. split; [exact Hs|]. rewrite Qred_correct in *.
    simpl length. rewrite Nat2Z.inj_succ, <- Z.add_1_r, inject_Z_plus.
    change (inject_Z 1) with 1%Q. split; lra.
Qed.

(** X6.  When every stored reputation lies in [0, 100], the average
    reputation that getStats reports lies in [0, 100]; in particular it is
    a number (zero) for a registry without agents. *)
Theorem getStats_average_in_range (r : AgentRegistry.t) :
  Forall (fun a => JsNum.within 0 100 (AgentProfile.reputation a))
    (SAPRegistry.listAgents r) ->
  JsNum.within 0 100 (RegistryStats.averageReputation (RegistryQueries.getStats r)).
Proof.
  intros H. unfold RegistryQueries.getStats. cbn [RegistryStats.averageReputation].
  unfold RegistryQueries.totalReputation.
  destruct (totalReputation_bound _ H 0 (Qle_refl 0)) as (s & Hs & Hlo & Hhi).
  change (JsNum.of_Z 0) with (Fin 0). rewrite Hs.
  set (n := Z.of_nat (length (SAPRegistry.listAgents r))) in *.
  assert (Hn : 0 <= n) by (unfold n; lia).
  unfold RegistryQueries.orOne, JsNum.div, JsNum.of_Z.
  destruct (Z.eqb_spec n 0) as [E|E].
  - rewrite E in Hhi. change (inject_Z 0) with 0%Q in Hhi.
    change (Qeq_bool (inject_Z 1) 0) with false. cbv iota.
    simpl. rewrite Qred_correct. change (inject_Z 1) with 1%Q.
    split; [|apply Qle_shift_div_r]; try (apply Qle_shift_div_l); lra.
  - assert (Hpos : (0 < inject_Z n)%Q).
    { change 0%Q with (inject_Z 0). rewrite <- Zlt_Qlt. lia. }
    destruct (Qeq_bool (inject_Z n) 0) eqn:E0.
    { apply Qeq_bool_iff in E0. lra. }
    simpl. rewrite Qred_correct.
    split; [apply Qle_shift_div_l|apply Qle_shift_div_r]; lra.
Qed.

Section SortFacts.
Context {A : Type}.
Variable compare : A -> A -> number.

Lemma insert_perm x l : Permutation (JsArray.insert compare x l) (x :: l).
Proof.
  induction l as [|y l IH]; cbn [JsArray.insert]; [reflexivity|].
  destruct (JsNum.gtb (compare x y) (JsNum.of_Z 0)); [|reflexivity].
  rewrite IH. apply perm_swap.
Qed.

Lemma sort_perm l : Permutation (JsArray.sort compare l) l.
Proof.
  induction l as [|x l IH]; simpl; [reflexivity|].
  rewrite insert_perm. now rewrite IH.
Qed.
End SortFacts.

#[local] Abbreviation notLower := RegistryQueries.notLower.
#[local] Abbreviation finite := RegistryQueries.finite.

Lemma notLower_trans a b c : notLower a b -> notLower b c -> notLower a c.
Proof.
  unfold RegistryQueries.notLower.
  destruct (AgentProfile.reputation a) as [x| | |],
           (AgentProfile.reputation b) as [y| | |],
           (AgentProfile.reputation c) as [z| | |]; simpl; try congruence.
  rewrite !Qle_bool_iff. intros. lra.
Qed.

Lemma byReputation_cases a b :
  finite a -> finite b ->
  if JsNum.gtb (RegistryQueries.byReputation a b) (JsNum.of_Z 0)
  then notLower b a else notLower a b.
Proof.
  unfold RegistryQueries.finite, RegistryQueries.notLower, RegistryQueries.byReputation.
  destruct (AgentProfile.reputation a) as [x| | |],
           (AgentProfile.reputation b) as [y| | |]; simpl; try discriminate.
  intros _ _. unfold JsNum.Qlt_bool.
  destruct (Qle_bool (Qred (y + Qred (- x))) (inject_Z 0)) eqn:E; simpl.
  - apply Qle_bool_iff in E. rewrite !Qred_correct in E. unfold inject_Z in E.
    apply Qle_bool_iff. lra.
  - apply JsNumFacts.Qle_bool_false in E. rewrite !Qred_correct in E. unfold inject_Z in E.
    apply Qle_bool_iff. lra.
Qed.

Lemma insert_sorted x l :
  finite x -> Forall finite l ->
  StronglySorted notLower l ->
  StronglySorted notLower (JsArray.insert RegistryQueries.byReputation x l).
Proof.
  intros Hx Hl Hs. induction Hs as [|y l Hs IH Hy]; cbn [JsArray.insert].
  - constructor; constructor.
  - apply Forall_cons_1 in Hl as [Hfy Hl].
    pose proof (byReputation_cases x y Hx Hfy) as Hc.
    destruct (JsNum.gtb (RegistryQueries.byReputation x y) (JsNum.of_Z 0)).
    + constructor; [now apply IH|].
      apply (Permutation_Forall (Permutation_sym (insert_perm _ x l))).
      constructor; [exact Hc|exact Hy].
    + constructor; [now constructor|].
      constructor; [exact Hc|].
      eapply List.Forall_impl; [|exact Hy]. intros z Hz. simpl in Hz.
      eapply notLower_trans; eassumption.
Qed.

Lemma sort_sorted l :
  Forall finite l -> StronglySorted notLower (JsArray.sort RegistryQueries.byReputation l).
Proof.
  induction 1 as [|x l Hx Hl IH]; simpl; [constructor|].
  apply insert_sorted; auto.
  apply (Permutation_Forall (Permutation_sym (sort_perm _ l))). exact Hl.
Qed.

Lemma sorted_split (l : list AgentProfile.t) n :
  StronglySorted notLower l ->
  StronglySorted notLower (firstn n l)
  /\ forall a b, In a (firstn n l) -> In b (skipn n l) -> notLower a b.
Proof.
  intros Hs. revert n. induction Hs as [|x l Hs IH Hx]; intros n.
  - rewrite firstn_nil. split; [constructor|]. intros a b [].
  - destruct n as [|n]; simpl.
    + split; [constructor|]. intros a b [].
    + destruct (IH n) as [IH1 IH2]. split.
      * constructor; [exact IH1|].
        rewrite List.Forall_forall in *. intros z Hz. apply Hx.
        rewrite <- (firstn_skipn n l). apply in_or_app. now left.
      * intros a b [<-|Ha] Hb.
        -- rewrite List.Forall_forall in Hx. apply Hx.
           rewrite <- (firstn_skipn n l). apply in_or_app. now right.
        -- now apply IH2.
Qed.

(** X7.  When every stored reputation is finite, the top agents of
    getStats are the summaries of min(5, number of agents) stored agents,
    listed by reputation from the highest down, and no agent left out has
    a higher reputation than a listed one. *)
Theorem getStats_topAgents (r : AgentRegistry.t) :
  Forall (fun a => JsNum.is_finite (AgentProfile.reputation a) = true)
    (SAPRegistry.listAgents r) ->
  exists top rest,
    RegistryStats.topAgents (RegistryQueries.getStats r)
      = map RegistryQueries.summaryOf top
    /\ Permutation (top ++ rest) (SAPRegistry.listAgents r)
    /\ length top = Nat.min 5 (length (SAPRegistry.listAgents r))
    /\ StronglySorted
         (fun a b =>
            JsNum.leb (AgentProfile.reputation b) (AgentProfile.reputation a) = true) top
    /\ (forall a b, In a top -> In b rest ->
          JsNum.leb (AgentProfile.reputation b) (AgentProfile.reputation a) = true).
Proof.
  intros Hfin.
  set (sorted := JsArray.sort RegistryQueries.byReputation (SAPRegistry.listAgents r)).
  exists (firstn 5 sorted), (skipn 5 sorted).
  pose proof (sort_perm RegistryQueries.byReputation (SAPRegistry.listAgents r)) as Hperm.
  fold sorted in Hperm.
  destruct (sorted_split sorted 5 (sort_sorted _ Hfin)) as [Hs Hcut].
  split; [reflexivity|]. split; [now rewrite firstn_skipn|].
  split; [|split; [exact Hs|exact Hcut]].
  rewrite length_firstn. now rewrite (Permutation_length Hperm).
Qed.

(** The three seeded agents: reputation 91, 89 and 83. *)
Lemma getStats_topAgents_witness :
  Forall (fun a => JsNum.is_finite (AgentProfile.reputation a) = true)
    (SAPRegistry.listAgents Samples.seeded)
  /\ exists top rest,
       RegistryStats.topAgents (RegistryQueries.getStats Samples.seeded)
         = map RegistryQueries.summaryOf top
       /\ Permutation (top ++ rest) (SAPRegistry.listAgents Samples.seeded)
       /\ length top = 3%nat.
Proof.
  assert (H : Forall (fun a => JsNum.is_finite (AgentProfile.reputation a) = true)
                (SAPRegistry.listAgents Samples.seeded)).
  { repeat constructor. }
  split; [exact H|].
  destruct (getStats_topAgents Samples.seeded H) as (top & rest & Htop & Hperm & Hlen & _).
  exists top, rest. split; [exact Htop|]. split; [exact Hperm|exact Hlen].
Defined.

Lemma getStats_average_in_range_witness :
  Forall (fun a => JsNum.within 0 100 (AgentProfile.reputation a))
    (SAPRegistry.listAgents Samples.seeded)
  /\ JsNum.within 0 100
       (RegistryStats.averageReputation (RegistryQueries.getStats Samples.seeded)).
Proof.
  assert (H : Forall (fun a => JsNum.within 0 100 (AgentProfile.reputation a))
                (SAPRegistry.listAgents Samples.seeded)).
  { repeat constructor; simpl; unfold inject_Z; lra. }
  split; [exact H|].
  exact (getStats_average_in_range Samples.seeded H).
Defined.

End StatsFacts.

(** ** Strings *)

Module JsStringFacts.

Lemma startsWith_refl s : JsString.startsWith s s = true.
Proof. induction s as [|c s IH]; simpl; [reflexivity|]. now rewrite Ascii.eqb_refl. Qed.

Lemma includes_refl s : JsString.includes s s = true.
Proof. destruct s; simpl; [reflexivity|]. now rewrite Ascii.eqb_refl, startsWith_refl. Qed.

Lemma includes_empty s : JsString.includes "" s = true.
Proof. now destruct s. Qed.

End JsStringFacts.

(** ** The skill manager: sequences of executions and searches *)

Module SkillRunFacts.

Import JsMapFacts JsStringFacts.

Lemma incr_of_Z (n : Z) : JsNum.incr (JsNum.of_Z n) = JsNum.of_Z (n + 1).
Proof.
  unfold JsNum.incr, JsNum.add, JsNum.of_Z. f_equal.
  rewrite <- (inject_Z_Qred (n + 1)). apply Qred_complete.
  now rewrite inject_Z_plus.
Qed.

Lemma usageCount_iter (k : nat) (skill : AgentSkill.t) (n : Z) :
  AgentSkill.usageCount skill = JsNum.of_Z n ->
  AgentSkill.usageCount (Nat.iter k AgentSkill.used skill) = JsNum.of_Z (n + Z.of_nat k).
Proof.
  intros H. induction k as [|k IH].
  - simpl. now rewrite Z.add_0_r.
  - change (Nat.iter (S k) AgentSkill.used skill)
      with (AgentSkill.used (Nat.iter k AgentSkill.used skill)).
    unfold AgentSkill.used at 1. cbn [AgentSkill.usageCount].
    rewrite IH, incr_of_Z. f_equal. lia.
Qed.

Lemma iter_used_comm n (s : AgentSkill.t) :
  Nat.iter n AgentSkill.used (AgentSkill.used s) = AgentSkill.used (Nat.iter n AgentSkill.used s).
Proof. induction n as [|n IH]; simpl; [reflexivity|]. now rewrite IH. Qed.

Lemma getSkill_countUsage skillId k r :
  SAPRegistry.getSkill k (SAPRegistry.countUsage skillId r)
  = if String.eqb skillId k then AgentSkill.used <$> SAPRegistry.getSkill k r
    else SAPRegistry.getSkill k r.
Proof.
  unfold SAPRegistry.countUsage, SAPRegistry.getSkill.
  destruct (String.eqb_spec skillId k) as [->|Hne].
  - destruct (JsMap.get k (AgentRegistry.skills r)) as [skill|] eqn:E; simpl.
    + now rewrite get_set_eq.
    + now rewrite E.
  - destruct (JsMap.get skillId (AgentRegistry.skills r)) as [skill|] eqn:E; simpl;
      [|reflexivity].
    now rewrite get_set_ne.
Qed.

Section Runs.
Context {World : Type}.
Implicit Types (m : SkillManager.t World) (w : World).

(** What one execution does to the manager. *)
Lemma executeSkill_step skillId parameters m w :
  let run := SkillManager.executeSkill skillId parameters m w in
  let m' := snd (fst run) in
  SkillManager.skillHandlers m' = SkillManager.skillHandlers m
  /\ AgentRegistry.agents (SkillManager.registry m')
     = AgentRegistry.agents (SkillManager.registry m)
  /\ AgentRegistry.tasks (SkillManager.registry m')
     = AgentRegistry.tasks (SkillManager.registry m)
  /\ forall k,
       SkillManager.getSkill k m'
       = if String.eqb skillId k && SkillRuns.returned (fst (fst run))
         then AgentSkill.used <$> SkillManager.getSkill k m
         else SkillManager.getSkill k m.
Proof.
  unfold SkillManager.executeSkill, SkillManager.getSkill.
  destruct (SAPRegistry.getSkill skillId (SkillManager.registry m)) as [skill|] eqn:Hs;
    cbn zeta.
  2:{ simpl. repeat split; auto. intros k. now rewrite andb_false_r. }
  destruct (SkillManager.skillHandlers m !! skillId) as [handler|] eqn:Hh.
  2:{ simpl. repeat split; auto. intros k. now rewrite andb_false_r. }
  destruct (SkillManager.missingParameter _ _) as [name|].
  { simpl. repeat split; auto. intros k. now rewrite andb_false_r. }
  destruct (handler parameters w) as [[result|e] w'].
  - simpl. repeat split; auto.
    + apply (proj1 (RegistryFacts.countUsage_agents_tasks _ _)).
    + apply (proj2 (RegistryFacts.countUsage_agents_tasks _ _)).
    + intros k. rewrite andb_true_r. apply getSkill_countUsage.
  - simpl. repeat split; auto. intros k. now rewrite andb_false_r.
Qed.

(** X8.  The usage counter counts the executions that returned: after any
    sequence of executeSkill calls, a skill of the registry is the skill it
    was with its counter incremented once for every call for it that
    returned a result (calls that were rejected or whose handler failed do
    not count); a counter that was the integer n is n plus that number.
    The handlers, the agents and the tasks are unchanged. *)
Theorem usage_counts_executions_that_returned (execs : list SkillRuns.Exec)
    (m : SkillManager.t World) (w : World) (skillId : string) (skill : AgentSkill.t) :
  SkillManager.getSkill skillId m = Some skill ->
  let run := SkillRuns.runExecs execs m w in
  let outcomes := fst (fst run) in
  let m' := snd (fst run) in
  length outcomes = length execs
  /\ SkillManager.getSkill skillId m'
     = Some (Nat.iter (SkillRuns.countReturned skillId execs outcomes) AgentSkill.used skill)
  /\ (forall n,
        AgentSkill.usageCount skill = JsNum.of_Z n ->
        AgentSkill.usageCount <$> SkillManager.getSkill skillId m'
        = Some (JsNum.of_Z (n + Z.of_nat (SkillRuns.countReturned skillId execs outcomes))))
  /\ SkillManager.skillHandlers m' = SkillManager.skillHandlers m
  /\ AgentRegistry.agents (SkillManager.registry m')
     = AgentRegistry.agents (SkillManager.registry m)
  /\ AgentRegistry.tasks (SkillManager.registry m')
     = AgentRegistry.tasks (SkillManager.registry m).
Proof.
  intros Hget run outcomes m'.
  assert (H : length outcomes = length execs
              /\ SkillManager.getSkill skillId m'
                 = Some (Nat.iter (SkillRuns.countReturned skillId execs outcomes)
                           AgentSkill.used skill)
              /\ SkillManager.skillHandlers m' = SkillManager.skillHandlers m
              /\ AgentRegistry.agents (SkillManager.registry m')
                 = AgentRegistry.agents (SkillManager.registry m)
              /\ AgentRegistry.tasks (SkillManager.registry m')
                 = AgentRegistry.tasks (SkillManager.registry m)).
  { subst run outcomes m'. revert m w skill Hget.
    induction execs as [|[id parameters] execs IH]; intros m w skill Hget.
    - simpl. repeat split; auto.
    - cbn [SkillRuns.runExecs].
      pose proof (executeSkill_step id parameters m w) as Hstep. cbv zeta in Hstep.
      destruct (SkillManager.executeSkill id parameters m w) as [[outcome m1] w1].
      cbn [fst snd] in Hstep. destruct Hstep as (Hh & Ha & Ht & Hk).
      specialize (Hk skillId). rewrite Hget in Hk.
      set (skill1 := if String.eqb id skillId && SkillRuns.returned outcome
                     then AgentSkill.used skill else skill).
      assert (Hget1 : SkillManager.getSkill skillId m1 = Some skill1).
      { rewrite Hk. unfold skill1. now destruct (_ && _). }
      specialize (IH m1 w1 skill1 Hget1).
      destruct (SkillRuns.runExecs execs m1 w1) as [[outcomes m2] w2].
      cbn [fst snd] in *. destruct IH as (Hlen & Hget2 & Hh2 & Ha2 & Ht2).
      split; [simpl; now rewrite Hlen|].
      split; [|split; [congruence|split; congruence]].
      rewrite Hget2. f_equal. cbn [SkillRuns.countReturned]. unfold skill1.
      destruct (String.eqb id skillId && SkillRuns.returned outcome); simpl.
      + now rewrite iter_used_comm.
      + reflexivity. }
  destruct H as (Hlen & Hget' & Hh & Ha & Ht).
  split; [exact Hlen|]. split; [exact Hget'|].
  split; [|split; [exact Hh|split; [exact Ha|exact Ht]]].
  intros n Hn. rewrite Hget'. simpl. f_equal. now apply usageCount_iter.
Qed.

Lemma paired_register skillId skill handler m :
  SkillRuns.paired m ->
  SkillRuns.paired
    (SkillManager.mk
       (snd (SAPRegistry.registerSkill skillId skill (SkillManager.registry m)))
       (<[skillId := handler]> (SkillManager.skillHandlers m))).
Proof.
  intros H k. unfold SkillManager.getSkill, SAPRegistry.getSkill. simpl.
  destruct (String.eqb_spec skillId k) as [->|Hne].
  - rewrite lookup_insert_eq, get_set_eq. split; discriminate.
  - rewrite lookup_insert_ne by exact Hne. rewrite get_set_ne by exact Hne. apply H.
Qed.

Lemma paired_run (st : SkillManager.t World * World) op :
  SkillRuns.paired (fst st) -> SkillRuns.paired (fst (SkillRuns.run st op)).
Proof.
  destruct st as [m w]. simpl. intros H. destruct op; simpl.
  - exact (paired_register skillId skillData handler m H).
  - exact (paired_register skillId
             (AgentSkill.mk "" name description category None None "custom" parameters
                price None (JsNum.of_Z 0) (JsNum.of_Z 0))
             handler m H).
  - pose proof (executeSkill_step skillId parameters m w) as Hstep. cbv zeta in Hstep.
    destruct (SkillManager.executeSkill skillId parameters m w) as [[outcome m'] w'].
    cbn [fst snd] in *. destruct Hstep as (Hh & _ & _ & Hk).
    intros k. rewrite Hh, Hk.
    destruct (String.eqb skillId k && SkillRuns.returned outcome); [|apply H].
    rewrite (H k). destruct (SkillManager.getSkill k m); simpl; split; congruence.
Qed.

(** X9.  Metadata and handler stay together: in every state that the
    operations of the skill manager (registerBuiltInSkill, registerSkill,
    executeSkill) reach from a manager without skills, a skill is in the
    registry exactly when a handler is stored under its identifier; so for
    a skill registered through the manager the lookup of the handler in
    executeSkill never fails. *)
Theorem registered_skills_have_handlers (ops : list (SkillRuns.Op World)) (w : World) :
  let m := fst (SkillRuns.runAll ops (SkillRuns.fresh, w)) in
  forall skillId,
    (forall skill, SkillManager.getSkill skillId m = Some skill ->
       exists handler, SkillManager.skillHandlers m !! skillId = Some handler)
    /\ (forall handler, SkillManager.skillHandlers m !! skillId = Some handler ->
          exists skill, SkillManager.getSkill skillId m = Some skill).
Proof.
  assert (H : SkillRuns.paired (fst (SkillRuns.runAll ops (SkillRuns.fresh, w)))).
  { unfold SkillRuns.runAll.
    assert (H0 : SkillRuns.paired (fst (SkillRuns.fresh (World := World), w))).
    { intros k. simpl. unfold SkillManager.getSkill. simpl. rewrite lookup_empty. tauto. }
    revert H0. generalize (SkillRuns.fresh (World := World), w).
    induction ops as [|op ops IH]; intros st H0; simpl; [exact H0|].
    apply IH. now apply paired_run. }
  intros m skillId. specialize (H skillId). fold m in H. split.
  - intros skill Hs. destruct H as [H1 _].
    destruct (SkillManager.skillHandlers m !! skillId) as [h|]; [now exists h|].
    specialize (H1 eq_refl). congruence.
  - intros handler Hh. destruct H as [_ H2].
    destruct (SkillManager.getSkill skillId m) as [s|]; [now exists s|].
    specialize (H2 eq_refl). congruence.
Qed.

Section Search.
Variable toLowerCase : string -> string.

(** X10.  searchSkills is insensitive to letter case and finds a skill by
    its own texts: a listed skill is among the results of every query
    whose lower-case form is the lower-case form of its name, of its
    description or of its category, or is empty; and every result is a
    listed skill. *)
Theorem searchSkills_finds_by_own_text (query : string) (m : SkillManager.t World)
    (skill : AgentSkill.t) :
  In skill (SkillManager.listSkills m) ->
  toLowerCase query = toLowerCase (AgentSkill.name skill)
  \/ toLowerCase query = toLowerCase (AgentSkill.description skill)
  \/ toLowerCase query
     = toLowerCase (RegistryQueries.categoryText (AgentSkill.category skill))
  \/ toLowerCase query = "" ->
  In skill (SkillRuns.searchSkills toLowerCase query m)
  /\ forall found, In found (SkillRuns.searchSkills toLowerCase query m) ->
       In found (SkillManager.listSkills m).
Proof.
  intros Hin Hq. unfold SkillRuns.searchSkills. split.
  - apply filter_In. split; [exact Hin|]. unfold SkillRuns.matches.
    destruct Hq as [ -> | [ -> | [ -> | -> ] ] ];
      rewrite ?includes_refl, ?includes_empty, ?orb_true_r; reflexivity.
  - intros found Hf. now apply filter_In in Hf.
Qed.
End Search.
End Runs.

(** Three requests for the balance checker: one is answered, one lacks
    the address, one is rejected by the handler. *)
Lemma usage_counts_executions_that_returned_witness :
  SkillManager.getSkill Samples.idSkill Samples.manager = Some Scenarios.storedChecker
  /\ AgentSkill.usageCount
       <$> SkillManager.getSkill Samples.idSkill
             (snd (fst (SkillRuns.runExecs Scenarios.requests Samples.manager Samples.t0)))
     = Some (JsNum.of_Z 1).
Proof.
  split; [reflexivity|].
  destruct (usage_counts_executions_that_returned Scenarios.requests Samples.manager
              Samples.t0 Samples.idSkill Scenarios.storedChecker eq_refl)
    as (_ & _ & Hcount & _).
  exact (Hcount 0 eq_refl).
Defined.

(** The balance checker is found by its name in capitals. *)
Lemma searchSkills_finds_by_own_text_witness :
  In Scenarios.storedChecker (SkillManager.listSkills Samples.manager)
  /\ (JsString.toLowerCaseAscii "BALANCE CHECKER"
      = JsString.toLowerCaseAscii (AgentSkill.name Scenarios.storedChecker)
      \/ JsString.toLowerCaseAscii "BALANCE CHECKER"
         = JsString.toLowerCaseAscii (AgentSkill.description Scenarios.storedChecker)
      \/ JsString.toLowerCaseAscii "BALANCE CHECKER"
         = JsString.toLowerCaseAscii
             (RegistryQueries.categoryText (AgentSkill.category Scenarios.storedChecker))
      \/ JsString.toLowerCaseAscii "BALANCE CHECKER" = "")
  /\ In Scenarios.storedChecker
       (SkillRuns.searchSkills JsString.toLowerCaseAscii "BALANCE CHECKER" Samples.manager).
Proof.
  assert (H1 : In Scenarios.storedChecker (SkillManager.listSkills Samples.manager))
    by (left; reflexivity).
  assert (H2 : JsString.toLowerCaseAscii "BALANCE CHECKER"
               = JsString.toLowerCaseAscii (AgentSkill.name Scenarios.storedChecker)
               \/ JsString.toLowerCaseAscii "BALANCE CHECKER"
                  = JsString.toLowerCaseAscii
                      (AgentSkill.description Scenarios.storedChecker)
               \/ JsString.toLowerCaseAscii "BALANCE CHECKER"
                  = JsString.toLowerCaseAscii
                      (RegistryQueries.categoryText
                         (AgentSkill.category Scenarios.storedChecker))
               \/ JsString.toLowerCaseAscii "BALANCE CHECKER" = "")
    by (left; reflexivity).
  split; [exact H1|]. split; [exact H2|].
  exact (proj1 (searchSkills_finds_by_own_text JsString.toLowerCaseAscii "BALANCE CHECKER"
                  Samples.manager Scenarios.storedChecker H1 H2)).
Defined.

End SkillRunFacts.

(** ** The facade *)

Module FacadeFacts.

Import JsMapFacts JsStringFacts.

Lemma In_capabilitiesNamed version name names :
  In name names ->
  In (AgentCapability.mk name name version true) (SAPProtocol.capabilitiesNamed version names).
Proof.
  intros H. unfold SAPProtocol.capabilitiesNamed.
  apply (in_map (fun name => AgentCapability.mk name name version true)), H.
Qed.

Lemma set_last {V : Type} (m : list (string * V)) k v v' :
  JsMap.get k m = None -> JsMap.set k v' (m ++ [(k, v)]) = m ++ [(k, v')].
Proof.
  induction m as [|[k0 v0] m IH]; simpl.
  - now rewrite String.eqb_refl.
  - destruct (String.eqb k k0); [discriminate|]. intros H. now rewrite IH.
Qed.

Section Facade.
Context {World : Type}.
Variable toLowerCase : string -> string.
Implicit Types (p : SAPProtocol.t World).

(** X11.  An agent registered through the facade's registerExternalAgent
    is stored under the identifier returned, with reputation 0, no
    completed task, success rate 100 and the external mark, whatever the
    caller sends; it is found by findAgentsByCapability under each of the
    capability names it was registered with, in any letter case.  No other
    agent, no skill, no task and no handler is changed. *)
Theorem externally_registered_agent_is_found (agentId : string) (now : Z)
    (data : ExternalAgentData.t) (p : SAPProtocol.t World) :
  let p' := snd (SAPProtocol.registerExternalAgent agentId now data p) in
  let stored := SAPProtocol.stamped (agentId, now) (SAPProtocol.externalProfile data) in
  fst (SAPProtocol.registerExternalAgent agentId now data p) = agentId
  /\ SAPRegistry.getAgent agentId (SAPProtocol.registry p') = Some stored
  /\ AgentProfile.reputation stored = JsNum.of_Z 0
  /\ AgentProfile.tasksCompleted stored = JsNum.of_Z 0
  /\ AgentProfile.successRate stored = JsNum.of_Z 100
  /\ AgentProfile.isExternal stored = Some true
  /\ (forall name query,
        In name (default [] (ExternalAgentData.capabilities data)) ->
        toLowerCase query = toLowerCase name ->
        In stored
          (RegistryQueries.findAgentsByCapability toLowerCase query
             (SAPProtocol.registry p')))
  /\ (forall other, other <> agentId ->
        SAPRegistry.getAgent other (SAPProtocol.registry p')
        = SAPRegistry.getAgent other (SAPProtocol.registry p))
  /\ AgentRegistry.skills (SAPProtocol.registry p')
     = AgentRegistry.skills (SAPProtocol.registry p)
  /\ AgentRegistry.tasks (SAPProtocol.registry p')
     = AgentRegistry.tasks (SAPProtocol.registry p)
  /\ SkillManager.skillHandlers (SAPProtocol.skillManager p')
     = SkillManager.skillHandlers (SAPProtocol.skillManager p)
  /\ SAPProtocol.initialized p' = SAPProtocol.initialized p.
Proof.
  intros p' stored.
  assert (Hget : SAPRegistry.getAgent agentId (SAPProtocol.registry p') = Some stored).
  { unfold p', SAPRegistry.getAgent. simpl. now rewrite get_set_eq. }
  split; [reflexivity|]. split; [exact Hget|].
  do 4 (split; [reflexivity|]).
  split; [|split; [|repeat split]].
  - intros name query Hin Hq.
    unfold RegistryQueries.findAgentsByCapability. apply filter_In. split.
    + apply (MonitorFacts.stored_listed (SAPProtocol.registry p') stored). exact Hget.
    + apply existsb_exists.
      exists (AgentCapability.mk name name
                (SAPProtocol.orElse (ExternalAgentData.version data) "1.0.0") true).
      split; [now apply In_capabilitiesNamed|].
      unfold RegistryQueries.capabilityMatches. simpl.
      now rewrite Hq, includes_refl.
  - intros other Hne. unfold p', SAPRegistry.getAgent. simpl.
    apply get_set_ne. congruence.
Qed.

Lemma findSkill_Some skillName skills skill :
  SAPProtocol.findSkill toLowerCase skillName skills = Some skill ->
  In skill skills /\ toLowerCase (AgentSkill.name skill) = toLowerCase skillName.
Proof.
  unfold SAPProtocol.findSkill. intros H. apply find_some in H as [Hin Heq].
  split; [exact Hin|]. now apply String.eqb_eq.
Qed.

(** X12.  recordTask on an initialized facade, for a local profile and a
    skill name that matches a listed skill without regard to letter case,
    with a task identifier not in use: exactly one task is added, already
    in its final status (completed with the description as result, or
    failed with the error Command failed), never started, created and
    completed at the two clock readings; the agent of the profile, if
    stored, has one more completed task and the reputation after one
    outcome; the usage counter of the skill found is incremented; nothing
    else changes. *)
Theorem recordTask_records_one_finished_task (profile : AgentProfile.t)
    (taskId : string) (created updated : Z) (description skillName : string)
    (success : bool) (p : SAPProtocol.t World) (skill : AgentSkill.t) :
  SAPProtocol.initialized p = true ->
  SAPProtocol.findSkill toLowerCase skillName
    (SkillManager.listSkills (SAPProtocol.skillManager p)) = Some skill ->
  SAPRegistry.getTask taskId (SAPProtocol.registry p) = None ->
  let r := SAPProtocol.registry p in
  let p' :=
    SAPProtocol.recordTask toLowerCase (Some profile) taskId created updated
      description skillName success p in
  let r' := SAPProtocol.registry p' in
  SAPRegistry.getTask taskId r'
    = Some (SAPProtocol.recorded taskId (AgentProfile.id profile) (AgentSkill.id skill)
              description created updated success)
  /\ JsMap.keys (AgentRegistry.tasks r') = JsMap.keys (AgentRegistry.tasks r) ++ [taskId]
  /\ (forall other, other <> taskId -> SAPRegistry.getTask other r' = SAPRegistry.getTask other r)
  /\ (forall agent,
        SAPRegistry.getAgent (AgentProfile.id profile) r = Some agent ->
        exists agent',
          SAPRegistry.getAgent (AgentProfile.id profile) r' = Some agent'
          /\ AgentProfile.tasksCompleted agent' = JsNum.incr (AgentProfile.tasksCompleted agent)
          /\ AgentProfile.reputation agent'
             = SAPRegistry.nextReputation success (AgentProfile.reputation agent)
          /\ AgentProfile.lastActive agent' = updated)
  /\ (forall other, other <> AgentProfile.id profile ->
        SAPRegistry.getAgent other r' = SAPRegistry.getAgent other r)
  /\ (forall k,
        SAPRegistry.getSkill k r'
        = if String.eqb (AgentSkill.id skill) k
          then AgentSkill.used <$> SAPRegistry.getSkill k r
          else SAPRegistry.getSkill k r)
  /\ toLowerCase (AgentSkill.name skill) = toLowerCase skillName
  /\ SkillManager.skillHandlers (SAPProtocol.skillManager p')
     = SkillManager.skillHandlers (SAPProtocol.skillManager p)
  /\ SAPProtocol.initialized p' = true.
Proof.
  intros Hinit Hfind Hfresh r p' r'.
  set (task := AgentTask.mk taskId (AgentProfile.id profile) (AgentSkill.id skill)
                 description [("query", VStr description)] TaskStatus.pending VUndef None
                 None created None None).
  set (status := if success then TaskStatus.completed else TaskStatus.failed).
  set (result := if success then VObj [("description", VStr description)] else VUndef).
  set (error := if success then None else Some "Command failed").
  set (r2 := AgentRegistry.mk (AgentRegistry.agents r) (AgentRegistry.skills r)
               (JsMap.set taskId
                  (SAPRegistry.updatedTask updated status result error task)
                  (JsMap.set taskId task (AgentRegistry.tasks r)))).
  assert (Hterm : TaskStatus.terminal status = true) by (unfold status; now destruct success).
  assert (Hok : TaskStatus.eqb status TaskStatus.completed = success)
    by (unfold status; now destruct success).
  assert (Hp' : p' = SAPProtocol.withRegistry
                       (SAPRegistry.countUsage (AgentSkill.id skill)
                          (SAPRegistry.updateReputation updated (AgentProfile.id profile)
                             success r2)) p).
  { unfold p', SAPProtocol.recordTask. rewrite Hinit, Hfind. cbn [negb].
    cbn [SAPRegistry.createTask]. f_equal.
    unfold SAPRegistry.updateTaskStatus. cbn [AgentRegistry.tasks].
    fold r. fold task status result error.
    rewrite get_set_eq, Hterm, Hok. reflexivity. }
  assert (Hr' : r' = SAPRegistry.countUsage (AgentSkill.id skill)
                       (SAPRegistry.updateReputation updated (AgentProfile.id profile)
                          success r2)).
  { unfold r'. rewrite Hp'. reflexivity. }
  clearbody r'. subst r'.
  assert (Htasks : AgentRegistry.tasks
                     (SAPRegistry.countUsage (AgentSkill.id skill)
                        (SAPRegistry.updateReputation updated (AgentProfile.id profile)
                           success r2))
                   = AgentRegistry.tasks r ++
                     [(taskId,
                       SAPProtocol.recorded taskId (AgentProfile.id profile)
                         (AgentSkill.id skill) description created updated success)]).
  { rewrite (proj2 (RegistryFacts.countUsage_agents_tasks _ _)).
    rewrite (proj2 (RegistryFacts.updateReputation_skills_tasks _ _ _ _)).
    unfold r2. cbn [AgentRegistry.tasks].
    rewrite (RegistryOpsFacts.set_absent _ _ _ Hfresh).
    rewrite (set_last _ _ _ _ Hfresh).
    unfold SAPRegistry.updatedTask. rewrite Hterm.
    unfold SAPProtocol.recorded, task, status, result, error. now destruct success. }
  assert (Hagents : AgentRegistry.agents
                     (SAPRegistry.countUsage (AgentSkill.id skill)
                        (SAPRegistry.updateReputation updated (AgentProfile.id profile)
                           success r2))
                    = AgentRegistry.agents
                        (SAPRegistry.updateReputation updated (AgentProfile.id profile)
                           success r2)).
  { apply (proj1 (RegistryFacts.countUsage_agents_tasks _ _)). }
  unfold SAPRegistry.getTask, SAPRegistry.getAgent. rewrite Htasks, Hagents.
  split; [|split; [|split; [|split; [|split; [|split; [|split; [|split]]]]]]].
  - rewrite <- (RegistryOpsFacts.set_absent _ _ _ Hfresh). apply get_set_eq.
  - unfold JsMap.keys. now rewrite map_app.
  - intros other Hne. rewrite <- (RegistryOpsFacts.set_absent _ _ _ Hfresh).
    apply get_set_ne. congruence.
  - intros agent Hagent.
    assert (Hagent2 : SAPRegistry.getAgent (AgentProfile.id profile) r2 = Some agent)
      by exact Hagent.
    rewrite (RegistryFacts.updateReputation_known _ _ _ _ _ Hagent2).
    cbn [AgentRegistry.agents]. rewrite get_set_eq.
    eexists. split; [reflexivity|]. repeat split.
  - intros other Hne.
    exact (RegistryFacts.updateReputation_other updated (AgentProfile.id profile) success
             r2 other Hne).
  - intros k. rewrite SkillRunFacts.getSkill_countUsage. unfold SAPRegistry.getSkill.
    now rewrite (proj1 (RegistryFacts.updateReputation_skills_tasks _ _ _ _)).
  - exact (proj2 (findSkill_Some _ _ _ Hfind)).
  - rewrite Hp'. reflexivity.
  - rewrite Hp'. exact Hinit.
Qed.

(** Before the initialization, without a local profile, or for a skill
    name that matches no listed skill, recordTask changes nothing. *)
Lemma recordTask_without_effect (profile : option AgentProfile.t)
    (taskId : string) (created updated : Z) (description skillName : string)
    (success : bool) (p : SAPProtocol.t World) :
  SAPProtocol.initialized p = false
  \/ profile = None
  \/ SAPProtocol.findSkill toLowerCase skillName
       (SkillManager.listSkills (SAPProtocol.skillManager p)) = None ->
  SAPProtocol.recordTask toLowerCase profile taskId created updated description skillName
    success p = p.
Proof.
  unfold SAPProtocol.recordTask. intros [ -> | [ -> | -> ] ]; [reflexivity| |].
  - now destruct (negb _).
  - destruct (negb _); [reflexivity|]. now destruct profile.
Qed.

End Facade.

(** *** Seeding *)

Section Seeding.
Variable draw : nat -> string * Z.

#[local] Abbreviation storedSeed i seed :=
  (SAPProtocol.stamped (draw i) (SAPProtocol.seedProfile seed)).

Lemma seedAgents_other seeds :
  forall i r id,
    (forall k, (i <= k < i + length seeds)%nat -> fst (draw k) <> id) ->
    SAPRegistry.getAgent id (SAPProtocol.seedAgents draw seeds i r)
    = SAPRegistry.getAgent id r.
Proof.
  induction seeds as [|seed seeds IH]; intros i r id Hne; simpl; [reflexivity|].
  rewrite IH.
  - unfold SAPRegistry.getAgent. simpl. apply get_set_ne. apply Hne. simpl. lia.
  - intros k Hk. apply Hne. simpl. lia.
Qed.

Lemma seedAgents_stored seeds :
  forall i r j seed,
    NoDup (map (fun k => fst (draw k)) (seq i (length seeds))) ->
    seeds !! j = Some seed ->
    SAPRegistry.getAgent (fst (draw (i + j))) (SAPProtocol.seedAgents draw seeds i r)
    = Some (storedSeed (i + j)%nat seed).
Proof.
  induction seeds as [|s seeds IH]; intros i r j seed Hnd Hj; [discriminate|].
  simpl in Hnd. apply NoDup_cons in Hnd as [Hfirst Hnd].
  destruct j as [|j]; simpl in Hj.
  - injection Hj as ->. rewrite Nat.add_0_r. simpl.
    rewrite seedAgents_other.
    + unfold SAPRegistry.getAgent. simpl. rewrite get_set_eq. reflexivity.
    + intros k Hk Heq. apply Hfirst. rewrite <- Heq.
      apply list_elem_of_In, (in_map (fun k => fst (draw k))), in_seq. lia.
  - simpl. replace (i + S j)%nat with (S i + j)%nat by lia.
    now apply IH.
Qed.

Lemma seedAgents_agents seeds :
  forall i r,
    NoDup (map (fun k => fst (draw k)) (seq i (length seeds))) ->
    (forall k, (i <= k < i + length seeds)%nat ->
       SAPRegistry.getAgent (fst (draw k)) r = None) ->
    AgentRegistry.agents (SAPProtocol.seedAgents draw seeds i r)
    = AgentRegistry.agents r
      ++ imap (fun k seed => (fst (draw (i + k)), storedSeed (i + k)%nat seed)) seeds
    /\ AgentRegistry.skills (SAPProtocol.seedAgents draw seeds i r) = AgentRegistry.skills r
    /\ AgentRegistry.tasks (SAPProtocol.seedAgents draw seeds i r) = AgentRegistry.tasks r.
Proof.
  induction seeds as [|s seeds IH]; intros i r Hnd Hfresh.
  - simpl. now rewrite app_nil_r.
  - cbn [SAPProtocol.seedAgents length] in *.
    simpl in Hnd. apply NoDup_cons in Hnd as [Hfirst Hnd].
    set (r1 := snd (SAPRegistry.registerExternalAgent (fst (draw i)) (snd (draw i))
                      (SAPProtocol.seedProfile s) r)).
    assert (Hi : JsMap.get (fst (draw i)) (AgentRegistry.agents r) = None)
      by (apply Hfresh; simpl; lia).
    destruct (IH (S i) r1 Hnd) as (Ha & Hs & Ht).
    { intros k Hk. unfold r1, SAPRegistry.getAgent. simpl.
      rewrite get_set_ne; [apply Hfresh; simpl; lia|].
      intros Heq. apply Hfirst. rewrite Heq.
      apply list_elem_of_In, (in_map (fun k => fst (draw k))), in_seq. lia. }
    rewrite Ha, Hs, Ht. split; [|split; reflexivity].
    unfold r1. cbn [SAPRegistry.registerExternalAgent snd AgentRegistry.agents].
    rewrite (RegistryOpsFacts.set_absent _ _ _ Hi).
    rewrite <- app_assoc. cbn [imap app]. rewrite Nat.add_0_r. f_equal. f_equal.
    apply imap_ext. intros k x _. simpl.
    now replace (i + S k)%nat with (S (i + k)) by lia.
Qed.

End Seeding.

Lemma table_consistent : Forall SAPProtocol.seedConsistent Seed.REAL_SOLANA_AGENTS.
Proof.
  unfold Seed.REAL_SOLANA_AGENTS.
  repeat (apply List.Forall_cons;
          [eexists _, _; cbn [SeedAgent.reputation SeedAgent.tasksCompleted
                                SeedAgent.successRate JsNum.within];
           unfold JsNum.of_Z, inject_Z;
           repeat (split; [reflexivity|]); repeat split; lra|]).
  apply List.Forall_nil.
Qed.

Section SeedRealAgents.
Context {World : Type}.

(** X13.  seedRealAgents, given ten distinct identifiers that are not in
    use, appends the ten agents of the seed table to the listing, in the
    order of the table; each is stored under its identifier with the
    reputation, the number of completed tasks and the success rate of the
    table (they are not reset), and these statistics are consistent: the
    reputation lies in [0, 100] and does not exceed the number of
    completed tasks, the success rate lies in [0, 100].  Skills, tasks and
    handlers are unchanged. *)
Theorem seedRealAgents_stores_the_table (draw : nat -> string * Z)
    (p : SAPProtocol.t World) :
  NoDup (map (fun i => fst (draw i)) (seq 0 10)) ->
  (forall i, (i < 10)%nat ->
     SAPRegistry.getAgent (fst (draw i)) (SAPProtocol.registry p) = None) ->
  let p' := SAPProtocol.seedRealAgents draw p in
  let stored i seed := SAPProtocol.stamped (draw i) (SAPProtocol.seedProfile seed) in
  SAPRegistry.listAgents (SAPProtocol.registry p')
    = SAPRegistry.listAgents (SAPProtocol.registry p) ++ imap stored Seed.REAL_SOLANA_AGENTS
  /\ (forall i seed,
        Seed.REAL_SOLANA_AGENTS !! i = Some seed ->
        SAPRegistry.getAgent (fst (draw i)) (SAPProtocol.registry p') = Some (stored i seed)
        /\ AgentProfile.reputation (stored i seed) = SeedAgent.reputation seed
        /\ AgentProfile.tasksCompleted (stored i seed) = SeedAgent.tasksCompleted seed
        /\ AgentProfile.successRate (stored i seed) = SeedAgent.successRate seed
        /\ RegistryOps.statsConsistent (fst (draw i)) (SAPProtocol.registry p'))
  /\ AgentRegistry.skills (SAPProtocol.registry p')
     = AgentRegistry.skills (SAPProtocol.registry p)
  /\ AgentRegistry.tasks (SAPProtocol.registry p')
     = AgentRegistry.tasks (SAPProtocol.registry p)
  /\ SkillManager.skillHandlers (SAPProtocol.skillManager p')
     = SkillManager.skillHandlers (SAPProtocol.skillManager p)
  /\ SAPProtocol.initialized p' = SAPProtocol.initialized p.
Proof.
  intros Hnd Hfresh p' stored.
  assert (Hreg : SAPProtocol.registry p'
                 = SAPProtocol.seedAgents draw Seed.REAL_SOLANA_AGENTS 0
                     (SAPProtocol.registry p)) by reflexivity.
  rewrite Hreg.
  destruct (seedAgents_agents draw Seed.REAL_SOLANA_AGENTS 0 (SAPProtocol.registry p) Hnd)
    as (Ha & Hs & Ht).
  { intros k Hk. apply Hfresh. change (length Seed.REAL_SOLANA_AGENTS) with 10%nat in Hk. lia. }
  split; [|split; [|repeat split; assumption]].
  - unfold SAPRegistry.listAgents, JsMap.values. rewrite Ha, map_app. f_equal.
  - intros i seed Hi.
    pose proof (seedAgents_stored draw Seed.REAL_SOLANA_AGENTS 0 (SAPProtocol.registry p)
                  i seed Hnd Hi) as Hget.
    simpl Nat.add in Hget. split; [exact Hget|]. do 3 (split; [reflexivity|]).
    pose proof table_consistent as Htab. rewrite List.Forall_forall in Htab.
    destruct (Htab seed) as (q & c & Hq & Hc & H0 & H100 & Hqc & Hrate).
    { apply list_elem_of_In. eapply list_elem_of_lookup_2. exact Hi. }
    exists (stored i seed), q, c. split; [exact Hget|]. repeat split; assumption.
Qed.

End SeedRealAgents.

(** A failed balance check recorded for agent X, the skill named in
    capitals. *)
Lemma recordTask_records_one_finished_task_witness :
  SAPProtocol.initialized Scenarios.protocol = true
  /\ SAPProtocol.findSkill JsString.toLowerCaseAscii "BALANCE CHECKER"
       (SkillManager.listSkills (SAPProtocol.skillManager Scenarios.protocol))
     = Some Scenarios.storedChecker
  /\ SAPRegistry.getTask Samples.idTask (SAPProtocol.registry Scenarios.protocol) = None
  /\ SAPRegistry.getTask Samples.idTask
       (SAPProtocol.registry
          (SAPProtocol.recordTask JsString.toLowerCaseAscii (Some Scenarios.storedX)
             Samples.idTask Samples.t1 Samples.t2 "check balance" "BALANCE CHECKER" false
             Scenarios.protocol))
     = Some (SAPProtocol.recorded Samples.idTask Samples.idX Samples.idSkill
               "check balance" Samples.t1 Samples.t2 false).
Proof.
  split; [reflexivity|]. split; [reflexivity|]. split; [reflexivity|].
  exact (proj1 (recordTask_records_one_finished_task JsString.toLowerCaseAscii
                  Scenarios.storedX Samples.idTask Samples.t1 Samples.t2 "check balance"
                  "BALANCE CHECKER" false Scenarios.protocol Scenarios.storedChecker
                  eq_refl eq_refl eq_refl)).
Defined.

(** The table seeded into the sample facade. *)
Lemma seedRealAgents_stores_the_table_witness :
  NoDup (map (fun i => fst (Scenarios.drawSeed i)) (seq 0 10))
  /\ (forall i, (i < 10)%nat ->
        SAPRegistry.getAgent (fst (Scenarios.drawSeed i))
          (SAPProtocol.registry Scenarios.protocol) = None)
  /\ length (SAPRegistry.listAgents
               (SAPProtocol.registry
                  (SAPProtocol.seedRealAgents Scenarios.drawSeed Scenarios.protocol)))
     = 11%nat.
Proof.
  assert (H1 : NoDup (map (fun i => fst (Scenarios.drawSeed i)) (seq 0 10))).
  { apply (bool_decide_unpack _). vm_compute. exact I. }
  assert (H2 : forall i, (i < 10)%nat ->
                 SAPRegistry.getAgent (fst (Scenarios.drawSeed i))
                   (SAPProtocol.registry Scenarios.protocol) = None).
  { intros i Hi.
    do 10 (destruct i as [|i]; [reflexivity|]). lia. }
  split; [exact H1|]. split; [exact H2|].
  rewrite (proj1 (seedRealAgents_stores_the_table Scenarios.drawSeed Scenarios.protocol
                    H1 H2)).
  reflexivity.
Defined.

End FacadeFacts.

(** ** The crawler: what a cycle keeps and what it writes *)

Module CrawlerFacts.

Import JsMapFacts.

#[local] Abbreviation keepsProfile := CrawlerOutcome.keepsProfile.
#[local] Abbreviation keepsProfiles := CrawlerOutcome.keepsProfiles.
#[local] Abbreviation allowedSources := CrawlerOutcome.allowedSources.

Lemma keepsProfile_trans a b c : keepsProfile a b -> keepsProfile b c -> keepsProfile a c.
Proof.
  intros [->|[d ->]] [->|[d' ->]].
  - now left.
  - right. now exists d'.
  - right. now exists d.
  - right. now exists d'.
Qed.

Lemma Forall2_set (m : list (string * AgentProfile.t)) k v d :
  JsMap.get k m = Some v ->
  keepsProfiles
    m (JsMap.set k (AgentProfile.with_liveData v d) m).
Proof.
  unfold CrawlerOutcome.keepsProfiles.
  induction m as [|[k0 v0] m IH]; simpl; [discriminate|].
  destruct (String.eqb_spec k k0) as [->|Hne].
  - intros [= ->]. constructor.
    + split; [reflexivity|]. right. now exists d.
    + clear. induction m as [|kv m IH]; constructor; auto. split; [reflexivity|now left].
  - intros H. constructor; [|now apply IH]. split; [reflexivity|now left].
Qed.

Lemma Forall2_keeps_refl (m : list (string * AgentProfile.t)) :
  keepsProfiles m m.
Proof.
  unfold CrawlerOutcome.keepsProfiles.
  induction m; constructor; auto. split; [reflexivity|now left].
Qed.

Lemma Forall2_keeps_trans (m1 m2 m3 : list (string * AgentProfile.t)) :
  keepsProfiles m1 m2 ->
  keepsProfiles m2 m3 ->
  keepsProfiles m1 m3.
Proof.
  unfold CrawlerOutcome.keepsProfiles.
  intros H. revert m3. induction H as [|x y l l' [Hk Hv] _ IH]; intros m3 H3.
  - inversion H3. constructor.
  - inversion H3 as [|y' z l2 l3 [Hk' Hv'] Hrest]; subst. constructor.
    + split; [congruence|]. eapply keepsProfile_trans; eassumption.
    + now apply IH.
Qed.

Section Cycle.
Context {World : Type}.
Variable Date_getTime : string -> number.
Variable Date_now : World -> Z.
Variable fetchGitHubStats : string -> World -> option GitHubStats.t * World.
Variable fetchTokenData : DexScreener.Mint -> World -> option DexTokenData.t * World.
Variable sleep : Z -> World -> World.

#[local] Abbreviation crawlOne :=
  (AgentCrawler.crawlOne Date_getTime Date_now fetchGitHubStats fetchTokenData sleep).
#[local] Abbreviation crawlAgent :=
  (AgentCrawler.crawlAgent Date_getTime Date_now fetchGitHubStats fetchTokenData sleep).
#[local] Abbreviation runCycle :=
  (AgentCrawler.runCycle Date_getTime Date_now fetchGitHubStats fetchTokenData sleep).

(** The two objects of one iteration. *)
Lemma crawlOne_result now agent w :
  let d := fst (crawlOne now agent w) in
  CrawlResult.agentId (fst d) = AgentProfile.id agent
  /\ CrawlResult.agentName (fst d) = AgentProfile.name agent
  /\ CrawlResult.updatedAt (fst d) = now
  /\ AgentLiveData.lastCrawledAt (snd d) = now
  /\ AgentLiveData.crawlSource (snd d) = CrawlResult.sources (fst d)
  /\ AgentLiveData.liveScore (snd d) = Some (CrawlResult.liveScore (fst d))
  /\ -3 <= CrawlResult.liveScore (fst d) <= 10
  /\ (CrawlResult.sources (fst d) = [] \/ allowedSources (CrawlResult.sources (fst d)))
  /\ (CrawlResult.sources (fst d) = [] -> snd d = AgentCrawler.emptySnapshot now).
Proof.
  unfold AgentCrawler.crawlOne, AgentCrawler.crawlGitHub, AgentCrawler.crawlDex,
    DexScreener.fetchAgentTokenData, CrawlerOutcome.allowedSources.
  destruct (AgentCrawler.truthy (AgentProfile.github agent)) as [url|].
  - destruct (fetchGitHubStats url w) as [[ghStats|] w1];
      destruct (DexScreener.lookupMint (AgentProfile.name agent)) as [mint|];
      try destruct (fetchTokenData mint (sleep 300 w1)) as [[tokenData|] w2];
      simpl; repeat split; auto; try discriminate;
      try pose proof (MonitorFacts.computeGitHubScore_range Date_getTime (Date_now w1) ghStats);
      try pose proof (MonitorFacts.computeDexScore_range tokenData);
      lia.
  - destruct (DexScreener.lookupMint (AgentProfile.name agent)) as [mint|];
      try destruct (fetchTokenData mint w) as [[tokenData|] w2];
      simpl; repeat split; auto; try discriminate;
      try pose proof (MonitorFacts.computeDexScore_range tokenData);
      lia.
Qed.

Lemma writeLiveData_keeps agentId liveData r :
  keepsProfiles
    (AgentRegistry.agents r)
    (AgentRegistry.agents (AgentCrawler.writeLiveData agentId liveData r)).
Proof.
  unfold AgentCrawler.writeLiveData, SAPRegistry.getAgent.
  destruct (JsMap.get agentId (AgentRegistry.agents r)) as [profile|] eqn:E.
  - simpl. now apply Forall2_set.
  - apply Forall2_keeps_refl.
Qed.

(** The loop, for any store: what the registry keeps and where the
    results come from. *)
Lemma loop_frame now (l : list AgentProfile.t) :
  forall rc res w,
    let st := fold_left (crawlAgent now) l (rc, res, w) in
    keepsProfiles
      (AgentRegistry.agents rc) (AgentRegistry.agents (fst (fst st)))
    /\ AgentRegistry.skills (fst (fst st)) = AgentRegistry.skills rc
    /\ AgentRegistry.tasks (fst (fst st)) = AgentRegistry.tasks rc
    /\ (exists added,
          snd (fst st) = res ++ added
          /\ (length added <= length l)%nat
          /\ Forall (fun x => exists b wb,
                       In b l /\ x = fst (fst (crawlOne now b wb))
                       /\ CrawlResult.sources x <> []) added).
Proof.
  induction l as [|a l IH]; intros rc res w st; subst st.
  - simpl. split; [apply Forall2_keeps_refl|]. split; [reflexivity|]. split; [reflexivity|].
    exists []. rewrite app_nil_r. repeat split; auto.
  - destruct (crawlOne now a w) as [d w1] eqn:Eone.
    set (rc1 := AgentCrawler.writeLiveData (AgentProfile.id a) (snd d) rc).
    set (res1 := if 0 <? Z.of_nat (length (CrawlResult.sources (fst d)))
                 then res ++ [fst d] else res).
    assert (Hstep : crawlAgent now (rc, res, w) a = (rc1, res1, w1)).
    { unfold AgentCrawler.crawlAgent. now rewrite Eone. }
    cbn [fold_left]. rewrite Hstep.
    destruct (IH rc1 res1 w1) as (Hkeep & Hskills & Htasks & added & Hres & Hlen & Hall).
    split; [|split; [|split]].
    + eapply Forall2_keeps_trans; [apply writeLiveData_keeps|exact Hkeep].
    + rewrite Hskills. apply MonitorFacts.writeLiveData_skills_tasks.
    + rewrite Htasks. apply MonitorFacts.writeLiveData_skills_tasks.
    + assert (Hweak : Forall (fun x => exists b wb,
                         In b (a :: l) /\ x = fst (fst (crawlOne now b wb))
                         /\ CrawlResult.sources x <> []) added).
      { eapply List.Forall_impl; [|exact Hall].
        intros x (b & wb & Hb & Hx & Hsrc). exists b, wb. split; [now right|]. now split. }
      subst res1.
      destruct (0 <? Z.of_nat (length (CrawlResult.sources (fst d)))) eqn:Elen.
      * exists (fst d :: added). rewrite Hres, <- app_assoc. split; [reflexivity|].
        split; [simpl; lia|]. constructor; [|exact Hweak].
        exists a, w. split; [now left|]. split; [now rewrite Eone|].
        intros Hnil. rewrite Hnil in Elen. discriminate.
      * exists added. split; [exact Hres|]. split; [simpl; lia|exact Hweak].
Qed.

(** X14.  A crawl cycle changes nothing but live data: for any registry,
    after runCycle the agents map has the same keys in the same order and
    every stored profile is the profile it was except, possibly, for its
    liveData (reputation, tasksCompleted, successRate and all other
    properties are kept); the skills and the tasks are unchanged. *)
Theorem runCycle_changes_liveData_only (status : CrawlerStatus.t) (r : AgentRegistry.t)
    (w : World) :
  let r' := snd (fst (runCycle status r w)) in
  keepsProfiles
    (AgentRegistry.agents r) (AgentRegistry.agents r')
  /\ AgentRegistry.skills r' = AgentRegistry.skills r
  /\ AgentRegistry.tasks r' = AgentRegistry.tasks r.
Proof.
  unfold AgentCrawler.runCycle.
  pose proof (loop_frame (JsDate.toISOString (Date_now w)) (SAPRegistry.listAgents r)
                r [] w) as H. cbv zeta in H.
  destruct (fold_left _ _ _) as [[r' results] w'].
  cbn [fst snd] in *. destruct H as (H1 & H2 & H3 & _). auto.
Qed.

(** X15.  The status after a cycle: lastRun is the time of the cycle,
    totalCrawled has grown by the number of results, there are at most as
    many results as listed agents, and every result belongs to a listed
    agent, carries the time of the cycle, names one or both of the two
    sources in the order github, dexscreener, and has a live score in
    [-3, 10]. *)
Theorem runCycle_results_are_bounded (status : CrawlerStatus.t) (r : AgentRegistry.t)
    (w : World) :
  let status' := fst (fst (runCycle status r w)) in
  let now := JsDate.toISOString (Date_now w) in
  CrawlerStatus.lastRun status' = Some now
  /\ CrawlerStatus.running status' = CrawlerStatus.running status
  /\ CrawlerStatus.totalCrawled status'
     = CrawlerStatus.totalCrawled status
       + Z.of_nat (length (CrawlerStatus.lastResults status'))
  /\ (length (CrawlerStatus.lastResults status') <= length (SAPRegistry.listAgents r))%nat
  /\ Forall (fun x =>
               -3 <= CrawlResult.liveScore x <= 10
               /\ allowedSources (CrawlResult.sources x)
               /\ CrawlResult.updatedAt x = now
               /\ exists b,
                    In b (SAPRegistry.listAgents r)
                    /\ CrawlResult.agentId x = AgentProfile.id b
                    /\ CrawlResult.agentName x = AgentProfile.name b)
       (CrawlerStatus.lastResults status').
Proof.
  unfold AgentCrawler.runCycle.
  pose proof (loop_frame (JsDate.toISOString (Date_now w)) (SAPRegistry.listAgents r)
                r [] w) as H. cbv zeta in H.
  destruct (fold_left _ _ _) as [[r' results] w'].
  cbn [fst snd CrawlerStatus.lastRun CrawlerStatus.running CrawlerStatus.totalCrawled
       CrawlerStatus.lastResults] in *.
  destruct H as (_ & _ & _ & added & Hres & Hlen & Hall). simpl in Hres. subst added.
  repeat split; auto.
  eapply List.Forall_impl; [|exact Hall].
  intros x (b & wb & Hb & -> & Hsrc).
  pose proof (crawlOne_result (JsDate.toISOString (Date_now w)) b wb) as Hone.
  cbv zeta in Hone.
  destruct Hone as (Hid & Hname & Hat & _ & _ & _ & Hscore & Hsources & _).
  split; [exact Hscore|]. split; [tauto|]. split; [exact Hat|].
  exists b. auto.
Qed.


(** X16.  In a cycle over a registry whose agents are stored under their
    own identifiers, every stored agent gets a snapshot of this cycle: its
    liveData is replaced by live data that carries the time of the cycle,
    a live score in [-3, 10] and a source list that is empty or names one
    or both sources; without a source the snapshot holds nothing else, so
    metrics of an earlier cycle do not survive. *)
Theorem runCycle_refreshes_every_agent (status : CrawlerStatus.t) (r : AgentRegistry.t)
    (w : World) (agentId : string) (agent : AgentProfile.t) :
  SAPRegistry.agentsKeyed r ->
  SAPRegistry.getAgent agentId r = Some agent ->
  let r' := snd (fst (runCycle status r w)) in
  let now := JsDate.toISOString (Date_now w) in
  exists liveData score,
    SAPRegistry.getAgent agentId r' = Some (AgentProfile.with_liveData agent liveData)
    /\ AgentLiveData.lastCrawledAt liveData = now
    /\ AgentLiveData.liveScore liveData = Some score
    /\ -3 <= score <= 10
    /\ (AgentLiveData.crawlSource liveData = []
        \/ allowedSources (AgentLiveData.crawlSource liveData))
    /\ (AgentLiveData.crawlSource liveData = [] ->
          liveData = AgentCrawler.emptySnapshot now).
Proof.
  intros Hkeyed Hget r' now.
  assert (Hid : AgentProfile.id agent = agentId)
    by (exact (PersistenceFacts.keyed_get _ _ _ (proj2 Hkeyed) Hget)).
  subst agentId.
  assert (Hnd : NoDup (map AgentProfile.id (SAPRegistry.listAgents r))).
  { rewrite (MonitorFacts.keyed_ids _ Hkeyed). apply Hkeyed. }
  pose proof (MonitorFacts.loop_spec Date_getTime Date_now fetchGitHubStats fetchTokenData
                sleep now (SAPRegistry.listAgents r) r [] w Hnd
                (fun b => MonitorFacts.keyed_stored r b Hkeyed)) as Hloop.
  cbv zeta in Hloop. destruct Hloop as (Hlive & _).
  destruct (Hlive agent (MonitorFacts.stored_listed _ _ Hget)) as (wb & Hwb).
  assert (Hr' : r' = fst (fst (fold_left (crawlAgent now) (SAPRegistry.listAgents r)
                                 (r, [], w)))).
  { unfold r', AgentCrawler.runCycle. fold now.
    destruct (fold_left _ _ _) as [[rf resf] wf]. reflexivity. }
  rewrite Hr'.
  pose proof (crawlOne_result now agent wb) as Hone. cbv zeta in Hone.
  destruct Hone as (_ & _ & _ & Hat & Hsrc & Hscore & Hrange & Hsources & Hempty).
  exists (snd (fst (crawlOne now agent wb))),
         (CrawlResult.liveScore (fst (fst (crawlOne now agent wb)))).
  split; [exact Hwb|]. split; [exact Hat|]. split; [exact Hscore|].
  split; [exact Hrange|]. rewrite Hsrc. split; [exact Hsources|exact Hempty].
Qed.

(** X17.  A failure of the source-control request does not take the
    market data away: for an agent with a link whose request yields
    nothing and with a mapped name whose market-data request succeeds, the
    iteration reports the single source dexscreener, the score of the
    token alone, the four token fields, and no source-control field. *)
Theorem market_data_survives_source_control_failure (now : string)
    (agent : AgentProfile.t) (w w1 w2 : World) (url : string) (mint : DexScreener.Mint)
    (tokenData : DexTokenData.t) :
  AgentCrawler.truthy (AgentProfile.github agent) = Some url ->
  fetchGitHubStats url w = (None, w1) ->
  DexScreener.lookupMint (AgentProfile.name agent) = Some mint ->
  fetchTokenData mint (sleep 300 w1) = (Some tokenData, w2) ->
  crawlOne now agent w
  = ((CrawlResult.mk (AgentProfile.id agent) (AgentProfile.name agent) ["dexscreener"]
        (DexScreener.computeDexScore tokenData) now None,
      AgentLiveData.mk None None None None None
        (Some (DexTokenData.priceUsd tokenData)) (Some (DexTokenData.change24h tokenData))
        (Some (DexTokenData.volume24h tokenData)) (Some (DexTokenData.symbol tokenData))
        now ["dexscreener"] (Some (DexScreener.computeDexScore tokenData))),
     w2).
Proof.
  intros Hurl Hgh Hmint Hdex.
  unfold AgentCrawler.crawlOne, AgentCrawler.crawlGitHub, AgentCrawler.crawlDex,
    DexScreener.fetchAgentTokenData.
  rewrite Hurl, Hgh, Hmint, Hdex.
  cbn -[Z.max Z.min Z.add DexScreener.computeDexScore].
  pose proof (MonitorFacts.computeDexScore_range tokenData) as Hrange.
  replace (Z.max (-10) (Z.min 10 (0 + DexScreener.computeDexScore tokenData)))
    with (DexScreener.computeDexScore tokenData) by lia.
  reflexivity.
Qed.

End Cycle.

(** BonkBot in the first sample cycle. *)
Lemma runCycle_refreshes_every_agent_witness :
  SAPRegistry.agentsKeyed Samples.seeded
  /\ (exists agent, SAPRegistry.getAgent Samples.idBonk Samples.seeded = Some agent)
  /\ exists liveData,
       AgentProfile.liveData <$> SAPRegistry.getAgent Samples.idBonk
                                   (snd (fst Samples.firstCycle))
       = Some (Some liveData)
       /\ AgentLiveData.lastCrawledAt liveData = JsDate.toISOString Samples.t1.
Proof.
  assert (Hkeyed : SAPRegistry.agentsKeyed Samples.seeded).
  { split.
    - apply (bool_decide_unpack _). vm_compute. exact I.
    - repeat constructor. }
  split; [exact Hkeyed|]. split; [eexists; reflexivity|].
  destruct (runCycle_refreshes_every_agent JsDate.parse Samples.Date_now
              Samples.fetchGitHubStats Samples.fetchTokenData Samples.sleep
              AgentCrawler.initialStatus Samples.seeded Samples.t1 Samples.idBonk _
              Hkeyed eq_refl) as (liveData & score & Hget & Hat & _).
  exists liveData. split; [|exact Hat].
  unfold Samples.firstCycle. rewrite Hget. reflexivity.
Defined.

(** BonkBot with a link to an unknown repository. *)
Lemma market_data_survives_source_control_failure_witness :
  AgentCrawler.truthy (AgentProfile.github Scenarios.linkedBonk)
    = Some "https://github.com/bonkbot/telegram-bot"
  /\ Samples.fetchGitHubStats "https://github.com/bonkbot/telegram-bot" Samples.t1
     = (None, Samples.t1 + 850)
  /\ DexScreener.lookupMint (AgentProfile.name Scenarios.linkedBonk)
     = Some (DexScreener.TableMint "DezXAZ8z7PnrnRJjz3wXBoRgixCa6xjnB7YaB1pPB263")
  /\ Samples.fetchTokenData
       (DexScreener.TableMint "DezXAZ8z7PnrnRJjz3wXBoRgixCa6xjnB7YaB1pPB263")
       (Samples.sleep 300 (Samples.t1 + 850))
     = (Some Samples.bonkToken, Samples.t1 + 850 + 300 + 400)
  /\ CrawlResult.sources
       (fst (fst (AgentCrawler.crawlOne JsDate.parse Samples.Date_now
                    Samples.fetchGitHubStats Samples.fetchTokenData Samples.sleep
                    (JsDate.toISOString Samples.t1) Scenarios.linkedBonk Samples.t1)))
     = ["dexscreener"].
Proof.
  assert (H3 : DexScreener.lookupMint (AgentProfile.name Scenarios.linkedBonk)
               = Some (DexScreener.TableMint
                         "DezXAZ8z7PnrnRJjz3wXBoRgixCa6xjnB7YaB1pPB263"))
    by (vm_compute; reflexivity).
  split; [reflexivity|]. split; [reflexivity|]. split; [exact H3|].
  split; [reflexivity|].
  rewrite (market_data_survives_source_control_failure JsDate.parse Samples.Date_now
             Samples.fetchGitHubStats Samples.fetchTokenData Samples.sleep
             (JsDate.toISOString Samples.t1) Scenarios.linkedBonk Samples.t1
             (Samples.t1 + 850) (Samples.t1 + 850 + 300 + 400)
             "https://github.com/bonkbot/telegram-bot"
             (DexScreener.TableMint "DezXAZ8z7PnrnRJjz3wXBoRgixCa6xjnB7YaB1pPB263")
             Samples.bonkToken eq_refl eq_refl H3 eq_refl).
  reflexivity.
Defined.

End CrawlerFacts.

(** ** The two scores are monotone *)

Module ScoreFacts.

Lemma geb_mono (x y : number) (c : Z) :
  JsNum.leb x y = true -> JsNum.geb x (JsNum.of_Z c) = true -> JsNum.geb y (JsNum.of_Z c) = true.
Proof.
  unfold JsNum.geb, JsNum.of_Z. destruct x as [p| | |], y as [q| | |]; simpl; try congruence.
  rewrite !Qle_bool_iff. intros. lra.
Qed.

Lemma leb_anti (x y : number) (c : Z) :
  JsNum.leb x y = true -> JsNum.leb y (JsNum.of_Z c) = true -> JsNum.leb x (JsNum.of_Z c) = true.
Proof.
  unfold JsNum.of_Z. destruct x as [p| | |], y as [q| | |]; simpl; try congruence.
  rewrite !Qle_bool_iff. intros. lra.
Qed.

Lemma ltb_anti (x y : number) (c : Z) :
  JsNum.leb x y = true -> JsNum.ltb y (JsNum.of_Z c) = true -> JsNum.ltb x (JsNum.of_Z c) = true.
Proof.
  unfold JsNum.of_Z, JsNum.Qlt_bool.
  destruct x as [p| | |], y as [q| | |]; simpl; try congruence.
  unfold JsNum.Qlt_bool. rewrite !negb_true_iff. rewrite Qle_bool_iff.
  intros Hle Hlt. apply JsNumFacts.Qle_bool_false in Hlt.
  destruct (Qle_bool (inject_Z c) p) eqn:E; [|reflexivity].
  apply Qle_bool_iff in E. lra.
Qed.

Lemma starsScore_mono x y :
  JsNum.leb x y = true -> GitHub.starsScore x <= GitHub.starsScore y.
Proof.
  intros H. unfold GitHub.starsScore.
  repeat match goal with
  | |- context [JsNum.geb x (JsNum.of_Z ?c)] =>
      let E := fresh "E" in
      destruct (JsNum.geb x (JsNum.of_Z c)) eqn:E;
      [rewrite ?(geb_mono x y c H E)|]
  end;
  repeat match goal with
  | |- context [JsNum.geb y (JsNum.of_Z ?c)] => destruct (JsNum.geb y (JsNum.of_Z c))
  end; lia.
Qed.

Lemma commitsScore_mono x y :
  JsNum.leb x y = true -> GitHub.commitsScore x <= GitHub.commitsScore y.
Proof.
  intros H. unfold GitHub.commitsScore.
  repeat match goal with
  | |- context [JsNum.geb x (JsNum.of_Z ?c)] =>
      let E := fresh "E" in
      destruct (JsNum.geb x (JsNum.of_Z c)) eqn:E;
      [rewrite ?(geb_mono x y c H E)|]
  end;
  repeat match goal with
  | |- context [JsNum.geb y (JsNum.of_Z ?c)] => destruct (JsNum.geb y (JsNum.of_Z c))
  end; lia.
Qed.

(** A later push is fewer days ago. *)
Lemma days_anti (now : Z) (t t' : number) :
  JsNum.leb t t' = true ->
  JsNum.leb (JsNum.div (JsNum.sub (JsNum.of_Z now) t') (JsNum.of_Z (1000 * 60 * 60 * 24)))
            (JsNum.div (JsNum.sub (JsNum.of_Z now) t) (JsNum.of_Z (1000 * 60 * 60 * 24)))
  = true.
Proof.
  unfold JsNum.sub, JsNum.add, JsNum.neg, JsNum.div, JsNum.of_Z.
  destruct t as [p| | |], t' as [q| | |]; simpl; try congruence; try reflexivity.
  rewrite !Qle_bool_iff. intros H. rewrite !Qred_correct.
  apply Qmult_le_compat_r; [lra|]. apply Qinv_le_0_compat. discriminate.
Qed.

Section Score.
Variable Date_getTime : string -> number.

Lemma pushScore_mono now lastPush lastPush' :
  JsNum.leb (Date_getTime lastPush) (Date_getTime lastPush') = true ->
  GitHub.pushScore Date_getTime now lastPush <= GitHub.pushScore Date_getTime now lastPush'.
Proof.
  intros H. unfold GitHub.pushScore, GitHub.daysSincePush.
  pose proof (days_anti now _ _ H) as Hd.
  set (d := JsNum.div (JsNum.sub (JsNum.of_Z now) (Date_getTime lastPush)) _) in *.
  set (d' := JsNum.div (JsNum.sub (JsNum.of_Z now) (Date_getTime lastPush')) _) in *.
  destruct (JsNum.leb d (JsNum.of_Z 7)) eqn:E7.
  - now rewrite (leb_anti d' d 7 Hd E7).
  - destruct (JsNum.leb d (JsNum.of_Z 30)) eqn:E30.
    + rewrite (leb_anti d' d 30 Hd E30). destruct (JsNum.leb d' (JsNum.of_Z 7)); lia.
    + destruct (JsNum.leb d' (JsNum.of_Z 7)); [lia|].
      destruct (JsNum.leb d' (JsNum.of_Z 30)); lia.
Qed.

(** X18.  The source-control score is monotone: with at least as many
    stars, at least as many commits in thirty days and a push that is not
    earlier, the score is not lower. *)
Theorem computeGitHubScore_is_monotone (now : Z) (stats stats' : GitHubStats.t) :
  JsNum.leb (GitHubStats.stars stats) (GitHubStats.stars stats') = true ->
  JsNum.leb (GitHubStats.commits30d stats) (GitHubStats.commits30d stats') = true ->
  JsNum.leb (Date_getTime (GitHubStats.lastPush stats))
            (Date_getTime (GitHubStats.lastPush stats')) = true ->
  GitHub.computeGitHubScore Date_getTime now stats
  <= GitHub.computeGitHubScore Date_getTime now stats'.
Proof.
  intros Hs Hc Hp. unfold GitHub.computeGitHubScore.
  pose proof (starsScore_mono _ _ Hs). pose proof (commitsScore_mono _ _ Hc).
  pose proof (pushScore_mono now _ _ Hp). lia.
Qed.
End Score.

Lemma volumeScore_mono x y :
  JsNum.leb x y = true -> DexScreener.volumeScore x <= DexScreener.volumeScore y.
Proof.
  intros H. unfold DexScreener.volumeScore.
  destruct (JsNum.geb x (JsNum.of_Z 10000000)) eqn:E1.
  { now rewrite (geb_mono x y _ H E1). }
  destruct (JsNum.geb x (JsNum.of_Z 1000000)) eqn:E2.
  { rewrite (geb_mono x y _ H E2). destruct (JsNum.geb y (JsNum.of_Z 10000000)); lia. }
  destruct (JsNum.ltb x (JsNum.of_Z 10000)) eqn:E3.
  { destruct (JsNum.geb y (JsNum.of_Z 10000000)); [lia|].
    destruct (JsNum.geb y (JsNum.of_Z 1000000)); [lia|].
    destruct (JsNum.ltb y (JsNum.of_Z 10000)); lia. }
  destruct (JsNum.geb y (JsNum.of_Z 10000000)); [lia|].
  destruct (JsNum.geb y (JsNum.of_Z 1000000)); [lia|].
  destruct (JsNum.ltb y (JsNum.of_Z 10000)) eqn:E4; [|lia].
  rewrite (ltb_anti x y _ H E4) in E3. discriminate.
Qed.

Lemma changeScore_mono x y :
  JsNum.leb x y = true -> DexScreener.changeScore x <= DexScreener.changeScore y.
Proof.
  intros H. unfold DexScreener.changeScore.
  destruct (JsNum.leb y (JsNum.of_Z (-30))) eqn:E1.
  { now rewrite (leb_anti x y _ H E1). }
  destruct (JsNum.leb y (JsNum.of_Z (-15))) eqn:E2.
  { rewrite (leb_anti x y _ H E2). destruct (JsNum.leb x (JsNum.of_Z (-30))); lia. }
  destruct (JsNum.geb y (JsNum.of_Z 20)) eqn:E3.
  { destruct (JsNum.leb x (JsNum.of_Z (-30))); [lia|].
    destruct (JsNum.leb x (JsNum.of_Z (-15))); [lia|].
    destruct (JsNum.geb x (JsNum.of_Z 20)); lia. }
  destruct (JsNum.leb x (JsNum.of_Z (-30))); [lia|].
  destruct (JsNum.leb x (JsNum.of_Z (-15))); [lia|].
  destruct (JsNum.geb x (JsNum.of_Z 20)) eqn:E4; [|lia].
  rewrite (geb_mono x y _ H E4) in E3. discriminate.
Qed.

(** X19.  The market-data score is monotone: with a volume and a price
    change that are not lower, the score is not lower. *)
Theorem computeDexScore_is_monotone (token token' : DexTokenData.t) :
  JsNum.leb (DexTokenData.volume24h token) (DexTokenData.volume24h token') = true ->
  JsNum.leb (DexTokenData.change24h token) (DexTokenData.change24h token') = true ->
  DexScreener.computeDexScore token <= DexScreener.computeDexScore token'.
Proof.
  intros Hv Hc. unfold DexScreener.computeDexScore.
  pose proof (volumeScore_mono _ _ Hv). pose proof (changeScore_mono _ _ Hc). lia.
Qed.

(** The repository of Solana Agent Kit, then and some days later. *)
Lemma computeGitHubScore_is_monotone_witness :
  JsNum.leb (GitHubStats.stars Samples.kitStats) (GitHubStats.stars Scenarios.kitStatsLater)
    = true
  /\ JsNum.leb (GitHubStats.commits30d Samples.kitStats)
       (GitHubStats.commits30d Scenarios.kitStatsLater) = true
  /\ JsNum.leb (JsDate.parse (GitHubStats.lastPush Samples.kitStats))
       (JsDate.parse (GitHubStats.lastPush Scenarios.kitStatsLater)) = true
  /\ GitHub.computeGitHubScore JsDate.parse Samples.t2 Samples.kitStats
     <= GitHub.computeGitHubScore JsDate.parse Samples.t2 Scenarios.kitStatsLater.
Proof.
  assert (H3 : JsNum.leb (JsDate.parse (GitHubStats.lastPush Samples.kitStats))
                 (JsDate.parse (GitHubStats.lastPush Scenarios.kitStatsLater)) = true)
    by (vm_compute; reflexivity).
  split; [reflexivity|]. split; [reflexivity|]. split; [exact H3|].
  exact (computeGitHubScore_is_monotone JsDate.parse Samples.t2 Samples.kitStats
           Scenarios.kitStatsLater eq_refl eq_refl H3).
Defined.

(** The token that crashed and the token that rises. *)
Lemma computeDexScore_is_monotone_witness :
  JsNum.leb (DexTokenData.volume24h Samples.crashedToken)
    (DexTokenData.volume24h Samples.risingToken) = true
  /\ JsNum.leb (DexTokenData.change24h Samples.crashedToken)
       (DexTokenData.change24h Samples.risingToken) = true
  /\ DexScreener.computeDexScore Samples.crashedToken
     <= DexScreener.computeDexScore Samples.risingToken.
Proof.
  split; [reflexivity|]. split; [reflexivity|].
  exact (computeDexScore_is_monotone Samples.crashedToken Samples.risingToken
           eq_refl eq_refl).
Defined.

End ScoreFacts.

(** * Dates, the status report and repository links *)

Module DateFacts.

Lemma all_in_spec depth : forall lo f,
  JsDateValue.all_in depth lo f = true -> forall z, lo <= z < lo + 2 ^ Z.of_nat depth -> f z = true.
Proof.
  induction depth as [|k IH]; intros lo f H z Hz.
  - simpl in *. replace z with lo by lia. exact H.
  - cbn [JsDateValue.all_in] in H. apply andb_true_iff in H as [H1 H2].
    rewrite Nat2Z.inj_succ, Z.pow_succ_r in Hz by lia.
    destruct (Z_lt_le_dec z (lo + 2 ^ Z.of_nat k)).
    + apply (IH _ _ H1). lia.
    + apply (IH _ _ H2). lia.
Qed.

Lemma era_checked :
  JsDateValue.all_in 18 0 (fun doe => if doe <? 146097 then JsDateValue.civil_check doe else true) = true.
Proof. vm_compute. reflexivity. Qed.

Lemma civil_check_all doe : 0 <= doe < 146097 -> JsDateValue.civil_check doe = true.
Proof.
  intros H.
  pose proof (all_in_spec 18 0 _ era_checked doe) as Hc.
  simpl in Hc. destruct (Z.ltb_spec doe 146097); [|lia].
  apply Hc. lia.
Qed.

Lemma days_from_civil_shift y m d k :
  JsDate.days_from_civil (y + 400 * k) m d = JsDate.days_from_civil y m d + 146097 * k.
Proof.
  unfold JsDate.days_from_civil. cbv zeta.
  destruct (m <=? 2).
  - replace (y + 400 * k - 1) with (y - 1 + k * 400) by lia.
    rewrite Z.div_add by lia.
    replace (y - 1 + k * 400 - ((y - 1) / 400 + k) * 400)
      with (y - 1 - (y - 1) / 400 * 400) by lia.
    lia.
  - replace (y + 400 * k) with (y + k * 400) by lia.
    rewrite Z.div_add by lia.
    replace (y + k * 400 - (y / 400 + k) * 400) with (y - y / 400 * 400) by lia.
    lia.
Qed.

Lemma days_in_month_shift y m k :
  JsDate.days_in_month (y + 400 * k) m = JsDate.days_in_month y m.
Proof.
  unfold JsDate.days_in_month.
  destruct (m =? 12).
  - replace (y + 400 * k + 1) with (y + 1 + 400 * k) by lia.
    rewrite !days_from_civil_shift. lia.
  - rewrite !days_from_civil_shift. lia.
Qed.

Lemma civil_from_days_shift z :
  let era := (z + 719468) / 146097 in
  let doe := (z + 719468) mod 146097 in
  JsDate.civil_from_days z
  = (let '(y, m, d) := JsDate.civil_from_days (doe - 719468) in (y + 400 * era, m, d)).
Proof.
  intros era doe.
  assert (Hdoe : 0 <= doe < 146097) by (apply Z.mod_pos_bound; lia).
  assert (Hz : z + 719468 = 146097 * era + doe) by (apply Z.div_mod; lia).
  unfold JsDate.civil_from_days.
  replace (doe - 719468 + 719468) with doe by lia.
  rewrite (Z.div_small doe 146097) by lia.
  fold era.
  replace (z + 719468 - era * 146097) with doe by lia.
  replace (doe - 0 * 146097) with doe by lia.
  cbv zeta.
  destruct (_ <=? 2); f_equal; f_equal; lia.
Qed.

Lemma civil_roundtrip z :
  let '(y, m, d) := JsDate.civil_from_days z in
  JsDate.days_from_civil y m d = z
  /\ 1 <= m <= 12 /\ 1 <= d <= JsDate.days_in_month y m
  /\ (-719528 <= z <= 2932896 -> 0 <= y <= 9999).
Proof.
  pose proof (civil_from_days_shift z) as Hs. cbv zeta in Hs.
  set (era := (z + 719468) / 146097) in *.
  set (doe := (z + 719468) mod 146097) in *.
  assert (Hdoe : 0 <= doe < 146097) by (apply Z.mod_pos_bound; lia).
  assert (Hz : z + 719468 = 146097 * era + doe) by (apply Z.div_mod; lia).
  pose proof (civil_check_all doe Hdoe) as Hc. unfold JsDateValue.civil_check in Hc.
  destruct (JsDate.civil_from_days (doe - 719468)) as [[y0 m] d].
  rewrite Hs.
  repeat (apply andb_true_iff in Hc as [Hc ?]).
  rewrite days_from_civil_shift, days_in_month_shift.
  repeat match goal with
         | H : (_ <=? _) = true |- _ => apply Z.leb_le in H
         | H : (_ =? _) = true |- _ => apply Z.eqb_eq in H
         end.
  split; [lia|]. split; [lia|]. split; [lia|].
  intros Hrange.
  destruct (Z.leb_spec 146037 doe).
  - apply Z.eqb_eq in H. lia.
  - apply Z.leb_le in H. lia.
Qed.

Lemma digit_val_digit d : JsDate.digit_val (JsDate.digit d) = Some (d mod 10).
Proof.
  unfold JsDate.digit_val, JsDate.digit.
  assert (H : 0 <= d mod 10 < 10) by (apply Z.mod_pos_bound; lia).
  rewrite nat_ascii_embedding by lia.
  rewrite Nat2Z.inj_add, Z2Nat.id by lia. change (Z.of_nat 48) with 48.
  destruct (Z.leb_spec 48 (48 + d mod 10)); [|lia].
  destruct (Z.leb_spec (48 + d mod 10) 57); [|lia].
  cbn [andb]. f_equal. lia.
Qed.

Lemma read_digits_digits w : forall k n acc a,
  JsDate.read_digits (w + k) (JsDate.digits w n acc) a
  = JsDate.read_digits k acc (a * 10 ^ Z.of_nat w + n mod 10 ^ Z.of_nat w).
Proof.
  induction w as [|w IH]; intros k n acc a.
  - simpl. rewrite Z.mod_1_r. f_equal. lia.
  - cbn [JsDate.digits]. replace (S w + k)%nat with (w + S k)%nat by lia.
    rewrite IH. cbn [JsDate.read_digits]. rewrite digit_val_digit.
    f_equal. rewrite Nat2Z.inj_succ, Z.pow_succ_r by lia.
    rewrite (Z.rem_mul_r n 10 (10 ^ Z.of_nat w)) by lia. lia.
Qed.

Lemma digits_app w : forall n acc rest,
  JsDate.digits w n acc +:+ rest = JsDate.digits w n (acc +:+ rest).
Proof.
  induction w as [|w IH]; intros n acc rest; simpl; [reflexivity|].
  now rewrite IH.
Qed.

Lemma read_written w n rest :
  0 <= n < 10 ^ Z.of_nat w ->
  JsDate.read_digits w (JsDate.digits w n "" +:+ rest) 0 = Some (n, rest).
Proof.
  intros H. rewrite digits_app. change ("" +:+ rest) with rest.
  pose proof (read_digits_digits w 0 n rest 0) as E.
  rewrite Nat.add_0_r in E. rewrite E. simpl.
  now rewrite Z.mod_small by lia.
Qed.

Lemma expect_written c rest : JsDate.expect c (String c "" +:+ rest) = Some rest.
Proof. simpl. now rewrite Ascii.eqb_refl. Qed.

Lemma parse_toISOString (t : Z) :
  -62167219200000 <= t <= 253402300799999 ->
  JsDate.parse (JsDate.toISOString t) = JsNum.of_Z t.
Proof.
  intros Ht. unfold JsDate.toISOString, JsDate.parse.
  set (day := t / JsDate.msPerDay). set (ms := t mod JsDate.msPerDay).
  assert (Hms : 0 <= ms < 86400000) by (apply Z.mod_pos_bound; reflexivity).
  assert (Hday : -719528 <= day <= 2932896).
  { unfold day, JsDate.msPerDay. Z.to_euclidean_division_equations. lia. }
  assert (Ht' : t = day * 86400000 + ms).
  { unfold day, ms, JsDate.msPerDay. rewrite Z.mul_comm. apply Z.div_mod. lia. }
  pose proof (civil_roundtrip day) as Hciv.
  destruct (JsDate.civil_from_days day) as [[y m] d].
  destruct Hciv as (Hback & Hm & Hd & Hy). specialize (Hy Hday).
  unfold JsDate.year_text.
  destruct (Z.leb_spec 0 y); [|lia]. destruct (Z.leb_spec y 9999); [|lia]. cbn [andb].
  assert (Hh : 0 <= ms / 3600000 < 10 ^ Z.of_nat 2).
  { split; [apply Z.div_pos; lia|]. apply Z.div_lt_upper_bound; simpl; lia. }
  assert (Hmi : 0 <= ms / 60000 mod 60 < 60) by (apply Z.mod_pos_bound; lia).
  assert (Hs : 0 <= ms / 1000 mod 60 < 60) by (apply Z.mod_pos_bound; lia).
  assert (Hmsec : 0 <= ms mod 1000 < 1000) by (apply Z.mod_pos_bound; lia).
  assert (Hdim : JsDate.days_in_month y m <= 99).
  { unfold JsDate.days_in_month, JsDate.days_from_civil. cbv zeta.
    assert (Hc : m = 1 \/ m = 2 \/ m = 3 \/ m = 4 \/ m = 5 \/ m = 6 \/ m = 7 \/ m = 8
                 \/ m = 9 \/ m = 10 \/ m = 11 \/ m = 12) by lia.
    destruct Hc as [-> | [-> | [-> | [-> | [-> | [-> | [-> | [-> | [-> | [-> | [-> | ->]]]]]]]]]]];
      simpl; Z.to_euclidean_division_equations; lia. }
  rewrite (read_written 4 y) by (simpl; lia). cbn [mbind option_bind].
  rewrite expect_written. cbn [mbind option_bind].
  rewrite (read_written 2 m) by (simpl; lia). cbn [mbind option_bind].
  rewrite expect_written. cbn [mbind option_bind].
  rewrite (read_written 2 d) by (simpl; lia). cbn [mbind option_bind].
  rewrite expect_written. cbn [mbind option_bind].
  rewrite (read_written 2 (ms / 3600000)) by exact Hh. cbn [mbind option_bind].
  rewrite expect_written. cbn [mbind option_bind].
  rewrite (read_written 2 (ms / 60000 mod 60)) by (simpl; lia). cbn [mbind option_bind].
  rewrite expect_written. cbn [mbind option_bind].
  rewrite (read_written 2 (ms / 1000 mod 60)) by (simpl; lia). cbn [mbind option_bind].
  change ("." +:+ JsDate.digits 3 (ms mod 1000) "" +:+ "Z")
    with (String "."%char (JsDate.digits 3 (ms mod 1000) "" +:+ "Z")).
  unfold JsDate.read_fraction. cbv beta iota.
  rewrite (read_written 3 (ms mod 1000)) by (simpl; lia). cbn [mbind option_bind].
  change (JsDate.expect "Z" "Z") with (Some ""). cbn [mbind option_bind].
  change (String.eqb "" "") with true.
  destruct (Z.leb_spec 1 m); [|lia]. destruct (Z.leb_spec m 12); [|lia].
  destruct (Z.leb_spec 1 d); [|lia].
  destruct (Z.leb_spec d (JsDate.days_in_month y m)); [|lia].
  destruct (Z.leb_spec (ms / 3600000) 23);
    [|exfalso; assert (ms / 3600000 < 24) by (apply Z.div_lt_upper_bound; lia); lia].
  destruct (Z.leb_spec (ms / 60000 mod 60) 59); [|lia].
  destruct (Z.leb_spec (ms / 1000 mod 60) 59); [|lia].
  cbn [andb]. f_equal. unfold JsNum.of_Z. f_equal. f_equal.
  rewrite Hback. unfold JsDate.msPerDay.
  Z.to_euclidean_division_equations. lia.
Qed.


Lemma add_of_Z (a b : Z) : JsNum.add (JsNum.of_Z a) (JsNum.of_Z b) = JsNum.of_Z (a + b).
Proof.
  unfold JsNum.add, JsNum.of_Z. f_equal.
  rewrite <- (inject_Z_Qred (a + b)). apply Qred_complete.
  now rewrite inject_Z_plus.
Qed.

Lemma timeClip_of_Z (z : Z) :
  -8640000000000000 <= z <= 8640000000000000 ->
  JsDateValue.timeClip (JsNum.of_Z z) = Some z.
Proof.
  intros H. unfold JsDateValue.timeClip, JsNum.of_Z.
  assert (H1 : Qle_bool (inject_Z (-8640000000000000)) (inject_Z z) = true)
    by (apply Qle_bool_iff; rewrite <- Zle_Qle; lia).
  assert (H2 : Qle_bool (inject_Z z) (inject_Z 8640000000000000) = true)
    by (apply Qle_bool_iff; rewrite <- Zle_Qle; lia).
  rewrite H1, H2. simpl. now rewrite Z.quot_1_r.
Qed.

Lemma append_nonempty a c r : String.eqb (a +:+ String c r) "" = false.
Proof. now destruct a. Qed.

Lemma toISOString_nonempty t : String.eqb (JsDate.toISOString t) "" = false.
Proof.
  unfold JsDate.toISOString.
  destruct (JsDate.civil_from_days _) as [[y m] d].
  apply append_nonempty.
Qed.


End DateFacts.

Module StatusFacts.
Section Status.
Context {World : Type}.
Variable Date_now : World -> Z.
Variable fetchGitHubStats : string -> World -> option GitHubStats.t * World.
Variable fetchTokenData : DexScreener.Mint -> World -> option DexTokenData.t * World.
Variable sleep : Z -> World -> World.

(** X20. After a cycle that started at a time between the years 0 and
    9999, [getStatus] returns the status with its own fields and with
    [nextRun] set to the ISO text of the start time plus thirty minutes:
    the text of [lastRun] is read back to exactly the start time. *)
Theorem getStatus_announces_the_next_cycle (status : CrawlerStatus.t)
    (r : AgentRegistry.t) (w : World) :
  -62167219200000 <= Date_now w <= 253402300799999 ->
  let status' :=
    fst (fst (AgentCrawler.runCycle JsDate.parse Date_now fetchGitHubStats fetchTokenData
                sleep status r w)) in
  CrawlerStatus.lastRun status' = Some (JsDate.toISOString (Date_now w))
  /\ CrawlerControl.getStatus JsDate.parse status'
     = Return (CrawlerStatus.mk (CrawlerStatus.running status')
                 (CrawlerStatus.lastRun status')
                 (Some (JsDate.toISOString (Date_now w + 30 * 60 * 1000)))
                 (CrawlerStatus.totalCrawled status')
                 (CrawlerStatus.lastResults status')).
Proof.
  intros Hrange status'.
  assert (Hlast : CrawlerStatus.lastRun status' = Some (JsDate.toISOString (Date_now w))).
  { unfold status', AgentCrawler.runCycle.
    destruct (fold_left _ _ _) as [[rf resf] wf]. reflexivity. }
  split; [exact Hlast|].
  unfold CrawlerControl.getStatus. rewrite Hlast.
  unfold AgentCrawler.truthy. rewrite DateFacts.toISOString_nonempty.
  rewrite (DateFacts.parse_toISOString _ Hrange), DateFacts.add_of_Z.
  rewrite DateFacts.timeClip_of_Z by (unfold AgentCrawler.CRAWL_INTERVAL_MS; lia).
  reflexivity.
Qed.

End Status.

(** The first sample cycle. *)
Lemma getStatus_announces_the_next_cycle_witness :
  -62167219200000 <= Samples.Date_now Samples.t1 <= 253402300799999
  /\ match CrawlerControl.getStatus JsDate.parse (fst (fst Samples.firstCycle)) with
     | Return status =>
         CrawlerStatus.nextRun status = Some (JsDate.toISOString (Samples.t1 + 1800000))
     | Throw _ => False
     end.
Proof.
  assert (H : -62167219200000 <= Samples.Date_now Samples.t1 <= 253402300799999)
    by (vm_compute; split; discriminate).
  split; [exact H|].
  destruct (getStatus_announces_the_next_cycle Samples.Date_now
              Samples.fetchGitHubStats Samples.fetchTokenData Samples.sleep
              AgentCrawler.initialStatus Samples.seeded Samples.t1 H) as [_ Hget].
  unfold Samples.firstCycle. rewrite Hget. reflexivity.
Defined.

End StatusFacts.

Module GitHubFetchFacts.
Import GitHubFetch.

Lemma adjacent_cons a b s :
  adjacentSlashes (String a (String b s))
  = (Ascii.eqb a "/" && Ascii.eqb b "/") || adjacentSlashes (String b s).
Proof. reflexivity. Qed.

Lemma adjacent_tail c s : adjacentSlashes (String c s) = false -> adjacentSlashes s = false.
Proof.
  destruct s as [|b s]; [reflexivity|].
  rewrite adjacent_cons. intros H. now apply orb_false_iff in H as [_ H].
Qed.

(** An occurrence of either prefix brings two slashes side by side. *)
Lemma startsWith_https s :
  adjacentSlashes s = false -> JsString.startsWith "https://github.com/" s = false.
Proof.
  intros H.
  destruct (JsString.startsWith "https://github.com/" s) eqn:E; [|reflexivity].
  exfalso.
  do 8 (destruct s as [|?c s]; cbn [JsString.startsWith] in E; [discriminate E|];
        let Hc := fresh "Hc" in
        apply andb_true_iff in E as [Hc E]; apply Ascii.eqb_eq in Hc; subst).
  vm_compute in H. discriminate H.
Qed.

Lemma startsWith_http s :
  adjacentSlashes s = false -> JsString.startsWith "http://github.com/" s = false.
Proof.
  intros H.
  destruct (JsString.startsWith "http://github.com/" s) eqn:E; [|reflexivity].
  exfalso.
  do 7 (destruct s as [|?c s]; cbn [JsString.startsWith] in E; [discriminate E|];
        let Hc := fresh "Hc" in
        apply andb_true_iff in E as [Hc E]; apply Ascii.eqb_eq in Hc; subst).
  vm_compute in H. discriminate H.
Qed.

Lemma removeFirst_https s :
  adjacentSlashes s = false -> JsString.removeFirst "https://github.com/" s = s.
Proof.
  induction s as [|c s IH]; intros H; [reflexivity|].
  cbn [JsString.removeFirst]. rewrite (startsWith_https _ H).
  now rewrite IH by (exact (adjacent_tail _ _ H)).
Qed.

Lemma removeFirst_http s :
  adjacentSlashes s = false -> JsString.removeFirst "http://github.com/" s = s.
Proof.
  induction s as [|c s IH]; intros H; [reflexivity|].
  cbn [JsString.removeFirst]. rewrite (startsWith_http _ H).
  now rewrite IH by (exact (adjacent_tail _ _ H)).
Qed.

Lemma noSlash_adjacent s : noSlash s = true -> adjacentSlashes s = false.
Proof.
  induction s as [|a s IH]; [reflexivity|].
  cbn [noSlash]. intros H. apply andb_true_iff in H as [Ha Hs].
  destruct s as [|b s]; [reflexivity|].
  rewrite adjacent_cons, (IH Hs).
  apply negb_true_iff in Ha. now rewrite Ha.
Qed.

(** [owner/name] and [owner/name/] have no two slashes side by side. *)
Lemma path_adjacent owner name tail :
  noSlash owner = true -> noSlash name = true -> name <> "" ->
  tail = "" \/ tail = "/" ->
  adjacentSlashes (owner +:+ "/" +:+ name +:+ tail) = false.
Proof.
  intros Ho Hn Hne Ht.
  assert (Hname : adjacentSlashes (name +:+ tail) = false
                  /\ exists c r, name +:+ tail = String c r /\ Ascii.eqb c "/" = false).
  { destruct name as [|c name]; [congruence|]. split.
    - clear Hne. revert c Hn. induction name as [|b name IH]; intros c Hn.
      + destruct Ht as [-> | ->]; [reflexivity|].
        cbn [noSlash] in Hn. apply andb_true_iff in Hn as [Hc _].
        apply negb_true_iff in Hc. simpl. now rewrite Hc.
      + cbn [noSlash] in Hn. apply andb_true_iff in Hn as [Hc Hn].
        apply negb_true_iff in Hc.
        change (String c (String b name) +:+ tail)
          with (String c (String b (name +:+ tail))).
        rewrite adjacent_cons, Hc. cbn [andb orb].
        exact (IH b Hn).
    - exists c, (name +:+ tail). split; [reflexivity|].
      cbn [noSlash] in Hn. apply andb_true_iff in Hn as [Hc _].
      now apply negb_true_iff in Hc. }
  destruct Hname as (Hadj & c & r & Heq & Hc).
  induction owner as [|a owner IH].
  - change ("" +:+ "/" +:+ name +:+ tail) with (String "/" (name +:+ tail)).
    rewrite Heq in *. rewrite adjacent_cons, Hc, Hadj.
    now rewrite andb_false_r.
  - cbn [noSlash] in Ho. apply andb_true_iff in Ho as [Ha Ho].
    apply negb_true_iff in Ha. specialize (IH Ho).
    change (String a owner +:+ "/" +:+ name +:+ tail)
      with (String a (owner +:+ "/" +:+ name +:+ tail)).
    destruct (owner +:+ "/" +:+ name +:+ tail) as [|b rest] eqn:E; [reflexivity|].
    rewrite adjacent_cons. now rewrite Ha, IH.
Qed.

Lemma split_noSlash s : noSlash s = true -> JsString.split "/" s = [s].
Proof.
  induction s as [|c s IH]; [reflexivity|].
  cbn [noSlash JsString.split]. intros H. apply andb_true_iff in H as [Hc Hs].
  apply negb_true_iff in Hc. rewrite Hc, (IH Hs). reflexivity.
Qed.

Lemma split_path owner name :
  noSlash owner = true -> noSlash name = true ->
  JsString.split "/" (owner +:+ "/" +:+ name) = [owner; name].
Proof.
  intros Ho Hn. induction owner as [|a owner IH].
  - change ("" +:+ "/" +:+ name) with (String "/" name).
    cbn [JsString.split]. rewrite Ascii.eqb_refl. now rewrite (split_noSlash _ Hn).
  - cbn [noSlash] in Ho. apply andb_true_iff in Ho as [Ha Ho].
    apply negb_true_iff in Ha.
    change (String a owner +:+ "/" +:+ name) with (String a (owner +:+ "/" +:+ name)).
    cbn [JsString.split]. rewrite Ha, (IH Ho). reflexivity.
Qed.

Lemma removeFinalSlash_noSlash s : noSlash s = true -> JsString.removeFinalSlash s = s.
Proof.
  induction s as [|c s IH]; [reflexivity|].
  cbn [noSlash]. intros H. apply andb_true_iff in H as [Hc Hs].
  apply negb_true_iff in Hc. cbn [JsString.removeFinalSlash].
  destruct s as [|b s]; [now rewrite Hc|]. now rewrite (IH Hs).
Qed.

Lemma removeFinalSlash_path owner name tail :
  noSlash name = true -> name <> "" -> tail = "" \/ tail = "/" ->
  JsString.removeFinalSlash (owner +:+ "/" +:+ name +:+ tail) = owner +:+ "/" +:+ name.
Proof.
  intros Hn Hne Ht.
  assert (Hname : JsString.removeFinalSlash (name +:+ tail) = name
                  /\ exists c r, name +:+ tail = String c r).
  { destruct name as [|c name]; [congruence|]. split; [|now eexists _, _].
    clear Hne. revert c Hn. induction name as [|b name IH]; intros c Hn.
    - cbn [noSlash] in Hn. apply andb_true_iff in Hn as [Hc _].
      apply negb_true_iff in Hc.
      destruct Ht as [-> | ->]; simpl; now rewrite ?Hc.
    - cbn [noSlash] in Hn. apply andb_true_iff in Hn as [Hc Hn].
      change (String c (String b name) +:+ tail)
        with (String c (String b name +:+ tail)).
      specialize (IH b Hn).
      change (String b name +:+ tail) with (String b (name +:+ tail)) in *.
      cbn [JsString.removeFinalSlash]. cbn [JsString.removeFinalSlash] in IH.
      now rewrite IH. }
  destruct Hname as (Hrem & c & r & Heq).
  induction owner as [|a owner IH].
  - change ("" +:+ "/" +:+ name +:+ tail) with (String "/" (name +:+ tail)).
    change ("" +:+ "/" +:+ name) with (String "/" name).
    rewrite <- Hrem at 2. rewrite Heq. reflexivity.
  - change (String a owner +:+ "/" +:+ name +:+ tail)
      with (String a (owner +:+ "/" +:+ name +:+ tail)).
    change (String a owner +:+ "/" +:+ name) with (String a (owner +:+ "/" +:+ name)).
    rewrite <- IH.
    destruct (owner +:+ "/" +:+ name +:+ tail) as [|b rest] eqn:E.
    + destruct owner; discriminate E.
    + reflexivity.
Qed.

Lemma link_without_slash (githubUrl : string) :
  noSlash githubUrl = true -> parseGitHubRepo githubUrl = None.
Proof.
  intros H. unfold parseGitHubRepo, cleaned.
  pose proof (noSlash_adjacent _ H) as Hadj.
  rewrite (removeFirst_https _ Hadj), (removeFirst_http _ Hadj).
  rewrite (removeFinalSlash_noSlash _ H), (split_noSlash _ H). reflexivity.
Qed.

(** X21. A link made of an owner and a repository name without slashes,
    the name not empty, written bare or after https://github.com/ or
    http://github.com/, with or without one final slash, is read as
    owner/name. *)
Theorem parseGitHubRepo_reads_the_usual_forms (owner name prefix tail : string) :
  noSlash owner = true -> noSlash name = true -> name <> "" ->
  prefix = "" \/ prefix = "https://github.com/" \/ prefix = "http://github.com/" ->
  tail = "" \/ tail = "/" ->
  parseGitHubRepo (prefix +:+ owner +:+ "/" +:+ name +:+ tail)
  = Some (owner +:+ "/" +:+ name).
Proof.
  intros Ho Hn Hne Hp Ht.
  pose proof (path_adjacent owner name tail Ho Hn Hne Ht) as Hadj.
  assert (Hclean : cleaned (prefix +:+ owner +:+ "/" +:+ name +:+ tail)
                   = owner +:+ "/" +:+ name).
  { unfold cleaned. destruct Hp as [-> | [-> | ->]].
    - change ("" +:+ ?x) with x.
      rewrite (removeFirst_https _ Hadj), (removeFirst_http _ Hadj).
      now apply removeFinalSlash_path.
    - change (JsString.removeFirst "https://github.com/"
                ("https://github.com/" +:+ owner +:+ "/" +:+ name +:+ tail))
        with (owner +:+ "/" +:+ name +:+ tail).
      rewrite (removeFirst_http _ Hadj). now apply removeFinalSlash_path.
    - assert (E : JsString.removeFirst "https://github.com/"
                    ("http://github.com/" +:+ owner +:+ "/" +:+ name +:+ tail)
                  = "http://github.com/" +:+ owner +:+ "/" +:+ name +:+ tail).
      { change ("http://github.com/" +:+ owner +:+ "/" +:+ name +:+ tail)
          with (String "h" (String "t" (String "t" (String "p" (String ":"
                 (String "/" (String "/" (String "g" (String "i" (String "t"
                 (String "h" (String "u" (String "b" (String "." (String "c"
                 (String "o" (String "m" (String "/"
                   (owner +:+ "/" +:+ name +:+ tail))))))))))))))))))).
        cbn [JsString.removeFirst JsString.startsWith Ascii.eqb Bool.eqb andb].
        now rewrite (removeFirst_https _ Hadj). }
      rewrite E.
      change (JsString.removeFirst "http://github.com/"
                ("http://github.com/" +:+ owner +:+ "/" +:+ name +:+ tail))
        with (owner +:+ "/" +:+ name +:+ tail).
      now apply removeFinalSlash_path. }
  unfold parseGitHubRepo. rewrite Hclean, (split_path _ _ Ho Hn). reflexivity.
Qed.

(** The link of Solana Agent Kit. *)
Lemma parseGitHubRepo_reads_the_usual_forms_witness :
  noSlash "sendaifun" = true /\ noSlash "solana-agent-kit" = true
  /\ "solana-agent-kit" <> ""
  /\ parseGitHubRepo "https://github.com/sendaifun/solana-agent-kit/"
     = Some "sendaifun/solana-agent-kit".
Proof.
  split; [reflexivity|]. split; [reflexivity|]. split; [discriminate|].
  exact (parseGitHubRepo_reads_the_usual_forms "sendaifun" "solana-agent-kit"
           "https://github.com/" "/" eq_refl eq_refl ltac:(discriminate)
           (or_intror (or_introl eq_refl)) (or_intror eq_refl)).
Defined.

Section Fetch.
Context {World : Type}.
Variable Date_getTime : string -> number.
Variable Date_now : World -> Z.
Variable fetchRepoInfo : string -> World -> Completion RepoInfo.t * World.
Variable fetchLatestRelease : string -> World -> option string * World.
Variable fetchCommits30d : string -> World -> number * World.
Variable sleep : Z -> World -> World.

(** X22. For a link without any slash [fetchGitHubStats] answers null
    without a request, and the crawler leaves the draft of the agent as it
    is and only waits its 300 ms. *)
Theorem link_without_slash_makes_no_request (agent : AgentProfile.t) (url : string)
    (d : AgentCrawler.Draft) (w : World) :
  AgentCrawler.truthy (AgentProfile.github agent) = Some url ->
  noSlash url = true ->
  fetchGitHubStats fetchRepoInfo fetchLatestRelease fetchCommits30d url w = (None, w)
  /\ AgentCrawler.crawlGitHub Date_getTime Date_now
       (fetchGitHubStats fetchRepoInfo fetchLatestRelease fetchCommits30d) sleep agent d w
     = (d, sleep 300 w).
Proof.
  intros Hurl Hno.
  assert (H : fetchGitHubStats fetchRepoInfo fetchLatestRelease fetchCommits30d url w
              = (None, w)).
  { unfold fetchGitHubStats. now rewrite (link_without_slash _ Hno). }
  split; [exact H|].
  unfold AgentCrawler.crawlGitHub. now rewrite Hurl, H.
Qed.

End Fetch.

(** BonkBot with its handle in place of a link. *)
Lemma link_without_slash_makes_no_request_witness :
  AgentCrawler.truthy (AgentProfile.github Scenarios.handleBonk) = Some "bonkbot"
  /\ noSlash "bonkbot" = true
  /\ AgentCrawler.crawlGitHub JsDate.parse Samples.Date_now
       (fetchGitHubStats Scenarios.refusedRepoInfo Scenarios.refusedRelease
          Scenarios.refusedCommits)
       Samples.sleep Scenarios.handleBonk
       (AgentCrawler.newDraft (JsDate.toISOString Samples.t1) Scenarios.handleBonk)
       Samples.t1
     = (AgentCrawler.newDraft (JsDate.toISOString Samples.t1) Scenarios.handleBonk,
        Samples.sleep 300 Samples.t1).
Proof.
  split; [reflexivity|]. split; [reflexivity|].
  exact (proj2 (link_without_slash_makes_no_request JsDate.parse Samples.Date_now
                  Scenarios.refusedRepoInfo Scenarios.refusedRelease
                  Scenarios.refusedCommits Samples.sleep Scenarios.handleBonk "bonkbot"
                  (AgentCrawler.newDraft (JsDate.toISOString Samples.t1)
                     Scenarios.handleBonk)
                  Samples.t1 eq_refl eq_refl)).
Defined.

End GitHubFetchFacts.

(** * Successful imports *)

Module ImportFacts.
Import Persistence.

Lemma importDocument_success parsed prior after :
  importDocument parsed prior = (Imported, after) ->
  getProperty "agents" parsed ≫= DynMap.fromIterable = Some (agents after)
  /\ getProperty "skills" parsed ≫= DynMap.fromIterable = Some (skills after)
  /\ getProperty "tasks" parsed ≫= DynMap.fromIterable = Some (tasks after).
Proof.
  unfold importDocument.
  destruct (getProperty "agents" parsed ≫= DynMap.fromIterable) as [a|]; [|discriminate].
  destruct (getProperty "skills" parsed ≫= DynMap.fromIterable) as [s|]; [|discriminate].
  destruct (getProperty "tasks" parsed ≫= DynMap.fromIterable) as [t|]; [|discriminate].
  intros [= <-]. repeat split.
Qed.

(** X23. When [importData] succeeds, each of the three maps is exactly
    what [new Map] builds from the field of that name in the text, and
    nothing of the state before the call is left: the same text imported
    over any other state gives the same registry. *)
Theorem successful_import_replaces_the_registry data prior after :
  importData data prior = (Imported, after) ->
  loaded "agents" data = Some (agents after)
  /\ loaded "skills" data = Some (skills after)
  /\ loaded "tasks" data = Some (tasks after)
  /\ forall other, importData data other = (Imported, after).
Proof.
  unfold importData, loaded.
  destruct (Json.parse data) as [parsed|]; [|discriminate].
  intros H. destruct (importDocument_success _ _ _ H) as (Ha & Hs & Ht).
  cbn [mbind option_bind]. repeat split; try assumption.
  intros other. unfold importDocument. rewrite Ha, Hs, Ht.
  destruct after; reflexivity.
Qed.

(** The exported sample text, imported over the state it was exported
    from and over an empty registry. *)
Lemma successful_import_replaces_the_registry_witness :
  importData Samples.exportText (reify Samples.completedOnce)
  = (Imported, imageOf Samples.completedOnce)
  /\ importData Samples.exportText (mkDyn [] [] [])
     = (Imported, imageOf Samples.completedOnce).
Proof.
  assert (H : importData Samples.exportText (reify Samples.completedOnce)
              = (Imported, imageOf Samples.completedOnce)) by (vm_compute; reflexivity).
  split; [exact H|].
  exact (proj2 (proj2 (proj2 (successful_import_replaces_the_registry
                                Samples.exportText _ _ H))) (mkDyn [] [] [])).
Defined.

(** X24. A JSON text whose value is not null and in which each of the
    fields agents, skills and tasks is absent or null is imported with
    success and leaves a registry without agents, skills and tasks,
    whatever the registry held. *)
Theorem import_without_the_fields_empties_the_registry data parsed prior :
  Json.parse data = Some parsed ->
  (forall name, In name ["agents"; "skills"; "tasks"] ->
     getProperty name parsed = Some VUndef \/ getProperty name parsed = Some VNull) ->
  importData data prior = (Imported, mkDyn [] [] []).
Proof.
  intros Hparse Hfields. unfold importData. rewrite Hparse.
  assert (H : forall name, In name ["agents"; "skills"; "tasks"] ->
                getProperty name parsed ≫= DynMap.fromIterable = Some []).
  { intros name Hin. destruct (Hfields name Hin) as [-> | ->]; reflexivity. }
  unfold importDocument.
  rewrite (H "agents") by (simpl; tauto).
  rewrite (H "skills") by (simpl; tauto).
  rewrite (H "tasks") by (simpl; tauto).
  reflexivity.
Qed.

(** The text of an object with one other field, over the sample
    registry. *)
Lemma import_without_the_fields_empties_the_registry_witness :
  Json.parse Scenarios.versionOnlyText = Some (VObj [("version", VNum (JsNum.of_Z 2))])
  /\ agents (reify Samples.completedOnce) <> []
  /\ importData Scenarios.versionOnlyText (reify Samples.completedOnce)
     = (Imported, mkDyn [] [] []).
Proof.
  assert (Hparse : Json.parse Scenarios.versionOnlyText
                   = Some (VObj [("version", VNum (JsNum.of_Z 2))]))
    by (vm_compute; reflexivity).
  split; [exact Hparse|]. split; [vm_compute; discriminate|].
  apply (import_without_the_fields_empties_the_registry _ _ _ Hparse).
  intros name [<- | [<- | [<- | []]]]; left; reflexivity.
Defined.

End ImportFacts.

(** * The market-data request *)

Module DexFetchFacts.
Import DexFetch.

Lemma sub_gtb_finite (x y : number) :
  JsNum.is_finite x = true -> JsNum.is_finite y = true ->
  JsNum.gtb (JsNum.sub y x) (JsNum.of_Z 0) = JsNum.ltb x y.
Proof.
  destruct x as [x| | |], y as [y| | |]; try discriminate. intros _ _.
  simpl. unfold JsNum.Qlt_bool. f_equal.
  destruct (Qle_bool y x) eqn:E.
  - apply Qle_bool_iff in E. apply Qle_bool_iff. rewrite !Qred_correct.
    unfold inject_Z. lra.
  - apply JsNumFacts.Qle_bool_false in E.
    destruct (Qle_bool (Qred (y + Qred (- x))) (inject_Z 0)) eqn:E'; [|reflexivity].
    apply Qle_bool_iff in E'. rewrite !Qred_correct in E'. unfold inject_Z in E'. lra.
Qed.

Lemma ltb_leb_finite (x y : number) :
  JsNum.is_finite x = true -> JsNum.is_finite y = true ->
  JsNum.ltb x y = false -> JsNum.leb y x = true.
Proof.
  destruct x as [x| | |], y as [y| | |]; try discriminate. intros _ _.
  simpl. unfold JsNum.Qlt_bool. now destruct (Qle_bool y x).
Qed.

Lemma ltb_leb (x y : number) : JsNum.ltb x y = true -> JsNum.leb x y = true.
Proof.
  destruct x as [x| | |], y as [y| | |]; try discriminate; try reflexivity.
  simpl. unfold JsNum.Qlt_bool. intros H. apply negb_true_iff in H.
  apply JsNumFacts.Qle_bool_false in H. apply Qle_bool_iff. lra.
Qed.

Lemma leb_trans (x y z : number) :
  JsNum.leb x y = true -> JsNum.leb y z = true -> JsNum.leb x z = true.
Proof.
  destruct x as [x| | |], y as [y| | |], z as [z| | |]; simpl; try congruence.
  rewrite !Qle_bool_iff. intros. lra.
Qed.

Section Head.
Context {A : Type}.
Variable key : A -> number.
Variable compare : A -> A -> number.
Hypothesis compare_key : forall a b, compare a b = JsNum.sub (key b) (key a).

(** The first element of the sorted array is the first of the elements
    with the greatest key. *)
Lemma sort_head (l : list A) :
  Forall (fun a => JsNum.is_finite (key a) = true) l ->
  match JsArray.sort compare l with
  | [] => l = []
  | best :: _ =>
      exists before after,
        l = before ++ best :: after
        /\ Forall (fun a => JsNum.ltb (key a) (key best) = true) before
        /\ Forall (fun a => JsNum.leb (key a) (key best) = true) after
  end.
Proof using compare_key.
  induction l as [|x l IH]; intros Hfin; [reflexivity|].
  apply Forall_cons_1 in Hfin as [Hx Hl]. specialize (IH Hl).
  change (JsArray.sort compare (x :: l)) with (JsArray.insert compare x (JsArray.sort compare l)).
  destruct (JsArray.sort compare l) as [|best s].
  - subst l. exists [], []. repeat split; constructor.
  - destruct IH as (before & after & -> & Hb & Ha).
    assert (Hbest : JsNum.is_finite (key best) = true).
    { rewrite List.Forall_forall in Hl. apply Hl, in_or_app. right. now left. }
    cbn [JsArray.insert]. rewrite compare_key, (sub_gtb_finite _ _ Hx Hbest).
    destruct (JsNum.ltb (key x) (key best)) eqn:E.
    + exists (x :: before), after. repeat split; [|exact Ha]. now constructor.
    + pose proof (ltb_leb_finite _ _ Hx Hbest E) as Hle.
      exists [], (before ++ best :: after). repeat split; [constructor|].
      apply Forall_app. split.
      * eapply List.Forall_impl; [|exact Hb]. intros a H. simpl in H.
        eapply leb_trans; [apply ltb_leb; exact H|exact Hle].
      * constructor; [exact Hle|].
        eapply List.Forall_impl; [|exact Ha]. intros a H. simpl in H.
        eapply leb_trans; [exact H|exact Hle].
Qed.

End Head.

(** What the filter keeps. *)
Lemma solanaPairs_In (pairs : list jsval) : forall kept,
  solanaPairs pairs = Some kept ->
  forall p, In p kept <-> In (VObj p) pairs /\ isSolana p = true.
Proof.
  induction pairs as [|v pairs IH]; intros kept H p.
  - injection H as <-. simpl. tauto.
  - destruct v as [| | b | n | s | t | items | q | z]; cbn [solanaPairs] in H;
      try discriminate H;
      try (specialize (IH _ H p); rewrite IH; simpl; split;
           [intros [? ?]; split; [right|]; assumption
           |intros [[?|?] ?]; [discriminate|split; assumption]]).
    destruct (solanaPairs pairs) as [kept'|]; [|discriminate H].
    cbn [mbind option_bind] in H. injection H as <-. specialize (IH _ eq_refl p).
    destruct (isSolana q) eqn:E.
    + simpl. rewrite IH. split.
      * intros [<- | [? ?]]; [split; [now left|exact E]|split; [now right|assumption]].
      * intros [[[= <-] | ?] ?]; [now left|right; split; assumption].
    + rewrite IH. simpl. split.
      * intros [? ?]; split; [now right|assumption].
      * intros [[[= <-] | ?] ?]; [congruence|split; assumption].
Qed.

Lemma solanaPairs_None (pairs : list jsval) :
  solanaPairs pairs = None <-> In VUndef pairs \/ In VNull pairs.
Proof.
  induction pairs as [|v pairs IH]; [simpl; split; [discriminate|tauto]|].
  destruct v as [| | b | n | s | t | items | q | z]; cbn [solanaPairs];
    try (split; [intros _|reflexivity]; simpl; tauto);
    try (rewrite IH; simpl; split;
         [intros [?|?]; [left|right]; right; assumption
         |intros [[?|?]|[?|?]]; try discriminate; [left|right]; assumption]).
  destruct (solanaPairs pairs) as [kept|]; cbn [mbind option_bind].
  - split; [discriminate|]. intros H.
    assert (H' : In VUndef pairs \/ In VNull pairs).
    { destruct H as [[?|?]|[?|?]]; try discriminate; [left|right]; assumption. }
    apply IH in H'. discriminate H'.
  - split; [intros _|reflexivity].
    destruct (proj1 IH eq_refl); [left|right]; right; assumption.
Qed.

(** The pairs around a kept pair. *)
Lemma solanaPairs_split (pairs : list jsval) : forall kb best ka,
  solanaPairs pairs = Some (kb ++ best :: ka) ->
  exists before after,
    pairs = before ++ VObj best :: after
    /\ solanaPairs before = Some kb
    /\ solanaPairs after = Some ka
    /\ isSolana best = true.
Proof.
  induction pairs as [|v pairs IH]; intros kb best ka H.
  - destruct kb; discriminate H.
  - destruct v as [| | b | n | s | t | items | q | z]; cbn [solanaPairs] in H;
      try discriminate H;
      try (destruct (IH _ _ _ H) as (before & after & -> & Hb & Ha & Hs);
           eexists (_ :: before), after; repeat split; try assumption).
    destruct (solanaPairs pairs) as [kept|] eqn:Hkept; [|discriminate H].
    cbn [mbind option_bind] in H. injection H as H.
    destruct (isSolana q) eqn:E.
    + destruct kb as [|k kb]; cbn [app] in H; injection H as -> ->.
      * exists [], pairs. repeat split; assumption.
      * destruct (IH _ _ _ eq_refl) as (before & after & -> & Hb & Ha & Hs).
        exists (VObj k :: before), after. repeat split; try assumption.
        cbn [solanaPairs]. rewrite Hb, E. reflexivity.
    + subst kept. destruct (IH _ _ _ eq_refl) as (before & after & -> & Hb & Ha & Hs).
      exists (VObj q :: before), after. repeat split; try assumption.
      cbn [solanaPairs]. rewrite Hb, E. reflexivity.
Qed.

Section Fetch.
Context {World : Type}.
Variable ToNumber : jsval -> option number.
Variable parseFloat : jsval -> option number.
Variable fetchJSON : DexScreener.Mint -> World -> Completion jsval * World.

#[local] Abbreviation usd := (DexFetch.usd ToNumber).
#[local] Abbreviation fetchTokenData :=
  (DexFetch.fetchTokenData ToNumber parseFloat fetchJSON).

#[local] Abbreviation keyOf := (DexFetch.keyOf ToNumber).
#[local] Abbreviation byKey := (DexFetch.byKey ToNumber).

Lemma insertThrowing_total (x : Bag) (l : list Bag) :
  is_Some (usd x) -> Forall (fun p => is_Some (usd p)) l ->
  JsArray.insertThrowing (byLiquidity ToNumber) x l = Some (JsArray.insert byKey x l).
Proof.
  intros [kx Hx] Hl. induction Hl as [|y l [ky Hy] Hl IH]; [reflexivity|].
  assert (Hc : byLiquidity ToNumber x y = Some (byKey x y)).
  { unfold byLiquidity, DexFetch.byKey, DexFetch.keyOf. now rewrite Hx, Hy. }
  cbn [JsArray.insertThrowing JsArray.insert]. rewrite Hc. cbn [mbind option_bind].
  destruct (JsNum.gtb (byKey x y) (JsNum.of_Z 0)); [|reflexivity].
  rewrite IH. reflexivity.
Qed.

Lemma sortThrowing_total (l : list Bag) :
  Forall (fun p => is_Some (usd p)) l ->
  JsArray.sortThrowing (byLiquidity ToNumber) l = Some (JsArray.sort byKey l).
Proof.
  induction 1 as [|x l Hx Hl IH]; [reflexivity|].
  change (JsArray.sortThrowing (byLiquidity ToNumber) (x :: l))
    with (JsArray.sortThrowing (byLiquidity ToNumber) l
            ≫= JsArray.insertThrowing (byLiquidity ToNumber) x).
  rewrite IH. cbn [mbind option_bind].
  apply insertThrowing_total; [exact Hx|].
  apply (Permutation_Forall (Permutation_sym (StatsFacts.sort_perm byKey l))), Hl.
Qed.

(** X25. [fetchTokenData] answers null when the request fails, when the
    answer has no array under pairs (or is null itself), when the array
    holds a null, and when no element of the array is an object whose
    chainId is the string solana; an empty array is such an array. *)
Theorem fetchTokenData_is_null_without_a_solana_pair
    (mint : DexScreener.Mint) (w : World) :
  match fst (fetchJSON mint w) with
  | Throw _ => True
  | Return data =>
      match Persistence.getProperty "pairs" data with
      | Some (VArr pairs) =>
          In VNull pairs \/ forall p, In (VObj p) pairs -> isSolana p = false
      | _ => True
      end
  end ->
  fst (fetchTokenData mint w) = None.
Proof.
  unfold DexFetch.fetchTokenData.
  destruct (fetchJSON mint w) as [[data|e] w']; cbn [fst]; [|reflexivity].
  unfold readPairs.
  destruct (Persistence.getProperty "pairs" data) as [[| | b | n | s | t | pairs | q | z]|];
    try reflexivity.
  destruct pairs as [|v pairs]; [reflexivity|]. set (l := v :: pairs).
  intros H. destruct (solanaPairs l) as [kept|] eqn:Hkept; [|reflexivity].
  destruct kept as [|k kept]; [reflexivity|]. exfalso.
  destruct H as [H | H].
  - assert (Hnone : solanaPairs l = None) by (apply solanaPairs_None; now right).
    congruence.
  - destruct (proj1 (solanaPairs_In _ _ Hkept k) (or_introl eq_refl)) as [Hk Hsol].
    rewrite (H _ Hk) in Hsol. discriminate.
Qed.

(** X26. When the answer holds an array of pairs without null, one of
    them on Solana, and the liquidity of every pair on Solana converts to
    a finite number and its price to a string, [fetchTokenData] returns
    the fields of one pair on Solana with their defaults: the first, in
    the order of the answer, of those with the greatest liquidity, where
    a pair without liquidity counts as 0.  Pairs on other chains play no
    part, whatever their liquidity. *)
Theorem fetchTokenData_picks_the_most_liquid_solana_pair
    (mint : DexScreener.Mint) (w : World) (data : jsval) (pairs : list jsval) :
  fst (fetchJSON mint w) = Return data ->
  Persistence.getProperty "pairs" data = Some (VArr pairs) ->
  ~ In VNull pairs -> ~ In VUndef pairs ->
  (exists p, In (VObj p) pairs /\ isSolana p = true) ->
  (forall p, In (VObj p) pairs -> isSolana p = true ->
     (exists x, usd p = Some x /\ JsNum.is_finite x = true)
     /\ is_Some (parseFloat (priceText p))) ->
  exists before best after priceUsd,
    pairs = before ++ VObj best :: after
    /\ isSolana best = true
    /\ parseFloat (priceText best) = Some priceUsd
    /\ fst (fetchTokenData mint w) = Some (answerWith priceUsd best)
    /\ (forall p, In (VObj p) before -> isSolana p = true -> lessLiquid ToNumber p best)
    /\ (forall p, In (VObj p) after -> isSolana p = true -> notMoreLiquid ToNumber p best).
Proof.
  intros Hfetch Hpairs Hnull Hundef [p0 [Hp0 Hs0]] Hconv.
  destruct (solanaPairs pairs) as [kept|] eqn:Hkept.
  2: { apply solanaPairs_None in Hkept. tauto. }
  pose proof (solanaPairs_In _ _ Hkept) as Hin.
  assert (Hsome : Forall (fun p => is_Some (usd p)) kept).
  { apply List.Forall_forall. intros p Hp. apply Hin in Hp as [Hp Hs].
    destruct (proj1 (Hconv p Hp Hs)) as (x & Hx & _). now exists x. }
  assert (Hfin : Forall (fun p => JsNum.is_finite (keyOf p) = true) kept).
  { apply List.Forall_forall. intros p Hp. apply Hin in Hp as [Hp Hs].
    destruct (proj1 (Hconv p Hp Hs)) as (x & Hx & Hf). unfold DexFetch.keyOf. now rewrite Hx. }
  pose proof (sort_head keyOf byKey (fun a b => eq_refl) kept Hfin) as Hhead.
  pose proof (sortThrowing_total kept Hsome) as Hsort.
  destruct (JsArray.sort byKey kept) as [|best s].
  { subst kept. destruct (proj2 (Hin p0) (conj Hp0 Hs0)). }
  destruct Hhead as (kb & ka & Hks & Hb & Ha).
  assert (Hkept' := Hkept). rewrite Hks in Hkept'.
  destruct (solanaPairs_split _ _ _ _ Hkept') as (before & after & Hl & Hkb & Hka & Hs).
  assert (Hbest : In (VObj best) pairs).
  { rewrite Hl. apply in_or_app. right. now left. }
  destruct (Hconv best Hbest Hs) as [(y & Hy & _) [priceUsd Hprice]].
  exists before, best, after, priceUsd. split; [exact Hl|]. split; [exact Hs|].
  split; [exact Hprice|]. split.
  - unfold DexFetch.fetchTokenData.
    destruct (fetchJSON mint w) as [c w']. cbn [fst] in Hfetch. subst c. cbn [fst].
    unfold readPairs. rewrite Hpairs.
    destruct pairs as [|v pairs]; [destruct Hp0|].
    rewrite Hkept. destruct kept as [|k kept]; [destruct kb; discriminate Hks|].
    rewrite Hsort. unfold answerOf. rewrite Hprice. reflexivity.
  - assert (Hside : forall p, In (VObj p) pairs -> isSolana p = true ->
                      exists x, usd p = Some x /\ keyOf p = x).
    { intros p Hp Hsol. destruct (proj1 (Hconv p Hp Hsol)) as (x & Hx & _).
      exists x. split; [exact Hx|]. unfold DexFetch.keyOf. now rewrite Hx. }
    assert (Hkbest : keyOf best = y) by (unfold DexFetch.keyOf; now rewrite Hy).
    split.
    + intros p Hp Hsol.
      assert (Hp' : In (VObj p) pairs) by (rewrite Hl; apply in_or_app; now left).
      destruct (Hside p Hp' Hsol) as (x & Hx & Hkx).
      exists x, y. split; [exact Hx|]. split; [exact Hy|].
      rewrite List.Forall_forall in Hb. rewrite <- Hkx, <- Hkbest. apply Hb.
      apply (solanaPairs_In _ _ Hkb). now split.
    + intros p Hp Hsol.
      assert (Hp' : In (VObj p) pairs)
        by (rewrite Hl; apply in_or_app; right; now right).
      destruct (Hside p Hp' Hsol) as (x & Hx & Hkx).
      exists x, y. split; [exact Hx|]. split; [exact Hy|].
      rewrite List.Forall_forall in Ha. rewrite <- Hkx, <- Hkbest. apply Ha.
      apply (solanaPairs_In _ _ Hka). now split.
Qed.
End Fetch.

(** An answer with one pair, on another chain. *)
Lemma fetchTokenData_is_null_without_a_solana_pair_witness :
  (forall p, In (VObj p) [VObj Scenarios.ethereumPair] -> isSolana p = false)
  /\ fst (DexFetch.fetchTokenData Scenarios.numberOf Scenarios.priceOf
            (Scenarios.answering Scenarios.ethereumAnswer)
            (DexScreener.TableMint "DezXAZ8z7PnrnRJjz3wXBoRgixCa6xjnB7YaB1pPB263")
            Samples.t1)
     = None.
Proof.
  assert (H : forall p, In (VObj p) [VObj Scenarios.ethereumPair] -> isSolana p = false).
  { intros p [E | []]. injection E as <-. reflexivity. }
  split; [exact H|].
  exact (fetchTokenData_is_null_without_a_solana_pair Scenarios.numberOf Scenarios.priceOf
           (Scenarios.answering Scenarios.ethereumAnswer)
           (DexScreener.TableMint "DezXAZ8z7PnrnRJjz3wXBoRgixCa6xjnB7YaB1pPB263")
           Samples.t1 (or_intror H)).
Defined.

(** The answer for the BONK mint: the Orca pair is chosen, not the pair
    on another chain with more liquidity. *)
Lemma fetchTokenData_picks_the_most_liquid_solana_pair_witness :
  Persistence.getProperty "pairs" Scenarios.bonkAnswer = Some (VArr Scenarios.bonkPairs)
  /\ ~ In VNull Scenarios.bonkPairs
  /\ ~ In VUndef Scenarios.bonkPairs
  /\ (In (VObj Scenarios.orcaPair) Scenarios.bonkPairs
      /\ isSolana Scenarios.orcaPair = true)
  /\ exists before best after priceUsd,
       Scenarios.bonkPairs = before ++ VObj best :: after
       /\ fst (DexFetch.fetchTokenData Scenarios.numberOf Scenarios.priceOf
                 (Scenarios.answering Scenarios.bonkAnswer)
                 (DexScreener.TableMint "DezXAZ8z7PnrnRJjz3wXBoRgixCa6xjnB7YaB1pPB263")
                 Samples.t1)
          = Some (answerWith priceUsd best)
       /\ answerWith priceUsd best
          = TokenAnswer.mk (VStr "Bonk") (Fin 0.00002135) (VNum (Fin (-3.1)))
              (VNum (JsNum.of_Z 0)) (VNum (JsNum.of_Z 6200000))
              (VStr "3ne4mWqdYuNiYrYZC9TrA3FcfuFdErghH97vNPbjicr1") (VStr "orca").
Proof.
  assert (Hnull : ~ In VNull Scenarios.bonkPairs).
  { intros [E | [E | [E | [E | []]]]]; discriminate E. }
  assert (Hundef : ~ In VUndef Scenarios.bonkPairs).
  { intros [E | [E | [E | [E | []]]]]; discriminate E. }
  assert (Horca : In (VObj Scenarios.orcaPair) Scenarios.bonkPairs
                  /\ isSolana Scenarios.orcaPair = true).
  { split; [right; right; now left|reflexivity]. }
  assert (Hconv : forall p, In (VObj p) Scenarios.bonkPairs -> isSolana p = true ->
            (exists x, DexFetch.usd Scenarios.numberOf p = Some x
                       /\ JsNum.is_finite x = true)
            /\ is_Some (Scenarios.priceOf (priceText p))).
  { intros p Hp Hsol.
    destruct Hp as [E | [E | [E | [E | []]]]]; injection E as <-;
      (split; [eexists; split; reflexivity|eexists; reflexivity]). }
  split; [reflexivity|]. split; [exact Hnull|]. split; [exact Hundef|].
  split; [exact Horca|].
  destruct (fetchTokenData_picks_the_most_liquid_solana_pair
              Scenarios.numberOf Scenarios.priceOf
              (Scenarios.answering Scenarios.bonkAnswer)
              (DexScreener.TableMint "DezXAZ8z7PnrnRJjz3wXBoRgixCa6xjnB7YaB1pPB263")
              Samples.t1 Scenarios.bonkAnswer Scenarios.bonkPairs
              eq_refl eq_refl Hnull Hundef (ex_intro _ _ Horca) Hconv)
    as (before & best & after & priceUsd & Hl & _ & _ & Hanswer & _).
  exists before, best, after, priceUsd. split; [exact Hl|]. split; [exact Hanswer|].
  assert (E : Some (answerWith priceUsd best)
              = Some (TokenAnswer.mk (VStr "Bonk") (Fin 0.00002135) (VNum (Fin (-3.1)))
                        (VNum (JsNum.of_Z 0)) (VNum (JsNum.of_Z 6200000))
                        (VStr "3ne4mWqdYuNiYrYZC9TrA3FcfuFdErghH97vNPbjicr1")
                        (VStr "orca"))).
  { rewrite <- Hanswer. reflexivity. }
  exact (f_equal (default (answerWith priceUsd best)) E).
Defined.

End DexFetchFacts.
